(** * GRIB edition 1 / edition 2 codec: shallow embedding and verification

    The development follows the C sources of the repository:
    - [unpackgrib1.c]  (GRIB-1 decoder),
    - [unpackgrib2.c]  (GRIB-2 decoder),
    - [grib1to2.c]     (GRIB-1 to GRIB-2 converter),
    - [grib2to1.c]     (GRIB-2 to GRIB-1 converter).

    Conventions of the embedding.
    - A C [int] is a [Z] in the range of a 32-bit two's complement integer;
      wherever an [int] operation can leave that range the wrap-around is
      written out with [sint32].  [unsigned char] values are [Z] in
      [0, 256); stores to an [unsigned char] go through [uint8].  [size_t]
      is the 64-bit unsigned type of an LP64 platform ([uint64]).
    - A byte buffer is a [list Z]; reading outside the list yields [0] and
      writing outside it leaves the list unchanged (the C program has no
      defined behaviour there; the theorems that depend on it carry the
      in-range hypotheses).
    - [exit(1)] and accesses that the C standard leaves undefined on
      heap arrays (out-of-bounds index, null pointer) are results [Err _].
    - Floating-point arithmetic is not interpreted: the operations on
      [double] are the fields of the class [FloatOps]. *)

From Stdlib Require Import ZArith Lia List Bool QArith Qround.
From stdpp Require Import base list.
From coqutil Require Import Z.bitblast.
Local Open Scope Z_scope.

(* ================================================================== *)
(** * Part I: the embedding                                            *)
(* ================================================================== *)

(** ** C integer types *)
Module CInt.

(** conversion to [int] (32-bit two's complement wrap-around) *)
Definition sint32 (z : Z) : Z :=
  let m := z mod 2 ^ 32 in if m <? 2 ^ 31 then m else m - 2 ^ 32.

(** conversion to [unsigned char] *)
Definition uint8 (z : Z) : Z := z mod 2 ^ 8.

(** conversion to [size_t] *)
Definition uint64 (z : Z) : Z := z mod 2 ^ 64.

Definition is_int (z : Z) : Prop := - 2 ^ 31 <= z < 2 ^ 31.
Definition is_byte (z : Z) : Prop := 0 <= z < 256.

End CInt.

(** ** Outcomes of the C functions *)
Inductive error : Type :=
| Exit1       (* the program printed a message and called exit(1) *)
| Undefined   (* out-of-bounds array access or null pointer dereference *)
| OutOfFuel   (* the bound given to a loop of the model was reached *)
| Unmodelled. (* a path of the C code that this development leaves out *)

Inductive result (A : Type) : Type :=
| Ok (a : A)
| Err (e : error).
Arguments Ok {A} a.
Arguments Err {A} e.

Definition bind {A B : Type} (c : result A) (k : A -> result B) : result B :=
  match c with
  | Ok a => k a
  | Err e => Err e
  end.

Notation "'let*' x ':=' c 'in' k" := (bind c (fun x => k))
  (at level 10, x pattern, c at level 200, k at level 200).

Definition is_ok {A : Type} (c : result A) : bool :=
  match c with Ok _ => true | Err _ => false end.

(** a postcondition [P] of a computation, trivially true of an error *)
Definition on_ok {A : Type} (c : result A) (P : A -> Prop) : Prop :=
  match c with
  | Ok a => P a
  | Err _ => True
  end.

(** [count] iterations of a loop body [step] on the loop state [s] *)
Fixpoint for_loop {S : Type} (count : nat) (step : S -> result S) (s : S)
  : result S :=
  match count with
  | O => Ok s
  | S c => let* s' := step s in for_loop c step s'
  end.

(** ** BitStream: [get_bits] (unpackgrib1.c, unpackgrib2.c: the two files
    hold the same text) and [set_bits] (grib1to2.c; [setBits] of grib2to1.c
    is the same text under another name) *)
Module BitStream.
Import CInt.

Definition byte_at (buf : list Z) (i : Z) : Z := buf !!! Z.to_nat i.

(** [buf[i] = v] for an [unsigned char *buf] *)
Definition store (buf : list Z) (i : Z) (v : Z) : list Z :=
  <[Z.to_nat i := uint8 v]> buf.

Definition buf_size : Z := 8.    (* sizeof(unsigned char)*8 *)
Definition loc_size : Z := 32.   (* sizeof(int)*8 *)
Definition src_size : Z := 32.   (* sizeof(int)*8 *)

(** [m=1; for (n=1; n < size; ++n) { m<<=1; m++; }] on a variable whose
    type has conversion [cast]; [n] counts the iterations *)
Fixpoint fill_mask (cast : Z -> Z) (n : nat) (m : Z) : Z :=
  match n with
  | O => m
  | S k => fill_mask cast k (cast (cast (Z.shiftl m 1) + 1))
  end.

Definition bmask : Z := fill_mask uint8 (Z.to_nat (buf_size - 1)) 1.
Definition lmask : Z := fill_mask sint32 (Z.to_nat (loc_size - 1)) 1.
Definition smask : Z := fill_mask sint32 (Z.to_nat (src_size - 1)) 1.

(** [while (rshift < 0) { temp=buf[wskip++]; *loc+=(temp<<-rshift);
    rshift+=buf_size; }].  Every iteration adds 8 to [rshift], so
    [fuel >= -rshift] iterations are never exhausted. *)
Fixpoint get_bits_spill (fuel : nat) (buf : list Z) (loc wskip rshift : Z)
  : Z * Z * Z :=
  match fuel with
  | O => (loc, wskip, rshift)
  | S fuel' =>
      if rshift <? 0 then
        let temp := byte_at buf wskip in
        get_bits_spill fuel' buf
          (sint32 (loc + sint32 (Z.shiftl temp (- rshift))))
          (wskip + 1) (rshift + buf_size)
      else (loc, wskip, rshift)
  end.

(** [get_bits(buf,&loc,off,bits)]: [loc] is the content of [*loc] before
    the call, the result its content after the call. *)
Definition get_bits (buf : list Z) (loc : Z) (off bits : Z) : result Z :=
  if bits =? 0 then Ok loc
  else if bits >? loc_size then Err Exit1
  else
    let wskip := off / buf_size in
    let rshift := buf_size - off mod buf_size - bits in
    let loc1 :=
      if rshift <? 0 then
        let '(l, w, r) :=
          get_bits_spill (Z.to_nat (- rshift)) buf 0 wskip rshift in
        if negb (r =? 0) then
          sint32 (l + Z.land (Z.shiftr (byte_at buf w) r)
                             (Z.lnot (Z.shiftl bmask (buf_size - r))))
        else sint32 (l + byte_at buf w)
      else Z.shiftr (byte_at buf wskip) rshift in
    Ok (if negb (bits =? loc_size)
        then Z.land loc1 (Z.lnot (Z.shiftl lmask bits))
        else loc1).

(** [while (more > buf_size) { more-=buf_size;
    buf[++wskip]=(src>>more)&~(smask<<(src_size-more)); }] *)
Fixpoint set_bits_middle (fuel : nat) (buf : list Z) (src wskip more : Z)
  : list Z * Z * Z :=
  match fuel with
  | O => (buf, wskip, more)
  | S fuel' =>
      if more >? buf_size then
        let more' := more - buf_size in
        let wskip' := wskip + 1 in
        set_bits_middle fuel'
          (store buf wskip'
             (Z.land (Z.shiftr src more')
                     (Z.lnot (Z.shiftl smask (src_size - more')))))
          src wskip' more'
      else (buf, wskip, more)
  end.

(** [set_bits(buf,src,off,bits)]: the result is the buffer after the
    call. *)
Definition set_bits (buf : list Z) (src : Z) (off bits : Z)
  : result (list Z) :=
  if bits =? 0 then Ok buf
  else if bits >? src_size then Err Exit1
  else
    let wskip := off / buf_size in
    let bskip := off mod buf_size in
    let lclear := bskip + bits in
    let rclear := buf_size - bskip in
    let left := if negb (rclear =? buf_size)
                then uint8 (Z.land (byte_at buf wskip) (Z.shiftl bmask rclear))
                else 0 in
    if lclear <=? buf_size then
      let right := if negb (lclear =? buf_size)
                   then uint8 (Z.land (byte_at buf wskip)
                                 (Z.lnot (Z.shiftl bmask (buf_size - lclear))))
                   else 0 in
      let buf1 := store buf wskip
                    (if negb (src_size =? bits)
                     then Z.land src (Z.lnot (Z.shiftl smask bits))
                     else src) in
      Ok (store buf1 wskip
            (Z.lor (Z.lor left right)
               (Z.shiftl (byte_at buf1 wskip) (rclear - bits))))
    else
      let more := bits - rclear in
      let buf1 := store buf wskip
                    (Z.lor left
                       (Z.land (Z.shiftr src more)
                               (Z.lnot (Z.shiftl smask (bits - more))))) in
      let '(buf2, wskip2, more2) :=
        set_bits_middle (Z.to_nat more) buf1 src wskip more in
      let wskip3 := wskip2 + 1 in
      let more3 := buf_size - more2 in
      let right := if negb (more3 =? buf_size)
                   then uint8 (Z.land (byte_at buf2 wskip3)
                                 (Z.lnot (Z.shiftl bmask more3)))
                   else 0 in
      let buf3 := store buf2 wskip3
                    (if buf_size >? src_size
                     then Z.land src (Z.lnot (Z.shiftl bmask src_size))
                     else src) in
      Ok (store buf3 wskip3
            (Z.lor right (Z.shiftl (byte_at buf3 wskip3) more3))).

(** bit [i] of the buffer, bits counted from the most significant bit of
    byte 0 *)
Definition bit_at (buf : list Z) (i : Z) : bool :=
  Z.testbit (byte_at buf (i / 8)) (7 - i mod 8).

Definition bytes_ok (buf : list Z) : Prop := Forall is_byte buf.

(** the value of an [int] variable holding the low [bits] bits of [src] *)
Definition low_bits (bits src : Z) : Z :=
  if bits =? 32 then sint32 src else src mod 2 ^ bits.

(** a sequence of writes [(off, bits, src)] applied in order *)
Fixpoint set_bits_all (buf : list Z) (ws : list (Z * Z * Z))
  : result (list Z) :=
  match ws with
  | [] => Ok buf
  | (off, bits, src) :: ws' =>
      let* buf' := set_bits buf src off bits in
      set_bits_all buf' ws'
  end.

Definition in_window (w : Z * Z * Z) (i : Z) : Prop :=
  let '(off, bits, _) := w in off <= i < off + bits.

Definition window_ok (len : nat) (w : Z * Z * Z) : Prop :=
  let '(off, bits, _) := w in
  1 <= bits <= 32 /\ 0 <= off /\ off + bits <= 8 * Z.of_nat len.

Definition windows_apart (w1 w2 : Z * Z * Z) : Prop :=
  let '(o1, n1, _) := w1 in
  let '(o2, n2, _) := w2 in
  o1 + n1 <= o2 \/ o2 + n2 <= o1.

Fixpoint pairwise_apart (ws : list (Z * Z * Z)) : Prop :=
  match ws with
  | [] => True
  | w :: ws' => Forall (windows_apart w) ws' /\ pairwise_apart ws'
  end.

End BitStream.


(** ** Floating point

    The C [double] (and [float]) arithmetic is kept abstract: the
    development holds for every implementation of these operations. *)
Class FloatOps : Type := {
  double : Type;
  fadd : double -> double -> double;
  fsub : double -> double -> double;
  fmul : double -> double -> double;
  fdiv : double -> double -> double;
  fneg : double -> double;
  fpow : double -> double -> double;      (* pow *)
  of_int : Z -> double;                   (* conversion of an integer *)
  to_float : double -> double;            (* conversion to float *)
  feqb : double -> double -> bool;        (* == *)
  lround : double -> Z;                   (* lround *)
  lit_1e30 : double                       (* the literal 1.e30 *)
}.

(** [const double GRIB_MISSING_VALUE=1.e30;] *)
Definition GRIB_MISSING_VALUE `{FloatOps} : double := lit_1e30.

(** ** unpackgrib1.c *)
Module Unpackgrib1.
Import CInt BitStream.

Section WithFloats.
Context `{FloatOps}.

(** [GRIBMessage], without the grid geometry that only [unpack_GDS]
    writes ([rescomp], [scan_mode], [proj], [slat] ... [ylen]).  Arrays
    are lists; [gridpoints] holds the [gcapacity] cells of the array. *)
Record GRIBMessage : Type := {
  total_len : Z; pds_len : Z; pds_ext_len : Z; gds_len : Z; bds_len : Z;
  ed_num : Z; table_ver : Z; center_id : Z; gen_proc : Z; grid_type : Z;
  param : Z; level_type : Z; lvl1 : Z; lvl2 : Z; fcst_units : Z;
  p1 : Z; p2 : Z; t_range : Z; navg : Z; nmiss : Z; sub_center_id : Z;
  bds_flag : Z; pack_width : Z;
  gds_included : Z; bms_included : Z;
  yr : Z; mo : Z; dy : Z; time : Z;
  offset : Z;
  E : Z; D : Z;
  data_rep : Z; nx : Z; ny : Z;
  buffer : list Z; pds_ext : list Z; bitmap : list Z;
  bcapacity : Z; bitmap_len : Z;
  ref_val : double; gridpoints : list double;
  gcapacity : Z
}.

(** [ibm2real] *)
Definition ibm2real (buf : list Z) (off : Z) : result double :=
  let* sign := get_bits buf 0 off 1 in
  let* exp := get_bits buf 0 (off + 1) 7 in
  let exp := exp - 64 in
  let* fr := get_bits buf 0 (off + 8) 24 in
  let native_real :=
    fmul (fmul (fpow (of_int 2) (of_int (-24))) (of_int fr))
         (fpow (of_int 16) (of_int exp)) in
  Ok (if sign =? 1 then fneg native_real else native_real).

(** [for (n=0; n < len; ++n) dst[n]=c_buf[from+n];] *)
Definition copy_bytes (buf : list Z) (from len : Z) : list Z :=
  map (fun n => byte_at buf (from + Z.of_nat n)) (seq 0 (Z.to_nat len)).

(** the level types of the first [case] list of [switch
    (grib_msg->level_type)]: one 16-bit level value *)
Definition one_level_value (level_type1 : Z) : bool :=
  match level_type1 with
  | 100 | 103 | 105 | 107 | 109 | 111 | 113 | 115 | 125 | 160 | 200 | 201 =>
      true
  | _ => false
  end.

(** the [case] list of the switch that guards the number in average,
    lines 472-493; [unpack_PDS] applies it to [grib_msg->p2] *)
Definition has_navg (x : Z) : bool :=
  match x with
  | 3 | 4 | 51 | 113 | 114 | 115 | 116 | 117 | 123 | 124 => true
  | _ => false
  end.

(** [unpack_PDS].  A local variable that [get_bits] fills, with a width
    that is not 0, is passed as 0. *)
Definition unpack_PDS (m : GRIBMessage) : result GRIBMessage :=
  let buf := buffer m in
  let off := if ed_num m =? 0 then 32 else 64 in
  let* pds_len1 :=
    (if ed_num m =? 0 then Ok (pds_len m) else get_bits buf (pds_len m) off 24) in
  let* table_ver1 :=
    (if ed_num m =? 0 then Ok (table_ver m)
     else get_bits buf (table_ver m) (off + 24) 8) in
  let* center_id1 := get_bits buf (center_id m) (off + 32) 8 in
  let* gen_proc1 := get_bits buf (gen_proc m) (off + 40) 8 in
  let* grid_type1 := get_bits buf (grid_type m) (off + 48) 8 in
  let* flag := get_bits buf 0 (off + 56) 8 in
  let gds_included1 := if Z.land flag 128 =? 128 then 1 else 0 in
  let bms_included1 := if Z.land flag 64 =? 64 then 1 else 0 in
  let* param1 := get_bits buf (param m) (off + 64) 8 in
  let* level_type1 := get_bits buf (level_type m) (off + 72) 8 in
  let* lvls :=
    (if one_level_value level_type1 then
       let* l1 := get_bits buf (lvl1 m) (off + 80) 16 in
       Ok (l1, 0)
     else
       let* l1 := get_bits buf (lvl1 m) (off + 80) 8 in
       let* l2 := get_bits buf (lvl2 m) (off + 88) 8 in
       Ok (l1, l2)) in
  let* yr1 := get_bits buf (yr m) (off + 96) 8 in
  let* mo1 := get_bits buf (mo m) (off + 104) 8 in
  let* dy1 := get_bits buf (dy m) (off + 112) 8 in
  let* hour := get_bits buf (time m) (off + 120) 8 in
  let* min := get_bits buf 0 (off + 128) 8 in
  let time1 := hour * 100 + min in
  let* fcst_units1 := get_bits buf (fcst_units m) (off + 136) 8 in
  let* p1_1 := get_bits buf (p1 m) (off + 144) 8 in
  let* p2_1 := get_bits buf (p2 m) (off + 152) 8 in
  let* t_range1 := get_bits buf (t_range m) (off + 160) 8 in
  let* navg1 :=
    (if has_navg p2_1 then get_bits buf (navg m) (off + 168) 16
     else Ok 0) in
  let* nmiss1 := get_bits buf (nmiss m) (off + 184) 8 in
  if ed_num m =? 0 then
    Ok {| total_len := total_len m; pds_len := pds_len1; pds_ext_len := 0;
          gds_len := gds_len m; bds_len := bds_len m; ed_num := ed_num m;
          table_ver := table_ver1; center_id := center_id1;
          gen_proc := gen_proc1; grid_type := grid_type1; param := param1;
          level_type := level_type1; lvl1 := fst lvls; lvl2 := snd lvls;
          fcst_units := fcst_units1; p1 := p1_1; p2 := p2_1;
          t_range := t_range1; navg := navg1; nmiss := nmiss1;
          sub_center_id := sub_center_id m; bds_flag := bds_flag m;
          pack_width := pack_width m; gds_included := gds_included1;
          bms_included := bms_included1; yr := yr1; mo := mo1; dy := dy1;
          time := time1; offset := off + 192; E := E m; D := D m;
          data_rep := data_rep m; nx := nx m; ny := ny m;
          buffer := buf; pds_ext := pds_ext m; bitmap := bitmap m;
          bcapacity := bcapacity m; bitmap_len := bitmap_len m;
          ref_val := ref_val m; gridpoints := gridpoints m;
          gcapacity := gcapacity m |}
  else
    let* cent := get_bits buf 0 (off + 192) 8 in
    let yr2 := yr1 + (cent - 1) * 100 in
    let* sub_center_id1 := get_bits buf (sub_center_id m) (off + 200) 8 in
    let* sign := get_bits buf 0 (off + 208) 1 in
    let* D0 := get_bits buf (D m) (off + 209) 15 in
    let D1 := if sign =? 1 then - D0 else D0 in
    let off1 := off + 224 in
    let '(pds_ext_len1, pds_ext1, off2) :=
      if pds_len1 >? 28 then
        if pds_len1 <? 40 then
          (pds_len1 - 28, copy_bytes buf 36 (pds_len1 - 28),
           off1 + (pds_len1 - 28) * 8)
        else
          (pds_len1 - 40, copy_bytes buf 48 (pds_len1 - 40),
           off1 + (pds_len1 - 40 + 12) * 8)
      else (0, pds_ext m, off1) in
    Ok {| total_len := total_len m; pds_len := pds_len1;
          pds_ext_len := pds_ext_len1;
          gds_len := gds_len m; bds_len := bds_len m; ed_num := ed_num m;
          table_ver := table_ver1; center_id := center_id1;
          gen_proc := gen_proc1; grid_type := grid_type1; param := param1;
          level_type := level_type1; lvl1 := fst lvls; lvl2 := snd lvls;
          fcst_units := fcst_units1; p1 := p1_1; p2 := p2_1;
          t_range := t_range1; navg := navg1; nmiss := nmiss1;
          sub_center_id := sub_center_id1; bds_flag := bds_flag m;
          pack_width := pack_width m; gds_included := gds_included1;
          bms_included := bms_included1; yr := yr2; mo := mo1; dy := dy1;
          time := time1; offset := off2; E := E m; D := D1;
          data_rep := data_rep m; nx := nx m; ny := ny m;
          buffer := buf; pds_ext := pds_ext1; bitmap := bitmap m;
          bcapacity := bcapacity m; bitmap_len := bitmap_len m;
          ref_val := ref_val m; gridpoints := gridpoints m;
          gcapacity := gcapacity m |}.

(** [for (n=0; n < bcapacity; ++n) { get_bits(buffer,&bval,boff,1);
    bitmap[n]=bval; ++boff; }] *)
Fixpoint unpack_bitmap (count : nat) (buf : list Z) (boff : Z)
  : result (list Z) :=
  match count with
  | O => Ok []
  | S c =>
      let* bval := get_bits buf 0 boff 1 in
      let* rest := unpack_bitmap c buf (boff + 1) in
      Ok (uint8 bval :: rest)
  end.

(** [for (n=0; n < num_packed; ++n) { get_bits(buffer,&packed[n],offset,
    pack_width); offset+=pack_width; }]; the result is [packed] and the
    offset after the loop. *)
Fixpoint unpack_packed (count : nat) (buf : list Z) (off width : Z)
  : result (list Z * Z) :=
  match count with
  | O => Ok ([], off)
  | S c =>
      let* v := get_bits buf 0 off width in
      let* rest := unpack_packed c buf (off + width) width in
      Ok (v :: fst rest, snd rest)
  end.

(** State of the loop over the gridpoints: the two counters and the
    cells [gridpoints[0 .. n)] written so far. *)
Record scan : Type := { bcnt : Z; pcnt : Z; points : list double }.

(** One iteration of [for (n=0; n < num_points; ++n)], lines 843-856
    ([checks_null = true]) and 872-879 ([checks_null = false]).  [packed]
    is [None] for the null pointer. *)
Definition unpack_point (checks_null : bool) (bitmap_len1 : Z)
    (bitmap1 : list Z) (packed : option (list Z)) (ref_val1 e d : double)
    (s : scan) : result scan :=
  let* present :=
    (if bitmap_len1 =? 0 then Ok (true, bcnt s)
     else match bitmap1 !! Z.to_nat (bcnt s) with
          | Some b => Ok (b =? 1, bcnt s + 1)
          | None => Err Undefined
          end) in
  if fst present then
    match packed with
    | None =>
        if checks_null then
          (* constant field *)
          Ok {| bcnt := snd present; pcnt := pcnt s;
                points := points s ++ [ref_val1] |}
        else Err Undefined
    | Some pk =>
        match pk !! Z.to_nat (pcnt s) with
        | Some v =>
            Ok {| bcnt := snd present; pcnt := pcnt s + 1;
                  points := points s
                              ++ [fadd ref_val1 (fdiv (fmul (of_int v) e) d)] |}
        | None => Err Undefined
        end
    end
  else
    Ok {| bcnt := snd present; pcnt := pcnt s;
          points := points s ++ [GRIB_MISSING_VALUE] |}.

Definition scan0 : scan := {| bcnt := 0; pcnt := 0; points := [] |}.

(** [case 0: case 4: case 10: case 1: case 3: case 5:] of the switch on
    [data_rep] in [unpack_BDS] *)
Definition recognized_grid (data_rep1 : Z) : bool :=
  match data_rep1 with
  | 0 | 4 | 10 | 1 | 3 | 5 => true
  | _ => false
  end.

(** the grids of [case 0: case 4: case 10:] whose first packed value is
    skipped *)
Definition skips_first_value (data_rep1 grid_type1 : Z) : bool :=
  match data_rep1 with
  | 0 | 4 | 10 =>
      match grid_type1 with
      | 23 | 24 | 26 | 63 | 64 => true
      | _ => false
      end
  | _ => false
  end.

(** [unpack_BDS].  [junk n] is the indeterminate content of cell [n] of
    the array [packed] as [malloc] returns it. *)
Definition unpack_BDS (junk : nat -> Z) (m : GRIBMessage)
  : result GRIBMessage :=
  let buf := buffer m in
  let* bms :=
    (if bms_included m =? 1 then
       let* bms_length := get_bits buf 0 (offset m) 24 in
       let total_len1 :=
         if ed_num m =? 0 then total_len m + bms_length else total_len m in
       let* ub := get_bits buf 0 (offset m + 24) 8 in
       let* tref := get_bits buf 0 (offset m + 32) 16 in
       if negb (tref =? 0) then Err Exit1
       else
         let bitmap_len1 := uint64 ((bms_length - 6) * 8 - ub) in
         let bcapacity1 :=
           if bitmap_len1 >? bcapacity m then bitmap_len1 else bcapacity m in
         let* bitmap1 :=
           unpack_bitmap (Z.to_nat bcapacity1) buf (offset m + 48) in
         Ok (total_len1, bitmap1, bcapacity1, bitmap_len1,
             offset m + bms_length * 8)
     else Ok (total_len m, bitmap m, bcapacity m, 0, offset m)) in
  let '(total_len1, bitmap1, bcapacity1, bitmap_len1, offset1) := bms in
  let* bds_len1 := get_bits buf (bds_len m) offset1 24 in
  let total_len2 :=
    if ed_num m =? 0 then total_len1 + (bds_len1 + 1) else total_len1 in
  let* bds_flag1 := get_bits buf (bds_flag m) (offset1 + 24) 4 in
  let* ub := get_bits buf 0 (offset1 + 28) 4 in
  let* pack_width1 := get_bits buf (pack_width m) (offset1 + 80) 8 in
  let* sign := get_bits buf 0 (offset1 + 32) 1 in
  let* E0 := get_bits buf (E m) (offset1 + 33) 15 in
  let E1 := if sign =? 1 then - E0 else E0 in
  let e := fpow (of_int 2) (of_int E1) in
  let d := fpow (of_int 10) (of_int (D m)) in
  let* ibm := ibm2real buf (offset1 + 48) in
  let ref_val1 := fdiv ibm d in
  if Z.land bds_flag1 64 =? 0 then
    (* simple packing *)
    let offset2 := offset1 + 88 in
    let num_packed :=
      if pack_width1 >? 0
      then uint64 (Z.quot (bds_len1 * 8 - 88 - ub) pack_width1)
      else 0 in
    let* decoded :=
      (if recognized_grid (data_rep m) then
         let offset3 :=
           if skips_first_value (data_rep m) (grid_type m)
           then offset2 + pack_width1 else offset2 in
         let* pk := unpack_packed (Z.to_nat num_packed) buf offset3 pack_width1 in
         let packed := if pack_width1 >? 0 then Some (fst pk) else None in
         let num_points := uint64 (sint32 (ny m * nx m)) in
         let* s :=
           for_loop (Z.to_nat num_points)
             (unpack_point true bitmap_len1 bitmap1 packed ref_val1 e d)
             scan0 in
         Ok (num_points, points s, snd pk)
       else
         (* no recognized GDS: [packed] is not filled *)
         let packed :=
           if pack_width1 >? 0
           then Some (map (fun n => sint32 (junk n))
                        (seq 0 (Z.to_nat num_packed)))
           else None in
         let num_points :=
           if num_packed >? bitmap_len1 then num_packed else bitmap_len1 in
         let* s :=
           for_loop (Z.to_nat num_points)
             (unpack_point false bitmap_len1 bitmap1 packed ref_val1 e d)
             scan0 in
         Ok (num_points, points s, offset2)) in
    let '(num_points, pts, offset4) := decoded in
    let grown := num_points >? uint64 (gcapacity m) in
    Ok {| total_len := total_len2; pds_len := pds_len m;
          pds_ext_len := pds_ext_len m;
          gds_len := gds_len m; bds_len := bds_len1; ed_num := ed_num m;
          table_ver := table_ver m; center_id := center_id m;
          gen_proc := gen_proc m; grid_type := grid_type m;
          param := param m; level_type := level_type m;
          lvl1 := lvl1 m; lvl2 := lvl2 m;
          fcst_units := fcst_units m; p1 := p1 m; p2 := p2 m;
          t_range := t_range m; navg := navg m; nmiss := nmiss m;
          sub_center_id := sub_center_id m; bds_flag := bds_flag1;
          pack_width := pack_width1; gds_included := gds_included m;
          bms_included := bms_included m;
          yr := yr m; mo := mo m; dy := dy m; time := time m;
          offset := offset4; E := E1; D := D m;
          data_rep := data_rep m; nx := nx m; ny := ny m;
          buffer := buf; pds_ext := pds_ext m; bitmap := bitmap1;
          bcapacity := bcapacity1; bitmap_len := bitmap_len1;
          ref_val := ref_val1;
          gridpoints :=
            pts ++ drop (length pts) (if grown then [] else gridpoints m);
          gcapacity := if grown then sint32 num_points else gcapacity m |}
  else
    (* second-order packing *)
    Err Exit1.

(** the number of gridpoints that [unpack_BDS] decodes, as it computes
    it from the decoded message *)
Definition num_points_of (m : GRIBMessage) (num_packed : Z) : Z :=
  if recognized_grid (data_rep m) then uint64 (sint32 (ny m * nx m))
  else if num_packed >? bitmap_len m then num_packed else bitmap_len m.

End WithFloats.
End Unpackgrib1.


(** ** unpackgrib2.c *)
Module Unpackgrib2.
Import CInt BitStream.

Section WithFloats.
Context `{FloatOps}.

(** the [stat_proc] member of [GRIB2Metadata]; its member [time_unit] is
    [range_time_unit] here, the name [time_unit] being taken by the
    member of [GRIB2Metadata] itself *)
Record StatProc : Type := {
  eyr : Z; emo : Z; edy : Z; etime : Z;
  num_ranges : Z; nmiss : Z;
  proc_code : list Z; incr_type : list Z; range_time_unit : list Z;
  time_length : list Z; incr_unit : list Z; incr_length : list Z
}.

(** [GRIB2Metadata], with the members that the functions below use;
    [bitmap] is [None] for the null pointer *)
Record GRIB2Metadata : Type := {
  gds_templ_num : Z; nx : Z; ny : Z;
  pds_templ_num : Z; param_cat : Z; param_num : Z;
  time_unit : Z; fcst_time : Z;
  stat_proc : StatProc;
  drs_templ_num : Z;
  R : double; E : Z; D : Z;
  num_packed : Z; pack_width : Z;
  bitmap : option (list Z)
}.

Record GRIB2Grid : Type := {
  md : GRIB2Metadata;
  gridpoints : list double;
  gcapacity : Z
}.

(** [GRIB2Message]; its member [md] is [msg_md] here *)
Record GRIB2Message : Type := {
  buffer : list Z; buffer_capacity : Z;
  offset : Z;
  total_len : Z; disc : Z; ed_num : Z;
  center_id : Z;
  yr : Z; mo : Z; dy : Z; time : Z;
  msg_md : GRIB2Metadata;
  num_grids : Z;
  grids : list GRIB2Grid;
  grid_capacity : Z
}.

(** *** [unpack_IS] *)

(** [fread(ptr,1,n,fp)] on a stream of bytes: the bytes read and the rest
    of the stream *)
Definition fread (n : Z) (fp : list Z) : list Z * list Z :=
  (take (Z.to_nat n) fp, drop (Z.to_nat n) fp).

Definition is_GRIB (temp : list Z) : bool :=
  (temp !!! 0%nat =? 71) && (temp !!! 1%nat =? 82)
  && (temp !!! 2%nat =? 73) && (temp !!! 3%nat =? 66).

(** [while (temp[0] != 0x47 || temp[1] != 0x52 || temp[2] != 0x49 ||
    temp[3] != 0x42) { ... }]: the search for the next ["GRIB"].  The
    result is [None] where the C code returns -1.  Every iteration that
    goes on has read at least one byte, so a fuel above the length of the
    stream is never exhausted. *)
Fixpoint resync (fuel : nat) (temp fp : list Z)
  : result (option (list Z * list Z)) :=
  if is_GRIB temp then Ok (Some (temp, fp))
  else
    match fuel with
    | O => Err OutOfFuel
    | S fuel' =>
        if temp !!! 1%nat =? 71 then
          let temp1 := <[0%nat := temp !!! 1%nat]> temp in
          let temp2 := <[1%nat := temp1 !!! 2%nat]> temp1 in
          let temp3 := <[2%nat := temp2 !!! 3%nat]> temp2 in
          let '(rd, fp') := fread 1 fp in
          if Z.of_nat (length rd) =? 0 then Ok None
          else resync fuel' (list_inserts 3 rd temp3) fp'
        else if temp !!! 2%nat =? 71 then
          let temp1 := <[0%nat := temp !!! 2%nat]> temp in
          let temp2 := <[1%nat := temp1 !!! 3%nat]> temp1 in
          let '(rd, fp') := fread 2 fp in
          if Z.of_nat (length rd) =? 0 then Ok None
          else resync fuel' (list_inserts 2 rd temp2) fp'
        else if temp !!! 3%nat =? 71 then
          let temp1 := <[0%nat := temp !!! 3%nat]> temp in
          let '(rd, fp') := fread 3 fp in
          if Z.of_nat (length rd) =? 0 then Ok None
          else resync fuel' (list_inserts 1 rd temp1) fp'
        else
          let '(rd, fp') := fread 4 fp in
          if Z.of_nat (length rd) =? 0 then Ok None
          else resync fuel' (list_inserts 0 rd temp) fp'
    end.

Definition with_IS (m : GRIB2Message) (buffer1 : list Z) (capacity1 : Z)
    (offset1 total_len1 disc1 ed_num1 : Z) (md1 : GRIB2Metadata)
  : GRIB2Message :=
  {| buffer := buffer1; buffer_capacity := capacity1; offset := offset1;
     total_len := total_len1; disc := disc1; ed_num := ed_num1;
     center_id := center_id m;
     yr := yr m; mo := mo m; dy := dy m; time := time m;
     msg_md := md1; num_grids := 0; grids := grids m;
     grid_capacity := grid_capacity m |}.

Definition with_nx_ny (g : GRIB2Metadata) (nx1 ny1 : Z) : GRIB2Metadata :=
  {| gds_templ_num := gds_templ_num g; nx := nx1; ny := ny1;
     pds_templ_num := pds_templ_num g; param_cat := param_cat g;
     param_num := param_num g; time_unit := time_unit g;
     fcst_time := fcst_time g; stat_proc := stat_proc g;
     drs_templ_num := drs_templ_num g; R := R g; E := E g; D := D g;
     num_packed := num_packed g; pack_width := pack_width g;
     bitmap := bitmap g |}.

(** [malloc(size)]: a block of [size] bytes of indeterminate content
    [junk]; a request above [PTRDIFF_MAX] fails, and the null pointer has
    no byte *)
Definition malloc (junk : nat -> Z) (size : Z) : list Z :=
  if size <? 2 ^ 63 then map junk (seq 0 (Z.to_nat size)) else [].

(** the bytes [src] stored into [dst] from index [pos] on, by [memcpy]
    or by [fread]; a store past the end of [dst] is undefined *)
Definition store_bytes (pos : nat) (src dst : list Z) : result (list Z) :=
  if (length dst <? pos + length src)%nat then Err Undefined
  else Ok (list_inserts pos src dst).

(** [unpack_IS(fp,grib2_msg)]: the returned status, the message and the
    rest of the stream.  [temp0] is the indeterminate content of the
    local array [temp], [junk n] that of byte [n] of a buffer that
    [malloc] returns.  The list [buffer] has the bytes that the pointer
    [buffer] owns (none for the null pointer); [total_len+4] and
    [total_len-16] are sums of [int], converted to [size_t].  When
    [status == num], [strncmp] reads the four bytes before index
    [total_len] of the buffer; the warning is not part of the result. *)
Definition unpack_IS (temp0 : list Z) (junk : nat -> Z) (fp : list Z)
    (m : GRIB2Message) : result (Z * GRIB2Message * list Z) :=
  let m0 := with_IS m (buffer m) (buffer_capacity m) (offset m)
              (total_len m) (disc m) (ed_num m) (msg_md m) in
  let '(rd, fp1) := fread 4 fp in
  if negb (Z.of_nat (length rd) =? 4) then
    if Z.of_nat (length rd) =? 0 then Ok (-1, m0, fp1) else Ok (1, m0, fp1)
  else
    let temp := list_inserts 0 rd temp0 in
    let* found := resync (S (length fp1)) temp fp1 in
    match found with
    | None => Ok (-1, m0, [])
    | Some (temp1, fp2) =>
        let '(rd2, fp3) := fread 12 fp2 in
        if Z.of_nat (length rd2) =? 0 then Ok (1, m0, fp3)
        else
          let temp2 := list_inserts 4 rd2 temp1 in
          let* disc1 := get_bits temp2 (disc m) 48 8 in
          let* ed_num1 := get_bits temp2 (ed_num m) 56 8 in
          let* total_len1 := get_bits temp2 (total_len m) 96 32 in
          let md1 := with_nx_ny (msg_md m) 0 0 in
          let required_size := uint64 (sint32 (total_len1 + 4)) in
          let grown := required_size >? buffer_capacity m in
          let capacity1 := if grown then required_size else buffer_capacity m in
          let buffer0 :=
            if grown then malloc junk required_size else buffer m in
          let* buffer1 := store_bytes 0 (take 16 temp2) buffer0 in
          let num := uint64 (sint32 (total_len1 - 16)) in
          let '(rd3, fp4) := fread num fp3 in
          let* buffer2 := store_bytes 16 rd3 buffer1 in
          let status := sint32 (Z.of_nat (length rd3)) in
          if negb (uint64 status =? num) then
            Ok (1, with_IS m buffer2 capacity1 (offset m) total_len1 disc1
                     ed_num1 md1, fp4)
          else if (total_len1 - 4 <? 0)
                  || (Z.of_nat (length buffer2) <? total_len1) then
            Err Undefined
          else
            Ok (0, with_IS m buffer2 capacity1 128 total_len1 disc1
                     ed_num1 md1, fp4)
    end.

(** the 32 bits at bit offset 96 of the Indicator Section [IS], that is
    its octets 13 to 16, as an [int] *)
Definition length_low_32 (IS : list Z) : Z :=
  sint32 (IS !!! 12%nat * 2 ^ 24 + IS !!! 13%nat * 2 ^ 16
          + IS !!! 14%nat * 2 ^ 8 + IS !!! 15%nat).

(** the four octets ["GRIB"], and a run of octets [pre] before a marker
    in which no marker starts: [pre ++ GRIB_marker] holds the marker at
    position [length pre] and at no position before *)
Definition GRIB_marker : list Z := [71; 82; 73; 66].

Definition marker_free (pre : list Z) : Prop :=
  forall j : nat, (j < length pre)%nat ->
    take 4 (drop j (pre ++ GRIB_marker)) <> GRIB_marker.

(** a stream in which no marker starts *)
Definition marker_absent (fp : list Z) : Prop :=
  forall j : nat, take 4 (drop j fp) <> GRIB_marker.

(** *** [unpack_IDS] *)

(** the members of [GRIB2Message] that only [unpack_IDS] writes *)
Record Identification : Type := {
  sub_center_id : Z; table_ver : Z; local_table_ver : Z;
  ref_time_type : Z; prod_status : Z; data_type : Z
}.

Definition with_IDS (m : GRIB2Message)
    (offset1 center_id1 yr1 mo1 dy1 time1 : Z) : GRIB2Message :=
  {| buffer := buffer m; buffer_capacity := buffer_capacity m;
     offset := offset1; total_len := total_len m; disc := disc m;
     ed_num := ed_num m; center_id := center_id1;
     yr := yr1; mo := mo1; dy := dy1; time := time1;
     msg_md := msg_md m; num_grids := num_grids m; grids := grids m;
     grid_capacity := grid_capacity m |}.

(** [grib2_msg->offset+k] as the [size_t] argument of [get_bits]: the
    sum of two [int], converted *)
Definition bit_offset (m : GRIB2Message) (k : Z) : Z :=
  uint64 (sint32 (offset m + k)).

(** [unpack_IDS(grib2_msg)].  A local variable that [get_bits] fills is
    passed as 0. *)
Definition unpack_IDS (m : GRIB2Message) (ids : Identification)
  : result (GRIB2Message * Identification) :=
  let buf := buffer m in
  let* length := get_bits buf 0 (uint64 (offset m)) 32 in
  let* center_id1 := get_bits buf (center_id m) (bit_offset m 40) 16 in
  let* sub_center_id1 :=
    get_bits buf (sub_center_id ids) (bit_offset m 56) 16 in
  let* table_ver1 := get_bits buf (table_ver ids) (bit_offset m 72) 8 in
  let* local_table_ver1 :=
    get_bits buf (local_table_ver ids) (bit_offset m 80) 8 in
  let* ref_time_type1 :=
    get_bits buf (ref_time_type ids) (bit_offset m 88) 8 in
  let* yr1 := get_bits buf (yr m) (bit_offset m 96) 16 in
  let* mo1 := get_bits buf (mo m) (bit_offset m 112) 8 in
  let* dy1 := get_bits buf (dy m) (bit_offset m 120) 8 in
  let* hh := get_bits buf 0 (bit_offset m 128) 8 in
  let* mm := get_bits buf 0 (bit_offset m 136) 8 in
  let* ss := get_bits buf 0 (bit_offset m 144) 8 in
  let time1 := sint32 (hh * 10000 + mm * 100 + ss) in
  let* prod_status1 := get_bits buf (prod_status ids) (bit_offset m 152) 8 in
  let* data_type1 := get_bits buf (data_type ids) (bit_offset m 160) 8 in
  Ok (with_IDS m (sint32 (offset m + sint32 (length * 8)))
        center_id1 yr1 mo1 dy1 time1,
      {| sub_center_id := sub_center_id1; table_ver := table_ver1;
         local_table_ver := local_table_ver1;
         ref_time_type := ref_time_type1;
         prod_status := prod_status1; data_type := data_type1 |}).

(** *** [unpack_BMS] *)

Definition with_bitmap (g : GRIB2Metadata) (bitmap1 : option (list Z))
  : GRIB2Metadata :=
  {| gds_templ_num := gds_templ_num g; nx := nx g; ny := ny g;
     pds_templ_num := pds_templ_num g; param_cat := param_cat g;
     param_num := param_num g; time_unit := time_unit g;
     fcst_time := fcst_time g; stat_proc := stat_proc g;
     drs_templ_num := drs_templ_num g; R := R g; E := E g; D := D g;
     num_packed := num_packed g; pack_width := pack_width g;
     bitmap := bitmap1 |}.

Definition with_md (m : GRIB2Message) (g : GRIB2Metadata) : GRIB2Message :=
  {| buffer := buffer m; buffer_capacity := buffer_capacity m;
     offset := offset m; total_len := total_len m; disc := disc m;
     ed_num := ed_num m; center_id := center_id m;
     yr := yr m; mo := mo m; dy := dy m; time := time m;
     msg_md := g; num_grids := num_grids m; grids := grids m;
     grid_capacity := grid_capacity m |}.

(** [unpack_BMS(grib2_msg)].  The loop [for (n=0; n < len; ++n) {
    get_bits(buffer,&bit,offset+48+n,1); bitmap[n]=bit; }] has the text
    of the loop of unpackgrib1.c and is [Unpackgrib1.unpack_bitmap]; its
    bound is the [int] [len] converted to [size_t]. *)
Definition unpack_BMS (m : GRIB2Message) : result GRIB2Message :=
  let buf := buffer m in
  let* ind := get_bits buf 0 (bit_offset m 40) 8 in
  match ind with
  | 0 =>
      let* len := get_bits buf 0 (uint64 (offset m)) 32 in
      let len1 := sint32 ((len - 6) * 8) in
      let* bm :=
        Unpackgrib1.unpack_bitmap (Z.to_nat (uint64 len1)) buf
          (bit_offset m 48) in
      Ok (with_md m (with_bitmap (msg_md m) (Some bm)))
  | 254 => Ok m
  | 255 => Ok (with_md m (with_bitmap (msg_md m) None))
  | _ => Err Exit1
  end.

(** *** [unpack_DRS] *)

Definition with_DRS (g : GRIB2Metadata)
    (num_packed1 drs_templ_num1 : Z) (R1 : double) (E1 D1 pack_width1 : Z)
  : GRIB2Metadata :=
  {| gds_templ_num := gds_templ_num g; nx := nx g; ny := ny g;
     pds_templ_num := pds_templ_num g; param_cat := param_cat g;
     param_num := param_num g; time_unit := time_unit g;
     fcst_time := fcst_time g; stat_proc := stat_proc g;
     drs_templ_num := drs_templ_num1; R := R1; E := E1; D := D1;
     num_packed := num_packed1; pack_width := pack_width1;
     bitmap := bitmap g |}.

Section Reinterpret.

(** the [float] that shares its storage with an [int]:
    [get_bits(buffer,(int * )&md.R,off,32)] *)
Variable float_of_bits : Z -> double.

(** [unpack_DRS(grib2_msg)], data representation template 0: the message
    and the member [orig_val_type] of its metadata.  Template 3 (complex
    packing) and, in a build with JASPER, templates 40 and 40000 are not
    part of this development: the model stops there with [Unmodelled]. *)
Definition unpack_DRS (m : GRIB2Message) : result (GRIB2Message * Z) :=
  let buf := buffer m in
  let g := msg_md m in
  let* num_packed1 := get_bits buf (num_packed g) (bit_offset m 40) 32 in
  let* drs_templ_num1 := get_bits buf (drs_templ_num g) (bit_offset m 72) 16 in
  match drs_templ_num1 with
  | 0 =>
      let* bits := get_bits buf 0 (bit_offset m 88) 32 in
      let R0 := float_of_bits bits in
      let* E1 :=
        (let* sign := get_bits buf 0 (bit_offset m 120) 1 in
         let* value := get_bits buf 0 (bit_offset m 121) 15 in
         Ok (if sign =? 1 then sint32 (- value) else value)) in
      let* D1 :=
        (let* sign := get_bits buf 0 (bit_offset m 136) 1 in
         let* value := get_bits buf 0 (bit_offset m 137) 15 in
         Ok (if sign =? 1 then sint32 (- value) else value)) in
      let R1 := to_float (fdiv R0 (fpow (of_int 10) (of_int D1))) in
      let* pack_width1 :=
        get_bits buf (pack_width g) (bit_offset m 152) 8 in
      let* orig_val_type1 := get_bits buf 0 (bit_offset m 160) 8 in
      Ok (with_md m
            (with_DRS g num_packed1 drs_templ_num1 R1 E1 D1 pack_width1),
          orig_val_type1)
  | 3 | 40 | 40000 => Err Unmodelled
  | _ => Err Exit1
  end.

End Reinterpret.

(** *** [unpack_DS], data representation template 0 *)

(** state of the loop over the gridpoints: the loop index, the bit
    offset [off] and the cells written so far *)
Record dscan : Type := { idx : Z; off : Z; points : list double }.

(** one iteration of [for (n=0; n < ny*nx; ++n)], lines 1159-1169;
    [junk n] is the indeterminate content of the local [pval] *)
Definition unpack_point (junk : nat -> Z) (buf : list Z) (g : GRIB2Metadata)
    (Df Ef : double) (s : dscan) : result dscan :=
  let* present :=
    match bitmap g with
    | None => Ok true
    | Some bm =>
        match bm !! Z.to_nat (idx s) with
        | Some b => Ok (b =? 1)
        | None => Err Undefined
        end
    end in
  if present : bool then
    let* pval := get_bits buf (junk (Z.to_nat (idx s))) (off s) (pack_width g) in
    let v := to_float
               (fadd (R g)
                  (to_float
                     (fdiv (to_float (fmul (to_float (of_int pval)) Ef)) Df))) in
    Ok {| idx := idx s + 1; off := off s + pack_width g;
          points := points s ++ [v] |}
  else
    Ok {| idx := idx s + 1; off := off s;
          points := points s ++ [GRIB_MISSING_VALUE] |}.

(** the gridpoint that an iteration computes from the packed integer
    [pval] *)
Definition point_value (g : GRIB2Metadata) (pval : Z) : double :=
  let Df := to_float (fpow (of_int 10) (of_int (D g))) in
  let Ef := to_float (fpow (of_int 2) (of_int (E g))) in
  to_float
    (fadd (R g)
       (to_float (fdiv (to_float (fmul (to_float (of_int pval)) Ef)) Df))).

(** the bit map [bm] marks, among the first [N] of the gridpoints [gps],
    the ones that are not [GRIB_MISSING_VALUE]; without a bit map none is
    missing *)
Definition bitmap_marks (bm : option (list Z)) (gps : list double) (N : nat)
  : Prop :=
  forall (n : nat) (gp : double),
    (n < N)%nat -> gps !! n = Some gp ->
    match bm with
    | None => feqb gp GRIB_MISSING_VALUE = false
    | Some b =>
        exists x, b !! n = Some x /\
                  (x =? 1) = negb (feqb gp GRIB_MISSING_VALUE)
    end.

Definition with_gridpoints (gr : GRIB2Grid) (pts : list double) (cap : Z)
  : GRIB2Grid :=
  {| md := md gr; gridpoints := pts; gcapacity := cap |}.

Definition with_grids (m : GRIB2Message) (gs : list GRIB2Grid)
  : GRIB2Message :=
  {| buffer := buffer m; buffer_capacity := buffer_capacity m;
     offset := offset m; total_len := total_len m; disc := disc m;
     ed_num := ed_num m; center_id := center_id m;
     yr := yr m; mo := mo m; dy := dy m; time := time m;
     msg_md := msg_md m; num_grids := num_grids m; grids := gs;
     grid_capacity := grid_capacity m |}.

(** [unpack_DS(grib2_msg,grid_num)].  Templates 3, 40 and 40000 (complex
    packing, JPEG 2000) are not part of this development: the model stops
    there with [Unmodelled]; on any other template number the C function
    does nothing. *)
Definition unpack_DS (junk : nat -> Z) (m : GRIB2Message) (grid_num : Z)
  : result GRIB2Message :=
  let g := msg_md m in
  let Df := to_float (fpow (of_int 10) (of_int (D g))) in
  let Ef := to_float (fpow (of_int 2) (of_int (E g))) in
  let off0 := uint64 (offset m + 40) in
  match drs_templ_num g with
  | 0 =>
      match grids m !! Z.to_nat grid_num with
      | None => Err Undefined
      | Some gr =>
          let required_size := uint64 (sint32 (ny g * nx g)) in
          let grown := required_size >? gcapacity gr in
          let* s :=
            for_loop (Z.to_nat required_size)
              (unpack_point junk (buffer m) g Df Ef)
              {| idx := 0; off := off0; points := [] |} in
          let pts :=
            points s
              ++ drop (length (points s)) (if grown then [] else gridpoints gr) in
          Ok (with_grids m
                (<[Z.to_nat grid_num :=
                     with_gridpoints gr pts
                       (if grown then required_size else gcapacity gr)]>
                   (grids m)))
      end
  | 3 | 40 | 40000 => Err Unmodelled
  | _ => Ok m
  end.

End WithFloats.
End Unpackgrib2.


(** ** unpackgrib2.c: [unpack_PDS] *)
Module Unpackgrib2Product.
Import CInt BitStream Unpackgrib2.

Section WithFloats.
Context `{FloatOps}.

(** the members of [GRIB2Metadata] that only [unpack_PDS] writes;
    [spatial_stat_proc], [spatial_type] and [spatial_num_points] are the
    members [stat_proc], [type] and [num_points] of [spatial_proc] *)
Record Product : Type := {
  gen_proc : Z;
  lvl1_type : Z; lvl1 : double; lvl2_type : Z; lvl2 : double;
  ens_type : Z; perturb_num : Z; nfcst_in_ensemble : Z;
  derived_fcst_code : Z;
  spatial_stat_proc : Z; spatial_type : Z; spatial_num_points : Z
}.

(** [if (sign == 1) { value=-value; }
    lvl=(double)value/pow(10.,(double)factor);] *)
Definition level_value (factor sign value : Z) : double :=
  let value1 := if sign =? 1 then sint32 (- value) else value in
  fdiv (of_int value1) (fpow (of_int 10) (of_int factor)).

(** [for (size_t n=0; n < num_ranges; ++n) { get_bits(buffer,
    &proc_code[n],offset+off,8); ... off+=96; }]: the six values of each
    time range, in the order [proc_code], [incr_type], [time_unit],
    [time_length], [incr_unit], [incr_length].  [offset1] is the [int]
    [grib2_msg->offset], [off] the [size_t] of the loop. *)
Fixpoint unpack_ranges (count : nat) (buf : list Z) (offset1 off : Z)
  : result (list (Z * Z * Z * Z * Z * Z)) :=
  match count with
  | O => Ok []
  | S c =>
      let at_off := uint64 (offset1 + off) in
      let* code := get_bits buf 0 at_off 8 in
      let* itype := get_bits buf 0 (uint64 (at_off + 8)) 8 in
      let* unit := get_bits buf 0 (uint64 (at_off + 16)) 8 in
      let* len := get_bits buf 0 (uint64 (at_off + 24)) 32 in
      let* iunit := get_bits buf 0 (uint64 (at_off + 56)) 8 in
      let* ilen := get_bits buf 0 (uint64 (at_off + 64)) 32 in
      let* rest := unpack_ranges c buf offset1 (uint64 (off + 96)) in
      Ok ((code, itype, unit, len, iunit, ilen) :: rest)
  end.

(** the overall end time and the time ranges of the templates 8, 11 and
    12, which differ in the places of the fields: the arguments are the
    offsets of the calls of [get_bits], in the order of the source, and
    the initial [off] of the loop *)
Definition unpack_end_time (m : GRIB2Message)
    (o_yr o_mo o_dy o_hh o_mm o_ss o_num o_miss off : Z) : result StatProc :=
  let buf := buffer m in
  let sp := stat_proc (msg_md m) in
  let* eyr1 := get_bits buf (eyr sp) (bit_offset m o_yr) 16 in
  let* emo1 := get_bits buf (emo sp) (bit_offset m o_mo) 8 in
  let* edy1 := get_bits buf (edy sp) (bit_offset m o_dy) 8 in
  let* hh := get_bits buf 0 (bit_offset m o_hh) 8 in
  let* mm := get_bits buf 0 (bit_offset m o_mm) 8 in
  let* ss := get_bits buf 0 (bit_offset m o_ss) 8 in
  let etime1 := sint32 (hh * 10000 + mm * 100 + ss) in
  let* num_ranges1 := get_bits buf 0 (bit_offset m o_num) 8 in
  let* nmiss1 := get_bits buf (nmiss sp) (bit_offset m o_miss) 32 in
  let* rs := unpack_ranges (Z.to_nat num_ranges1) buf (offset m) off in
  Ok {| eyr := eyr1; emo := emo1; edy := edy1; etime := etime1;
        num_ranges := num_ranges1; nmiss := nmiss1;
        proc_code := map (fun '(c, _, _, _, _, _) => c) rs;
        incr_type := map (fun '(_, t, _, _, _, _) => t) rs;
        range_time_unit := map (fun '(_, _, u, _, _, _) => u) rs;
        time_length := map (fun '(_, _, _, l, _, _) => l) rs;
        incr_unit := map (fun '(_, _, _, _, u, _) => u) rs;
        incr_length := map (fun '(_, _, _, _, _, l) => l) rs |}.

(** [grib2_msg->md.stat_proc.num_ranges=0;] *)
Definition no_ranges (sp : StatProc) : StatProc :=
  {| eyr := eyr sp; emo := emo sp; edy := edy sp; etime := etime sp;
     num_ranges := 0; nmiss := nmiss sp;
     proc_code := proc_code sp; incr_type := incr_type sp;
     range_time_unit := range_time_unit sp;
     time_length := time_length sp; incr_unit := incr_unit sp;
     incr_length := incr_length sp |}.

Definition with_product (g : GRIB2Metadata)
    (pds_templ_num1 param_cat1 param_num1 time_unit1 fcst_time1 : Z)
    (sp : StatProc) : GRIB2Metadata :=
  {| gds_templ_num := gds_templ_num g; nx := nx g; ny := ny g;
     pds_templ_num := pds_templ_num1; param_cat := param_cat1;
     param_num := param_num1; time_unit := time_unit1;
     fcst_time := fcst_time1; stat_proc := sp;
     drs_templ_num := drs_templ_num g;
     R := R g; E := E g; D := D g;
     num_packed := num_packed g; pack_width := pack_width g;
     bitmap := bitmap g |}.

(** [unpack_PDS(grib2_msg)]: the message and the members of [pm] after
    the call.  A local variable that [get_bits] fills is passed as 0.
    The inner [switch (grib2_msg->md.pds_templ_num)] yields the members
    that depend on the template: the three of the ensemble, the derived
    forecast code, the three of the spatial processing, and [stat_proc]. *)
Definition unpack_PDS (m : GRIB2Message) (pm : Product)
  : result (GRIB2Message * Product) :=
  let buf := buffer m in
  let g := msg_md m in
  let* num_coords := get_bits buf 0 (bit_offset m 40) 16 in
  if num_coords >? 0 then Err Exit1
  else
    let* pds_templ_num1 :=
      get_bits buf (pds_templ_num g) (bit_offset m 56) 16 in
    let sp0 := no_ranges (stat_proc g) in
    match pds_templ_num1 with
    | 0 | 1 | 2 | 8 | 11 | 12 | 15 =>
        let* param_cat1 := get_bits buf (param_cat g) (bit_offset m 72) 8 in
        let* param_num1 := get_bits buf (param_num g) (bit_offset m 80) 8 in
        let* gen_proc1 := get_bits buf (gen_proc pm) (bit_offset m 88) 8 in
        let* time_unit1 := get_bits buf (time_unit g) (bit_offset m 136) 8 in
        let* fcst_time1 :=
          get_bits buf (fcst_time g) (bit_offset m 144) 32 in
        let* lvl1_type1 :=
          get_bits buf (lvl1_type pm) (bit_offset m 176) 8 in
        let* factor := get_bits buf 0 (bit_offset m 184) 8 in
        let* sign := get_bits buf 0 (bit_offset m 192) 1 in
        let* value := get_bits buf 0 (bit_offset m 193) 31 in
        let lvl1_1 := level_value factor sign value in
        let* lvl2_type1 :=
          get_bits buf (lvl2_type pm) (bit_offset m 224) 8 in
        let* factor2 := get_bits buf factor (bit_offset m 232) 8 in
        let* sign2 := get_bits buf sign (bit_offset m 240) 1 in
        let* value2 :=
          get_bits buf (if sign =? 1 then sint32 (- value) else value)
            (bit_offset m 241) 31 in
        let lvl2_1 := level_value factor2 sign2 value2 in
        let* tail :=
          match pds_templ_num1 with
          | 1 | 11 =>
              let* ens_type1 := get_bits buf (-1) (bit_offset m 272) 8 in
              let* perturb_num1 :=
                get_bits buf (perturb_num pm) (bit_offset m 280) 8 in
              let* nfcst1 :=
                get_bits buf (nfcst_in_ensemble pm) (bit_offset m 288) 8 in
              let* sp :=
                (if pds_templ_num1 =? 11 then
                   unpack_end_time m 296 312 320 328 336 344 352 360 392
                 else Ok sp0) in
              Ok (ens_type1, perturb_num1, nfcst1, -1,
                  (spatial_stat_proc pm, -1, spatial_num_points pm), sp)
          | 2 | 12 =>
              let* derived1 := get_bits buf (-1) (bit_offset m 272) 8 in
              let* nfcst1 :=
                get_bits buf (nfcst_in_ensemble pm) (bit_offset m 280) 8 in
              let* sp :=
                (if pds_templ_num1 =? 12 then
                   unpack_end_time m 288 304 312 320 328 336 344 352 384
                 else Ok sp0) in
              Ok (-1, perturb_num pm, nfcst1, derived1,
                  (spatial_stat_proc pm, -1, spatial_num_points pm), sp)
          | 8 =>
              let* sp :=
                unpack_end_time m 272 288 296 304 312 320 328 336 368 in
              Ok (-1, perturb_num pm, nfcst_in_ensemble pm, -1,
                  (spatial_stat_proc pm, -1, spatial_num_points pm), sp)
          | 15 =>
              let* stat1 :=
                get_bits buf (spatial_stat_proc pm) (bit_offset m 272) 8 in
              let* type1 := get_bits buf (-1) (bit_offset m 280) 8 in
              let* points1 :=
                get_bits buf (spatial_num_points pm) (bit_offset m 288) 8 in
              Ok (-1, perturb_num pm, nfcst_in_ensemble pm, -1,
                  (stat1, type1, points1), sp0)
          | _ =>
              Ok (-1, perturb_num pm, nfcst_in_ensemble pm, -1,
                  (spatial_stat_proc pm, -1, spatial_num_points pm), sp0)
          end in
        let '(ens_type1, perturb_num1, nfcst1, derived1,
              (stat1, type1, points1), sp) := tail in
        Ok (with_md m
              (with_product g pds_templ_num1 param_cat1 param_num1
                 time_unit1 fcst_time1 sp),
            {| gen_proc := gen_proc1;
               lvl1_type := lvl1_type1; lvl1 := lvl1_1;
               lvl2_type := lvl2_type1; lvl2 := lvl2_1;
               ens_type := ens_type1; perturb_num := perturb_num1;
               nfcst_in_ensemble := nfcst1; derived_fcst_code := derived1;
               spatial_stat_proc := stat1; spatial_type := type1;
               spatial_num_points := points1 |})
    | _ => Err Exit1
    end.

End WithFloats.
End Unpackgrib2Product.


(** ** unpackgrib1.c: [unpack_IS]

    The search for ["GRIB"] has the text of the search of unpackgrib2.c
    and is [Unpackgrib2.resync]. *)
Module Unpackgrib1Stream.
Import CInt BitStream Unpackgrib1.

Section WithFloats.
Context `{FloatOps}.

Definition with_IS (m : GRIBMessage) (total_len1 ed_num1 pds_len1 nx1 ny1 : Z)
    (buffer1 : list Z) : GRIBMessage :=
  {| total_len := total_len1; pds_len := pds_len1;
     pds_ext_len := pds_ext_len m;
     gds_len := gds_len m; bds_len := bds_len m; ed_num := ed_num1;
     table_ver := table_ver m; center_id := center_id m;
     gen_proc := gen_proc m; grid_type := grid_type m;
     param := param m; level_type := level_type m;
     lvl1 := lvl1 m; lvl2 := lvl2 m;
     fcst_units := fcst_units m; p1 := p1 m; p2 := p2 m;
     t_range := t_range m; navg := navg m; nmiss := nmiss m;
     sub_center_id := sub_center_id m; bds_flag := bds_flag m;
     pack_width := pack_width m; gds_included := gds_included m;
     bms_included := bms_included m;
     yr := yr m; mo := mo m; dy := dy m; time := time m;
     offset := offset m; E := E m; D := D m;
     data_rep := data_rep m; nx := nx1; ny := ny1;
     buffer := buffer1; pds_ext := pds_ext m; bitmap := bitmap m;
     bcapacity := bcapacity m; bitmap_len := bitmap_len m;
     ref_val := ref_val m; gridpoints := gridpoints m;
     gcapacity := gcapacity m |}.

(** [unpack_IS(fp,grib_msg)]: the returned status, the message and the
    rest of the stream.  [temp0] is the indeterminate content of the
    local array [temp] (8 octets), [junk n] that of byte [n] of a buffer
    that [malloc] returns.  [buffer_capacity] is the length of the list
    [buffer], which has the bytes that the pointer [buffer] owns; a store
    past its end, by [memcpy] or by [fread], is undefined, and so is the
    read of [strncmp] outside it. *)
Definition unpack_IS (temp0 : list Z) (junk : nat -> Z) (fp : list Z)
    (m : GRIBMessage) : result (Z * GRIBMessage * list Z) :=
  let '(rd, fp1) := Unpackgrib2.fread 4 fp in
  if negb (Z.of_nat (length rd) =? 4) then
    if Z.of_nat (length rd) =? 0 then Ok (-1, m, fp1) else Ok (1, m, fp1)
  else
    let temp := list_inserts 0 rd temp0 in
    let* found := Unpackgrib2.resync (S (length fp1)) temp fp1 in
    match found with
    | None => Ok (-1, m, [])
    | Some (temp1, fp2) =>
        let '(rd2, fp3) := Unpackgrib2.fread 4 fp2 in
        if Z.of_nat (length rd2) =? 0 then Ok (1, m, fp3)
        else
          let temp2 := list_inserts 4 rd2 temp1 in
          let* len := get_bits temp2 (total_len m) 32 24 in
          let '(total_len1, ed_num1, pds_len1) :=
            if len =? 24 then (sint32 (len + 7), 0, len)
            else (len, 1, pds_len m) in
          let required_size := uint64 (sint32 (total_len1 + 4)) in
          let grown := required_size >? Z.of_nat (length (buffer m)) in
          let buffer0 :=
            if grown then Unpackgrib2.malloc junk required_size
            else buffer m in
          let* buffer1 :=
            Unpackgrib2.store_bytes 0 (take 8 temp2) buffer0 in
          let num := uint64 (sint32 (total_len1 - 8)) in
          let '(rd3, fp4) := Unpackgrib2.fread num fp3 in
          let* buffer2 := Unpackgrib2.store_bytes 8 rd3 buffer1 in
          let status := sint32 (Z.of_nat (length rd3)) in
          let m1 := with_IS m total_len1 ed_num1 pds_len1 0 0 buffer2 in
          if negb (uint64 status =? num) then Ok (1, m1, fp4)
          else if (total_len1 - 4 <? 0)
                  || (Z.of_nat (length buffer2) <? total_len1) then
            Err Undefined
          else Ok (0, m1, fp4)
    end.

(** the 24 bits at bit offset 32 of the Indicator Section [IS], that is
    its octets 5 to 7 *)
Definition length_24 (IS : list Z) : Z :=
  IS !!! 4%nat * 65536 + IS !!! 5%nat * 256 + IS !!! 6%nat.

End WithFloats.
End Unpackgrib1Stream.


(** ** grib1to2.c *)
Module Grib1to2.
Import CInt BitStream.

(** *** [add_time] *)

(** [int mdays[]={0,31,28,31,30,31,30,31,31,30,31,30,31};]: the initial
    value of the global array.  [add_time] writes [mdays[2]], so the
    array is threaded through the functions that use it. *)
Definition mdays : list Z := [0; 31; 28; 31; 30; 31; 30; 31; 31; 30; 31; 30; 31].

(** [(yr % 4) == 0 && ((yr % 100 != 0) || (yr % 400) == 0)] *)
Definition is_leap (yr : Z) : bool :=
  (Z.rem yr 4 =? 0) && (negb (Z.rem yr 100 =? 0) || (Z.rem yr 400 =? 0)).

(** [if (leap) mdays[2]=29; else mdays[2]=28;] *)
Definition set_feb (md : list Z) (yr : Z) : list Z :=
  <[2%nat := if is_leap yr then 29 else 28]> md.

(** the Gregorian rule, on the mathematical remainder: a year is a leap
    year when 4 divides it, unless 100 divides it and 400 does not *)
Definition gregorian_leap (yr : Z) : Prop :=
  yr mod 4 = 0 /\ (yr mod 100 <> 0 \/ yr mod 400 = 0).

Definition mdays_at (md : list Z) (mo : Z) : result Z :=
  if mo <? 0 then Err Undefined
  else match md !! Z.to_nat mo with
       | Some d => Ok d
       | None => Err Undefined
       end.

(** the loop [while] of [add_time], which runs as long as the day is
    above [mdays] of the month *)
Fixpoint roll_days (fuel : nat) (md : list Z) (yr mo dy : Z)
  : result (list Z * Z * Z * Z) :=
  match fuel with
  | O => Err OutOfFuel
  | S fuel' =>
      let* lim := mdays_at md mo in
      if dy >? lim then
        let dy1 := dy - lim in
        let mo1 := mo + 1 in
        if mo1 >? 12 then
          let yr1 := sint32 (yr + 1) in
          roll_days fuel' (set_feb md yr1) yr1 1 dy1
        else roll_days fuel' md yr mo1 dy1
      else Ok (md, yr, mo, dy)
  end.

(** [add_time(time_to_add,time_units,&yr,&mo,&dy,&time)]: the array
    [mdays] and the four variables after the call *)
Definition add_time (md : list Z) (time_to_add time_units yr mo dy time : Z)
  : result (list Z * Z * Z * Z * Z) :=
  let hr := Z.quot time 100 in
  let min := Z.rem time 100 in
  let* min1 :=
    match time_units with
    | 0 => Ok (sint32 (min + time_to_add))
    | 1 => Ok (sint32 (min + sint32 (time_to_add * 60)))
    | 2 => Ok (sint32 (min + sint32 (time_to_add * 1440)))
    | _ => Err Exit1
    end in
  if min1 >=? 60 then
    let hr1 := sint32 (hr + Z.quot min1 60) in
    let min2 := Z.rem min1 60 in
    if hr1 >=? 24 then
      let dy1 := sint32 (dy + Z.quot hr1 24) in
      let hr2 := Z.rem hr1 24 in
      let* r := roll_days (S (S (Z.to_nat dy1))) (set_feb md yr) yr mo dy1 in
      let '(md1, yr1, mo1, dy2) := r in
      Ok (md1, yr1, mo1, dy2, sint32 (hr2 * 100 + min2))
    else Ok (md, yr, mo, dy, sint32 (hr1 * 100 + min2))
  else Ok (md, yr, mo, dy, sint32 (hr * 100 + min1)).

(** The calendar that [add_time] walks: the length of month [mo] of year
    [yr] as the array [mdays] holds it once [mdays[2]] is set for [yr],
    and the count of the minutes from the start of year 1 to a date and
    time [hhmm]. *)
Definition month_length (yr mo : Z) : Z :=
  if mo =? 2 then (if is_leap yr then 29 else 28)
  else mdays !!! Z.to_nat mo.

Definition days_before_month (yr mo : Z) : Z :=
  fold_right Z.add 0
    (map (fun k => month_length yr (Z.of_nat k)) (seq 1 (Z.to_nat (mo - 1)))).

Definition days_before_year (yr : Z) : Z :=
  365 * (yr - 1) + (yr - 1) / 4 - (yr - 1) / 100 + (yr - 1) / 400.

Definition minutes_of (yr mo dy time : Z) : Z :=
  ((days_before_year yr + days_before_month yr mo + dy) * 24
   + Z.quot time 100) * 60 + Z.rem time 100.

(** the minutes in a unit of [time_units]: 0 minute, 1 hour, 2 day *)
Definition unit_minutes (time_units : Z) : Z :=
  match time_units with
  | 0 => 1
  | 1 => 60
  | _ => 1440
  end.

(** *** [pack_PDS] *)

Section WithFloats.
Context `{FloatOps}.
Import Unpackgrib1.

(** the six level variables of [pack_PDS] *)
Record levels : Type := {
  lvl1_type : Z; lvl1_scale : Z; lvl1_value : Z;
  lvl2_type : Z; lvl2_scale : Z; lvl2_value : Z
}.

Definition set_types (t1 t2 : Z) (l : levels) : levels :=
  {| lvl1_type := t1; lvl1_scale := lvl1_scale l; lvl1_value := lvl1_value l;
     lvl2_type := t2; lvl2_scale := lvl2_scale l; lvl2_value := lvl2_value l |}.

Definition set_type1 (t1 : Z) (l : levels) : levels :=
  set_types t1 (lvl2_type l) l.

Definition set_scales (s1 s2 : Z) (l : levels) : levels :=
  {| lvl1_type := lvl1_type l; lvl1_scale := s1; lvl1_value := lvl1_value l;
     lvl2_type := lvl2_type l; lvl2_scale := s2; lvl2_value := lvl2_value l |}.

Definition set_scale1 (s1 : Z) (l : levels) : levels :=
  set_scales s1 (lvl2_scale l) l.

Definition set_values (v1 v2 : Z) (l : levels) : levels :=
  {| lvl1_type := lvl1_type l; lvl1_scale := lvl1_scale l; lvl1_value := v1;
     lvl2_type := lvl2_type l; lvl2_scale := lvl2_scale l; lvl2_value := v2 |}.

(** [switch (msg->level_type)], lines 2186-2334.  [case 104] has no
    [break]: the statements of [case 105] run after its own. *)
Definition pds_levels (msg : GRIBMessage) : levels :=
  let l0 := {| lvl1_type := level_type msg; lvl1_scale := 0;
               lvl1_value := lvl1 msg;
               lvl2_type := 255; lvl2_scale := 255;
               lvl2_value := lvl2 msg |} in
  let case_105 := set_type1 103 in
  match level_type msg with
  | 20 | 100 => set_scale1 (-2) l0
  | 101 => set_scales (-3) (-3) (set_types 100 100 l0)
  | 102 => set_type1 101 l0
  | 103 => set_type1 102 l0
  | 104 => case_105 (set_scales (-2) (-2) (set_types 102 102 l0))
  | 105 => case_105 l0
  | 106 => set_scales (-2) (-2) (set_types 103 103 l0)
  | 107 => set_scale1 4 (set_type1 104 l0)
  | 108 => set_scales 2 2 (set_types 104 104 l0)
  | 109 => set_type1 105 l0
  | 110 => set_types 105 105 l0
  | 111 => set_scale1 2 (set_type1 106 l0)
  | 112 => set_scales 2 2 (set_types 106 106 l0)
  | 113 => set_type1 107 l0
  | 114 => set_values (475 - lvl1 msg) (475 - lvl2 msg) (set_types 107 107 l0)
  | 115 => set_scale1 (-2) (set_type1 108 l0)
  | 116 => set_scales (-2) (-2) (set_types 108 108 l0)
  | 117 => set_scale1 9 (set_type1 109 l0)
  | 119 => set_scale1 4 (set_type1 111 l0)
  | 120 => set_scales 2 2 (set_types 111 111 l0)
  | 121 => set_values (1100 - lvl1 msg) (1100 - lvl2 msg)
             (set_scales (-2) (-2) (set_types 100 100 l0))
  | 125 => set_scale1 2 (set_type1 103 l0)
  | 128 => set_values (1100 - lvl1 msg) (1100 - lvl2 msg)
             (set_scales 3 3 (set_types 104 104 l0))
  | 141 => set_values (lvl1 msg) (1100 - lvl2 msg)
             (set_scales (-3) (-2) (set_types 100 100 l0))
  | _ => l0
  end.

(** [switch (msg->t_range)], lines 2115-2137: the length of the section
    and the template number *)
Definition pds_template (t_range1 : Z) : result (Z * Z) :=
  match t_range1 with
  | 0 | 1 | 10 => Ok (34, 0)
  | 2 | 3 | 4 => Ok (58, 8)
  | _ => Err Exit1
  end.

(** The calls of [set_bits] of [pack_PDS], in the order of the source, as
    lists of writes [(offset, bits, src)]. *)

Definition section_writes (offset length template_num : Z) : list (Z * Z * Z) :=
  [ (offset, 32, length);
    (offset + 32, 8, 4);
    (offset + 40, 16, 0);
    (offset + 56, 16, template_num) ].

Definition product_writes (offset parameter_category parameter_number : Z)
    (msg : GRIBMessage) : list (Z * Z * Z) :=
  [ (offset + 72, 8, parameter_category);
    (offset + 80, 8, parameter_number);
    (offset + 88, 8, 255);
    (offset + 96, 8, gen_proc msg);
    (offset + 104, 8, 255);
    (offset + 112, 16, 65535);
    (offset + 128, 8, 255);
    (offset + 136, 8, fcst_units msg) ].

(** [switch (msg->t_range) { case 0: case 10: ... case 1: ... }]: the
    forecast time; no call for the other time ranges *)
Definition forecast_time_writes (offset : Z) (msg : GRIBMessage)
  : list (Z * Z * Z) :=
  match t_range msg with
  | 0 | 10 => [ (offset + 144, 32, p1 msg) ]
  | 1 => [ (offset + 144, 32, 0) ]
  | _ => []
  end.

Definition level_writes (offset : Z) (l : levels) : list (Z * Z * Z) :=
  [ (offset + 176, 8, lvl1_type l);
    (offset + 184, 1, if lvl1_scale l <? 0 then 1 else 0);
    (offset + 185, 7, Z.abs (lvl1_scale l));
    (offset + 192, 32, lvl1_value l);
    (offset + 224, 8, lvl2_type l);
    (offset + 232, 1, if lvl2_scale l <? 0 then 1 else 0);
    (offset + 233, 7, Z.abs (lvl2_scale l));
    (offset + 240, 32, lvl2_value l) ].

(** the overall end time, the number of time ranges and the number
    missing *)
Definition end_time_writes (offset yr1 mo1 dy1 time1 : Z) : list (Z * Z * Z) :=
  [ (offset + 272, 16, yr1);
    (offset + 288, 8, mo1);
    (offset + 296, 8, dy1);
    (offset + 304, 8, Z.quot time1 100);
    (offset + 312, 8, Z.rem time1 100);
    (offset + 320, 8, 0);
    (offset + 328, 8, 1);
    (offset + 336, 32, 0) ].

(** [int process=255,time_incr;] and the two switches that set them,
    lines 2373-2399; [time_incr] is read only after it was set, its
    indeterminate initial value is 0 here *)
Definition statistic (msg : GRIBMessage) : Z * Z :=
  let '(process, time_incr) :=
    match t_range msg with
    | 4 => (1, 2)
    | _ => (255, 0)
    end in
  if process =? 255 then
    match param msg with
    | 15 => (2, 2)      (* Maximum temperature *)
    | 16 => (3, 2)      (* Minimum temperature *)
    | _ => (process, time_incr)
    end
  else (process, time_incr).

Definition process_writes (offset process time_incr : Z) (msg : GRIBMessage)
  : list (Z * Z * Z) :=
  [ (offset + 368, 8, process);
    (offset + 376, 8, time_incr);
    (offset + 384, 8, fcst_units msg);
    (offset + 392, 32, p2 msg - p1 msg);
    (offset + 424, 8, fcst_units msg);
    (offset + 432, 32, 0) ].

(** [pack_PDS(msg,parameter_category,parameter_number,grib2_buffer,
    &offset)]: the array [mdays], the buffer and the offset after the
    call *)
Definition pack_PDS (md : list Z) (msg : GRIBMessage)
    (parameter_category parameter_number : Z) (grib2_buffer : list Z)
    (offset : Z) : result (list Z * list Z * Z) :=
  let* lt := pds_template (t_range msg) in
  let '(length, template_num) := lt in
  let* b1 :=
    set_bits_all grib2_buffer (section_writes offset length template_num) in
  (* switch (template_num) { case 0: case 8: *)
  let* b2 :=
    set_bits_all b1
      (product_writes offset parameter_category parameter_number msg) in
  let* b3 := set_bits_all b2 (forecast_time_writes offset msg) in
  let* b4 := set_bits_all b3 (level_writes offset (pds_levels msg)) in
  if template_num =? 8 then
    let* t := add_time md (p2 msg) (fcst_units msg)
                (yr msg) (mo msg) (dy msg) (time msg) in
    let '(md1, yr1, mo1, dy1, time1) := t in
    let* b5 := set_bits_all b4 (end_time_writes offset yr1 mo1 dy1 time1) in
    let '(process, time_incr) := statistic msg in
    if process =? 255 then Err Exit1
    else
      let* b6 :=
        set_bits_all b5 (process_writes offset process time_incr msg) in
      Ok (md1, b6, offset + length * 8)
  else Ok (md, b4, offset + length * 8).

(** all the writes of [pack_PDS] for a template 0 message, and for a
    template 8 message whose end time is [yr1], [mo1], [dy1], [time1] *)
Definition template0_writes (offset cat num : Z) (msg : GRIBMessage)
  : list (Z * Z * Z) :=
  section_writes offset 34 0 ++ product_writes offset cat num msg
    ++ forecast_time_writes offset msg
    ++ level_writes offset (pds_levels msg).

Definition template8_writes (offset cat num : Z) (msg : GRIBMessage)
    (yr1 mo1 dy1 time1 : Z) : list (Z * Z * Z) :=
  section_writes offset 58 8 ++ product_writes offset cat num msg
    ++ forecast_time_writes offset msg
    ++ level_writes offset (pds_levels msg)
    ++ end_time_writes offset yr1 mo1 dy1 time1
    ++ process_writes offset (fst (statistic msg)) (snd (statistic msg)) msg.

(** *** [pack_IDS] *)

(** the calls of [set_bits] of [pack_IDS], in the order of the source *)
Definition IDS_writes (offset : Z) (msg : GRIBMessage) : list (Z * Z * Z) :=
  [ (offset, 32, 21);
    (offset + 32, 8, 1);
    (offset + 40, 16, center_id msg);
    (offset + 56, 16, sub_center_id msg);
    (offset + 72, 8, 18);
    (offset + 80, 8, 0);
    (offset + 88, 8, 1);
    (offset + 96, 16, yr msg);
    (offset + 112, 8, mo msg);
    (offset + 120, 8, dy msg);
    (offset + 128, 8, Z.quot (time msg) 100);
    (offset + 136, 8, Z.rem (time msg) 100);
    (offset + 144, 8, 0);
    (offset + 152, 8, 255);
    (offset + 160, 8, 255) ].

(** [pack_IDS(msg,grib2_buffer,&offset)]: the buffer and the offset
    after the call *)
Definition pack_IDS (msg : GRIBMessage) (grib2_buffer : list Z) (offset : Z)
  : result (list Z * Z) :=
  let* b := set_bits_all grib2_buffer (IDS_writes offset msg) in
  Ok (b, offset + 21 * 8).

(** *** [pack_BMS] *)

(** [for (n=0; n < msg->bitmap_len; ++n) { int bval=msg->bitmap[n];
    set_bits(grib2_buffer,bval,off,1); ++off; }]: [count] iterations
    from index [n] on; a read beyond the array [bitmap] is undefined *)
Fixpoint pack_bitmap (count : nat) (bitmap1 : list Z) (n : nat)
    (buf : list Z) (off : Z) : result (list Z) :=
  match count with
  | O => Ok buf
  | S c =>
      match bitmap1 !! n with
      | None => Err Undefined
      | Some bval =>
          let* buf' := set_bits buf bval off 1 in
          pack_bitmap c bitmap1 (S n) buf' (off + 1)
      end
  end.

(** [pack_BMS(msg,grib2_buffer,&offset)]: the buffer and the offset
    after the call; [length] is a [size_t] *)
Definition pack_BMS (msg : GRIBMessage) (grib2_buffer : list Z) (offset : Z)
  : result (list Z * Z) :=
  let length :=
    if negb (bms_included msg =? 0)
    then uint64 (6 + uint64 (bitmap_len msg + 7) / 8)
    else 6 in
  let* b1 := set_bits grib2_buffer (sint32 length) offset 32 in
  let* b2 := set_bits b1 6 (offset + 32) 8 in
  let* b3 :=
    (if length >? 6 then
       let* b := set_bits b2 0 (offset + 40) 8 in
       pack_bitmap (Z.to_nat (bitmap_len msg)) (bitmap msg) 0 b (offset + 48)
     else set_bits b2 255 (offset + 40) 8) in
  Ok (b3, offset + length * 8).

(** *** [pack_DRS] *)

(** [float E=msg->E; if (E < 0) { E=0x8000-E; }] and the conversion of
    [E] to the [int] argument of [set_bits].  A [float] holds every
    integer of magnitude up to [2^24], on which this arithmetic is that
    of the integers; a scale factor beyond is not part of this
    development. *)
Definition scale_code (x : Z) : result Z :=
  if Z.abs x <? 2 ^ 23 then Ok (if x <? 0 then 32768 - x else x)
  else Err Unmodelled.

Section Reinterpret.

(** the [int] that shares its storage with a [float]: [u.f=x; ... u.i] *)
Variable bits_of_float : double -> Z.

(** the calls of [set_bits] of [pack_DRS], in the order of the source *)
Definition DRS_writes (offset Ecode Dcode : Z) (msg : GRIBMessage)
  : list (Z * Z * Z) :=
  [ (offset, 32, 21);
    (offset + 32, 8, 5);
    (offset + 40, 32, sint32 (nx msg * ny msg));
    (offset + 72, 16, 0);
    (offset + 88, 32,
     bits_of_float
       (to_float (fmul (ref_val msg) (fpow (of_int 10) (of_int (D msg))))));
    (offset + 120, 16, Ecode);
    (offset + 136, 16, Dcode);
    (offset + 152, 8, pack_width msg);
    (offset + 160, 8, 0) ].

(** [pack_DRS(msg,grib2_buffer,&offset)]: the buffer and the offset
    after the call *)
Definition pack_DRS (msg : GRIBMessage) (grib2_buffer : list Z) (offset : Z)
  : result (list Z * Z) :=
  let* Ecode := scale_code (E msg) in
  let* Dcode := scale_code (D msg) in
  let* b := set_bits_all grib2_buffer (DRS_writes offset Ecode Dcode msg) in
  Ok (b, offset + 21 * 8).

End Reinterpret.

(** *** [pack_DS] *)

(** [int pval=lround((msg->gridpoints[n]-msg->ref_val)*d/e);] *)
Definition packed_int (msg : GRIBMessage) (d e gp : double) : Z :=
  sint32 (lround (fdiv (fmul (fsub gp (ref_val msg)) d) e)).

(** [for (n=0; n < msg->nx*msg->ny; ++n) { if (msg->gridpoints[n] !=
    GRIB_MISSING_VALUE) { int pval=...; set_bits(grib2_buffer,pval,off,
    msg->pack_width); off+=msg->pack_width; } }]: [count] iterations from
    index [n] on; a read beyond the array [gridpoints] is undefined *)
Fixpoint pack_values (count : nat) (msg : GRIBMessage) (d e : double)
    (n : nat) (buf : list Z) (off : Z) : result (list Z) :=
  match count with
  | O => Ok buf
  | S c =>
      match gridpoints msg !! n with
      | None => Err Undefined
      | Some gp =>
          if negb (feqb gp GRIB_MISSING_VALUE) then
            let* buf' :=
              set_bits buf (packed_int msg d e gp) off
                (uint64 (pack_width msg)) in
            pack_values c msg d e (S n) buf' (uint64 (off + pack_width msg))
          else pack_values c msg d e (S n) buf off
      end
  end.

(** [pack_DS(msg,grib2_buffer,&offset)]: the buffer and the offset after
    the call *)
Definition pack_DS (msg : GRIBMessage) (grib2_buffer : list Z) (offset : Z)
  : result (list Z * Z) :=
  let length :=
    uint64 (sint32 (5 + Z.quot (sint32 (nx msg * ny msg * pack_width msg + 7)) 8)) in
  let* b1 := set_bits grib2_buffer (sint32 length) offset 32 in
  let* b2 := set_bits b1 7 (offset + 32) 8 in
  let d := to_float (fpow (of_int 10) (of_int (D msg))) in
  let e := to_float (fpow (of_int 2) (of_int (E msg))) in
  let* b3 :=
    pack_values (Z.to_nat (uint64 (sint32 (nx msg * ny msg)))) msg d e 0 b2
      (offset + 40) in
  Ok (b3, offset + length * 8).

(** *** The output of [main] for one message *)

(** [char head[]={'G','R','I','B',0,0,0,2,0,0,0,0,0,0,0,0};] and
    [char tail[]={'7','7','7','7'};] *)
Definition head0 : list Z := [71; 82; 73; 66; 0; 0; 0; 2; 0; 0; 0; 0; 0; 0; 0; 0].
Definition tail0 : list Z := [55; 55; 55; 55].

(** [size_t l=length+20; set_bits(&head[8],(l >> 32),0,32);
    set_bits(&head[12],(l & 0xffffffff),0,32); fwrite(head,1,16,ofile);
    fwrite(grib2_buffer,1,length,ofile); fwrite(tail,1,4,ofile);]: the
    array [head] after the calls and the octets written *)
Definition write_message (head : list Z) (length : Z) (grib2_buffer : list Z)
  : result (list Z * list Z) :=
  let l := uint64 (length + 20) in
  let* h8 := set_bits (drop 8 head) (sint32 (Z.shiftr l 32)) 0 32 in
  let head1 := take 8 head ++ h8 in
  let* h12 := set_bits (drop 12 head1) (sint32 (Z.land l 4294967295)) 0 32 in
  let head2 := take 12 head1 ++ h12 in
  Ok (head2, head2 ++ take (Z.to_nat length) grib2_buffer ++ tail0).

End WithFloats.
End Grib1to2.

(** ** grib2to1.c *)
Module Grib2to1.
Import CInt BitStream.

Section WithFloats.
Context `{FloatOps}.
Import Unpackgrib2.

Definition array_at (a : list Z) (i : nat) : result Z :=
  match a !! i with
  | Some v => Ok v
  | None => Err Undefined
  end.

(** *** [mapStatisticalEndTime] and [mapTimeRange] *)

Definition mapStatisticalEndTime (msg : GRIB2Message) (grid : GRIB2Grid)
  : result Z :=
  let sp := stat_proc (md grid) in
  match time_unit (md grid) with
  | 0 => Ok (Z.rem (Z.quot (etime sp) 100) 100
             - Z.rem (Z.quot (time msg) 100) 100)
  | 1 => Ok (Z.quot (etime sp) 10000 - Z.quot (time msg) 10000)
  | 2 => Ok (edy sp - dy msg)
  | 3 => Ok (emo sp - mo msg)
  | 4 => Ok (eyr sp - yr msg)
  | _ => Err Exit1
  end.

(** the variables that [mapTimeRange] writes through its pointers *)
Record TimeRange : Type := {
  p1 : Z; p2 : Z; t_range : Z; n_avg : Z; n_missing : Z
}.

(** [*t_range=..; *p1=fcst_time; *p2=mapStatisticalEndTime(msg,grid);
    if (incr_length[0] == 0) *n_avg=0; else exit(1);] *)
Definition map_single_range (msg : GRIB2Message) (grid : GRIB2Grid)
    (out : TimeRange) (t_range1 : Z) : result TimeRange :=
  let* p2_1 := mapStatisticalEndTime msg grid in
  let* incr := array_at (incr_length (stat_proc (md grid))) 0 in
  if incr =? 0 then
    Ok {| p1 := fcst_time (md grid); p2 := p2_1; t_range := t_range1;
          n_avg := 0; n_missing := n_missing out |}
  else Err Exit1.

(** [mapTimeRange(msg,grid,&p1,&p2,&t_range,&n_avg,&n_missing,center)]:
    [out] holds the five variables before the call, the result holds them
    after it *)
Definition mapTimeRange (msg : GRIB2Message) (grid : GRIB2Grid)
    (out : TimeRange) (center : Z) : result TimeRange :=
  let g := md grid in
  let sp := stat_proc g in
  match pds_templ_num g with
  | 0 | 1 | 2 | 15 =>
      Ok {| p1 := fcst_time g; p2 := 0;
            t_range := if time_unit g =? 0 then 10 else 0;
            n_avg := 0; n_missing := 0 |}
  | 8 | 11 | 12 =>
      let* out1 :=
        (if num_ranges sp >? 1 then
           if (center =? 7) && (num_ranges sp =? 2) then
             (* NCEP CFSR monthly grids *)
             let* p2_1 := array_at (incr_length sp) 0 in
             let* len1 := array_at (time_length sp) 1 in
             let* len0 := array_at (time_length sp) 0 in
             let* code := array_at (proc_code sp) 0 in
             let* t_range1 :=
               match code with
               | 193 => Ok 113 | 194 => Ok 123 | 195 => Ok 128
               | 196 => Ok 129 | 197 => Ok 130 | 198 => Ok 131
               | 199 => Ok 132 | 200 => Ok 133 | 201 => Ok 134
               | 202 => Ok 135 | 203 => Ok 136 | 204 => Ok 137
               | 205 => Ok 138 | 206 => Ok 139 | 207 => Ok 140
               | _ => Err Exit1
               end in
             Ok {| p1 := p2_1 - len1; p2 := p2_1; t_range := t_range1;
                   n_avg := len0; n_missing := n_missing out |}
           else Err Exit1
         else
           let* code := array_at (proc_code sp) 0 in
           match code with
           | 0 => map_single_range msg grid out 3      (* average *)
           | 1 => map_single_range msg grid out 4      (* accumulation *)
           | 4 => map_single_range msg grid out 5      (* difference *)
           | 2 | 3 => map_single_range msg grid out 2  (* maximum, minimum *)
           | _ =>
               (* patch for NCEP grids *)
               if (code =? 255) && (center =? 7) then
                 if (disc msg =? 0) && (param_cat g =? 0) then
                   match param_num g with
                   | 4 | 5 => map_single_range msg grid out 2
                   | _ => Ok out
                   end
                 else Ok out
               else Err Exit1
           end) in
      Ok {| p1 := p1 out1; p2 := p2 out1; t_range := t_range out1;
            n_avg := n_avg out1; n_missing := nmiss sp |}
  | _ => Err Exit1
  end.

(** the grid [grid] with another year, month and day of the overall end
    time, and the message [msg] with another reference date *)
Definition with_end_date (grid : GRIB2Grid) (eyr1 emo1 edy1 : Z) : GRIB2Grid :=
  let g := md grid in
  let sp := stat_proc g in
  {| md :=
       {| gds_templ_num := gds_templ_num g; nx := nx g; ny := ny g;
          pds_templ_num := pds_templ_num g; param_cat := param_cat g;
          param_num := param_num g; time_unit := time_unit g;
          fcst_time := fcst_time g;
          stat_proc :=
            {| eyr := eyr1; emo := emo1; edy := edy1; etime := etime sp;
               num_ranges := num_ranges sp; nmiss := nmiss sp;
               proc_code := proc_code sp; incr_type := incr_type sp;
               range_time_unit := range_time_unit sp;
               time_length := time_length sp; incr_unit := incr_unit sp;
               incr_length := incr_length sp |};
          drs_templ_num := drs_templ_num g; R := R g; E := E g; D := D g;
          num_packed := num_packed g; pack_width := pack_width g;
          bitmap := bitmap g |};
     gridpoints := gridpoints grid;
     gcapacity := gcapacity grid |}.

Definition with_ref_date (msg : GRIB2Message) (yr1 mo1 dy1 : Z) : GRIB2Message :=
  {| buffer := buffer msg; buffer_capacity := buffer_capacity msg;
     offset := offset msg; total_len := total_len msg; disc := disc msg;
     ed_num := ed_num msg; center_id := center_id msg;
     yr := yr1; mo := mo1; dy := dy1; time := time msg;
     msg_md := msg_md msg; num_grids := num_grids msg; grids := grids msg;
     grid_capacity := grid_capacity msg |}.

(** the product definition templates with a statistical process, the
    second [case] list of [mapTimeRange] *)
Definition statistical_template (templ : Z) : bool :=
  match templ with
  | 8 | 11 | 12 => true
  | _ => false
  end.

(** *** The pack width, [main] lines 2749-2782 *)



(** [num_to_pack]: the count of [bitmap[m] == 1] for [m < num_points],
    or [num_points] without a bit map *)
Fixpoint count_ones (count : nat) (bm : list Z) (m : nat) : result Z :=
  match count with
  | O => Ok 0
  | S c =>
      let* b := array_at bm m in
      let* rest := count_ones c bm (S m) in
      Ok (if b =? 1 then rest + 1 else rest)
  end.

(** [gridpoints[m] != GRIB_MISSING_VALUE]: the point is packed *)
Definition present (gp : double) : bool := negb (feqb gp GRIB_MISSING_VALUE).







(** *** [packPDS] *)

(** What [packPDS] reads beside the members carried by [GRIB2Message]
    and [GRIB2Metadata] above: the [ParameterData] that
    [mapParameterData] returns ([table_version], [parameter_code]), the
    three values that [mapLevelData] writes through its pointers
    ([level_type], [level1], [level2]), and members of the metadata
    ([gen_proc] and [lvl2_type] of the grid, the others of [msg->md]).
    [mapParameterData] and [mapLevelData] themselves are not part of this
    development. *)
Record ProductData : Type := {
  table_version : Z; parameter_code : Z;
  level_type : Z; level1 : Z; level2 : Z;
  gen_proc : Z; lvl2_type : Z;
  ens_type : Z; perturb_num : Z; nfcst_in_ensemble : Z;
  derived_fcst_code : Z;
  spatial_stat_proc : Z; spatial_type : Z; spatial_num_points : Z
}.

(** the calls of [setBits] of [packPDS], in the order of the source, as
    lists of writes [(offset, bits, src)]; the offsets are sums in
    [size_t] *)
Definition PDS_head_writes (offset : Z) (msg : GRIB2Message)
    (grid : GRIB2Grid) (pd : ProductData) : list (Z * Z * Z) :=
  [ (offset, 24, 28);
    (uint64 (offset + 24), 8, table_version pd);
    (uint64 (offset + 32), 8, center_id msg);
    (uint64 (offset + 40), 8, gen_proc pd);
    (uint64 (offset + 48), 8, 255);
    (uint64 (offset + 56), 8, match bitmap (md grid) with
                              | None => 128
                              | Some _ => 192
                              end);
    (uint64 (offset + 64), 8, parameter_code pd);
    (uint64 (offset + 72), 8, level_type pd) ].

Definition PDS_level_writes (offset : Z) (pd : ProductData)
  : list (Z * Z * Z) :=
  if lvl2_type pd =? 255 then [ (uint64 (offset + 80), 16, level1 pd) ]
  else [ (uint64 (offset + 80), 8, level1 pd);
         (uint64 (offset + 88), 8, level2 pd) ].

Definition PDS_date_writes (offset : Z) (msg : GRIB2Message)
  : list (Z * Z * Z) :=
  [ (uint64 (offset + 96), 8, Z.rem (yr msg) 100);
    (uint64 (offset + 104), 8, mo msg);
    (uint64 (offset + 112), 8, dy msg);
    (uint64 (offset + 120), 8, Z.quot (time msg) 10000);
    (uint64 (offset + 128), 8, Z.rem (Z.quot (time msg) 100) 100) ].

(** no call for the time unit 13 (second) *)
Definition PDS_unit_writes (offset : Z) (msg : GRIB2Message)
  : list (Z * Z * Z) :=
  if time_unit (msg_md msg) =? 13 then []
  else [ (uint64 (offset + 136), 8, time_unit (msg_md msg)) ].

Definition PDS_range_writes (offset : Z) (tr : TimeRange)
  : list (Z * Z * Z) :=
  (if t_range tr =? 10 then [ (uint64 (offset + 144), 16, p1 tr) ]
   else [ (uint64 (offset + 144), 8, p1 tr);
          (uint64 (offset + 152), 8, p2 tr) ])
  ++ [ (uint64 (offset + 160), 8, t_range tr) ].

(** [D=msg->md.D; if (D < 0) { D=-D+0x8000; }] *)
Definition decimal_code (D1 : Z) : Z :=
  if D1 <? 0 then sint32 (- D1 + 32768) else D1.

Definition PDS_tail_writes (offset : Z) (msg : GRIB2Message)
    (ids : Identification) : list (Z * Z * Z) :=
  [ (uint64 (offset + 192), 8, sint32 (Z.quot (yr msg) 100 + 1));
    (uint64 (offset + 200), 8, sub_center_id ids);
    (uint64 (offset + 208), 16, decimal_code (D (msg_md msg))) ].

(** the extension of the section after [( *offset)+=224]: the writes and
    the bits that the offset moves by *)
Definition PDS_ext_writes (offset1 : Z) (pd : ProductData)
  : list (Z * Z * Z) * Z :=
  if ens_type pd >=? 0 then
    ([ (uint64 (offset1 - 224), 24, 43);
       (uint64 (offset1 + 96), 8, ens_type pd);
       (uint64 (offset1 + 104), 8, perturb_num pd);
       (uint64 (offset1 + 112), 8, nfcst_in_ensemble pd) ], 120)
  else if derived_fcst_code pd >=? 0 then
    ([ (uint64 (offset1 - 224), 24, 42);
       (uint64 (offset1 + 96), 8, derived_fcst_code pd);
       (uint64 (offset1 + 104), 8, nfcst_in_ensemble pd) ], 112)
  else if spatial_type pd >=? 0 then
    ([ (uint64 (offset1 - 224), 24, 43);
       (uint64 (offset1 + 96), 8, spatial_stat_proc pd);
       (uint64 (offset1 + 104), 8, spatial_type pd);
       (uint64 (offset1 + 112), 8, spatial_num_points pd) ], 120)
  else ([], 0).

(** [packPDS(msg,grid_number,grib1_buffer,&offset)]: the buffer and the
    offset after the call.  [grid] is [msg->grids[grid_number]], [ids]
    carries [msg->sub_center_id], [out] the indeterminate content of the
    locals [p1], [p2], [t_range], [n_avg] and [n_missing]. *)
Definition packPDS (msg : GRIB2Message) (grid : GRIB2Grid)
    (ids : Identification) (pd : ProductData) (out : TimeRange)
    (grib1_buffer : list Z) (offset : Z) : result (list Z * Z) :=
  let* b1 :=
    set_bits_all grib1_buffer
      (PDS_head_writes offset msg grid pd ++ PDS_level_writes offset pd
       ++ PDS_date_writes offset msg ++ PDS_unit_writes offset msg) in
  let* tr := mapTimeRange msg grid out (center_id msg) in
  let* b2 :=
    set_bits_all b1
      (PDS_range_writes offset tr ++ PDS_tail_writes offset msg ids) in
  let offset1 := uint64 (offset + 224) in
  let* b3 := set_bits_all b2 (fst (PDS_ext_writes offset1 pd)) in
  Ok (b3, uint64 (offset1 + snd (PDS_ext_writes offset1 pd))).

(** *** [packBMS] and [packBDS] *)

(** [packBMS(msg,grid_number,grib1_buffer,&offset,num_points)]: the
    buffer and the offset after the call; [bm] is the array
    [msg->grids[grid_number].md.bitmap].  The loop [for (n=0; n <
    num_points; ++n) { setBits(grib1_buffer,bitmap[n],off++,1); }] writes
    what the loop of [pack_BMS] of grib1to2.c writes and is
    [Grib1to2.pack_bitmap]. *)
Definition packBMS (bm : list Z) (grib1_buffer : list Z)
    (offset num_points : Z) : result (list Z * Z) :=
  let length := sint32 (uint64 (6 + uint64 (num_points + 7) / 8)) in
  let ub := sint32 (uint64 (8 - num_points mod 8)) in
  let* b1 := set_bits grib1_buffer length offset 24 in
  let* b2 := set_bits b1 ub (uint64 (offset + 24)) 8 in
  let* b3 := set_bits b2 0 (uint64 (offset + 32)) 16 in
  let* b4 :=
    Grib1to2.pack_bitmap (Z.to_nat num_points) bm 0 b3 (uint64 (offset + 48)) in
  Ok (b4, uint64 (offset + sint32 (length * 8))).

(** [for (m=0; m < num_to_pack; m++) { setBits(grib1_buffer,pvals[m],off,
    pack_width); off+=pack_width; }]: [count] iterations from index [m]
    on; a read beyond the array [pvals] is undefined *)
Fixpoint pack_ints (count : nat) (pvals1 : list Z) (m : nat) (buf : list Z)
    (off width : Z) : result (list Z) :=
  match count with
  | O => Ok buf
  | S c =>
      match pvals1 !! m with
      | None => Err Undefined
      | Some v =>
          let* buf' := set_bits buf v off width in
          pack_ints c pvals1 (S m) buf' (uint64 (off + width)) width
      end
  end.

(** [packBDS(msg,grid_number,grib1_buffer,&offset,pvals,num_to_pack,
    pack_width)]: the buffer after the call; the function does not move
    the offset.  The [int] [length] is [length1] here.  [E1] is [msg->grids[grid_number].md.E]; [ibm_rep] holds
    the four bytes of the [int] that [ieee2ibm] returns, which [memcpy]
    copies; [ieee2ibm] itself is not part of this development.  A copy
    beyond the end of the buffer is undefined. *)
Definition packBDS (E1 : Z) (ibm_rep : list Z) (grib1_buffer : list Z)
    (offset : Z) (pvals1 : list Z) (num_to_pack pack_width1 : Z)
  : result (list Z) :=
  let bits := uint64 (num_to_pack * pack_width1) in
  let length1 := sint32 (uint64 (11 + uint64 (bits + 7) / 8)) in
  let* b1 := set_bits grib1_buffer length1 offset 24 in
  let* b2 := set_bits b1 0 (uint64 (offset + 24)) 4 in
  let* b3 :=
    set_bits b2 (sint32 (uint64 (sint32 ((length1 - 11) * 8) - bits)))
      (uint64 (offset + 28)) 4 in
  let E2 := if E1 <? 0 then sint32 (- E1 + 32768) else E1 in
  let* b4 := set_bits b3 E2 (uint64 (offset + 32)) 16 in
  let at_byte := Z.to_nat (uint64 (offset + 48) / 8) in
  if (length b4 <? at_byte + 4)%nat then Err Undefined
  else
    let b5 := list_inserts at_byte (take 4 ibm_rep) b4 in
    let* b6 := set_bits b5 (sint32 pack_width1) (uint64 (offset + 80)) 8 in
    pack_ints (Z.to_nat num_to_pack) pvals1 0 b6 (uint64 (offset + 88))
      pack_width1.

(** the grid that a bit map and the values of its marked points stand
    for *)
Fixpoint spread (bm : list Z) (vals : list double) : list double :=
  match bm with
  | [] => []
  | b :: bm' =>
      if b =? 1 then
        match vals with
        | v :: vals' => v :: spread bm' vals'
        | [] => []
        end
      else GRIB_MISSING_VALUE :: spread bm' vals
  end.

(** *** The output of [main] for one grid, lines 2803-2811 *)

(** [fwrite(head,1,4,ofp); setBits(dum,length+12,0,24);
    fwrite(dum,1,3,ofp); dum[0]=1; fwrite(dum,1,1,ofp);
    fwrite(grib1_buffer,1,length,ofp); fwrite(tail,1,4,ofp);]: the octets
    written; [dum0] is the indeterminate content of the local array
    [dum] (3 octets) *)
Definition write_grid (dum0 : list Z) (length : Z) (grib1_buffer : list Z)
  : result (list Z) :=
  let* dum := set_bits dum0 (sint32 (length + 12)) 0 24 in
  let dum1 := store dum 0 1 in
  Ok (GRIB_marker ++ take 3 dum ++ take 1 dum1
      ++ take (Z.to_nat length) grib1_buffer ++ [55; 55; 55; 55]).

End WithFloats.
End Grib2to1.


(** ** Exact rational arithmetic, an implementation of [FloatOps] on which
    the examples are run *)
Module Exact.

Definition q_lround (q : Q) : Z :=
  if Qle_bool 0 q then Qfloor (Qplus q (Qmake 1 2))
  else - Qfloor (Qplus (Qopp q) (Qmake 1 2)).

Definition q_pow (a b : Q) : Q := Qpower a (Qfloor b).

#[export] Instance QFloat : FloatOps := {|
  double := Q;
  fadd := Qplus;
  fsub := Qminus;
  fmul := Qmult;
  fdiv := Qdiv;
  fneg := Qopp;
  fpow := q_pow;
  of_int := inject_Z;
  to_float := fun q => q;
  feqb := Qeq_bool;
  lround := q_lround;
  lit_1e30 := inject_Z (10 ^ 30)
|}.

End Exact.


(** ** Concrete inputs for the examples *)
Module Examples.
Import Exact.

(** a [GRIBMessage] as [main] declares it and [initialize] leaves it (the
    members that C leaves indeterminate are 0), after [unpack_IS] has
    stored an edition 1 message in [buffer] *)
Definition grib1_message (buf : list Z) : Unpackgrib1.GRIBMessage :=
  {| Unpackgrib1.total_len := Z.of_nat (length buf) - 4;
     Unpackgrib1.pds_len := 0; Unpackgrib1.pds_ext_len := 0;
     Unpackgrib1.gds_len := 0; Unpackgrib1.bds_len := 0;
     Unpackgrib1.ed_num := 1; Unpackgrib1.table_ver := 0;
     Unpackgrib1.center_id := 0; Unpackgrib1.gen_proc := 0;
     Unpackgrib1.grid_type := 0; Unpackgrib1.param := 0;
     Unpackgrib1.level_type := 0; Unpackgrib1.lvl1 := 0;
     Unpackgrib1.lvl2 := 0; Unpackgrib1.fcst_units := 0;
     Unpackgrib1.p1 := 0; Unpackgrib1.p2 := 0; Unpackgrib1.t_range := 0;
     Unpackgrib1.navg := 0; Unpackgrib1.nmiss := 0;
     Unpackgrib1.sub_center_id := 0; Unpackgrib1.bds_flag := 0;
     Unpackgrib1.pack_width := 0; Unpackgrib1.gds_included := 0;
     Unpackgrib1.bms_included := 0;
     Unpackgrib1.yr := 0; Unpackgrib1.mo := 0; Unpackgrib1.dy := 0;
     Unpackgrib1.time := 0; Unpackgrib1.offset := 0;
     Unpackgrib1.E := 0; Unpackgrib1.D := 0;
     Unpackgrib1.data_rep := 0; Unpackgrib1.nx := 0; Unpackgrib1.ny := 0;
     Unpackgrib1.buffer := buf; Unpackgrib1.pds_ext := [];
     Unpackgrib1.bitmap := []; Unpackgrib1.bcapacity := 0;
     Unpackgrib1.bitmap_len := 0;
     Unpackgrib1.ref_val := inject_Z 0; Unpackgrib1.gridpoints := [];
     Unpackgrib1.gcapacity := 0 |}.

(** Indicator Section and Product Definition Section of an edition 1
    message: parameter [param], level type [level_type] with the level
    octets [l1] and [l2], reference time 2017-07-10 06:00, forecast unit 1
    (hour), then [p1], [p2], the time range indicator and the two octets of
    the number in average *)
Definition grib1_IS_PDS (param level_type l1 l2 p1 p2 t_range navg_hi navg_lo : Z)
  : list Z :=
  [ 71; 82; 73; 66; 0; 0; 40; 1;
    0; 0; 28; 3; 7; 0; 255; 128; param; level_type; l1; l2;
    17; 7; 10; 6; 0; 1; p1; p2; t_range; navg_hi; navg_lo; 0;
    21; 0; 0; 0;
    55; 55; 55; 55 ].

(** time range indicator 3 (average), P2 = 0, number in average 5 *)
Definition average_message : Unpackgrib1.GRIBMessage :=
  grib1_message (grib1_IS_PDS 11 100 1 244 0 0 3 0 5).

(** time range indicator 0 (no average), P2 = 3 *)
Definition forecast_message : Unpackgrib1.GRIBMessage :=
  grib1_message (grib1_IS_PDS 11 100 1 244 0 3 0 0 5).

(** the message that [unpack_PDS] decodes from the octets [buf] *)
Definition decoded (buf : list Z) : Unpackgrib1.GRIBMessage :=
  match Unpackgrib1.unpack_PDS (grib1_message buf) with
  | Ok m => m
  | Err _ => grib1_message buf
  end.

(** a forecast on level type 104 (layer between two heights above mean
    sea level), level octets 10 and 5 *)
Definition layer_message : Unpackgrib1.GRIBMessage :=
  decoded (grib1_IS_PDS 11 104 10 5 6 0 0 0 0).

(** maximum temperature (parameter 15) 2 m above ground, reference time
    2017-07-10 06:00, unit hour, P1 = 0, P2 = 48, time range indicator 3 *)
Definition statistic_message : Unpackgrib1.GRIBMessage :=
  decoded (grib1_IS_PDS 15 105 0 2 0 48 3 0 0).

(** a [GRIB2Message] as [initialize] leaves it (the members that C
    leaves indeterminate are 0) *)
Definition stat_proc0 : Unpackgrib2.StatProc :=
  {| Unpackgrib2.eyr := 0; Unpackgrib2.emo := 0; Unpackgrib2.edy := 0;
     Unpackgrib2.etime := 0; Unpackgrib2.num_ranges := 0;
     Unpackgrib2.nmiss := 0; Unpackgrib2.proc_code := [];
     Unpackgrib2.incr_type := []; Unpackgrib2.range_time_unit := [];
     Unpackgrib2.time_length := []; Unpackgrib2.incr_unit := [];
     Unpackgrib2.incr_length := [] |}.

Definition metadata0 : Unpackgrib2.GRIB2Metadata :=
  {| Unpackgrib2.gds_templ_num := 0; Unpackgrib2.nx := 0; Unpackgrib2.ny := 0;
     Unpackgrib2.pds_templ_num := 0; Unpackgrib2.param_cat := 0;
     Unpackgrib2.param_num := 0; Unpackgrib2.time_unit := 0;
     Unpackgrib2.fcst_time := 0; Unpackgrib2.stat_proc := stat_proc0;
     Unpackgrib2.drs_templ_num := 0; Unpackgrib2.R := inject_Z 0;
     Unpackgrib2.E := 0; Unpackgrib2.D := 0; Unpackgrib2.num_packed := 0;
     Unpackgrib2.pack_width := 0; Unpackgrib2.bitmap := None |}.

Definition grib2_message0 : Unpackgrib2.GRIB2Message :=
  {| Unpackgrib2.buffer := []; Unpackgrib2.buffer_capacity := 0;
     Unpackgrib2.offset := 0; Unpackgrib2.total_len := 0;
     Unpackgrib2.disc := 0; Unpackgrib2.ed_num := 0;
     Unpackgrib2.center_id := 0;
     Unpackgrib2.yr := 0; Unpackgrib2.mo := 0; Unpackgrib2.dy := 0;
     Unpackgrib2.time := 0; Unpackgrib2.msg_md := metadata0;
     Unpackgrib2.num_grids := 0; Unpackgrib2.grids := [];
     Unpackgrib2.grid_capacity := 0 |}.

(** an Indicator Section whose 64-bit length field is 32, and one whose
    length field is 2^32 + 32 *)
Definition IS_length_32 : list Z :=
  [71; 82; 73; 66; 0; 0; 0; 2; 0; 0; 0; 0; 0; 0; 0; 32].

Definition IS_length_4G_32 : list Z :=
  [71; 82; 73; 66; 0; 0; 0; 2; 0; 0; 0; 1; 0; 0; 0; 32].

(** the 16 octets that follow the Indicator Section in a 32-octet message *)
Definition rest_of_message : list Z :=
  [0; 0; 0; 0; 0; 0; 0; 0; 0; 0; 0; 0; 55; 55; 55; 55].

(** an NCEP CFSR monthly product: template 8, unit hour, two time
    ranges, statistical process 193, increment 6 h; overall end time 18:00
    (the reference time is that of the message) *)
Definition cfsr_grid : Unpackgrib2.GRIB2Grid :=
  {| Unpackgrib2.md :=
       {| Unpackgrib2.gds_templ_num := 0; Unpackgrib2.nx := 0;
          Unpackgrib2.ny := 0;
          Unpackgrib2.pds_templ_num := 8; Unpackgrib2.param_cat := 0;
          Unpackgrib2.param_num := 0; Unpackgrib2.time_unit := 1;
          Unpackgrib2.fcst_time := 0;
          Unpackgrib2.stat_proc :=
            {| Unpackgrib2.eyr := 2010; Unpackgrib2.emo := 2;
               Unpackgrib2.edy := 1; Unpackgrib2.etime := 180000;
               Unpackgrib2.num_ranges := 2; Unpackgrib2.nmiss := 0;
               Unpackgrib2.proc_code := [193; 0];
               Unpackgrib2.incr_type := [1; 2];
               Unpackgrib2.range_time_unit := [1; 1];
               Unpackgrib2.time_length := [124; 6];
               Unpackgrib2.incr_unit := [1; 1];
               Unpackgrib2.incr_length := [6; 0] |};
          Unpackgrib2.drs_templ_num := 0; Unpackgrib2.R := inject_Z 0;
          Unpackgrib2.E := 0; Unpackgrib2.D := 0;
          Unpackgrib2.num_packed := 0; Unpackgrib2.pack_width := 0;
          Unpackgrib2.bitmap := None |};
     Unpackgrib2.gridpoints := [];
     Unpackgrib2.gcapacity := 0 |}.

(** a 24-hour average: template 8, unit hour, one time range, statistical
    process 0, overall end time on the next day at 06:00, reference time
    06:00 *)
Definition daily_average_grid : Unpackgrib2.GRIB2Grid :=
  {| Unpackgrib2.md :=
       {| Unpackgrib2.gds_templ_num := 0; Unpackgrib2.nx := 0;
          Unpackgrib2.ny := 0;
          Unpackgrib2.pds_templ_num := 8; Unpackgrib2.param_cat := 0;
          Unpackgrib2.param_num := 0; Unpackgrib2.time_unit := 1;
          Unpackgrib2.fcst_time := 0;
          Unpackgrib2.stat_proc :=
            {| Unpackgrib2.eyr := 2017; Unpackgrib2.emo := 7;
               Unpackgrib2.edy := 11; Unpackgrib2.etime := 60000;
               Unpackgrib2.num_ranges := 1; Unpackgrib2.nmiss := 0;
               Unpackgrib2.proc_code := [0];
               Unpackgrib2.incr_type := [2];
               Unpackgrib2.range_time_unit := [1];
               Unpackgrib2.time_length := [24];
               Unpackgrib2.incr_unit := [1];
               Unpackgrib2.incr_length := [0] |};
          Unpackgrib2.drs_templ_num := 0; Unpackgrib2.R := inject_Z 0;
          Unpackgrib2.E := 0; Unpackgrib2.D := 0;
          Unpackgrib2.num_packed := 0; Unpackgrib2.pack_width := 0;
          Unpackgrib2.bitmap := None |};
     Unpackgrib2.gridpoints := [];
     Unpackgrib2.gcapacity := 0 |}.

(** a message of center 7 with reference time 2017-07-10 06:00:00 *)
Definition ncep_message : Unpackgrib2.GRIB2Message :=
  {| Unpackgrib2.buffer := []; Unpackgrib2.buffer_capacity := 0;
     Unpackgrib2.offset := 0; Unpackgrib2.total_len := 0;
     Unpackgrib2.disc := 0; Unpackgrib2.ed_num := 2;
     Unpackgrib2.center_id := 7;
     Unpackgrib2.yr := 2017; Unpackgrib2.mo := 7; Unpackgrib2.dy := 10;
     Unpackgrib2.time := 60000; Unpackgrib2.msg_md := metadata0;
     Unpackgrib2.num_grids := 1; Unpackgrib2.grids := [];
     Unpackgrib2.grid_capacity := 0 |}.

(** an edition 1 message of a 2 x 2 latitude/longitude grid at the entry
    of [unpack_BDS]: [buf] holds the Bit Map Section and the Binary Data
    Section, [offset] is 0 *)
Definition grid_message (buf : list Z) : Unpackgrib1.GRIBMessage :=
  {| Unpackgrib1.total_len := 0; Unpackgrib1.pds_len := 28;
     Unpackgrib1.pds_ext_len := 0;
     Unpackgrib1.gds_len := 32; Unpackgrib1.bds_len := 0;
     Unpackgrib1.ed_num := 1; Unpackgrib1.table_ver := 3;
     Unpackgrib1.center_id := 7; Unpackgrib1.gen_proc := 0;
     Unpackgrib1.grid_type := 255; Unpackgrib1.param := 11;
     Unpackgrib1.level_type := 1; Unpackgrib1.lvl1 := 0;
     Unpackgrib1.lvl2 := 0; Unpackgrib1.fcst_units := 1;
     Unpackgrib1.p1 := 0; Unpackgrib1.p2 := 0; Unpackgrib1.t_range := 0;
     Unpackgrib1.navg := 0; Unpackgrib1.nmiss := 0;
     Unpackgrib1.sub_center_id := 0; Unpackgrib1.bds_flag := 0;
     Unpackgrib1.pack_width := 0; Unpackgrib1.gds_included := 1;
     Unpackgrib1.bms_included := 1;
     Unpackgrib1.yr := 2017; Unpackgrib1.mo := 7; Unpackgrib1.dy := 10;
     Unpackgrib1.time := 600; Unpackgrib1.offset := 0;
     Unpackgrib1.E := 0; Unpackgrib1.D := 0;
     Unpackgrib1.data_rep := 0; Unpackgrib1.nx := 2; Unpackgrib1.ny := 2;
     Unpackgrib1.buffer := buf; Unpackgrib1.pds_ext := [];
     Unpackgrib1.bitmap := []; Unpackgrib1.bcapacity := 0;
     Unpackgrib1.bitmap_len := 0;
     Unpackgrib1.ref_val := inject_Z 0; Unpackgrib1.gridpoints := [];
     Unpackgrib1.gcapacity := 0 |}.

(** a Bit Map Section of 7 octets: 4 unused bits, no predefined bit map,
    the bits 1 0 1 1 *)
Definition BMS_1011 : list Z := [0; 0; 7; 4; 0; 0; 176].

(** a Binary Data Section with simple packing, E = 0, the reference value
    1.0 (IBM 0x41100000), pack width 8 and the packed values 1, 2, 3; and
    one with pack width 0 and no packed value; the end section follows *)
Definition BDS_width_8 : list Z :=
  [0; 0; 14; 0; 0; 0; 65; 16; 0; 0; 8; 1; 2; 3; 55; 55; 55; 55].

Definition BDS_width_0 : list Z :=
  [0; 0; 12; 0; 0; 0; 65; 16; 0; 0; 0; 0; 55; 55; 55; 55].

Definition masked_message : Unpackgrib1.GRIBMessage :=
  grid_message (BMS_1011 ++ BDS_width_8).

Definition constant_message : Unpackgrib1.GRIBMessage :=
  grid_message (BMS_1011 ++ BDS_width_0).

(** a message whose Product Definition Section announces no Grid
    Description Section: [unpack_IS] has set [nx] and [ny] to 0,
    [unpack_GDS] is not called, and [data_rep], which only [unpack_GDS]
    writes, holds what the variable of the caller held *)
Definition without_GDS (m : Unpackgrib1.GRIBMessage) (data_rep1 : Z)
  : Unpackgrib1.GRIBMessage :=
  {| Unpackgrib1.total_len := Unpackgrib1.total_len m;
     Unpackgrib1.pds_len := Unpackgrib1.pds_len m;
     Unpackgrib1.pds_ext_len := Unpackgrib1.pds_ext_len m;
     Unpackgrib1.gds_len := Unpackgrib1.gds_len m;
     Unpackgrib1.bds_len := Unpackgrib1.bds_len m;
     Unpackgrib1.ed_num := Unpackgrib1.ed_num m;
     Unpackgrib1.table_ver := Unpackgrib1.table_ver m;
     Unpackgrib1.center_id := Unpackgrib1.center_id m;
     Unpackgrib1.gen_proc := Unpackgrib1.gen_proc m;
     Unpackgrib1.grid_type := Unpackgrib1.grid_type m;
     Unpackgrib1.param := Unpackgrib1.param m;
     Unpackgrib1.level_type := Unpackgrib1.level_type m;
     Unpackgrib1.lvl1 := Unpackgrib1.lvl1 m;
     Unpackgrib1.lvl2 := Unpackgrib1.lvl2 m;
     Unpackgrib1.fcst_units := Unpackgrib1.fcst_units m;
     Unpackgrib1.p1 := Unpackgrib1.p1 m; Unpackgrib1.p2 := Unpackgrib1.p2 m;
     Unpackgrib1.t_range := Unpackgrib1.t_range m;
     Unpackgrib1.navg := Unpackgrib1.navg m;
     Unpackgrib1.nmiss := Unpackgrib1.nmiss m;
     Unpackgrib1.sub_center_id := Unpackgrib1.sub_center_id m;
     Unpackgrib1.bds_flag := Unpackgrib1.bds_flag m;
     Unpackgrib1.pack_width := Unpackgrib1.pack_width m;
     Unpackgrib1.gds_included := 0;
     Unpackgrib1.bms_included := Unpackgrib1.bms_included m;
     Unpackgrib1.yr := Unpackgrib1.yr m; Unpackgrib1.mo := Unpackgrib1.mo m;
     Unpackgrib1.dy := Unpackgrib1.dy m;
     Unpackgrib1.time := Unpackgrib1.time m;
     Unpackgrib1.offset := Unpackgrib1.offset m;
     Unpackgrib1.E := Unpackgrib1.E m; Unpackgrib1.D := Unpackgrib1.D m;
     Unpackgrib1.data_rep := data_rep1;
     Unpackgrib1.nx := 0; Unpackgrib1.ny := 0;
     Unpackgrib1.buffer := Unpackgrib1.buffer m;
     Unpackgrib1.pds_ext := Unpackgrib1.pds_ext m;
     Unpackgrib1.bitmap := Unpackgrib1.bitmap m;
     Unpackgrib1.bcapacity := Unpackgrib1.bcapacity m;
     Unpackgrib1.bitmap_len := Unpackgrib1.bitmap_len m;
     Unpackgrib1.ref_val := Unpackgrib1.ref_val m;
     Unpackgrib1.gridpoints := Unpackgrib1.gridpoints m;
     Unpackgrib1.gcapacity := Unpackgrib1.gcapacity m |}.

(** the constant field and the field of pack width 8 without a Grid
    Description Section, with 255 left in [data_rep] *)
Definition constant_message_no_GDS : Unpackgrib1.GRIBMessage :=
  without_GDS constant_message 255.

Definition masked_message_no_GDS : Unpackgrib1.GRIBMessage :=
  without_GDS masked_message 255.

(** the message that [unpack_BDS] leaves *)
Definition decoded_grid (m : Unpackgrib1.GRIBMessage)
  : Unpackgrib1.GRIBMessage :=
  match Unpackgrib1.unpack_BDS (fun _ => 0) m with
  | Ok m' => m'
  | Err _ => m
  end.

(** an edition 2 message at the entry of [unpack_DS]: a 2 x 2 grid with
    the bit map 1 0 1 1, template 0 with R = 1, E = D = 0, pack width 8,
    the Data Section with the packed values 1, 2, 3 at [offset] 0, and one
    grid without gridpoints yet *)
Definition masked_metadata : Unpackgrib2.GRIB2Metadata :=
  {| Unpackgrib2.gds_templ_num := 0; Unpackgrib2.nx := 2; Unpackgrib2.ny := 2;
     Unpackgrib2.pds_templ_num := 0; Unpackgrib2.param_cat := 0;
     Unpackgrib2.param_num := 0; Unpackgrib2.time_unit := 1;
     Unpackgrib2.fcst_time := 0; Unpackgrib2.stat_proc := stat_proc0;
     Unpackgrib2.drs_templ_num := 0; Unpackgrib2.R := inject_Z 1;
     Unpackgrib2.E := 0; Unpackgrib2.D := 0; Unpackgrib2.num_packed := 3;
     Unpackgrib2.pack_width := 8; Unpackgrib2.bitmap := Some [1; 0; 1; 1] |}.

Definition masked_message2 : Unpackgrib2.GRIB2Message :=
  {| Unpackgrib2.buffer := [0; 0; 0; 8; 7; 1; 2; 3; 55; 55; 55; 55];
     Unpackgrib2.buffer_capacity := 12;
     Unpackgrib2.offset := 0; Unpackgrib2.total_len := 0;
     Unpackgrib2.disc := 0; Unpackgrib2.ed_num := 2;
     Unpackgrib2.center_id := 7;
     Unpackgrib2.yr := 2017; Unpackgrib2.mo := 7; Unpackgrib2.dy := 10;
     Unpackgrib2.time := 60000; Unpackgrib2.msg_md := masked_metadata;
     Unpackgrib2.num_grids := 1;
     Unpackgrib2.grids :=
       [ {| Unpackgrib2.md := metadata0; Unpackgrib2.gridpoints := [];
            Unpackgrib2.gcapacity := 0 |} ];
     Unpackgrib2.grid_capacity := 1 |}.

Definition decoded_grid2 (m : Unpackgrib2.GRIB2Message)
  : Unpackgrib2.GRIB2Message :=
  match Unpackgrib2.unpack_DS (fun _ => 0) m 0 with
  | Ok m' => m'
  | Err _ => m
  end.


Definition time_range0 : Grib2to1.TimeRange :=
  {| Grib2to1.p1 := 0; Grib2to1.p2 := 0; Grib2to1.t_range := 0;
     Grib2to1.n_avg := 0; Grib2to1.n_missing := 0 |}.

End Examples.

(* ================================================================== *)
(** * Part II: properties                                              *)
(* ================================================================== *)

(** ** Postconditions of computations *)
Module ResultFacts.

Lemma on_ok_bind {A B : Type} (c : result A) (k : A -> result B) (P : B -> Prop) :
  (forall a, c = Ok a -> on_ok (k a) P) -> on_ok (bind c k) P.
Proof. destruct c as [a | e]; cbn; intros Hk; [apply Hk; reflexivity | exact I]. Qed.

Lemma on_ok_elim {A : Type} (c : result A) (P : A -> Prop) (a : A) :
  on_ok c P -> c = Ok a -> P a.
Proof. intros Hc ->. exact Hc. Qed.

Lemma on_ok_intro {A : Type} (c : result A) (P : A -> Prop) :
  (forall a, c = Ok a -> P a) -> on_ok c P.
Proof. destruct c as [a | e]; cbn; intros Hk; [apply Hk; reflexivity | exact I]. Qed.

(** one [let*] of the goal [on_ok (let* x := c in k) P] *)
Ltac on_ok_step :=
  lazymatch goal with
  | |- on_ok (bind _ _) _ => apply on_ok_bind; intros ? ?
  end.

End ResultFacts.

(** ** BitStream *)
Module BitStreamFacts.
Import CInt BitStream.

Lemma bmask_eq : bmask = 255.
Proof. reflexivity. Qed.

Lemma lmask_eq : lmask = -1.
Proof. reflexivity. Qed.

Lemma smask_eq : smask = -1.
Proof. reflexivity. Qed.

(** *** Conversions and bits *)

Lemma sint32_mod (z : Z) : sint32 z mod 2 ^ 32 = z mod 2 ^ 32.
Proof.
  unfold sint32. cbv zeta.
  destruct (Z.ltb_spec (z mod 2 ^ 32) (2 ^ 31)).
  - apply Z.mod_mod. lia.
  - rewrite <- (Z.mod_add _ 1 (2 ^ 32)) by lia.
    replace (z mod 2 ^ 32 - 2 ^ 32 + 1 * 2 ^ 32) with (z mod 2 ^ 32) by lia.
    apply Z.mod_mod. lia.
Qed.

Lemma sint32_testbit (z k : Z) :
  0 <= k < 32 -> Z.testbit (sint32 z) k = Z.testbit z k.
Proof.
  intros Hk.
  rewrite <- (Z.mod_pow2_bits_low (sint32 z) 32 k) by lia.
  rewrite sint32_mod. apply Z.mod_pow2_bits_low. lia.
Qed.

Lemma sint32_is_int (z : Z) : is_int (sint32 z).
Proof.
  unfold is_int, sint32. cbv zeta.
  pose proof (Z.mod_pos_bound z (2 ^ 32) ltac:(lia)).
  destruct (Z.ltb_spec (z mod 2 ^ 32) (2 ^ 31)); lia.
Qed.

Lemma sint32_id (z : Z) : is_int z -> sint32 z = z.
Proof.
  unfold is_int, sint32. cbv zeta. intros Hz.
  destruct (Z_lt_le_dec z 0) as [Hneg | Hpos].
  - replace (z mod 2 ^ 32) with (z + 2 ^ 32).
    + destruct (Z.ltb_spec (z + 2 ^ 32) (2 ^ 31)); lia.
    + apply Z.mod_unique with (q := -1); lia.
  - rewrite Z.mod_small by lia.
    destruct (Z.ltb_spec z (2 ^ 31)); lia.
Qed.

Lemma is_int_eq_of_low_bits (a b : Z) :
  is_int a -> is_int b ->
  (forall k, 0 <= k < 32 -> Z.testbit a k = Z.testbit b k) -> a = b.
Proof.
  intros Ha Hb Hbits.
  rewrite <- (sint32_id a Ha), <- (sint32_id b Hb).
  unfold sint32. cbv zeta.
  replace (a mod 2 ^ 32) with (b mod 2 ^ 32); [reflexivity |].
  apply Z.bits_inj'. intros n Hn.
  destruct (Z_lt_le_dec n 32).
  - rewrite !Z.mod_pow2_bits_low by lia. symmetry. apply Hbits. lia.
  - rewrite !Z.mod_pow2_bits_high by lia. reflexivity.
Qed.

Lemma small_eq_of_low_bits (n a b : Z) :
  0 <= n -> 0 <= a < 2 ^ n -> 0 <= b < 2 ^ n ->
  (forall k, 0 <= k < n -> Z.testbit a k = Z.testbit b k) -> a = b.
Proof.
  intros Hn Ha Hb Hbits.
  rewrite <- (Z.mod_small a (2 ^ n)), <- (Z.mod_small b (2 ^ n)) by lia.
  apply Z.bits_inj'. intros k Hk.
  destruct (Z_lt_le_dec k n).
  - rewrite !Z.mod_pow2_bits_low by lia. apply Hbits. lia.
  - rewrite !Z.mod_pow2_bits_high by lia. reflexivity.
Qed.

Lemma uint8_testbit (z k : Z) :
  0 <= k -> Z.testbit (uint8 z) k = (k <? 8) && Z.testbit z k.
Proof.
  intros Hk. unfold uint8.
  destruct (Z.ltb_spec k 8).
  - rewrite Z.mod_pow2_bits_low by lia. reflexivity.
  - rewrite Z.mod_pow2_bits_high by lia. reflexivity.
Qed.

Lemma uint8_is_byte (z : Z) : is_byte (uint8 z).
Proof. unfold is_byte, uint8. pose proof (Z.mod_pos_bound z (2 ^ 8)). lia. Qed.

Lemma is_byte_testbit_high (b k : Z) :
  is_byte b -> 8 <= k -> Z.testbit b k = false.
Proof.
  unfold is_byte. intros Hb Hk.
  rewrite <- (Z.mod_small b (2 ^ 8)) by lia.
  apply Z.mod_pow2_bits_high. lia.
Qed.

Lemma testbit_add_disjoint32 (a b : Z) :
  (forall k, 0 <= k < 32 -> Z.testbit a k && Z.testbit b k = false) ->
  forall k, 0 <= k < 32 ->
    Z.testbit (a + b) k = Z.testbit a k || Z.testbit b k.
Proof.
  intros Hdis k Hk.
  rewrite <- (Z.mod_pow2_bits_low (a + b) 32 k) by lia.
  rewrite Zplus_mod.
  assert (Hland : Z.land (a mod 2 ^ 32) (b mod 2 ^ 32) = 0).
  { apply Z.bits_inj'. intros n Hn.
    rewrite Z.land_spec, Z.bits_0.
    destruct (Z_lt_le_dec n 32).
    - rewrite !Z.mod_pow2_bits_low by lia. apply Hdis. lia.
    - rewrite !Z.mod_pow2_bits_high by lia. reflexivity. }
  rewrite <- (Z.or_to_plus _ _ Hland).
  rewrite Z.mod_pow2_bits_low by lia.
  rewrite Z.lor_spec, !Z.mod_pow2_bits_low by lia. reflexivity.
Qed.

(** *** Buffers *)

Lemma byte_at_is_byte (buf : list Z) (i : Z) :
  bytes_ok buf -> is_byte (byte_at buf i).
Proof.
  intros Hok. unfold byte_at.
  destruct (buf !! Z.to_nat i) as [b |] eqn:Hb.
  - rewrite (list_lookup_total_correct _ _ _ Hb).
    unfold bytes_ok in Hok. rewrite Forall_forall in Hok.
    apply Hok. eapply list_elem_of_lookup_2. exact Hb.
  - rewrite list_lookup_total_alt, Hb. simpl. unfold is_byte. lia.
Qed.

Lemma store_length (buf : list Z) (i v : Z) :
  length (store buf i v) = length buf.
Proof. unfold store. apply length_insert. Qed.

Lemma store_bytes_ok (buf : list Z) (i v : Z) :
  bytes_ok buf -> bytes_ok (store buf i v).
Proof.
  unfold bytes_ok, store. intros Hok.
  apply Forall_insert; [exact Hok | apply uint8_is_byte].
Qed.

Lemma byte_at_store_same (buf : list Z) (i v : Z) :
  0 <= i < Z.of_nat (length buf) ->
  byte_at (store buf i v) i = uint8 v.
Proof.
  intros Hi. unfold byte_at, store.
  apply list_lookup_total_insert_eq. lia.
Qed.

Lemma byte_at_store_other (buf : list Z) (i j v : Z) :
  0 <= i -> 0 <= j -> i <> j ->
  byte_at (store buf i v) j = byte_at buf j.
Proof.
  intros Hi Hj Hne. unfold byte_at, store.
  apply list_lookup_total_insert_ne. lia.
Qed.


Lemma bit_at_byte (buf : list Z) (w p : Z) :
  0 <= p < 8 ->
  bit_at buf (8 * w + p) = Z.testbit (byte_at buf w) (7 - p).
Proof.
  intros Hp. unfold bit_at.
  replace ((8 * w + p) / 8) with w by (apply Z.div_unique with (r := p); lia).
  replace ((8 * w + p) mod 8) with p by (apply Z.mod_unique with (q := w); lia).
  reflexivity.
Qed.

(** *** [get_bits] *)

(** The spill loop: it leaves with [0 <= rshift < 8] (so the fuel was
    enough), and the bits it has added to [*loc] are the buffer bits
    before byte [wskip]. *)
Lemma get_bits_spill_spec (buf : list Z) :
  bytes_ok buf ->
  forall (fuel : nat) (loc w r : Z),
    r < 8 -> (Z.to_nat (- r) <= fuel)%nat ->
    (forall k, 0 <= k < 8 - r -> k < 32 -> Z.testbit loc k = false) ->
    exists l' w' r',
      get_bits_spill fuel buf loc w r = (l', w', r') /\
      0 <= r' < 8 /\ 8 * w' - r' = 8 * w - r /\ w <= w' /\
      (0 <= r -> l' = loc) /\
      forall k, 0 <= k < 32 ->
        Z.testbit l' k =
          if k <? 8 - r' then false
          else if k <? 8 - r then bit_at buf (8 * w + 8 - r - 1 - k)
               else Z.testbit loc k.
Proof.
  intros Hok. induction fuel as [| fuel IH]; intros loc w r Hr Hfuel Hclear.
  - exists loc, w, r. simpl. repeat split; try lia.
    intros k Hk. destruct (Z.ltb_spec k (8 - r)); [apply Hclear; lia | reflexivity].
  - simpl. destruct (Z.ltb_spec r 0) as [Hneg | Hpos].
    + set (temp := byte_at buf w).
      assert (Hshift : forall k, 0 <= k < 32 ->
                Z.testbit (sint32 (Z.shiftl temp (- r))) k
                = if k <? - r then false else Z.testbit temp (k + r)).
      { intros k Hk. rewrite sint32_testbit by lia.
        rewrite Z.shiftl_spec by lia.
        destruct (Z.ltb_spec k (- r)).
        - apply Z.testbit_neg_r. lia.
        - f_equal. lia. }
      assert (Hloc1 : forall k, 0 <= k < 32 ->
                Z.testbit (sint32 (loc + sint32 (Z.shiftl temp (- r)))) k
                = Z.testbit loc k
                  || (if k <? - r then false else Z.testbit temp (k + r))).
      { intros k Hk. rewrite sint32_testbit by lia.
        rewrite testbit_add_disjoint32; [| | lia].
        - rewrite Hshift by lia. reflexivity.
        - intros n Hn. rewrite Hshift by lia.
          destruct (Z.ltb_spec n (- r)); [apply andb_false_r |].
          destruct (Z_lt_le_dec n (8 - r)).
          + rewrite Hclear by lia. reflexivity.
          + rewrite (is_byte_testbit_high temp).
            * apply andb_false_r.
            * apply byte_at_is_byte. exact Hok.
            * lia. }
      destruct (IH (sint32 (loc + sint32 (Z.shiftl temp (- r))))
                  (w + 1) (r + buf_size)) as (l' & w' & r' & Heq & Hr' & Hinv & Hw & _ & Hbits).
      * unfold buf_size. lia.
      * unfold buf_size. lia.
      * intros k Hk Hk32. rewrite Hloc1 by lia.
        unfold buf_size in Hk.
        rewrite Hclear by lia.
        destruct (Z.ltb_spec k (- r)); [reflexivity | lia].
      * exists l', w', r'. unfold buf_size in *.
        split; [exact Heq |]. repeat split; try lia.
        intros k Hk. rewrite Hbits by lia.
        destruct (Z.ltb_spec k (8 - r')); [reflexivity |].
        destruct (Z.ltb_spec k (8 - (r + 8))).
        -- destruct (Z.ltb_spec k (8 - r)); [| lia].
           f_equal. lia.
        -- rewrite Hloc1 by lia.
           destruct (Z.ltb_spec k (- r)); [lia |].
           destruct (Z.ltb_spec k (8 - r)).
           ++ rewrite Hclear by lia. simpl.
              replace (8 * w + 8 - r - 1 - k) with (8 * w + (7 - r - k)) by lia.
              rewrite bit_at_byte by lia. unfold temp. f_equal. lia.
           ++ rewrite (is_byte_testbit_high temp);
                [apply orb_false_r | apply byte_at_is_byte; exact Hok | lia].
    + exists loc, w, r. repeat split; try lia.
      intros k Hk. destruct (Z.ltb_spec k (8 - r)); [apply Hclear; lia | reflexivity].
Qed.

(** Bits of the last, partial byte that [get_bits] adds after the loop *)
Lemma get_bits_tail_testbit (b r k : Z) :
  is_byte b -> 0 < r < 8 -> 0 <= k ->
  Z.testbit (Z.land (Z.shiftr b r) (Z.lnot (Z.shiftl bmask (buf_size - r)))) k
  = if k <? 8 - r then Z.testbit b (k + r) else false.
Proof.
  intros Hb Hr Hk. rewrite bmask_eq. unfold buf_size.
  rewrite Z.land_spec, Z.shiftr_spec by lia.
  destruct (Z.ltb_spec k (8 - r)).
  - rewrite Z.lnot_spec, Z.shiftl_spec_low by lia. apply andb_true_r.
  - rewrite (is_byte_testbit_high b) by (auto; lia). reflexivity.
Qed.

Lemma lnot_shiftl_m1 (n : Z) : 0 <= n -> Z.lnot (Z.shiftl (-1) n) = Z.ones n.
Proof.
  intros Hn. apply Z.bits_inj'. intros k Hk.
  rewrite Z.lnot_spec by lia.
  destruct (Z_lt_le_dec k n).
  - rewrite Z.shiftl_spec_low, Z.ones_spec_low by lia. reflexivity.
  - rewrite Z.shiftl_spec, Z.bits_m1, Z.ones_spec_high by lia. reflexivity.
Qed.

(** What [get_bits] returns: it always succeeds for a width of 1 to 32
    bits, bit [k] of the result is bit [off + bits - 1 - k] of the buffer,
    and the result is zero-extended (below 32 bits) or an [int]. *)
Lemma get_bits_spec (buf : list Z) (loc off bits : Z) :
  bytes_ok buf -> 0 <= off -> 1 <= bits <= 32 ->
  exists v,
    get_bits buf loc off bits = Ok v /\
    (forall k, 0 <= k < bits ->
       Z.testbit v k = bit_at buf (off + bits - 1 - k)) /\
    (bits < 32 -> 0 <= v < 2 ^ bits) /\
    is_int v.
Proof.
  intros Hok Hoff Hbits. unfold get_bits.
  destruct (Z.eqb_spec bits 0) as [-> | _]; [lia |].
  destruct (Z.gtb_spec bits loc_size) as [Hgt | _]; [unfold loc_size in Hgt; lia |].
  unfold buf_size, loc_size. rewrite lmask_eq.
  pose proof (Z.mod_pos_bound off 8 ltac:(lia)) as Hmod.
  pose proof (Z.div_mod off 8 ltac:(lia)) as Hdm.
  set (w := off / 8) in *. set (bskip := off mod 8) in *.
  assert (Hraw : exists x,
    (if 8 - bskip - bits <? 0
     then let '(l, w0, r) :=
            get_bits_spill (Z.to_nat (- (8 - bskip - bits))) buf 0 w (8 - bskip - bits) in
          if negb (r =? 0)
          then sint32 (l + Z.land (Z.shiftr (byte_at buf w0) r)
                            (Z.lnot (Z.shiftl bmask (8 - r))))
          else sint32 (l + byte_at buf w0)
     else Z.shiftr (byte_at buf w) (8 - bskip - bits)) = x /\
    is_int x /\
    forall k, 0 <= k < bits -> Z.testbit x k = bit_at buf (off + bits - 1 - k)).
  { destruct (Z.ltb_spec (8 - bskip - bits) 0) as [Hneg | Hpos].
    - destruct (get_bits_spill_spec buf Hok (Z.to_nat (- (8 - bskip - bits))) 0 w
                  (8 - bskip - bits)) as (l' & w' & r' & Heq & Hr' & Hinv & Hw & _ & Hl');
        [lia | lia | intros; apply Z.bits_0 |].
      rewrite Heq.
      pose proof (byte_at_is_byte buf w' Hok) as Hb.
      set (tail := if negb (r' =? 0)
                   then Z.land (Z.shiftr (byte_at buf w') r')
                          (Z.lnot (Z.shiftl bmask (8 - r')))
                   else byte_at buf w').
      assert (Htail : forall k, 0 <= k ->
                Z.testbit tail k
                = if k <? 8 - r' then Z.testbit (byte_at buf w') (k + r') else false).
      { intros k Hk. unfold tail.
        destruct (Z.eqb_spec r' 0) as [-> | Hne]; simpl.
        - rewrite Z.add_0_r.
          destruct (Z.ltb_spec k (8 - 0)); [reflexivity |].
          apply is_byte_testbit_high; auto; lia.
        - apply (get_bits_tail_testbit _ r' k Hb); lia. }
      exists (sint32 (l' + tail)). split.
      { unfold tail. destruct (negb (r' =? 0)); reflexivity. }
      split; [apply sint32_is_int |].
      intros k Hk. rewrite sint32_testbit by lia.
      rewrite testbit_add_disjoint32; try lia.
      + rewrite Hl', Htail by lia.
        destruct (Z.ltb_spec k (8 - r')).
        * simpl.
          replace (off + bits - 1 - k) with (8 * w' + (7 - r' - k)) by lia.
          rewrite bit_at_byte by lia. f_equal. lia.
        * destruct (Z.ltb_spec k (8 - (8 - bskip - bits))); [| lia].
          rewrite orb_false_r. f_equal. lia.
      + intros n Hn. rewrite Hl', Htail by lia.
        destruct (Z.ltb_spec n (8 - r')); [reflexivity | apply andb_false_r].
    - exists (Z.shiftr (byte_at buf w) (8 - bskip - bits)).
      split; [reflexivity |].
      pose proof (byte_at_is_byte buf w Hok) as Hb. unfold is_byte in Hb.
      split.
      + unfold is_int. rewrite Z.shiftr_div_pow2 by lia.
        assert (0 < 2 ^ (8 - bskip - bits)) by (apply Z.pow_pos_nonneg; lia).
        assert (0 <= byte_at buf w / 2 ^ (8 - bskip - bits))
          by (apply Z.div_pos; lia).
        assert (byte_at buf w / 2 ^ (8 - bskip - bits) <= byte_at buf w)
          by (apply Z.div_le_upper_bound; nia).
        lia.
      + intros k Hk. rewrite Z.shiftr_spec by lia.
        replace (off + bits - 1 - k) with (8 * w + (bskip + bits - 1 - k)) by lia.
        rewrite bit_at_byte by lia. f_equal. lia. }
  destruct Hraw as (x & -> & Hint & Hx).
  destruct (Z.eqb_spec bits 32) as [-> | Hne]; simpl.
  - exists x. split; [reflexivity |]. split; [exact Hx |]. split; [lia | exact Hint].
  - rewrite lnot_shiftl_m1 by lia. rewrite Z.land_ones by lia.
    exists (x mod 2 ^ bits).
    pose proof (Z.mod_pos_bound x (2 ^ bits) ltac:(apply Z.pow_pos_nonneg; lia)) as Hb.
    split; [reflexivity |]. split; [| split].
    + intros k Hk. rewrite Z.mod_pow2_bits_low by lia. apply Hx. lia.
    + intros _. exact Hb.
    + unfold is_int.
      assert (2 ^ bits <= 2 ^ 31) by (apply Z.pow_le_mono_r; lia). lia.
Qed.


(** *** [set_bits] *)

Lemma testbit_255 (k : Z) : 0 <= k -> Z.testbit 255 k = (k <? 8).
Proof.
  intros Hk. change 255 with (Z.ones 8).
  apply Z.testbit_ones_nonneg; lia.
Qed.

(** bits of the first byte written when the field crosses a byte
    boundary *)
Lemma first_byte_bits (old src rclear more p : Z) :
  is_byte old -> 0 < rclear <= 8 -> 0 <= more -> 0 <= p < 8 ->
  Z.testbit
    (uint8 (Z.lor (if negb (rclear =? buf_size)
                   then uint8 (Z.land old (Z.shiftl bmask rclear)) else 0)
              (Z.land (Z.shiftr src more) (Z.lnot (Z.shiftl smask rclear))))) p
  = if p <? rclear then Z.testbit src (p + more) else Z.testbit old p.
Proof.
  intros Hold Hr Hm Hp. rewrite bmask_eq, smask_eq. unfold buf_size.
  rewrite lnot_shiftl_m1 by lia.
  rewrite uint8_testbit, Z.lor_spec, Z.land_spec, Z.shiftr_spec by lia.
  rewrite Z.testbit_ones_nonneg by lia.
  replace (p <? 8) with true by (symmetry; apply Z.ltb_lt; lia). simpl.
  destruct (Z.eqb_spec rclear 8) as [-> | Hne]; simpl.
  - rewrite Z.bits_0. simpl.
    replace (p <? 8) with true by (symmetry; apply Z.ltb_lt; lia).
    apply andb_true_r.
  - rewrite uint8_testbit, Z.land_spec by lia.
    replace (p <? 8) with true by (symmetry; apply Z.ltb_lt; lia). simpl.
    destruct (Z.ltb_spec p rclear).
    + rewrite Z.shiftl_spec_low by lia. rewrite andb_false_r. simpl.
      apply andb_true_r.
    + rewrite Z.shiftl_spec, testbit_255 by lia.
      replace (p - rclear <? 8) with true by (symmetry; apply Z.ltb_lt; lia).
      rewrite andb_true_r, andb_false_r. apply orb_false_r.
Qed.

(** bits of a whole byte written by the middle loop *)
Lemma middle_byte_bits (src m p : Z) :
  0 <= m <= 24 -> 0 <= p < 8 ->
  Z.testbit
    (uint8 (Z.land (Z.shiftr src m) (Z.lnot (Z.shiftl smask (src_size - m))))) p
  = Z.testbit src (p + m).
Proof.
  intros Hm Hp. rewrite smask_eq. unfold src_size.
  rewrite lnot_shiftl_m1 by lia.
  rewrite uint8_testbit, Z.land_spec, Z.shiftr_spec by lia.
  rewrite Z.testbit_ones_nonneg by lia.
  replace (p <? 8) with true by (symmetry; apply Z.ltb_lt; lia).
  replace (p <? 32 - m) with true by (symmetry; apply Z.ltb_lt; lia).
  simpl. apply andb_true_r.
Qed.

(** bits of the last byte written when the field crosses a byte
    boundary *)
Lemma last_byte_bits (old src more3 p : Z) :
  is_byte old -> 0 <= more3 < 8 -> 0 <= p < 8 ->
  Z.testbit
    (uint8 (Z.lor (if negb (more3 =? buf_size)
                   then uint8 (Z.land old (Z.lnot (Z.shiftl bmask more3)))
                   else 0)
              (Z.shiftl (uint8 src) more3))) p
  = if p <? more3 then Z.testbit old p else Z.testbit src (p - more3).
Proof.
  intros Hold Hm Hp. rewrite bmask_eq. unfold buf_size.
  destruct (Z.eqb_spec more3 8) as [-> | _]; [lia |]. simpl.
  rewrite uint8_testbit, Z.lor_spec by lia.
  rewrite uint8_testbit, Z.land_spec, Z.lnot_spec by lia.
  replace (p <? 8) with true by (symmetry; apply Z.ltb_lt; lia). simpl.
  destruct (Z.ltb_spec p more3).
  - rewrite !Z.shiftl_spec_low by lia. simpl.
    rewrite andb_true_r. apply orb_false_r.
  - rewrite !Z.shiftl_spec by lia.
    rewrite testbit_255, uint8_testbit by lia.
    replace (p - more3 <? 8) with true by (symmetry; apply Z.ltb_lt; lia).
    simpl. rewrite andb_false_r. reflexivity.
Qed.

(** bits of the byte written when the whole field lies in one byte *)
Lemma single_byte_bits (old src bskip bits p : Z) :
  is_byte old -> 0 <= bskip -> 1 <= bits -> bskip + bits <= 8 ->
  0 <= p < 8 ->
  Z.testbit
    (uint8
       (Z.lor
          (Z.lor
             (if negb (buf_size - bskip =? buf_size)
              then uint8 (Z.land old (Z.shiftl bmask (buf_size - bskip)))
              else 0)
             (if negb (bskip + bits =? buf_size)
              then uint8 (Z.land old
                            (Z.lnot (Z.shiftl bmask (buf_size - (bskip + bits)))))
              else 0))
          (Z.shiftl
             (uint8 (if negb (src_size =? bits)
                     then Z.land src (Z.lnot (Z.shiftl smask bits))
                     else src))
             (buf_size - bskip - bits)))) p
  = if (8 - bskip - bits <=? p) && (p <? 8 - bskip)
    then Z.testbit src (p - (8 - bskip - bits))
    else Z.testbit old p.
Proof.
  intros Hold Hs Hb Hle Hp. rewrite bmask_eq, smask_eq.
  unfold buf_size, src_size.
  destruct (Z.eqb_spec 32 bits) as [Hb32 | _]; [lia |]. simpl.
  rewrite lnot_shiftl_m1 by lia.
  rewrite uint8_testbit, !Z.lor_spec by lia.
  replace (p <? 8) with true by (symmetry; apply Z.ltb_lt; lia). simpl.
  assert (Hleft :
    Z.testbit (if negb (8 - bskip =? 8)
               then uint8 (Z.land old (Z.shiftl 255 (8 - bskip))) else 0) p
    = (8 - bskip <=? p) && Z.testbit old p).
  { destruct (Z.eqb_spec (8 - bskip) 8) as [He | Hne]; simpl.
    - rewrite Z.bits_0. destruct (Z.leb_spec (8 - bskip) p); [lia | reflexivity].
    - rewrite uint8_testbit, Z.land_spec by lia.
      replace (p <? 8) with true by (symmetry; apply Z.ltb_lt; lia). simpl.
      destruct (Z.leb_spec (8 - bskip) p).
      + rewrite Z.shiftl_spec, testbit_255 by lia.
        replace (p - (8 - bskip) <? 8) with true by (symmetry; apply Z.ltb_lt; lia).
        simpl. apply andb_true_r.
      + rewrite Z.shiftl_spec_low by lia. simpl. apply andb_false_r. }
  assert (Hright :
    Z.testbit (if negb (bskip + bits =? 8)
               then uint8 (Z.land old (Z.lnot (Z.shiftl 255 (8 - (bskip + bits)))))
               else 0) p
    = (p <? 8 - bskip - bits) && Z.testbit old p).
  { destruct (Z.eqb_spec (bskip + bits) 8) as [He | Hne]; simpl.
    - rewrite Z.bits_0. destruct (Z.ltb_spec p (8 - bskip - bits)); [lia | reflexivity].
    - rewrite uint8_testbit, Z.land_spec, Z.lnot_spec by lia.
      replace (p <? 8) with true by (symmetry; apply Z.ltb_lt; lia). simpl.
      destruct (Z.ltb_spec p (8 - bskip - bits)).
      + rewrite Z.shiftl_spec_low by lia. simpl. apply andb_true_r.
      + rewrite Z.shiftl_spec, testbit_255 by lia.
        replace (p - (8 - (bskip + bits)) <? 8) with true
          by (symmetry; apply Z.ltb_lt; lia).
        simpl. apply andb_false_r. }
  rewrite Hleft, Hright.
  destruct (Z.leb_spec (8 - bskip - bits) p) as [Hlo | Hlo]; simpl.
  - rewrite Z.shiftl_spec by lia.
    rewrite uint8_testbit, Z.land_spec by lia.
    rewrite Z.testbit_ones_nonneg by lia.
    replace (p <? 8 - bskip - bits) with false by (symmetry; apply Z.ltb_ge; lia).
    replace (p - (8 - bskip - bits) <? 8) with true
      by (symmetry; apply Z.ltb_lt; lia).
    simpl. rewrite orb_false_r.
    destruct (Z.ltb_spec p (8 - bskip)).
    + replace (8 - bskip <=? p) with false by (symmetry; apply Z.leb_gt; lia).
      replace (p - (8 - bskip - bits) <? bits) with true
        by (symmetry; apply Z.ltb_lt; lia).
      simpl. apply andb_true_r.
    + replace (8 - bskip <=? p) with true by (symmetry; apply Z.leb_le; lia).
      replace (p - (8 - bskip - bits) <? bits) with false
        by (symmetry; apply Z.ltb_ge; lia).
      simpl. rewrite andb_false_r. apply orb_false_r.
  - rewrite Z.shiftl_spec_low by lia.
    replace (8 - bskip <=? p) with false by (symmetry; apply Z.leb_gt; lia).
    replace (p <? 8 - bskip - bits) with true by (symmetry; apply Z.ltb_lt; lia).
    simpl. apply orb_false_r.
Qed.


Lemma set_bits_middle_spec (src : Z) :
  forall (fuel : nat) (buf : list Z) (w more : Z),
    bytes_ok buf -> 0 <= w -> 1 <= more <= 32 ->
    (Z.to_nat more <= fuel)%nat ->
    8 * w + 8 + more <= 8 * Z.of_nat (length buf) ->
    exists buf2 w2 more2,
      set_bits_middle fuel buf src w more = (buf2, w2, more2) /\
      1 <= more2 <= 8 /\ 8 * w2 + more2 = 8 * w + more /\ w <= w2 /\
      length buf2 = length buf /\ bytes_ok buf2 /\
      forall c, 0 <= c ->
        (w < c <= w2 ->
         forall p, 0 <= p < 8 ->
           Z.testbit (byte_at buf2 c) p
           = Z.testbit src (p + (8 * w + more - 8 * c))) /\
        (~ (w < c <= w2) -> byte_at buf2 c = byte_at buf c).
Proof.
  induction fuel as [| fuel IH]; intros buf w more Hok Hw Hmore Hfuel Hlen.
  - lia.
  - simpl. destruct (Z.gtb_spec more buf_size) as [Hgt | Hle]; unfold buf_size in *.
    + set (v := Z.land (Z.shiftr src (more - 8))
                  (Z.lnot (Z.shiftl smask (src_size - (more - 8))))).
      destruct (IH (store buf (w + 1) v) (w + 1) (more - 8))
        as (buf2 & w2 & more2 & Heq & Hm2 & Hinv & Hw2 & Hlen2 & Hok2 & Hbytes).
      * apply store_bytes_ok. exact Hok.
      * lia.
      * lia.
      * lia.
      * rewrite store_length. lia.
      * exists buf2, w2, more2. split; [exact Heq |].
        rewrite store_length in Hlen2.
        do 5 (split; [first [lia | assumption] |]).
        intros c Hc. destruct (Hbytes c Hc) as [Hin Hout]. split.
        -- intros Hrange p Hp.
           destruct (Z.eq_dec c (w + 1)) as [-> | Hne].
           ++ rewrite Hout by lia.
              rewrite byte_at_store_same by lia.
              unfold v. rewrite middle_byte_bits by lia. f_equal. lia.
           ++ rewrite Hin by lia. f_equal. lia.
        -- intros Hrange. rewrite Hout by lia.
           apply byte_at_store_other; lia.
    + exists buf, w, more. do 6 (split; [first [lia | assumption | reflexivity] |]).
      intros c Hc. split; [lia | reflexivity].
Qed.

Lemma bit_at_decompose (buf : list Z) (i : Z) :
  0 <= i ->
  exists c q, i = 8 * c + q /\ 0 <= c /\ 0 <= q < 8 /\
              bit_at buf i = Z.testbit (byte_at buf c) (7 - q).
Proof.
  intros Hi. exists (i / 8), (i mod 8).
  pose proof (Z.div_mod i 8 ltac:(lia)).
  pose proof (Z.mod_pos_bound i 8 ltac:(lia)).
  assert (0 <= i / 8) by (apply Z.div_pos; lia).
  repeat split; try lia.
Qed.

Lemma set_bits_spec (buf : list Z) (src off bits : Z) :
  bytes_ok buf -> 0 <= off -> 1 <= bits <= 32 ->
  off + bits <= 8 * Z.of_nat (length buf) ->
  exists buf',
    set_bits buf src off bits = Ok buf' /\
    length buf' = length buf /\ bytes_ok buf' /\
    forall i, 0 <= i ->
      bit_at buf' i =
        if (off <=? i) && (i <? off + bits)
        then Z.testbit src (off + bits - 1 - i)
        else bit_at buf i.
Proof.
  intros Hok Hoff Hbits Hlen. unfold set_bits.
  destruct (Z.eqb_spec bits 0) as [-> | _]; [lia |].
  destruct (Z.gtb_spec bits src_size) as [Hgt | _]; [unfold src_size in Hgt; lia |].
  pose proof (Z.mod_pos_bound off 8 ltac:(lia)) as Hmod.
  pose proof (Z.div_mod off 8 ltac:(lia)) as Hdm.
  assert (Hw0 : 0 <= off / 8) by (apply Z.div_pos; lia).
  cbv zeta. change (off / buf_size) with (off / 8).
  change (off mod buf_size) with (off mod 8).
  set (w := off / 8) in *. set (bskip := off mod 8) in *.
  pose proof (byte_at_is_byte buf w Hok) as Hold.
  destruct (Z.leb_spec (bskip + bits) buf_size) as [Hone | Hmany];
    [unfold buf_size in Hone | unfold buf_size in Hmany].
  - (* the field lies in one byte *)
    eexists. split; [reflexivity |].
    split; [rewrite !store_length; reflexivity |].
    split; [apply store_bytes_ok, store_bytes_ok, Hok |].
    intros i Hi.
    destruct (bit_at_decompose buf i Hi) as (c & q & -> & Hc & Hq & Hbit).
    rewrite Hbit. rewrite bit_at_byte by lia.
    destruct (Z.eq_dec c w) as [-> | Hne].
    + rewrite byte_at_store_same by (rewrite store_length; lia).
      rewrite (byte_at_store_same buf) by lia.
      rewrite single_byte_bits by (auto; lia).
      destruct (Z.leb_spec (8 - bskip - bits) (7 - q));
        destruct (Z.ltb_spec (7 - q) (8 - bskip));
        destruct (Z.leb_spec off (8 * w + q));
        destruct (Z.ltb_spec (8 * w + q) (off + bits)); simpl; try lia;
        try reflexivity.
      f_equal. lia.
    + rewrite !byte_at_store_other by lia.
      destruct (Z.leb_spec off (8 * c + q));
        destruct (Z.ltb_spec (8 * c + q) (off + bits)); simpl; try reflexivity.
      lia.
  - (* the field crosses a byte boundary *)
    set (left := if negb (buf_size - bskip =? buf_size)
                 then uint8 (Z.land (byte_at buf w) (Z.shiftl bmask (buf_size - bskip)))
                 else 0).
    set (more := bits - (buf_size - bskip)).
    set (v1 := Z.lor left (Z.land (Z.shiftr src more)
                             (Z.lnot (Z.shiftl smask (bits - more))))).
    unfold buf_size in more.
    destruct (set_bits_middle_spec src (Z.to_nat more) (store buf w v1) w more)
      as (buf2 & w2 & more2 & Heq & Hm2 & Hinv & Hw2 & Hlen2 & Hok2 & Hbytes).
    { apply store_bytes_ok, Hok. }
    { lia. }
    { unfold more. lia. }
    { lia. }
    { rewrite store_length. unfold more. lia. }
    rewrite Heq. rewrite store_length in Hlen2.
    eexists. split; [reflexivity |].
    split; [rewrite !store_length; exact Hlen2 |].
    split; [apply store_bytes_ok, store_bytes_ok, Hok2 |].
    intros i Hi.
    destruct (bit_at_decompose buf i Hi) as (c & q & -> & Hc & Hq & Hbit).
    rewrite Hbit. rewrite bit_at_byte by lia.
    destruct (Hbytes c Hc) as [Hin Hout].
    unfold more in Hinv.
    destruct (Z.eq_dec c (w2 + 1)) as [-> | Hlast].
    + (* the last byte *)
      rewrite byte_at_store_same by (rewrite store_length; lia).
      rewrite (byte_at_store_same buf2) by lia.
      replace (if buf_size >? src_size
               then Z.land src (Z.lnot (Z.shiftl bmask src_size)) else src)
        with src by reflexivity.
      rewrite last_byte_bits;
        [| apply byte_at_is_byte; exact Hok2 | unfold buf_size; lia | lia].
      unfold buf_size.
      destruct (Z.ltb_spec (7 - q) (8 - more2));
        destruct (Z.leb_spec off (8 * (w2 + 1) + q));
        destruct (Z.ltb_spec (8 * (w2 + 1) + q) (off + bits)); simpl; try lia.
      * rewrite (proj2 (Hbytes (w2 + 1) ltac:(lia))) by lia.
        rewrite byte_at_store_other by lia. reflexivity.
      * f_equal. lia.
    + rewrite !byte_at_store_other by lia.
      destruct (Z_lt_le_dec w c) as [Hgtw | Hlew].
      * destruct (Z_le_gt_dec c w2) as [Hmid | Hbeyond].
        -- (* a byte of the middle loop *)
           rewrite Hin by lia.
           destruct (Z.leb_spec off (8 * c + q));
             destruct (Z.ltb_spec (8 * c + q) (off + bits)); simpl; try lia.
           f_equal. unfold more. lia.
        -- rewrite Hout by lia. rewrite byte_at_store_other by lia.
           destruct (Z.leb_spec off (8 * c + q));
             destruct (Z.ltb_spec (8 * c + q) (off + bits)); simpl; try lia;
             reflexivity.
      * rewrite Hout by lia.
        destruct (Z.eq_dec c w) as [-> | Hbefore].
        -- (* the first byte *)
           rewrite byte_at_store_same by lia.
           unfold v1, left.
           replace (bits - more) with (buf_size - bskip) by (unfold more, buf_size; lia).
           rewrite first_byte_bits by (auto; unfold buf_size, more; lia).
           unfold buf_size.
           destruct (Z.ltb_spec (7 - q) (8 - bskip));
             destruct (Z.leb_spec off (8 * w + q));
             destruct (Z.ltb_spec (8 * w + q) (off + bits)); simpl; try lia;
             try reflexivity.
           f_equal. unfold more. lia.
        -- rewrite byte_at_store_other by lia.
           destruct (Z.leb_spec off (8 * c + q));
             destruct (Z.ltb_spec (8 * c + q) (off + bits)); simpl; try lia;
             reflexivity.
Qed.

(** Two values that satisfy the postcondition of [get_bits] for the same
    bits are equal. *)
Lemma get_bits_value_unique (bits v v' : Z) :
  1 <= bits <= 32 ->
  (bits < 32 -> 0 <= v < 2 ^ bits) -> is_int v ->
  (bits < 32 -> 0 <= v' < 2 ^ bits) -> is_int v' ->
  (forall k, 0 <= k < bits -> Z.testbit v k = Z.testbit v' k) ->
  v = v'.
Proof.
  intros Hbits Hv Hi Hv' Hi' Heq.
  destruct (Z.eq_dec bits 32) as [-> | Hne].
  - apply is_int_eq_of_low_bits; assumption.
  - apply (small_eq_of_low_bits bits).
    + lia.
    + apply Hv. lia.
    + apply Hv'. lia.
    + exact Heq.
Qed.

Lemma low_bits_spec (bits src : Z) :
  1 <= bits <= 32 ->
  (forall k, 0 <= k < bits -> Z.testbit (low_bits bits src) k = Z.testbit src k) /\
  (bits < 32 -> 0 <= low_bits bits src < 2 ^ bits) /\
  is_int (low_bits bits src).
Proof.
  intros Hbits. unfold low_bits.
  destruct (Z.eqb_spec bits 32) as [-> | Hne].
  - split; [intros k Hk; apply sint32_testbit; lia |].
    split; [lia | apply sint32_is_int].
  - pose proof (Z.mod_pos_bound src (2 ^ bits) ltac:(apply Z.pow_pos_nonneg; lia)).
    split; [intros k Hk; apply Z.mod_pow2_bits_low; lia |].
    split; [intros _; assumption |].
    unfold is_int.
    assert (2 ^ bits <= 2 ^ 31) by (apply Z.pow_le_mono_r; lia). lia.
Qed.

(** [get_bits] only looks at the bits of its window. *)
Lemma get_bits_ext (b1 b2 : list Z) (loc1 loc2 off bits : Z) :
  bytes_ok b1 -> bytes_ok b2 -> 0 <= off -> 1 <= bits <= 32 ->
  (forall i, off <= i < off + bits -> bit_at b1 i = bit_at b2 i) ->
  get_bits b1 loc1 off bits = get_bits b2 loc2 off bits.
Proof.
  intros H1 H2 Hoff Hbits Hsame.
  destruct (get_bits_spec b1 loc1 off bits H1 Hoff Hbits) as (v1 & -> & Hb1 & Hr1 & Hi1).
  destruct (get_bits_spec b2 loc2 off bits H2 Hoff Hbits) as (v2 & -> & Hb2 & Hr2 & Hi2).
  f_equal. apply (get_bits_value_unique bits); auto.
  intros k Hk. rewrite Hb1, Hb2 by lia. apply Hsame. lia.
Qed.

(** Reading back the window just written *)
Lemma get_bits_set_bits_same (buf buf' : list Z) (src loc off bits : Z) :
  bytes_ok buf -> 0 <= off -> 1 <= bits <= 32 ->
  off + bits <= 8 * Z.of_nat (length buf) ->
  set_bits buf src off bits = Ok buf' ->
  get_bits buf' loc off bits = Ok (low_bits bits src).
Proof.
  intros Hok Hoff Hbits Hlen Hset.
  destruct (set_bits_spec buf src off bits Hok Hoff Hbits Hlen)
    as (b & Hb & _ & Hokb & Hbit).
  rewrite Hset in Hb. injection Hb as <-.
  destruct (get_bits_spec buf' loc off bits Hokb Hoff Hbits) as (v & -> & Hv & Hr & Hi).
  destruct (low_bits_spec bits src Hbits) as (Hl & Hlr & Hli).
  f_equal. apply (get_bits_value_unique bits); auto.
  intros k Hk. rewrite Hv, Hl by lia. rewrite Hbit by lia.
  destruct (Z.leb_spec off (off + bits - 1 - k));
    destruct (Z.ltb_spec (off + bits - 1 - k) (off + bits)); simpl; try lia.
  f_equal. lia.
Qed.

(** Reading a window that the write did not touch *)
Lemma get_bits_set_bits_other (buf buf' : list Z) (src loc off bits off' bits' : Z) :
  bytes_ok buf -> 0 <= off -> 1 <= bits <= 32 ->
  off + bits <= 8 * Z.of_nat (length buf) ->
  0 <= off' -> 1 <= bits' <= 32 ->
  off + bits <= off' \/ off' + bits' <= off ->
  set_bits buf src off bits = Ok buf' ->
  get_bits buf' loc off' bits' = get_bits buf loc off' bits'.
Proof.
  intros Hok Hoff Hbits Hlen Hoff' Hbits' Hapart Hset.
  destruct (set_bits_spec buf src off bits Hok Hoff Hbits Hlen)
    as (b & Hb & _ & Hokb & Hbit).
  rewrite Hset in Hb. injection Hb as <-.
  apply get_bits_ext; auto.
  intros i Hi. rewrite Hbit by lia.
  destruct (Z.leb_spec off i); destruct (Z.ltb_spec i (off + bits)); simpl;
    try reflexivity; lia.
Qed.


(** A sequence of writes at pairwise-disjoint windows inside the buffer,
    bit by bit: all the writes succeed, the bits of every window are the
    low bits of its value, and every bit outside the windows is
    unchanged. *)
Lemma set_bits_all_bits (buf : list Z) (ws : list (Z * Z * Z)) :
  bytes_ok buf ->
  Forall (window_ok (length buf)) ws ->
  pairwise_apart ws ->
  exists buf',
    set_bits_all buf ws = Ok buf' /\
    length buf' = length buf /\ bytes_ok buf' /\
    (forall off bits src i,
       In (off, bits, src) ws -> off <= i < off + bits ->
       bit_at buf' i = Z.testbit src (off + bits - 1 - i)) /\
    (forall i, 0 <= i ->
       (forall w, In w ws -> ~ in_window w i) ->
       bit_at buf' i = bit_at buf i).
Proof.
  revert buf. induction ws as [| [[off bits] src] ws IH]; intros buf Hok Hwin Hapart.
  - exists buf. simpl. repeat split; auto. intros ? ? ? ? [].
  - apply Forall_cons in Hwin as [[Hbits [Hoff Hlen]] Hwin].
    destruct Hapart as [Hhead Hapart].
    destruct (set_bits_spec buf src off bits Hok Hoff Hbits Hlen)
      as (buf1 & Hset & Hlen1 & Hok1 & Hbit1).
    rewrite <- Hlen1 in Hwin.
    destruct (IH buf1 Hok1 Hwin Hapart) as (buf' & Hall & Hlen' & Hok' & Hread & Hframe).
    exists buf'. simpl. rewrite Hset. simpl.
    split; [exact Hall |]. split; [congruence |]. split; [exact Hok' |]. split.
    + intros off' bits' src' i [Heq | Hin] Hi.
      * injection Heq as <- <- <-.
        rewrite Hframe.
        -- rewrite Hbit1 by lia.
           destruct (Z.leb_spec off i); destruct (Z.ltb_spec i (off + bits));
             simpl; try lia. reflexivity.
        -- lia.
        -- intros [[o n] v] Hw Hiw. simpl in Hiw.
           rewrite Forall_forall in Hhead.
           specialize (Hhead (o, n, v) ltac:(apply list_elem_of_In; exact Hw)).
           simpl in Hhead. lia.
      * apply (Hread off' bits' src' i Hin Hi).
    + intros i Hi Hout.
      rewrite Hframe; [| exact Hi | intros w Hw; apply Hout; right; exact Hw].
      rewrite Hbit1 by exact Hi.
      specialize (Hout (off, bits, src) ltac:(left; reflexivity)). simpl in Hout.
      destruct (Z.leb_spec off i); destruct (Z.ltb_spec i (off + bits)); simpl;
        try reflexivity; lia.
Qed.

(** [get_bits] on a window whose bits are those of [src] *)
Lemma get_bits_of_bits (buf : list Z) (loc off bits src : Z) :
  bytes_ok buf -> 0 <= off -> 1 <= bits <= 32 ->
  (forall i, off <= i < off + bits ->
     bit_at buf i = Z.testbit src (off + bits - 1 - i)) ->
  get_bits buf loc off bits = Ok (low_bits bits src).
Proof.
  intros Hok Hoff Hbits Hsrc.
  destruct (get_bits_spec buf loc off bits Hok Hoff Hbits) as (v & -> & Hv & Hr & Hi).
  destruct (low_bits_spec bits src Hbits) as (Hl & Hlr & Hli).
  f_equal. apply (get_bits_value_unique bits); auto.
  intros k Hk. rewrite Hv, Hl by lia. rewrite Hsrc by lia. f_equal. lia.
Qed.

(** Reading a field that a sequence of writes has set *)
Lemma set_bits_all_get (buf buf' : list Z) (ws : list (Z * Z * Z))
    (off bits src loc : Z) :
  bytes_ok buf ->
  Forall (window_ok (length buf)) ws ->
  pairwise_apart ws ->
  set_bits_all buf ws = Ok buf' ->
  In (off, bits, src) ws ->
  get_bits buf' loc off bits = Ok (low_bits bits src).
Proof.
  intros Hok Hwin Hapart Hset Hin.
  destruct (set_bits_all_bits buf ws Hok Hwin Hapart)
    as (b & Hb & _ & Hokb & Hbits & _).
  rewrite Hset in Hb. injection Hb as <-.
  rewrite Forall_forall in Hwin.
  specialize (Hwin (off, bits, src) ltac:(apply list_elem_of_In; exact Hin)).
  destruct Hwin as (Hw & Ho & _).
  apply get_bits_of_bits; [exact Hokb | exact Ho | exact Hw |].
  intros i Hi. apply (Hbits off bits src i Hin Hi).
Qed.

(** C5.  BitStream round trip.  For every byte buffer and every finite
    sequence of [set_bits] writes at pairwise-disjoint windows, each of
    width 1 to 32 bits and lying within the buffer: all the writes
    succeed; afterwards [get_bits] at the offset and width of each window
    returns the low [bits] bits of the value written there; and every bit
    of the buffer outside the written windows is unchanged. *)
Theorem bitstream_round_trip (buf : list Z) (ws : list (Z * Z * Z)) :
  bytes_ok buf ->
  Forall (window_ok (length buf)) ws ->
  pairwise_apart ws ->
  exists buf',
    set_bits_all buf ws = Ok buf' /\
    length buf' = length buf /\
    (forall off bits src loc,
       In (off, bits, src) ws ->
       get_bits buf' loc off bits = Ok (low_bits bits src)) /\
    (forall i, 0 <= i ->
       (forall w, In w ws -> ~ in_window w i) ->
       bit_at buf' i = bit_at buf i).
Proof.
  intros Hok Hwin Hapart.
  destruct (set_bits_all_bits buf ws Hok Hwin Hapart)
    as (buf' & Hall & Hlen & Hok' & Hbits & Hframe).
  exists buf'. split; [exact Hall |]. split; [exact Hlen |]. split.
  - intros off bits src loc Hin.
    rewrite Forall_forall in Hwin.
    specialize (Hwin (off, bits, src) ltac:(apply list_elem_of_In; exact Hin)).
    destruct Hwin as (Hw & Ho & _).
    apply get_bits_of_bits; [exact Hok' | exact Ho | exact Hw |].
    intros i Hi. apply (Hbits off bits src i Hin Hi).
  - exact Hframe.
Qed.

Lemma bitstream_round_trip_witness :
  exists buf',
    set_bits_all [255; 0; 170; 85; 0; 0] [(3, 7, 85); (12, 17, 109517); (40, 8, -1)]
    = Ok buf' /\
    length buf' = length [255; 0; 170; 85; 0; 0] /\
    (forall off bits src loc,
       In (off, bits, src) [(3, 7, 85); (12, 17, 109517); (40, 8, -1)] ->
       get_bits buf' loc off bits = Ok (low_bits bits src)) /\
    (forall i, 0 <= i ->
       (forall w, In w [(3, 7, 85); (12, 17, 109517); (40, 8, -1)] -> ~ in_window w i) ->
       bit_at buf' i = bit_at [255; 0; 170; 85; 0; 0] i).
Proof.
  apply (bitstream_round_trip [255; 0; 170; 85; 0; 0]
           [(3, 7, 85); (12, 17, 109517); (40, 8, -1)]).
  - repeat constructor; unfold is_byte; lia.
  - repeat constructor; simpl; lia.
  - simpl. repeat constructor; simpl; lia.
Defined.

End BitStreamFacts.

(** ** The calendar of grib1to2.c *)
Module Grib1to2Facts.
Import CInt BitStream BitStreamFacts Grib1to2.

Lemma roll_days_stop (fuel : nat) (md : list Z) (yr mo dy lim : Z) :
  mdays_at md mo = Ok lim -> dy <= lim ->
  roll_days (S fuel) md yr mo dy = Ok (md, yr, mo, dy).
Proof.
  intros Hlim Hle. cbn [roll_days]. rewrite Hlim. cbn [bind].
  destruct (Z.gtb_spec dy lim); [lia | reflexivity].
Qed.

Lemma roll_days_next_month (fuel : nat) (md : list Z) (yr mo dy lim : Z) :
  mdays_at md mo = Ok lim -> lim < dy -> mo + 1 <= 12 ->
  roll_days (S fuel) md yr mo dy = roll_days fuel md yr (mo + 1) (dy - lim).
Proof.
  intros Hlim Hgt Hmo. cbn [roll_days]. rewrite Hlim. cbn [bind].
  destruct (Z.gtb_spec dy lim); [| lia].
  destruct (Z.gtb_spec (mo + 1) 12); [lia | reflexivity].
Qed.

Lemma set_feb_mdays (feb yr : Z) :
  set_feb (<[2%nat := feb]> mdays) yr
  = <[2%nat := if is_leap yr then 29 else 28]> mdays.
Proof. reflexivity. Qed.

(** the bound given to the loop of [add_time] is not reached: every month
    from 1 to 12 has at least one day, so every iteration but one from
    month 0 takes at least one day off *)
Lemma roll_days_fuel (fuel : nat) :
  forall feb yr mo dy,
    1 <= feb ->
    (Z.to_nat dy + (if (mo =? 0)%Z then 1 else 0) < fuel)%nat ->
    roll_days fuel (<[2%nat := feb]> mdays) yr mo dy <> Err OutOfFuel.
Proof.
  induction fuel as [| fuel IH]; intros feb yr mo dy Hfeb Hfuel; [lia |].
  cbn [roll_days]. unfold mdays_at.
  destruct (Z.ltb_spec mo 0) as [Hneg | Hpos]; [discriminate |].
  destruct (Z_le_gt_dec 13 mo) as [Hbig | Hsmall].
  { rewrite (lookup_ge_None_2 _ (Z.to_nat mo)); [discriminate |].
    rewrite length_insert. cbn [mdays length]. lia. }
  assert (Hmo : exists n : nat, mo = Z.of_nat n /\ (n < 13)%nat).
  { exists (Z.to_nat mo). lia. }
  destruct Hmo as (n & -> & Hn). rewrite Nat2Z.id.
  assert (Hstep : forall lim mo1,
            (<[2%nat := feb]> mdays) !! n = Some lim ->
            (if Z.of_nat n =? 0 then 0 <= lim else 1 <= lim) ->
            mo1 = Z.of_nat n + 1 ->
            (if dy >? lim
             then if mo1 >? 12
                  then roll_days fuel
                         (set_feb (<[2%nat := feb]> mdays) (sint32 (yr + 1)))
                         (sint32 (yr + 1)) 1 (dy - lim)
                  else roll_days fuel (<[2%nat := feb]> mdays) yr mo1 (dy - lim)
             else Ok (<[2%nat := feb]> mdays, yr, Z.of_nat n, dy))
            <> Err OutOfFuel).
  { intros lim mo1 _ Hlim ->.
    destruct (Z.gtb_spec dy lim) as [Hgt | _]; [| discriminate].
    assert (Hless : (Z.to_nat (dy - lim) + 0 < fuel)%nat).
    { revert Hlim Hfuel. destruct (Z.eqb_spec (Z.of_nat n) 0); lia. }
    destruct (Z.of_nat n + 1 >? 12).
    - rewrite set_feb_mdays. apply IH; [destruct (is_leap _); lia |].
      change (1 =? 0) with false. exact Hless.
    - apply IH; [exact Hfeb |].
      destruct (Z.eqb_spec (Z.of_nat n + 1) 0); [lia | exact Hless]. }
  do 13 (destruct n as [| n];
         [cbn [bind]; eapply Hstep;
            [reflexivity
            | lazy [Z.of_nat Pos.of_succ_nat Pos.succ Z.eqb]; lia
            | reflexivity] |]).
  lia.
Qed.

Lemma add_time_fuel (feb time_to_add time_units yr mo dy time : Z) :
  add_time (<[2%nat := feb]> mdays) time_to_add time_units yr mo dy time
  <> Err OutOfFuel.
Proof.
  unfold add_time. cbv zeta.
  destruct (match time_units with
            | 0 => Ok (sint32 (Z.rem time 100 + time_to_add))
            | 1 => Ok (sint32 (Z.rem time 100 + sint32 (time_to_add * 60)))
            | 2 => Ok (sint32 (Z.rem time 100 + sint32 (time_to_add * 1440)))
            | _ => Err Exit1
            end) as [min1 | e] eqn:Hmin; cbn [bind].
  2: { destruct time_units as [| [p | [p | p |] |] | p];
         first [discriminate Hmin | injection Hmin as <-; discriminate]. }
  destruct (min1 >=? 60); [| discriminate].
  destruct (_ >=? 24); [| discriminate].
  rewrite set_feb_mdays.
  match goal with
  | |- context [roll_days ?f ?md ?y ?m ?d] =>
      pose proof (roll_days_fuel f (if is_leap yr then 29 else 28) y m d) as Hroll;
      destruct (roll_days f md y m d) as [[[[md1 yr1] mo1] dy1] | e]
  end; cbn [bind]; [discriminate |].
  intros He. injection He as ->. apply Hroll; [destruct (is_leap yr); lia | | reflexivity].
  destruct (mo =? 0); lia.
Qed.

Lemma is_leap_gregorian (yr : Z) : is_leap yr = true <-> gregorian_leap yr.
Proof.
  unfold is_leap, gregorian_leap.
  assert (Hrem : forall n, 0 < n -> (Z.rem yr n = 0 <-> yr mod n = 0)).
  { intros n Hn. rewrite Z.rem_divide, Z.mod_divide by lia. reflexivity. }
  rewrite andb_true_iff, orb_true_iff, negb_true_iff.
  rewrite !Z.eqb_eq, Z.eqb_neq.
  rewrite !Hrem by lia. reflexivity.
Qed.

(** One day added to 28 February 12:00 of any year: 29 February in a
    leap year, 1 March otherwise. *)
Lemma add_time_feb_28 (feb yr : Z) :
  add_time (<[2%nat := feb]> mdays) 24 1 yr 2 28 1200
  = if is_leap yr
    then Ok (<[2%nat := 29]> mdays, yr, 2, 29, 1200)
    else Ok (mdays, yr, 3, 1, 1200).
Proof.
  unfold add_time.
  change (Z.quot 1200 100) with 12. change (Z.rem 1200 100) with 0.
  cbv beta iota zeta.
  change (sint32 (0 + sint32 (24 * 60))) with 1440.
  cbn [bind].
  change (1440 >=? 60) with true. cbv iota.
  change (sint32 (12 + Z.quot 1440 60)) with 36.
  change (36 >=? 24) with true. cbv iota.
  change (sint32 (28 + Z.quot 36 24)) with 29.
  change (Z.rem 36 24) with 12. change (Z.rem 1440 60) with 0.
  change (sint32 (12 * 100 + 0)) with 1200.
  change (Z.to_nat 29) with 29%nat.
  unfold set_feb. destruct (is_leap yr).
  - rewrite (roll_days_stop _ _ yr 2 29 29); [reflexivity | reflexivity | lia].
  - rewrite (roll_days_next_month _ _ yr 2 29 28); [| reflexivity | lia | lia].
    rewrite (roll_days_stop _ _ yr 3 1 31); [reflexivity | reflexivity | lia].
Qed.

(** *** [pack_PDS] *)

Lemma set_bits_all_app (buf : list Z) (ws1 ws2 : list (Z * Z * Z)) :
  set_bits_all buf (ws1 ++ ws2)
  = (let* b := set_bits_all buf ws1 in set_bits_all b ws2).
Proof.
  revert buf. induction ws1 as [| [[off bits] src] ws1 IH]; intros buf.
  - reflexivity.
  - cbn [app set_bits_all]. destruct (set_bits buf src off bits); cbn [bind].
    + apply IH.
    + reflexivity.
Qed.

Section WithFloats.
Context `{FloatOps}.
Import Unpackgrib1 ResultFacts.

Lemma pds_template_cases (t len tn : Z) :
  pds_template t = Ok (len, tn) ->
  (len = 34 /\ tn = 0 /\ (t = 0 \/ t = 1 \/ t = 10)) \/
  (len = 58 /\ tn = 8 /\ (t = 2 \/ t = 3 \/ t = 4)).
Proof.
  unfold pds_template. intros Ht.
  repeat match type of Ht with
         | context [match ?x with _ => _ end] => destruct x; try discriminate Ht
         end;
    injection Ht as <- <-; auto 10.
Qed.

(** What a successful [pack_PDS] has done: the writes of the template of
    the time range, in the order of the source. *)
Lemma pack_PDS_post (md : list Z) (msg : GRIBMessage) (cat num : Z)
    (buf : list Z) (off : Z) :
  on_ok (pack_PDS md msg cat num buf off)
    (fun r =>
       let '(md', buf', off') := r in
       (pds_template (t_range msg) = Ok (34, 0) /\ off' = off + 34 * 8 /\
        md' = md /\
        set_bits_all buf (template0_writes off cat num msg) = Ok buf') \/
       (pds_template (t_range msg) = Ok (58, 8) /\ off' = off + 58 * 8 /\
        fst (statistic msg) <> 255 /\
        exists yr1 mo1 dy1 time1,
          add_time md (p2 msg) (fcst_units msg) (yr msg) (mo msg) (dy msg)
            (time msg) = Ok (md', yr1, mo1, dy1, time1) /\
          set_bits_all buf (template8_writes off cat num msg yr1 mo1 dy1 time1)
          = Ok buf')).
Proof.
  unfold pack_PDS.
  apply on_ok_bind. intros [len tn] Ht.
  destruct (pds_template_cases _ _ _ Ht) as [(-> & -> & _) | (-> & -> & _)].
  - repeat on_ok_step. cbn [Z.eqb Pos.eqb on_ok]. left.
    repeat (split; [first [assumption | reflexivity] |]).
    unfold template0_writes.
    repeat (rewrite set_bits_all_app;
            match goal with
            | Hb : set_bits_all _ _ = Ok _ |- _ => rewrite Hb; cbn [bind]; clear Hb
            end).
    assumption.
  - repeat on_ok_step.
    change (8 =? 8) with true. cbv iota.
    apply on_ok_bind. intros [[[[md1 yr1] mo1] dy1] time1] Hadd.
    on_ok_step.
    destruct (statistic msg) as [process time_incr] eqn:Hst.
    destruct (Z.eqb_spec process 255) as [-> | Hne]; [exact I |].
    on_ok_step. cbn [on_ok]. right.
    repeat (split; [first [assumption | reflexivity] |]).
    exists yr1, mo1, dy1, time1. split; [exact Hadd |].
    unfold template8_writes.
    repeat (rewrite set_bits_all_app;
            match goal with
            | Hb : set_bits_all _ _ = Ok _ |- _ => rewrite Hb; cbn [bind]; clear Hb
            end).
    rewrite Hst. cbn [fst snd]. assumption.
Qed.


Lemma In_level_template0 (w : Z * Z * Z) (off cat num : Z) (msg : GRIBMessage) :
  In w (level_writes off (pds_levels msg)) ->
  In w (template0_writes off cat num msg).
Proof. intros Hw. unfold template0_writes. rewrite !in_app_iff. auto. Qed.

Lemma In_level_template8 (w : Z * Z * Z) (off cat num : Z) (msg : GRIBMessage)
    (yr1 mo1 dy1 time1 : Z) :
  In w (level_writes off (pds_levels msg)) ->
  In w (template8_writes off cat num msg yr1 mo1 dy1 time1).
Proof. intros Hw. unfold template8_writes. rewrite !in_app_iff. auto. Qed.

Lemma In_end_time_template8 (w : Z * Z * Z) (off cat num : Z) (msg : GRIBMessage)
    (yr1 mo1 dy1 time1 : Z) :
  In w (end_time_writes off yr1 mo1 dy1 time1) ->
  In w (template8_writes off cat num msg yr1 mo1 dy1 time1).
Proof. intros Hw. unfold template8_writes. rewrite !in_app_iff. auto 10. Qed.

Ltac windows_tac :=
  repeat match goal with
         | |- Forall _ (_ :: _) => constructor
         | |- Forall _ [] => constructor
         | |- _ /\ _ => split
         | |- window_ok _ _ => unfold window_ok
         | |- windows_apart _ _ => unfold windows_apart
         | |- True => exact I
         end; try lia.

Lemma template0_windows (n : nat) (off cat num : Z) (msg : GRIBMessage) :
  0 <= off -> off + 34 * 8 <= 8 * Z.of_nat n ->
  Forall (window_ok n) (template0_writes off cat num msg) /\
  pairwise_apart (template0_writes off cat num msg).
Proof.
  intros Hoff Hlen.
  unfold template0_writes, section_writes, product_writes, level_writes.
  assert (Hf : forecast_time_writes off msg = []
               \/ exists v, forecast_time_writes off msg = [(off + 144, 32, v)]).
  { unfold forecast_time_writes.
    repeat match goal with
           | |- context [match ?x with _ => _ end] => destruct x
           end; eauto. }
  destruct Hf as [-> | [v ->]]; cbn [app pairwise_apart]; split; windows_tac.
Qed.

Lemma template8_windows (n : nat) (off cat num : Z) (msg : GRIBMessage)
    (yr1 mo1 dy1 time1 : Z) :
  0 <= off -> off + 58 * 8 <= 8 * Z.of_nat n ->
  pds_template (t_range msg) = Ok (58, 8) ->
  Forall (window_ok n) (template8_writes off cat num msg yr1 mo1 dy1 time1) /\
  pairwise_apart (template8_writes off cat num msg yr1 mo1 dy1 time1).
Proof.
  intros Hoff Hlen Ht.
  unfold template8_writes, section_writes, product_writes, level_writes,
    end_time_writes, process_writes.
  assert (Hf : forecast_time_writes off msg = []).
  { unfold forecast_time_writes.
    destruct (pds_template_cases _ _ _ Ht) as [(Hx & _) | (_ & _ & [-> | [-> | ->]])];
      [discriminate Hx | reflexivity ..]. }
  rewrite Hf. cbn [app pairwise_apart]. split; windows_tac.
Qed.


(** The fields of the two surfaces and of the overall end time, read back
    from the buffer that [pack_PDS] has filled *)
Lemma pack_PDS_reads (md : list Z) (msg : GRIBMessage) (cat num : Z)
    (buf : list Z) (off : Z) (md' buf' : list Z) (off' : Z) :
  bytes_ok buf -> 0 <= off -> off' <= 8 * Z.of_nat (length buf) ->
  pack_PDS md msg cat num buf off = Ok (md', buf', off') ->
  (forall o n v loc,
     In (o, n, v) (level_writes off (pds_levels msg)) ->
     get_bits buf' loc o n = Ok (low_bits n v)) /\
  (pds_template (t_range msg) = Ok (58, 8) ->
   exists yr1 mo1 dy1 time1,
     add_time md (p2 msg) (fcst_units msg) (yr msg) (mo msg) (dy msg)
       (time msg) = Ok (md', yr1, mo1, dy1, time1) /\
     forall o n v loc,
       In (o, n, v) (section_writes off 58 8
                       ++ end_time_writes off yr1 mo1 dy1 time1) ->
       get_bits buf' loc o n = Ok (low_bits n v)).
Proof.
  intros Hok Hoff Hlen Hpack.
  pose proof (on_ok_elim _ _ _ (pack_PDS_post md msg cat num buf off) Hpack) as Hpost.
  cbv beta iota in Hpost.
  destruct Hpost as [(Ht & -> & -> & Hset) | (Ht & -> & Hst & yr1 & mo1 & dy1 & time1 & Hadd & Hset)].
  - destruct (template0_windows (length buf) off cat num msg Hoff Hlen) as [Hwin Hap].
    split.
    + intros o n v loc Hin.
      apply (set_bits_all_get buf buf' _ o n v loc Hok Hwin Hap Hset).
      apply In_level_template0. exact Hin.
    + intros Ht8. rewrite Ht in Ht8. discriminate Ht8.
  - destruct (template8_windows (length buf) off cat num msg yr1 mo1 dy1 time1
                Hoff Hlen Ht) as [Hwin Hap].
    split.
    + intros o n v loc Hin.
      apply (set_bits_all_get buf buf' _ o n v loc Hok Hwin Hap Hset).
      apply In_level_template8. exact Hin.
    + intros _. exists yr1, mo1, dy1, time1. split; [exact Hadd |].
      intros o n v loc Hin.
      apply (set_bits_all_get buf buf' _ o n v loc Hok Hwin Hap Hset).
      unfold template8_writes. apply in_app_iff in Hin as [Hin | Hin].
      * rewrite !in_app_iff. auto.
      * rewrite !in_app_iff. auto 10.
Qed.

Lemma pds_levels_104 (msg : GRIBMessage) :
  level_type msg = 104 ->
  pds_levels msg
  = {| lvl1_type := 103; lvl1_scale := -2; lvl1_value := lvl1 msg;
       lvl2_type := 102; lvl2_scale := -2; lvl2_value := lvl2 msg |}.
Proof. intros Hl. unfold pds_levels. rewrite Hl. reflexivity. Qed.

(** C2 (the code departs from the documented table).  For every message
    with level type 104 that [pack_PDS] packs, the type of the first surface in the
    GRIB-2 section is 103, not 102: [case 104] has no [break] and runs into
    [case 105].  The type of the second surface is 102, both scale factors
    are -2 (sign bit 1, magnitude 2) and the two level values are
    unchanged. *)
Theorem pack_PDS_level_104 (md : list Z) (msg : GRIBMessage) (cat num : Z)
    (buf : list Z) (off : Z) (md' buf' : list Z) (off' loc : Z) :
  bytes_ok buf -> 0 <= off -> off' <= 8 * Z.of_nat (length buf) ->
  level_type msg = 104 ->
  pack_PDS md msg cat num buf off = Ok (md', buf', off') ->
  get_bits buf' loc (off + 176) 8 = Ok 103 /\
  get_bits buf' loc (off + 224) 8 = Ok 102 /\
  get_bits buf' loc (off + 184) 1 = Ok 1 /\
  get_bits buf' loc (off + 185) 7 = Ok 2 /\
  get_bits buf' loc (off + 232) 1 = Ok 1 /\
  get_bits buf' loc (off + 233) 7 = Ok 2 /\
  get_bits buf' loc (off + 192) 32 = Ok (low_bits 32 (lvl1 msg)) /\
  get_bits buf' loc (off + 240) 32 = Ok (low_bits 32 (lvl2 msg)).
Proof.
  intros Hok Hoff Hlen H104 Hpack.
  destruct (pack_PDS_reads md msg cat num buf off md' buf' off' Hok Hoff Hlen Hpack)
    as [Hlev _].
  rewrite (pds_levels_104 msg H104) in Hlev.
  unfold level_writes in Hlev. cbn [lvl1_type lvl1_scale lvl1_value
                                    lvl2_type lvl2_scale lvl2_value] in Hlev.
  repeat split.
  - apply (Hlev (off + 176) 8 103 loc). simpl. auto.
  - apply (Hlev (off + 224) 8 102 loc). simpl. auto 10.
  - apply (Hlev (off + 184) 1 1 loc). simpl. auto.
  - apply (Hlev (off + 185) 7 2 loc). simpl. auto.
  - apply (Hlev (off + 232) 1 1 loc). simpl. auto 10.
  - apply (Hlev (off + 233) 7 2 loc). simpl. auto 10.
  - apply (Hlev (off + 192) 32 (lvl1 msg) loc). simpl. auto.
  - apply (Hlev (off + 240) 32 (lvl2 msg) loc). simpl. auto 10.
Qed.

(** The fields of the overall end time.  For every message that
    [pack_PDS] packs with template 8 (time range indicator 2, 3 or 4),
    the fields of the overall end time hold the low 16 or 8 bits of the
    components that [add_time] returns on the reference time, P2 and the
    forecast time unit, and the second is 0.  [feb] is the value that
    earlier calls have left in [mdays[2]]. *)
Lemma pack_PDS_end_time_fields (feb : Z) (msg : GRIBMessage) (cat num : Z)
    (buf : list Z) (off : Z) (md' buf' : list Z) (off' loc : Z) :
  bytes_ok buf -> 0 <= off -> off' <= 8 * Z.of_nat (length buf) ->
  t_range msg = 2 \/ t_range msg = 3 \/ t_range msg = 4 ->
  pack_PDS (<[2%nat := feb]> mdays) msg cat num buf off = Ok (md', buf', off') ->
  exists yr1 mo1 dy1 time1,
    add_time (<[2%nat := feb]> mdays) (p2 msg) (fcst_units msg)
      (yr msg) (mo msg) (dy msg) (time msg) = Ok (md', yr1, mo1, dy1, time1) /\
    get_bits buf' loc (off + 56) 16 = Ok 8 /\
    get_bits buf' loc (off + 272) 16 = Ok (low_bits 16 yr1) /\
    get_bits buf' loc (off + 288) 8 = Ok (low_bits 8 mo1) /\
    get_bits buf' loc (off + 296) 8 = Ok (low_bits 8 dy1) /\
    get_bits buf' loc (off + 304) 8 = Ok (low_bits 8 (Z.quot time1 100)) /\
    get_bits buf' loc (off + 312) 8 = Ok (low_bits 8 (Z.rem time1 100)) /\
    get_bits buf' loc (off + 320) 8 = Ok 0.
Proof.
  intros Hok Hoff Hlen Ht Hpack.
  assert (Ht8 : pds_template (t_range msg) = Ok (58, 8))
    by (destruct Ht as [-> | [-> | ->]]; reflexivity).
  destruct (pack_PDS_reads _ msg cat num buf off md' buf' off' Hok Hoff Hlen Hpack)
    as [_ Hend].
  destruct (Hend Ht8) as (yr1 & mo1 & dy1 & time1 & Hadd & Hread).
  exists yr1, mo1, dy1, time1.
  assert (H56 : get_bits buf' loc (off + 56) 16 = Ok 8)
    by (apply (Hread (off + 56) 16 8 loc); simpl; auto).
  assert (Hyr : get_bits buf' loc (off + 272) 16 = Ok (low_bits 16 yr1))
    by (apply (Hread (off + 272) 16 yr1 loc); simpl; auto 10).
  assert (Hmo : get_bits buf' loc (off + 288) 8 = Ok (low_bits 8 mo1))
    by (apply (Hread (off + 288) 8 mo1 loc); simpl; auto 10).
  assert (Hdy : get_bits buf' loc (off + 296) 8 = Ok (low_bits 8 dy1))
    by (apply (Hread (off + 296) 8 dy1 loc); simpl; auto 10).
  assert (Hhr : get_bits buf' loc (off + 304) 8 = Ok (low_bits 8 (Z.quot time1 100)))
    by (apply (Hread (off + 304) 8 (Z.quot time1 100) loc); simpl; auto 10).
  assert (Hmi : get_bits buf' loc (off + 312) 8 = Ok (low_bits 8 (Z.rem time1 100)))
    by (apply (Hread (off + 312) 8 (Z.rem time1 100) loc); simpl; auto 10).
  assert (Hse : get_bits buf' loc (off + 320) 8 = Ok 0)
    by (apply (Hread (off + 320) 8 0 loc); simpl; auto 15).
  repeat (split; [assumption |]). assumption.
Qed.

End WithFloats.

Import Exact Examples.

Lemma pack_PDS_level_104_witness :
  exists md' buf' off',
    pack_PDS mdays layer_message 0 1 (replicate 34 0) 0 = Ok (md', buf', off') /\
    get_bits buf' 0 (0 + 176) 8 = Ok 103 /\
    get_bits buf' 0 (0 + 224) 8 = Ok 102 /\
    get_bits buf' 0 (0 + 184) 1 = Ok 1 /\
    get_bits buf' 0 (0 + 185) 7 = Ok 2 /\
    get_bits buf' 0 (0 + 232) 1 = Ok 1 /\
    get_bits buf' 0 (0 + 233) 7 = Ok 2 /\
    get_bits buf' 0 (0 + 192) 32 = Ok (low_bits 32 (Unpackgrib1.lvl1 layer_message)) /\
    get_bits buf' 0 (0 + 240) 32 = Ok (low_bits 32 (Unpackgrib1.lvl2 layer_message)).
Proof.
  eexists _, _, _. split; [vm_compute; reflexivity |].
  eapply (pack_PDS_level_104 mdays layer_message 0 1 (replicate 34 0) 0).
  5: { vm_compute. reflexivity. }
  - repeat constructor; unfold is_byte; lia.
  - lia.
  - vm_compute. discriminate.
  - reflexivity.
Defined.

End Grib1to2Facts.

(** ** The GRIB-1 decoder *)
Module Unpackgrib1Facts.
Import CInt BitStream BitStreamFacts Unpackgrib1 ResultFacts.

Section WithFloats.
Context `{FloatOps}.

(** The number in average follows P2: it is read from octets 22-23 when
    the decoded [p2] is in the list of the switch, and is 0 otherwise,
    whatever the time range indicator. *)
Lemma unpack_PDS_navg (m m' : GRIBMessage) :
  unpack_PDS m = Ok m' ->
  (has_navg (p2 m') = true ->
   get_bits (buffer m) (navg m) ((if ed_num m =? 0 then 32 else 64) + 168) 16
   = Ok (navg m')) /\
  (has_navg (p2 m') = false -> navg m' = 0).
Proof.
  apply (on_ok_elim (unpack_PDS m)
           (fun m' => (has_navg (p2 m') = true ->
                       get_bits (buffer m) (navg m)
                         ((if ed_num m =? 0 then 32 else 64) + 168) 16
                       = Ok (navg m')) /\
                      (has_navg (p2 m') = false -> navg m' = 0))).
  unfold unpack_PDS. cbv zeta.
  assert (Hgoal : forall off p2_1 navg1,
            (if has_navg p2_1 then get_bits (buffer m) (navg m) (off + 168) 16
             else Ok 0) = Ok navg1 ->
            (has_navg p2_1 = true ->
             get_bits (buffer m) (navg m) (off + 168) 16 = Ok navg1) /\
            (has_navg p2_1 = false -> navg1 = 0)).
  { intros off p2_1 navg1 Hn. destruct (has_navg p2_1); split; intros Hb;
      try discriminate Hb; [exact Hn | congruence]. }
  repeat on_ok_step.
  destruct (ed_num m =? 0) eqn:Hed.
  - cbn [on_ok p2 navg]. eapply Hgoal; eassumption.
  - repeat on_ok_step.
    match goal with
    | |- context [let (_, _) := ?c in _] => destruct c as [[? ?] ?]
    end.
    cbn [on_ok p2 navg]. eapply Hgoal; eassumption.
Qed.

End WithFloats.

Import Exact Examples.

(** C1 (the code departs from the documented rule).  An edition 1
    message with time range indicator 3 (average), P2 = 0 and the value 5 in the octets of
    the number in average is decoded with [navg = 0]; a message with time
    range indicator 0, P2 = 3 and the same octets is decoded with
    [navg = 5]: the switch of [unpack_PDS] tests [p2], not [t_range]. *)
Theorem unpack_PDS_navg_tests_p2 :
  (exists m',
     unpack_PDS average_message = Ok m' /\
     t_range m' = 3 /\ p2 m' = 0 /\ has_navg (t_range m') = true /\
     get_bits (buffer average_message) 0 (64 + 168) 16 = Ok 5 /\
     navg m' = 0) /\
  (exists m',
     unpack_PDS forecast_message = Ok m' /\
     t_range m' = 0 /\ p2 m' = 3 /\ has_navg (t_range m') = false /\
     navg m' = 5).
Proof.
  split; eexists; (split; [vm_compute; reflexivity |]); vm_compute; repeat split.
Qed.

End Unpackgrib1Facts.

(** ** The GRIB-2 decoder *)
Module Unpackgrib2Facts.
Import CInt BitStream BitStreamFacts ResultFacts Unpackgrib2.

Lemma sint32_add_l (a b : Z) : sint32 (sint32 a + b) = sint32 (a + b).
Proof.
  apply is_int_eq_of_low_bits; try apply sint32_is_int.
  intros k Hk. rewrite !sint32_testbit by lia.
  rewrite <- (Z.mod_pow2_bits_low (sint32 a + b) 32 k) by lia.
  rewrite <- (Z.mod_pow2_bits_low (a + b) 32 k) by lia.
  rewrite Zplus_mod, sint32_mod, <- Zplus_mod. reflexivity.
Qed.

Lemma sint32_add_r (a b : Z) : sint32 (a + sint32 b) = sint32 (a + b).
Proof. rewrite Z.add_comm, sint32_add_l, Z.add_comm. reflexivity. Qed.

(** [get_bits] on a whole 32-bit word at a byte boundary *)
Lemma get_bits_word (buf : list Z) (loc w : Z) :
  0 <= w ->
  get_bits buf loc (8 * w) 32
  = Ok (sint32 (byte_at buf w * 2 ^ 24 + byte_at buf (w + 1) * 2 ^ 16
                + byte_at buf (w + 2) * 2 ^ 8 + byte_at buf (w + 3))).
Proof.
  intros Hw. unfold get_bits.
  change (32 =? 0) with false. change (32 >? loc_size) with false.
  change (negb (32 =? loc_size)) with false. cbv iota.
  unfold buf_size.
  replace (8 * w / 8) with w by (rewrite Z.mul_comm, Z.div_mul; lia).
  replace ((8 * w) mod 8) with 0 by (rewrite Z.mul_comm, Z.mod_mul; lia).
  change (8 - 0 - 32) with (-24). change (-24 <? 0) with true. cbv iota.
  change (Z.to_nat (- -24)) with 24%nat.
  cbn [get_bits_spill]. unfold buf_size.
  change (-24 <? 0) with true. change (-24 + 8) with (-16).
  change (-16 <? 0) with true. change (-16 + 8) with (-8).
  change (-8 <? 0) with true. change (-8 + 8) with 0.
  change (0 <? 0) with false. cbv iota.
  change (negb (0 =? 0)) with false. cbv iota.
  change (- -24) with 24. change (- -16) with 16. change (- -8) with 8.
  rewrite !Z.shiftl_mul_pow2 by lia.
  rewrite !sint32_add_r, !sint32_add_l.
  replace (w + 1 + 1) with (w + 2) by lia.
  replace (w + 2 + 1) with (w + 3) by lia.
  rewrite <- !Z.add_assoc, !sint32_add_l. do 2 f_equal. lia.
Qed.


Section WithFloats.
Context `{FloatOps}.

Lemma IS_read (temp0 IS rest : list Z) :
  length temp0 = 16%nat -> length IS = 16%nat ->
  fread 4 (IS ++ rest) = (take 4 IS, drop 4 IS ++ rest) /\
  Z.of_nat (length (take 4 IS)) = 4 /\
  is_GRIB (list_inserts 0 (take 4 IS) temp0) = is_GRIB IS /\
  fread 12 (drop 4 IS ++ rest) = (drop 4 IS, rest) /\
  Z.of_nat (length (drop 4 IS)) = 12 /\
  list_inserts 4 (drop 4 IS) (list_inserts 0 (take 4 IS) temp0) = IS.
Proof.
  intros Ht HI.
  do 16 (destruct temp0 as [| ? temp0]; [discriminate Ht |]).
  destruct temp0; [| discriminate Ht].
  do 16 (destruct IS as [| ? IS]; [discriminate HI |]).
  destruct IS; [| discriminate HI].
  repeat split.
Qed.

Lemma get_bits_ok (buf : list Z) (loc off bits : Z) :
  1 <= bits <= 32 -> exists v, get_bits buf loc off bits = Ok v.
Proof.
  intros Hb. unfold get_bits.
  destruct (Z.eqb_spec bits 0); [lia |].
  destruct (Z.gtb_spec bits loc_size) as [Hgt | _]; [unfold loc_size in Hgt; lia |].
  eexists. reflexivity.
Qed.

Lemma store_bytes_fits (pos : nat) (src dst : list Z) :
  (pos + length src <= length dst)%nat ->
  store_bytes pos src dst = Ok (list_inserts pos src dst).
Proof.
  intros Hfit. unfold store_bytes.
  destruct (Nat.ltb_spec (length dst) (pos + length src)) as [Hlt | _];
    [lia | reflexivity].
Qed.

Lemma store_bytes_past (pos : nat) (src dst : list Z) :
  (length dst < pos + length src)%nat ->
  store_bytes pos src dst = Err Undefined.
Proof.
  intros Hpast. unfold store_bytes.
  destruct (Nat.ltb_spec (length dst) (pos + length src)) as [_ | Hge];
    [reflexivity | lia].
Qed.

Lemma malloc_length (junk : nat -> Z) (size : Z) :
  0 <= size < 2 ^ 63 -> Z.of_nat (length (malloc junk size)) = size.
Proof.
  intros Hs. unfold malloc.
  destruct (Z.ltb_spec size (2 ^ 63)) as [_ | Hge]; [| lia].
  rewrite length_map, length_seq. lia.
Qed.

(** the buffer that [unpack_IS] fills has room for [required_size] bytes *)
Lemma buffer_room (junk : nat -> Z) (m : GRIB2Message) (size : Z) :
  0 <= size < 2 ^ 63 ->
  Z.of_nat (length (buffer m)) = buffer_capacity m ->
  size <= Z.of_nat (length (if size >? buffer_capacity m
                            then malloc junk size else buffer m)).
Proof.
  intros Hs Hcap.
  destruct (Z.gtb_spec size (buffer_capacity m)) as [Hgt | Hle].
  - rewrite (malloc_length junk size Hs). lia.
  - lia.
Qed.

(** [unpack_IS] up to the three [get_bits] on a stream that starts with
    an Indicator Section: what is left is the filling of the buffer *)
Lemma unpack_IS_header (temp0 : list Z) (junk : nat -> Z) (IS rest : list Z)
    (m : GRIB2Message) :
  length temp0 = 16%nat -> length IS = 16%nat -> is_GRIB IS = true ->
  exists disc1 ed_num1,
    unpack_IS temp0 junk (IS ++ rest) m
    = (let total_len1 := length_low_32 IS in
       let md1 := with_nx_ny (msg_md m) 0 0 in
       let required_size := uint64 (sint32 (total_len1 + 4)) in
       let grown := required_size >? buffer_capacity m in
       let capacity1 := if grown then required_size else buffer_capacity m in
       let buffer0 :=
         if grown then malloc junk required_size else buffer m in
       let* buffer1 := store_bytes 0 (take 16 IS) buffer0 in
       let num := uint64 (sint32 (total_len1 - 16)) in
       let '(rd3, fp4) := fread num rest in
       let* buffer2 := store_bytes 16 rd3 buffer1 in
       let status := sint32 (Z.of_nat (length rd3)) in
       if negb (uint64 status =? num) then
         Ok (1, with_IS m buffer2 capacity1 (offset m) total_len1 disc1
                  ed_num1 md1, fp4)
       else if (total_len1 - 4 <? 0)
               || (Z.of_nat (length buffer2) <? total_len1) then
         Err Undefined
       else
         Ok (0, with_IS m buffer2 capacity1 128 total_len1 disc1
                  ed_num1 md1, fp4)).
Proof.
  intros Ht HI HG.
  destruct (IS_read temp0 IS rest Ht HI) as (Hr4 & Hl4 & HG' & Hr12 & Hl12 & Htemp).
  destruct (get_bits_ok IS (disc m) 48 8 ltac:(lia)) as [disc1 Hd].
  destruct (get_bits_ok IS (ed_num m) 56 8 ltac:(lia)) as [ed1 He].
  exists disc1, ed1.
  unfold unpack_IS. rewrite Hr4. cbv beta iota. rewrite Hl4.
  change (negb (4 =? 4)) with false. cbv beta iota.
  rewrite HG in HG'.
  replace (resync (S (length (drop 4 IS ++ rest)))
             (list_inserts 0 (take 4 IS) temp0) (drop 4 IS ++ rest))
    with (Ok (Some (list_inserts 0 (take 4 IS) temp0, drop 4 IS ++ rest)))
    by (cbn [resync]; rewrite HG'; reflexivity).
  cbn [bind]. rewrite Hr12. cbv beta iota. rewrite Hl12.
  change (12 =? 0) with false. cbv beta iota. rewrite Htemp.
  rewrite Hd, He.
  change (get_bits IS (total_len m) 96 32)
    with (get_bits IS (total_len m) (8 * 12) 32).
  rewrite (get_bits_word IS (total_len m) 12 ltac:(lia)).
  reflexivity.
Qed.

(** the first message of a stream that starts with an Indicator Section
    whose length word is at least 16: the buffer has room for the whole
    message, and [unpack_IS] returns *)
Lemma unpack_IS_on_IS (temp0 : list Z) (junk : nat -> Z) (IS rest : list Z)
    (m : GRIB2Message) :
  length temp0 = 16%nat -> length IS = 16%nat -> is_GRIB IS = true ->
  16 <= length_low_32 IS <= 2 ^ 31 - 5 ->
  Z.of_nat (length (buffer m)) = buffer_capacity m ->
  exists status m' rest',
    unpack_IS temp0 junk (IS ++ rest) m = Ok (status, m', rest') /\
    total_len m' = length_low_32 IS.
Proof.
  intros Ht HI HG HL Hcap.
  destruct (unpack_IS_header temp0 junk IS rest m Ht HI HG)
    as (disc1 & ed1 & ->).
  cbv zeta.
  rewrite (sint32_id (length_low_32 IS + 4)) by (unfold is_int; lia).
  rewrite (sint32_id (length_low_32 IS - 16)) by (unfold is_int; lia).
  unfold uint64. rewrite !Z.mod_small by lia.
  pose proof (buffer_room junk m (length_low_32 IS + 4) ltac:(lia) Hcap)
    as Hroom.
  rewrite store_bytes_fits by (rewrite length_take; lia).
  cbn [bind]. unfold fread.
  rewrite store_bytes_fits
    by (rewrite length_inserts, length_take; lia).
  cbn [bind].
  match goal with
  | |- context [if (?a || ?b) then _ else _] =>
      replace (a || b) with false
        by (symmetry; apply orb_false_intro; apply Z.ltb_ge;
            [lia | rewrite !length_inserts; lia])
  end.
  match goal with
  | |- context [if ?c then _ else _] => destruct c
  end; eexists _, _, _; (split; [reflexivity |]); reflexivity.
Qed.

(** a length word below 12 on a message without a buffer: the 16 octets
    of the Indicator Section do not fit into the [total_len+4] bytes that
    [malloc] is asked for, and the decode is undefined *)
Lemma unpack_IS_short_length (temp0 : list Z) (junk : nat -> Z)
    (IS rest : list Z) (m : GRIB2Message) :
  length temp0 = 16%nat -> length IS = 16%nat -> is_GRIB IS = true ->
  length_low_32 IS < 12 ->
  buffer m = [] -> buffer_capacity m = 0 ->
  unpack_IS temp0 junk (IS ++ rest) m = Err Undefined.
Proof.
  intros Ht HI HG HL Hbuf Hcap.
  destruct (unpack_IS_header temp0 junk IS rest m Ht HI HG)
    as (disc1 & ed1 & ->).
  cbv zeta. rewrite Hbuf, Hcap.
  rewrite store_bytes_past; [reflexivity |].
  rewrite length_take, HI. change (0 + 16 `min` 16)%nat with 16%nat.
  pose proof (sint32_is_int (length_low_32 IS + 4)) as Hint.
  unfold is_int in Hint.
  destruct (Z.gtb_spec (uint64 (sint32 (length_low_32 IS + 4))) 0)
    as [Hgt | Hle]; [| cbn; lia].
  unfold malloc.
  destruct (Z.ltb_spec (uint64 (sint32 (length_low_32 IS + 4))) (2 ^ 63))
    as [Hlt | Hge]; [| cbn; lia].
  rewrite length_map, length_seq.
  assert (Hpos : 0 <= sint32 (length_low_32 IS + 4)).
  { destruct (Z.le_gt_cases 0 (sint32 (length_low_32 IS + 4))) as [Hp | Hn];
      [exact Hp |].
    unfold uint64 in Hlt.
    replace (sint32 (length_low_32 IS + 4) mod 2 ^ 64)
      with (sint32 (length_low_32 IS + 4) + 2 ^ 64) in Hlt; [lia |].
    apply Z.mod_unique with (q := -1); lia. }
  unfold uint64. rewrite Z.mod_small by lia.
  assert (His : is_int (length_low_32 IS)) by apply sint32_is_int.
  unfold is_int in His.
  destruct (Z.le_gt_cases (- 2 ^ 31) (length_low_32 IS + 4)) as [Hin | Hout];
    [rewrite (sint32_id (length_low_32 IS + 4)) in * by (unfold is_int; lia);
     lia | lia].
Qed.

Lemma IS_high_octets (IS hi : list Z) :
  length IS = 16%nat -> length hi = 4%nat ->
  length (list_inserts 8 hi IS) = 16%nat /\
  is_GRIB (list_inserts 8 hi IS) = is_GRIB IS /\
  length_low_32 (list_inserts 8 hi IS) = length_low_32 IS.
Proof.
  intros HI Hh.
  do 16 (destruct IS as [| ? IS]; [discriminate HI |]).
  destruct IS; [| discriminate HI].
  do 4 (destruct hi as [| ? hi]; [discriminate Hh |]).
  destruct hi; [| discriminate Hh].
  repeat split.
Qed.

(** C3, as amended.  For every stream that starts with the 16 octets of an
    Indicator Section whose length word (octets 13 to 16, as an [int]) is
    at least 16 and at most [2^31 - 5], [unpack_IS] returns, and the total
    length it stores is that [int], the 32 bits at bit offset 96: octets 9
    to 12, the high half of the 64-bit length field, do not enter, so that
    two messages whose length fields agree in the low 32 bits are given
    the same total length whatever the high 32 bits are.  ([buffer] owns
    [buffer_capacity] bytes, as after [initialize] and after every call.) *)
Theorem unpack_IS_total_len_low_32 (temp0 : list Z) (junk : nat -> Z)
    (IS rest : list Z) (m : GRIB2Message) :
  length temp0 = 16%nat -> length IS = 16%nat -> is_GRIB IS = true ->
  16 <= length_low_32 IS <= 2 ^ 31 - 5 ->
  Z.of_nat (length (buffer m)) = buffer_capacity m ->
  (exists status m' rest',
     unpack_IS temp0 junk (IS ++ rest) m = Ok (status, m', rest') /\
     total_len m' = length_low_32 IS) /\
  (forall hi : list Z,
     length hi = 4%nat ->
     exists status m' rest',
       unpack_IS temp0 junk (list_inserts 8 hi IS ++ rest) m
       = Ok (status, m', rest') /\
       total_len m' = length_low_32 IS).
Proof.
  intros Ht HI HG HL Hcap. split.
  - apply unpack_IS_on_IS; assumption.
  - intros hi Hh.
    destruct (IS_high_octets IS hi HI Hh) as (Hlen & HG' & Hlow).
    rewrite <- Hlow.
    apply unpack_IS_on_IS;
      [assumption | assumption | rewrite HG'; exact HG
       | rewrite Hlow; exact HL | exact Hcap].
Qed.

End WithFloats.

Import Exact Examples.

Lemma unpack_IS_total_len_low_32_witness :
  (exists status m' rest',
     unpack_IS (replicate 16 0) (fun _ => 0) (IS_length_32 ++ rest_of_message)
       grib2_message0 = Ok (status, m', rest') /\
     total_len m' = length_low_32 IS_length_32) /\
  (forall hi : list Z,
     length hi = 4%nat ->
     exists status m' rest',
       unpack_IS (replicate 16 0) (fun _ => 0)
         (list_inserts 8 hi IS_length_32 ++ rest_of_message) grib2_message0
       = Ok (status, m', rest') /\
       total_len m' = length_low_32 IS_length_32).
Proof.
  apply (unpack_IS_total_len_low_32 (replicate 16 0) (fun _ => 0)
           IS_length_32 rest_of_message grib2_message0);
    first [reflexivity | vm_compute; split; discriminate].
Defined.

(** C3, a full 64-bit read does not take place: the two messages below
    have length fields that agree in the low 32 bits (32) and differ in the high 32
    bits (0 and 1), and [unpack_IS] decodes both, with status 0, to the
    same total length 32. *)
Lemma unpack_IS_high_32_bits_ignored :
  take 4 (drop 12 IS_length_32) = take 4 (drop 12 IS_length_4G_32) /\
  take 4 (drop 8 IS_length_32) <> take 4 (drop 8 IS_length_4G_32) /\
  exists m1 m2 r1 r2,
    unpack_IS (replicate 16 0) (fun _ => 0) (IS_length_32 ++ rest_of_message)
      grib2_message0 = Ok (0, m1, r1) /\
    unpack_IS (replicate 16 0) (fun _ => 0) (IS_length_4G_32 ++ rest_of_message)
      grib2_message0 = Ok (0, m2, r2) /\
    total_len m1 = 32 /\ total_len m2 = 32.
Proof.
  split; [reflexivity |]. split; [discriminate |].
  eexists _, _, _, _.
  split; [vm_compute; reflexivity |].
  split; [vm_compute; reflexivity |].
  split; reflexivity.
Qed.

End Unpackgrib2Facts.

(** ** The time range of GRIB2 to GRIB1 *)
Module Grib2to1Facts.
Import CInt Unpackgrib2 Grib2to1 ResultFacts.

(** where the P2 of a statistical product comes from: with more than one
    time range, from the first increment length (and the center is 7 with
    two ranges); otherwise from [map_single_range], or, in the patch for
    statistical process 255 of center 7, possibly from nowhere ([out1] is
    then the [out] of the caller) *)
Local Abbreviation p2_source msg grid out center out1 :=
  (if num_ranges (stat_proc (md grid)) >? 1 then
     center = 7 /\ num_ranges (stat_proc (md grid)) = 2 /\
     incr_length (stat_proc (md grid)) !! 0%nat = Some (p2 out1)
   else
     exists code t,
       proc_code (stat_proc (md grid)) !! 0%nat = Some code /\
       ((0 <= code <= 4 /\ map_single_range msg grid out t = Ok out1) \/
        (code = 255 /\ center = 7 /\
         (map_single_range msg grid out t = Ok out1 \/ out1 = out)))).

Section WithFloats.
Context `{FloatOps}.

Lemma statistical_template_cases (templ : Z) :
  statistical_template templ = true -> templ = 8 \/ templ = 11 \/ templ = 12.
Proof.
  unfold statistical_template. intros Ht.
  destruct templ as [| p | p]; try discriminate Ht.
  do 4 (try destruct p as [p | p |]); try discriminate Ht; auto.
Qed.

Lemma array_at_lookup (a : list Z) (i : nat) (v : Z) :
  array_at a i = Ok v <-> a !! i = Some v.
Proof.
  unfold array_at. destruct (a !! i); split; intros Hv;
    first [discriminate Hv | congruence].
Qed.

(** with the hour as time unit, [mapStatisticalEndTime] reads the two
    times of day only *)
Lemma mapStatisticalEndTime_hours (msg : GRIB2Message) (grid : GRIB2Grid) :
  time_unit (md grid) = 1 ->
  mapStatisticalEndTime msg grid
  = Ok (Z.quot (etime (stat_proc (md grid))) 10000 - Z.quot (time msg) 10000).
Proof. intros Hu. unfold mapStatisticalEndTime. rewrite Hu. reflexivity. Qed.

Lemma map_single_range_p2 (msg : GRIB2Message) (grid : GRIB2Grid)
    (out out' : TimeRange) (t : Z) :
  time_unit (md grid) = 1 ->
  map_single_range msg grid out t = Ok out' ->
  p2 out' = Z.quot (etime (stat_proc (md grid))) 10000 - Z.quot (time msg) 10000.
Proof.
  intros Hu. unfold map_single_range.
  rewrite (mapStatisticalEndTime_hours _ _ Hu). cbn [bind].
  destruct (array_at _ _) as [incr | e]; cbn [bind]; [| discriminate].
  destruct (incr =? 0); [| discriminate].
  intros Hout. injection Hout as <-. reflexivity.
Qed.

Lemma map_single_range_ok (msg : GRIB2Message) (grid : GRIB2Grid)
    (out : TimeRange) (t : Z) :
  time_unit (md grid) = 1 ->
  incr_length (stat_proc (md grid)) !! 0%nat = Some 0 ->
  exists out', map_single_range msg grid out t = Ok out'.
Proof.
  intros Hu Hi. unfold map_single_range.
  rewrite (mapStatisticalEndTime_hours _ _ Hu). cbn [bind].
  apply array_at_lookup in Hi. rewrite Hi. cbn [bind Z.eqb].
  eexists. reflexivity.
Qed.

Lemma mapTimeRange_end_date (msg : GRIB2Message) (grid : GRIB2Grid)
    (out : TimeRange) (center eyr1 emo1 edy1 : Z) :
  time_unit (md grid) = 1 ->
  mapTimeRange msg (with_end_date grid eyr1 emo1 edy1) out center
  = mapTimeRange msg grid out center.
Proof.
  intros Hu. unfold mapTimeRange, map_single_range, mapStatisticalEndTime.
  cbn. rewrite Hu. reflexivity.
Qed.

Lemma mapTimeRange_ref_date (msg : GRIB2Message) (grid : GRIB2Grid)
    (out : TimeRange) (center yr1 mo1 dy1 : Z) :
  time_unit (md grid) = 1 ->
  mapTimeRange (with_ref_date msg yr1 mo1 dy1) grid out center
  = mapTimeRange msg grid out center.
Proof.
  intros Hu. unfold mapTimeRange, map_single_range, mapStatisticalEndTime.
  cbn. rewrite Hu. reflexivity.
Qed.

(** the [switch] on the statistical process of a single time range *)
Lemma single_range_switch (msg : GRIB2Message) (grid : GRIB2Grid)
    (out : TimeRange) (center code : Z) (P : TimeRange -> Prop) :
  (forall t, 0 <= code <= 4 -> on_ok (map_single_range msg grid out t) P) ->
  (code = 255 -> center = 7 ->
   forall out1, (map_single_range msg grid out 2 = Ok out1 \/ out1 = out) ->
                P out1) ->
  on_ok (match code with
         | 0 => map_single_range msg grid out 3
         | 1 => map_single_range msg grid out 4
         | 4 => map_single_range msg grid out 5
         | 2 | 3 => map_single_range msg grid out 2
         | _ =>
             if (code =? 255) && (center =? 7) then
               if (disc msg =? 0) && (param_cat (md grid) =? 0) then
                 match param_num (md grid) with
                 | 4 | 5 => map_single_range msg grid out 2
                 | _ => Ok out
                 end
               else Ok out
             else Err Exit1
         end) P.
Proof.
  intros Hsingle Hpatch.
  assert (Hdefault :
    on_ok (if (code =? 255) && (center =? 7) then
             if (disc msg =? 0) && (param_cat (md grid) =? 0) then
               match param_num (md grid) with
               | 4 | 5 => map_single_range msg grid out 2
               | _ => Ok out
               end
             else Ok out
           else Err Exit1) P).
  { destruct (code =? 255) eqn:Hc; cbn [andb on_ok]; [| exact I].
    destruct (center =? 7) eqn:Hc7; cbn [on_ok]; [| exact I].
    apply on_ok_intro. intros out1 Ho. apply Hpatch; [lia | lia |].
    destruct ((disc msg =? 0) && (param_cat (md grid) =? 0)).
    - destruct (param_num (md grid)) as [| p | p];
        [right; congruence | | right; congruence].
      do 3 (try destruct p as [p | p |]);
        first [left; exact Ho | right; congruence].
    - right; congruence. }
  destruct code as [| p | p]; [apply Hsingle; lia | | exact Hdefault].
  do 3 (try destruct p as [p | p |]);
    first [apply Hsingle; lia | exact Hdefault].
Qed.

Lemma mapTimeRange_statistical (msg : GRIB2Message) (grid : GRIB2Grid)
    (out : TimeRange) (center : Z) :
  statistical_template (pds_templ_num (md grid)) = true ->
  on_ok (mapTimeRange msg grid out center) (fun out' =>
    exists out1, p2 out' = p2 out1 /\ p2_source msg grid out center out1).
Proof.
  intros Ht. unfold mapTimeRange. cbv zeta.
  assert (Hgoal : forall c : result TimeRange,
    on_ok c (fun out1 => p2_source msg grid out center out1) ->
    on_ok (let* out1 := c in
           Ok {| p1 := p1 out1; p2 := p2 out1; t_range := t_range out1;
                 n_avg := n_avg out1;
                 n_missing := nmiss (stat_proc (md grid)) |})
      (fun out' =>
         exists out1, p2 out' = p2 out1 /\ p2_source msg grid out center out1)).
  { intros [out1 | e] Hc; cbn [bind on_ok]; [| exact I].
    exists out1. split; [reflexivity | exact Hc]. }
  destruct (statistical_template_cases _ Ht) as [-> | [-> | ->]];
    apply Hgoal;
    (destruct (num_ranges (stat_proc (md grid)) >? 1);
     [ destruct (center =? 7) eqn:Hc; cbn [andb on_ok]; [| exact I];
       destruct (num_ranges (stat_proc (md grid)) =? 2) eqn:Hn;
         cbn [on_ok]; [| exact I];
       repeat on_ok_step; cbn [on_ok p2];
       repeat split; [lia | lia | apply array_at_lookup; assumption]
     | on_ok_step;
       match goal with
       | Hi : array_at (proc_code _) 0 = Ok _ |- _ =>
           apply array_at_lookup in Hi
       end;
       apply single_range_switch;
       [ intros t Hr; apply on_ok_intro; intros out1 Ho;
         eexists _, t; split; [eassumption |]; left; split; assumption
       | intros Hc Hc7 out1 Ho;
         eexists _, 2; split; [eassumption |]; right; repeat split; assumption ] ]).
Qed.

(** [mapTimeRange] on a single time range whose statistical process is
    0 to 4, or 255 of center 7 on a parameter of the patch (discipline 0,
    category 0, parameter 4 or 5): the time range that [map_single_range]
    gives *)
Lemma mapTimeRange_single (msg : GRIB2Message) (grid : GRIB2Grid)
    (out : TimeRange) (center code : Z) :
  statistical_template (pds_templ_num (md grid)) = true ->
  num_ranges (stat_proc (md grid)) <= 1 ->
  proc_code (stat_proc (md grid)) !! 0%nat = Some code ->
  0 <= code <= 4 \/
  (code = 255 /\ center = 7 /\ disc msg = 0 /\ param_cat (md grid) = 0 /\
   (param_num (md grid) = 4 \/ param_num (md grid) = 5)) ->
  exists t,
    mapTimeRange msg grid out center
    = (let* out1 := map_single_range msg grid out t in
       Ok {| p1 := p1 out1; p2 := p2 out1; t_range := t_range out1;
             n_avg := n_avg out1;
             n_missing := nmiss (stat_proc (md grid)) |}).
Proof.
  intros Ht Hn Hcode Hproc.
  unfold mapTimeRange. cbv zeta.
  apply array_at_lookup in Hcode.
  replace (num_ranges (stat_proc (md grid)) >? 1) with false by lia.
  rewrite Hcode. cbn [bind].
  destruct Hproc as [Hr | (-> & -> & Hd & Hc & Hp)].
  - assert (Hcases : code = 0 \/ code = 1 \/ code = 2 \/ code = 3 \/ code = 4)
      by lia.
    destruct (statistical_template_cases _ Ht) as [-> | [-> | ->]];
      destruct Hcases as [-> | [-> | [-> | [-> | ->]]]];
      eexists; reflexivity.
  - rewrite Hd, Hc. cbn [Z.eqb Pos.eqb andb].
    destruct (statistical_template_cases _ Ht) as [-> | [-> | ->]];
      destruct Hp as [-> | ->]; eexists; reflexivity.
Qed.

(** C10 (amended).  For a statistical product (template 8, 11 or 12) whose
    time unit is the hour, with a single time range and a statistical
    process 0 to 4, or 255 of center 7 on discipline 0, category 0,
    parameter 4 or 5: with a zero increment length [mapTimeRange] returns
    and P2 is the hour of the overall end time minus the hour of the
    reference time, and with another increment length it exits.  With
    more than one time range it returns only for two ranges of center 7,
    and P2 is then the first increment length.  In no case do the year,
    month and day of the end time or of the reference time change the
    result. *)
Theorem mapTimeRange_hours_p2 (msg : GRIB2Message) (grid : GRIB2Grid)
    (out : TimeRange) (center : Z) :
  statistical_template (pds_templ_num (md grid)) = true ->
  time_unit (md grid) = 1 ->
  (forall code,
     num_ranges (stat_proc (md grid)) <= 1 ->
     proc_code (stat_proc (md grid)) !! 0%nat = Some code ->
     0 <= code <= 4 \/
     (code = 255 /\ center = 7 /\ disc msg = 0 /\ param_cat (md grid) = 0 /\
      (param_num (md grid) = 4 \/ param_num (md grid) = 5)) ->
     (incr_length (stat_proc (md grid)) !! 0%nat = Some 0 ->
      exists out',
        mapTimeRange msg grid out center = Ok out' /\
        p2 out' = Z.quot (etime (stat_proc (md grid))) 10000
                  - Z.quot (time msg) 10000) /\
     (forall incr,
        incr_length (stat_proc (md grid)) !! 0%nat = Some incr ->
        incr <> 0 ->
        mapTimeRange msg grid out center = Err Exit1)) /\
  (forall out',
     1 < num_ranges (stat_proc (md grid)) ->
     mapTimeRange msg grid out center = Ok out' ->
     center = 7 /\ num_ranges (stat_proc (md grid)) = 2 /\
     incr_length (stat_proc (md grid)) !! 0%nat = Some (p2 out')) /\
  (forall eyr1 emo1 edy1,
     mapTimeRange msg (with_end_date grid eyr1 emo1 edy1) out center
     = mapTimeRange msg grid out center) /\
  (forall yr1 mo1 dy1,
     mapTimeRange (with_ref_date msg yr1 mo1 dy1) grid out center
     = mapTimeRange msg grid out center).
Proof.
  intros Ht Hu.
  pose proof (mapTimeRange_statistical msg grid out center Ht) as Hpost.
  split; [| split; [| split]].
  - intros code Hn Hcode Hproc.
    destruct (mapTimeRange_single msg grid out center code Ht Hn Hcode Hproc)
      as [t ->].
    unfold map_single_range.
    rewrite (mapStatisticalEndTime_hours _ _ Hu). cbn [bind].
    split.
    + intros Hincr. apply array_at_lookup in Hincr. rewrite Hincr.
      cbn [bind Z.eqb]. eexists. split; reflexivity.
    + intros incr Hincr Hne. apply array_at_lookup in Hincr. rewrite Hincr.
      cbn [bind]. destruct (Z.eqb_spec incr 0); [contradiction | reflexivity].
  - intros out' Hn Hout.
    destruct (on_ok_elim _ _ _ Hpost Hout) as (out1 & Hp2 & Hsrc).
    destruct (Z.gtb_spec (num_ranges (stat_proc (md grid))) 1) as [_ | Hle];
      [| lia].
    rewrite Hp2. exact Hsrc.
  - intros eyr1 emo1 edy1. apply mapTimeRange_end_date. exact Hu.
  - intros yr1 mo1 dy1. apply mapTimeRange_ref_date. exact Hu.
Qed.

End WithFloats.

Import Exact Examples.

Lemma mapTimeRange_hours_p2_witness :
  exists out',
    mapTimeRange ncep_message daily_average_grid time_range0 7 = Ok out' /\
    p2 out' = 0.
Proof.
  destruct (mapTimeRange_hours_p2 ncep_message daily_average_grid time_range0 7
              eq_refl eq_refl) as [Hhours _].
  destruct (Hhours 0) as [Hzero _];
    [vm_compute; discriminate | reflexivity | left; lia |].
  apply Hzero. reflexivity.
Defined.

(** An NCEP CFSR product with two time ranges, the hour as unit, end time
    18:00 and reference time 06:00: P2 is the increment length 6, not the
    difference 12 of the hours. *)
Lemma mapTimeRange_cfsr_p2 :
  exists out',
    mapTimeRange ncep_message cfsr_grid time_range0 7 = Ok out' /\
    statistical_template (pds_templ_num (md cfsr_grid)) = true /\
    time_unit (md cfsr_grid) = 1 /\
    p2 out' = 6 /\
    Z.quot (etime (stat_proc (md cfsr_grid))) 10000
    - Z.quot (time ncep_message) 10000 = 12.
Proof.
  eexists. split; [vm_compute; reflexivity |]. repeat split.
Qed.

End Grib2to1Facts.

(** ** The pack width of GRIB2 to GRIB1 *)
Module PackWidthFacts.
Import CInt Unpackgrib2 Grib2to1 ResultFacts BitStreamFacts.



(** *** Conversion to [double] *)






Section WithFloats.
Context `{FloatOps}.






End WithFloats.

Import Exact Examples.



End PackWidthFacts.

(** ** Loops *)
Module LoopFacts.
Import ResultFacts.

Lemma for_loop_add {S : Type} (n k : nat) (step : S -> result S) (s : S) :
  for_loop (n + k) step s = let* s' := for_loop n step s in for_loop k step s'.
Proof.
  revert s. induction n as [| n IH]; intros s; cbn [for_loop Nat.add bind];
    [reflexivity |].
  destruct (step s) as [s1 | e]; cbn [bind]; [apply IH | reflexivity].
Qed.

(** the state at the entry of iteration [n] of a loop that comes to its
    end, and the iteration itself *)
Lemma for_loop_iteration {S : Type} (N n : nat) (step : S -> result S)
    (s sN : S) :
  (n < N)%nat -> for_loop N step s = Ok sN ->
  exists sn sn', for_loop n step s = Ok sn /\ step sn = Ok sn' /\
                 for_loop (N - Datatypes.S n) step sn' = Ok sN.
Proof.
  intros Hn HN.
  replace N with (n + Datatypes.S (N - Datatypes.S n))%nat in HN by lia.
  rewrite for_loop_add in HN.
  destruct (for_loop n step s) as [sn | e]; cbn [bind] in HN;
    [| discriminate HN].
  cbn [for_loop] in HN.
  destruct (step sn) as [sn' | e] eqn:Hstep; cbn [bind] in HN;
    [| discriminate HN].
  exists sn, sn'. auto.
Qed.

Lemma for_loop_invariant {S : Type} (I : nat -> S -> Prop)
    (step : S -> result S) (n : nat) :
  (forall k s s', I k s -> step s = Ok s' -> I (Datatypes.S k) s') ->
  forall k s s', I k s -> for_loop n step s = Ok s' -> I (k + n)%nat s'.
Proof.
  intros Hstep. induction n as [| n IH]; intros k s s' Hs Hloop;
    cbn [for_loop] in Hloop.
  - injection Hloop as <-. rewrite Nat.add_0_r. exact Hs.
  - destruct (step s) as [s1 | e] eqn:Hs1; cbn [bind] in Hloop;
      [| discriminate Hloop].
    replace (k + Datatypes.S n)%nat with (Datatypes.S k + n)%nat by lia.
    exact (IH _ _ _ (Hstep _ _ _ Hs Hs1) Hloop).
Qed.

End LoopFacts.

(** ** The gridpoints of GRIB1 *)
Module GridpointFacts1.
Import CInt BitStream Unpackgrib1 ResultFacts LoopFacts.

Section WithFloats.
Context `{FloatOps}.

(** one iteration appends one cell; with a bit map it moves [bcnt] on *)
Lemma unpack_point_appends (chk : bool) (bl : Z) (bm : list Z)
    (packed : option (list Z)) (r e d : double) (s s' : scan) :
  unpack_point chk bl bm packed r e d s = Ok s' ->
  exists v, points s' = points s ++ [v] /\
            bcnt s' = (if bl =? 0 then bcnt s else bcnt s + 1).
Proof.
  unfold unpack_point. destruct (bl =? 0); cbn [bind fst snd].
  - destruct packed as [pk |].
    + destruct (pk !! Z.to_nat (pcnt s)); [| discriminate].
      intros Hs. injection Hs as <-. eexists. split; reflexivity.
    + destruct chk; [| discriminate].
      intros Hs. injection Hs as <-. eexists. split; reflexivity.
  - destruct (bm !! Z.to_nat (bcnt s)) as [b |]; cbn [bind fst snd];
      [| discriminate].
    destruct (b =? 1).
    + destruct packed as [pk |].
      * destruct (pk !! Z.to_nat (pcnt s)); [| discriminate].
        intros Hs. injection Hs as <-. eexists. split; reflexivity.
      * destruct chk; [| discriminate].
        intros Hs. injection Hs as <-. eexists. split; reflexivity.
    + intros Hs. injection Hs as <-. eexists. split; reflexivity.
Qed.

(** after [k] iterations [k] cells are written, and with a bit map
    [bcnt] is [k] *)
Lemma unpack_point_loop (chk : bool) (bl : Z) (bm : list Z)
    (packed : option (list Z)) (r e d : double) (n : nat) (s0 s : scan) :
  for_loop n (unpack_point chk bl bm packed r e d) s0 = Ok s ->
  exists l, points s = points s0 ++ l /\ length l = n /\
            bcnt s = (if bl =? 0 then bcnt s0 else bcnt s0 + Z.of_nat n).
Proof.
  intros Hloop.
  apply (for_loop_invariant
           (fun k s => exists l, points s = points s0 ++ l /\ length l = k /\
              bcnt s = (if bl =? 0 then bcnt s0 else bcnt s0 + Z.of_nat k))
           _ n) with (k := 0%nat) (s := s0) (s' := s) in Hloop.
  - exact Hloop.
  - intros k s1 s2 (l & Hl & Hlen & Hb) Hstep.
    destruct (unpack_point_appends _ _ _ _ _ _ _ _ _ Hstep) as (v & Hv & Hb2).
    exists (l ++ [v]). rewrite Hv, Hl, <- app_assoc. split; [reflexivity |].
    split; [rewrite length_app; cbn [length]; lia |].
    rewrite Hb2, Hb. destruct (bl =? 0); lia.
  - exists []. rewrite app_nil_r. split; [reflexivity |]. split; [reflexivity |].
    destruct (bl =? 0); lia.
Qed.

(** the cell [n] that a loop of [N] iterations leaves is the cell that
    iteration [n] appends *)
Lemma unpack_point_cell (chk : bool) (bl : Z) (bm : list Z)
    (packed : option (list Z)) (r e d : double) (N n : nat) (sN : scan) :
  (n < N)%nat ->
  for_loop N (unpack_point chk bl bm packed r e d) scan0 = Ok sN ->
  exists s s' v,
    for_loop n (unpack_point chk bl bm packed r e d) scan0 = Ok s /\
    unpack_point chk bl bm packed r e d s = Ok s' /\
    bcnt s = (if bl =? 0 then 0 else Z.of_nat n) /\
    points s' = points s ++ [v] /\
    points sN !! n = Some v.
Proof.
  intros Hn HN.
  destruct (for_loop_iteration _ _ _ _ _ Hn HN) as (s & s' & Hs & Hstep & Hrest).
  destruct (unpack_point_loop _ _ _ _ _ _ _ _ _ _ Hs) as (l & Hl & Hlen & Hb).
  destruct (unpack_point_appends _ _ _ _ _ _ _ _ _ Hstep) as (v & Hv & _).
  destruct (unpack_point_loop _ _ _ _ _ _ _ _ _ _ Hrest) as (l' & Hl' & _).
  exists s, s', v. split; [exact Hs |]. split; [exact Hstep |].
  cbn [scan0 bcnt points app] in Hb, Hl. split.
  { rewrite Hb. destruct (bl =? 0); lia. }
  split; [exact Hv |].
  rewrite Hl', Hv, Hl, <- app_assoc. cbn [app].
  rewrite <- Hlen. apply list_lookup_middle. reflexivity.
Qed.

(** what [unpack_BDS] leaves under simple packing: the reference value,
    and the gridpoints as the loop over the points of the grid writes
    them; [packed] is the array of the packed values, [None] for the null
    pointer of a pack width 0 *)
Lemma unpack_BDS_post (junk : nat -> Z) (m : GRIBMessage) :
  on_ok (unpack_BDS junk m) (fun m' =>
    exists (offset1 : Z) (ibm : double) (packed : option (list Z))
           (N : nat) (sN : scan),
      ibm2real (buffer m') (offset1 + 48) = Ok ibm /\
      ref_val m' = fdiv ibm (fpow (of_int 10) (of_int (D m'))) /\
      (pack_width m' = 0 ->
       packed = None /\ offset m' = offset1 + 88 /\
       Z.of_nat N = num_points_of m' 0) /\
      for_loop N
        (unpack_point (recognized_grid (data_rep m')) (bitmap_len m')
           (bitmap m') packed (ref_val m')
           (fpow (of_int 2) (of_int (E m'))) (fpow (of_int 10) (of_int (D m'))))
        scan0 = Ok sN /\
      (recognized_grid (data_rep m') = true ->
       Z.of_nat N = uint64 (sint32 (ny m' * nx m'))) /\
      (recognized_grid (data_rep m') = false -> bitmap_len m' <= Z.of_nat N) /\
      take N (gridpoints m') = points sN).
Proof.
  unfold unpack_BDS. cbv zeta.
  on_ok_step.
  match goal with
  | a : (_ * _ * _ * _ * _)%type |- _ => destruct a as [[[[tl1 bm1] bc1] bl1] off1]
  end.
  repeat on_ok_step.
  match goal with
  | Hw : get_bits _ (pack_width m) _ 8 = Ok ?w,
    Hi : ibm2real _ _ = Ok ?i |- _ => rename w into pw; rename i into ibm
  end.
  destruct (Z.land _ 64 =? 0); cbn [on_ok]; [| exact I].
  set (num_packed := if pw >? 0 then uint64 _ else 0).
  assert (Hnp : 0 <= num_packed).
  { subst num_packed. destruct (pw >? 0); [| lia].
    unfold uint64. apply Z.mod_pos_bound. lia. }
  on_ok_step.
  match goal with
  | a : (_ * _ * _)%type |- _ => destruct a as [[num_points pts] offset4]
  end.
  cbn [on_ok buffer ref_val D E pack_width offset data_rep bitmap_len bitmap
       ny nx gridpoints].
  match goal with
  | Hd : (if recognized_grid _ then _ else _) = Ok _ |- _ => rename Hd into Hdec
  end.
  unfold num_points_of.
  cbn [buffer ref_val D E pack_width offset data_rep bitmap_len bitmap ny nx].
  destruct (recognized_grid (data_rep m)).
  - destruct (unpack_packed _ _ _ _) as [pk | e] eqn:Hpk; cbn [bind] in Hdec;
      [| discriminate Hdec].
    destruct (for_loop _ _ _) as [sN | e] eqn:Hloop; cbn [bind] in Hdec;
      [| discriminate Hdec].
    injection Hdec as <- <- <-.
    destruct (unpack_point_loop _ _ _ _ _ _ _ _ _ _ Hloop) as (l & Hl & Hlen & _).
    cbn [scan0 points app] in Hl.
    assert (Hnum : 0 <= uint64 (sint32 (ny m * nx m))).
    { unfold uint64. apply Z.mod_pos_bound. lia. }
    exists off1, ibm, (if pw >? 0 then Some (fst pk) else None),
      (Z.to_nat (uint64 (sint32 (ny m * nx m)))), sN.
    split; [assumption |]. split; [reflexivity |]. split.
    { intros ->. split; [reflexivity |]. split; [| lia].
      subst num_packed. cbn in Hpk. injection Hpk as <-. cbn [snd].
      destruct (skips_first_value _ _); lia. }
    split; [exact Hloop |]. split; [intros _; lia |].
    split; [discriminate |].
    rewrite Hl, <- Hlen at 1. rewrite <- Hl. apply take_app_length.
  - destruct (for_loop _ _ _) as [sN | e] eqn:Hloop; cbn [bind] in Hdec;
      [| discriminate Hdec].
    injection Hdec as <- <- <-.
    destruct (unpack_point_loop _ _ _ _ _ _ _ _ _ _ Hloop) as (l & Hl & Hlen & _).
    cbn [scan0 points app] in Hl.
    exists off1, ibm,
      (if pw >? 0
       then Some (map (fun n => sint32 (junk n)) (seq 0 (Z.to_nat num_packed)))
       else None),
      (Z.to_nat (if num_packed >? bl1 then num_packed else bl1)), sN.
    split; [assumption |]. split; [reflexivity |]. split.
    { intros ->. subst num_packed. cbn [Z.gtb Z.compare].
      split; [reflexivity |]. split; [reflexivity |].
      destruct (0 >? bl1) eqn:Hb; lia. }
    split; [exact Hloop |]. split; [discriminate |].
    split; [intros _; destruct (num_packed >? bl1) eqn:Hb; lia |].
    rewrite Hl, <- Hlen at 1. rewrite <- Hl. apply take_app_length.
Qed.
End WithFloats.
End GridpointFacts1.

(** ** The gridpoints of GRIB2, data representation template 0 *)
Module GridpointFacts2.
Import CInt BitStream Unpackgrib2 ResultFacts LoopFacts.

Section WithFloats.
Context `{FloatOps}.

Lemma unpack_DS_point_appends (junk : nat -> Z) (buf : list Z)
    (g : GRIB2Metadata) (Df Ef : double) (s s' : dscan) :
  unpack_point junk buf g Df Ef s = Ok s' ->
  exists v, points s' = points s ++ [v] /\ idx s' = idx s + 1.
Proof.
  unfold unpack_point.
  destruct (match bitmap g with
            | Some bm => match bm !! Z.to_nat (idx s) with
                         | Some b => Ok (b =? 1)
                         | None => Err Undefined
                         end
            | None => Ok true
            end) as [[|] | e]; cbn [bind]; [| | discriminate].
  - destruct (get_bits _ _ _ _); cbn [bind]; [| discriminate].
    intros Hs. injection Hs as <-. eexists. split; reflexivity.
  - intros Hs. injection Hs as <-. eexists. split; reflexivity.
Qed.

Lemma unpack_DS_point_loop (junk : nat -> Z) (buf : list Z)
    (g : GRIB2Metadata) (Df Ef : double) (n : nat) (s0 s : dscan) :
  for_loop n (unpack_point junk buf g Df Ef) s0 = Ok s ->
  exists l, points s = points s0 ++ l /\ length l = n /\
            idx s = idx s0 + Z.of_nat n.
Proof.
  intros Hloop.
  apply (for_loop_invariant
           (fun k s => exists l, points s = points s0 ++ l /\ length l = k /\
                                 idx s = idx s0 + Z.of_nat k)
           _ n) with (k := 0%nat) (s := s0) (s' := s) in Hloop.
  - exact Hloop.
  - intros k s1 s2 (l & Hl & Hlen & Hi) Hstep.
    destruct (unpack_DS_point_appends _ _ _ _ _ _ _ Hstep) as (v & Hv & Hi2).
    exists (l ++ [v]). rewrite Hv, Hl, <- app_assoc. split; [reflexivity |].
    split; [rewrite length_app; cbn [length]; lia | lia].
  - exists []. rewrite app_nil_r. split; [reflexivity |]. split; [reflexivity | lia].
Qed.

Lemma unpack_DS_point_cell (junk : nat -> Z) (buf : list Z)
    (g : GRIB2Metadata) (Df Ef : double) (N n : nat) (s0 sN : dscan) :
  (n < N)%nat -> idx s0 = 0 -> points s0 = [] ->
  for_loop N (unpack_point junk buf g Df Ef) s0 = Ok sN ->
  exists s s' v,
    for_loop n (unpack_point junk buf g Df Ef) s0 = Ok s /\
    unpack_point junk buf g Df Ef s = Ok s' /\
    idx s = Z.of_nat n /\
    points s' = points s ++ [v] /\
    points sN !! n = Some v.
Proof.
  intros Hn Hi0 Hp0 HN.
  destruct (for_loop_iteration _ _ _ _ _ Hn HN) as (s & s' & Hs & Hstep & Hrest).
  destruct (unpack_DS_point_loop _ _ _ _ _ _ _ _ Hs) as (l & Hl & Hlen & Hi).
  destruct (unpack_DS_point_appends _ _ _ _ _ _ _ Hstep) as (v & Hv & _).
  destruct (unpack_DS_point_loop _ _ _ _ _ _ _ _ Hrest) as (l' & Hl' & _).
  exists s, s', v. split; [exact Hs |]. split; [exact Hstep |].
  rewrite Hp0 in Hl. cbn [app] in Hl.
  split; [lia |]. split; [exact Hv |].
  rewrite Hl', Hv, Hl, <- app_assoc. cbn [app].
  rewrite <- Hlen. apply list_lookup_middle. reflexivity.
Qed.

(** what [unpack_DS] leaves for template 0: the gridpoints of grid
    [grid_num] as the loop over the points writes them *)
Lemma unpack_DS_post (junk : nat -> Z) (m m' : GRIB2Message) (grid_num : Z) :
  drs_templ_num (msg_md m) = 0 ->
  unpack_DS junk m grid_num = Ok m' ->
  exists (gr' : GRIB2Grid) (N : nat) (sN : dscan),
    grids m' !! Z.to_nat grid_num = Some gr' /\
    Z.of_nat N = uint64 (sint32 (ny (msg_md m) * nx (msg_md m))) /\
    for_loop N
      (unpack_point junk (buffer m) (msg_md m)
         (to_float (fpow (of_int 10) (of_int (D (msg_md m)))))
         (to_float (fpow (of_int 2) (of_int (E (msg_md m))))))
      {| idx := 0; off := uint64 (offset m + 40); points := [] |} = Ok sN /\
    take N (gridpoints gr') = points sN.
Proof.
  intros Ht. unfold unpack_DS. cbv zeta. rewrite Ht.
  destruct (grids m !! Z.to_nat grid_num) as [gr |] eqn:Hgr; [| discriminate].
  destruct (for_loop _ _ _) as [sN | e] eqn:Hloop; cbn [bind]; [| discriminate].
  intros Hm. injection Hm as <-.
  destruct (unpack_DS_point_loop _ _ _ _ _ _ _ _ Hloop) as (l & Hl & Hlen & _).
  cbn [points app] in Hl.
  assert (Hnum : 0 <= uint64 (sint32 (ny (msg_md m) * nx (msg_md m)))).
  { unfold uint64. apply Z.mod_pos_bound. lia. }
  eexists _, (Z.to_nat (uint64 (sint32 (ny (msg_md m) * nx (msg_md m))))), sN.
  split.
  { unfold with_grids. cbn [grids]. apply list_lookup_insert_eq.
    exact (lookup_lt_Some _ _ _ Hgr). }
  split; [lia |]. split; [exact Hloop |].
  unfold with_gridpoints. cbn [gridpoints].
  rewrite Hl, <- Hlen at 1. rewrite <- Hl. apply take_app_length.
Qed.

End WithFloats.
End GridpointFacts2.

(** ** The bit map law and the constant grid *)
Module GridpointFacts.
Import CInt BitStream ResultFacts LoopFacts.

Section WithFloats.
Context `{FloatOps}.

(** The decodes of a constant field that return.  When [unpack_BDS]
    returns a message with pack width 0, the reference value is the IBM
    real of octets 7-10 of the Binary Data Section divided by [10^D], and
    every gridpoint of the grid holds the reference value, or
    [GRIB_MISSING_VALUE] where a bit map is present and its bit is not 1. *)
Lemma unpack_BDS_constant_grid (junk : nat -> Z)
    (m m' : Unpackgrib1.GRIBMessage) :
  Unpackgrib1.unpack_BDS junk m = Ok m' ->
  Unpackgrib1.pack_width m' = 0 ->
  exists ibm,
    Unpackgrib1.ibm2real (Unpackgrib1.buffer m') (Unpackgrib1.offset m' - 40)
    = Ok ibm /\
    Unpackgrib1.ref_val m'
    = fdiv ibm (fpow (of_int 10) (of_int (Unpackgrib1.D m'))) /\
    forall n : nat,
      Z.of_nat n < Unpackgrib1.num_points_of m' 0 ->
      (Unpackgrib1.bitmap_len m' = 0 ->
       Unpackgrib1.gridpoints m' !! n = Some (Unpackgrib1.ref_val m')) /\
      (Unpackgrib1.bitmap_len m' <> 0 ->
       exists b,
         Unpackgrib1.bitmap m' !! n = Some b /\
         Unpackgrib1.gridpoints m' !! n
         = Some (if b =? 1 then Unpackgrib1.ref_val m'
                 else GRIB_MISSING_VALUE)).
Proof.
  intros Hm Hpw.
  destruct (on_ok_elim _ _ _ (GridpointFacts1.unpack_BDS_post junk m) Hm)
    as (offset1 & ibm & packed & N & sN & Hibm & Href & Hconst & Hloop & _ & _
        & Htake).
  destruct (Hconst Hpw) as (-> & Hoff & HN).
  exists ibm. split.
  { replace (Unpackgrib1.offset m' - 40) with (offset1 + 48) by lia.
    exact Hibm. }
  split; [exact Href |].
  intros n Hn.
  assert (HnN : (n < N)%nat) by lia.
  destruct (GridpointFacts1.unpack_point_cell _ _ _ _ _ _ _ _ _ _ HnN Hloop)
    as (s & s' & v & _ & Hstep & Hb & Hv & Hcell).
  assert (Hgp : Unpackgrib1.gridpoints m' !! n = Some v).
  { rewrite <- (lookup_take_lt _ N n HnN), Htake. exact Hcell. }
  rewrite Hgp. unfold Unpackgrib1.unpack_point in Hstep.
  destruct (Z.eqb_spec (Unpackgrib1.bitmap_len m') 0) as [Hbl | Hbl];
    (split; [intros Hz | intros Hnz]); try contradiction.
  - cbn [bind fst snd] in Hstep.
    destruct (Unpackgrib1.recognized_grid _); [| discriminate Hstep].
    injection Hstep as <-. cbn [Unpackgrib1.points] in Hv.
    apply app_inj_tail in Hv. destruct Hv as [_ <-]. reflexivity.
  - rewrite Hb, Nat2Z.id in Hstep.
    destruct (Unpackgrib1.bitmap m' !! n) as [b |]; [| discriminate Hstep].
    exists b. split; [reflexivity |]. cbn [bind fst snd] in Hstep.
    destruct (b =? 1).
    + destruct (Unpackgrib1.recognized_grid _); [| discriminate Hstep].
      injection Hstep as <-. cbn [Unpackgrib1.points] in Hv.
      apply app_inj_tail in Hv. destruct Hv as [_ <-]. reflexivity.
    + injection Hstep as <-. cbn [Unpackgrib1.points] in Hv.
      apply app_inj_tail in Hv. destruct Hv as [_ <-]. reflexivity.
Qed.

(** The branch [default:] of the switch on [data_rep] (no recognized
    Grid Description Section) has no test for the constant field: a
    decode with pack width 0 that returns on that branch has met no
    point whose bit is 1, every gridpoint is [GRIB_MISSING_VALUE]. *)
Lemma unpack_BDS_constant_unrecognized (junk : nat -> Z)
    (m m' : Unpackgrib1.GRIBMessage) :
  Unpackgrib1.unpack_BDS junk m = Ok m' ->
  Unpackgrib1.pack_width m' = 0 ->
  Unpackgrib1.recognized_grid (Unpackgrib1.data_rep m') = false ->
  forall n : nat,
    Z.of_nat n < Unpackgrib1.bitmap_len m' ->
    exists b,
      Unpackgrib1.bitmap m' !! n = Some b /\ b <> 1 /\
      Unpackgrib1.gridpoints m' !! n = Some GRIB_MISSING_VALUE.
Proof.
  intros Hm Hpw Hrec n Hn.
  destruct (on_ok_elim _ _ _ (GridpointFacts1.unpack_BDS_post junk m) Hm)
    as (offset1 & ibm & packed & N & sN & _ & _ & Hconst & Hloop & _ & Hnrec
        & Htake).
  destruct (Hconst Hpw) as (-> & _ & _).
  specialize (Hnrec Hrec).
  assert (HnN : (n < N)%nat) by lia.
  destruct (GridpointFacts1.unpack_point_cell _ _ _ _ _ _ _ _ _ _ HnN Hloop)
    as (s & s' & v & _ & Hstep & Hb & Hv & Hcell).
  assert (Hgp : Unpackgrib1.gridpoints m' !! n = Some v).
  { rewrite <- (lookup_take_lt _ N n HnN), Htake. exact Hcell. }
  rewrite Hgp. unfold Unpackgrib1.unpack_point in Hstep.
  rewrite Hrec in Hstep.
  destruct (Z.eqb_spec (Unpackgrib1.bitmap_len m') 0) as [Hbl | Hbl]; [lia |].
  rewrite Hb, Nat2Z.id in Hstep.
  destruct (Unpackgrib1.bitmap m' !! n) as [b |]; [| discriminate Hstep].
  exists b. split; [reflexivity |]. cbn [bind fst snd] in Hstep.
  destruct (Z.eqb_spec b 1) as [Hb1 | Hb1]; [discriminate Hstep |].
  split; [exact Hb1 |].
  injection Hstep as <-. cbn [Unpackgrib1.points] in Hv.
  apply app_inj_tail in Hv. destruct Hv as [_ <-]. reflexivity.
Qed.

(** C4.  Edition 1, simple packing: when [unpack_BDS] returns with a bit
    map present, the gridpoints are those that the loop over the [N]
    points of the grid writes, and at every index [n < N] the bit map has
    a bit [b]; if [b] is not 1, gridpoint [n] is [GRIB_MISSING_VALUE] and
    the iteration leaves [pcnt], the index of the next packed value, as it
    is; if [b] is 1 and there are packed values, the iteration takes the
    value at [pcnt] and moves [pcnt] on by one.  Edition 2, template 0:
    the same for [unpack_DS] with the bit offset [off] of the next packed
    value, which moves on by the pack width where the bit is 1 and stays
    where it is not. *)
Theorem bitmap_law :
  (forall (junk : nat -> Z) (m m' : Unpackgrib1.GRIBMessage),
     Unpackgrib1.unpack_BDS junk m = Ok m' ->
     Unpackgrib1.bitmap_len m' <> 0 ->
     exists (packed : option (list Z)) (N : nat) (sN : Unpackgrib1.scan),
       let step :=
         Unpackgrib1.unpack_point
           (Unpackgrib1.recognized_grid (Unpackgrib1.data_rep m'))
           (Unpackgrib1.bitmap_len m') (Unpackgrib1.bitmap m') packed
           (Unpackgrib1.ref_val m')
           (fpow (of_int 2) (of_int (Unpackgrib1.E m')))
           (fpow (of_int 10) (of_int (Unpackgrib1.D m'))) in
       for_loop N step Unpackgrib1.scan0 = Ok sN /\
       take N (Unpackgrib1.gridpoints m') = Unpackgrib1.points sN /\
       (Unpackgrib1.recognized_grid (Unpackgrib1.data_rep m') = true ->
        Z.of_nat N
        = uint64 (sint32 (Unpackgrib1.ny m' * Unpackgrib1.nx m'))) /\
       (Unpackgrib1.recognized_grid (Unpackgrib1.data_rep m') = false ->
        Unpackgrib1.bitmap_len m' <= Z.of_nat N) /\
       forall n : nat, (n < N)%nat ->
         exists b s s',
           Unpackgrib1.bitmap m' !! n = Some b /\
           for_loop n step Unpackgrib1.scan0 = Ok s /\
           step s = Ok s' /\
           (b <> 1 ->
            Unpackgrib1.gridpoints m' !! n = Some GRIB_MISSING_VALUE /\
            Unpackgrib1.pcnt s' = Unpackgrib1.pcnt s) /\
           (b = 1 -> forall pk, packed = Some pk ->
            exists v,
              pk !! Z.to_nat (Unpackgrib1.pcnt s) = Some v /\
              Unpackgrib1.pcnt s' = Unpackgrib1.pcnt s + 1 /\
              Unpackgrib1.gridpoints m' !! n
              = Some (fadd (Unpackgrib1.ref_val m')
                        (fdiv (fmul (of_int v)
                                 (fpow (of_int 2) (of_int (Unpackgrib1.E m'))))
                           (fpow (of_int 10) (of_int (Unpackgrib1.D m'))))))) /\
  (forall (junk : nat -> Z) (m m' : Unpackgrib2.GRIB2Message) (grid_num : Z)
          (bm : list Z),
     Unpackgrib2.unpack_DS junk m grid_num = Ok m' ->
     Unpackgrib2.drs_templ_num (Unpackgrib2.msg_md m) = 0 ->
     Unpackgrib2.bitmap (Unpackgrib2.msg_md m) = Some bm ->
     exists (gr' : Unpackgrib2.GRIB2Grid) (N : nat) (sN : Unpackgrib2.dscan),
       let g := Unpackgrib2.msg_md m in
       let Df := to_float (fpow (of_int 10) (of_int (Unpackgrib2.D g))) in
       let Ef := to_float (fpow (of_int 2) (of_int (Unpackgrib2.E g))) in
       let step := Unpackgrib2.unpack_point junk (Unpackgrib2.buffer m) g Df Ef in
       let s0 := {| Unpackgrib2.idx := 0;
                    Unpackgrib2.off := uint64 (Unpackgrib2.offset m + 40);
                    Unpackgrib2.points := [] |} in
       Unpackgrib2.grids m' !! Z.to_nat grid_num = Some gr' /\
       Z.of_nat N = uint64 (sint32 (Unpackgrib2.ny g * Unpackgrib2.nx g)) /\
       for_loop N step s0 = Ok sN /\
       take N (Unpackgrib2.gridpoints gr') = Unpackgrib2.points sN /\
       forall n : nat, (n < N)%nat ->
         exists b s s',
           bm !! n = Some b /\
           for_loop n step s0 = Ok s /\
           step s = Ok s' /\
           (b <> 1 ->
            Unpackgrib2.gridpoints gr' !! n = Some GRIB_MISSING_VALUE /\
            Unpackgrib2.off s' = Unpackgrib2.off s) /\
           (b = 1 ->
            exists pval,
              get_bits (Unpackgrib2.buffer m) (junk n) (Unpackgrib2.off s)
                (Unpackgrib2.pack_width g) = Ok pval /\
              Unpackgrib2.off s' = Unpackgrib2.off s + Unpackgrib2.pack_width g /\
              Unpackgrib2.gridpoints gr' !! n
              = Some (to_float
                        (fadd (Unpackgrib2.R g)
                           (to_float
                              (fdiv (to_float (fmul (to_float (of_int pval)) Ef))
                                 Df)))))).
Proof.
  split.
  - intros junk m m' Hm Hbl.
    destruct (on_ok_elim _ _ _ (GridpointFacts1.unpack_BDS_post junk m) Hm)
      as (offset1 & ibm & packed & N & sN & _ & _ & _ & Hloop & Hrec & Hnrec
          & Htake).
    exists packed, N, sN. cbv zeta.
    split; [exact Hloop |]. split; [exact Htake |].
    split; [exact Hrec |]. split; [exact Hnrec |].
    intros n HnN.
    destruct (GridpointFacts1.unpack_point_cell _ _ _ _ _ _ _ _ _ _ HnN Hloop)
      as (s & s' & v & Hs & Hstep & Hb & Hv & Hcell).
    assert (Hgp : Unpackgrib1.gridpoints m' !! n = Some v).
    { rewrite <- (lookup_take_lt _ N n HnN), Htake. exact Hcell. }
    pose proof Hstep as Hstep0.
    unfold Unpackgrib1.unpack_point in Hstep.
    destruct (Z.eqb_spec (Unpackgrib1.bitmap_len m') 0) as [Hz | _];
      [contradiction |].
    rewrite Hb, Nat2Z.id in Hstep.
    destruct (Unpackgrib1.bitmap m' !! n) as [b |]; [| discriminate Hstep].
    cbn [bind fst snd] in Hstep.
    exists b, s, s'. split; [reflexivity |]. split; [exact Hs |].
    split; [exact Hstep0 |]. rewrite Hgp.
    destruct (Z.eqb_spec b 1) as [Hb1 | Hb1]; (split; [intros Hne | intros Heq]);
      try contradiction.
    + intros pk ->. destruct (pk !! Z.to_nat (Unpackgrib1.pcnt s)) as [pv |];
        [| discriminate Hstep].
      injection Hstep as <-. cbn [Unpackgrib1.points Unpackgrib1.pcnt] in Hv |- *.
      apply app_inj_tail in Hv. destruct Hv as [_ <-].
      exists pv. split; [reflexivity |]. split; reflexivity.
    + injection Hstep as <-. cbn [Unpackgrib1.points Unpackgrib1.pcnt] in Hv |- *.
      apply app_inj_tail in Hv. destruct Hv as [_ <-]. split; reflexivity.
  - intros junk m m' grid_num bm Hm Ht Hbm.
    destruct (GridpointFacts2.unpack_DS_post junk m m' grid_num Ht Hm)
      as (gr' & N & sN & Hgr & HN & Hloop & Htake).
    exists gr', N, sN. cbv zeta.
    split; [exact Hgr |]. split; [exact HN |]. split; [exact Hloop |].
    split; [exact Htake |].
    intros n HnN.
    destruct (GridpointFacts2.unpack_DS_point_cell junk (Unpackgrib2.buffer m)
                (Unpackgrib2.msg_md m) _ _ N n
                {| Unpackgrib2.idx := 0;
                   Unpackgrib2.off := uint64 (Unpackgrib2.offset m + 40);
                   Unpackgrib2.points := [] |} sN HnN eq_refl eq_refl Hloop)
      as (s & s' & v & Hs & Hstep & Hi & Hv & Hcell).
    assert (Hgp : Unpackgrib2.gridpoints gr' !! n = Some v).
    { rewrite <- (lookup_take_lt _ N n HnN), Htake. exact Hcell. }
    pose proof Hstep as Hstep0.
    unfold Unpackgrib2.unpack_point in Hstep.
    rewrite Hbm, Hi, Nat2Z.id in Hstep.
    destruct (bm !! n) as [b |]; [| discriminate Hstep].
    cbn [bind] in Hstep.
    exists b, s, s'. split; [reflexivity |]. split; [exact Hs |].
    split; [exact Hstep0 |]. rewrite Hgp.
    destruct (Z.eqb_spec b 1) as [Hb1 | Hb1]; (split; [intros Hne | intros Heq]);
      try contradiction.
    + destruct (get_bits _ _ _ _) as [pval |]; cbn [bind] in Hstep;
        [| discriminate Hstep].
      injection Hstep as <-. cbn [Unpackgrib2.points Unpackgrib2.off] in Hv |- *.
      apply app_inj_tail in Hv. destruct Hv as [_ <-].
      exists pval. split; [reflexivity |]. split; reflexivity.
    + injection Hstep as <-. cbn [Unpackgrib2.points Unpackgrib2.off] in Hv |- *.
      apply app_inj_tail in Hv. destruct Hv as [_ <-]. split; reflexivity.
Qed.

End WithFloats.

Import Exact Examples.

Lemma unpack_BDS_constant_grid_witness :
  exists ibm,
    Unpackgrib1.ibm2real (Unpackgrib1.buffer (decoded_grid constant_message))
      (Unpackgrib1.offset (decoded_grid constant_message) - 40) = Ok ibm /\
    Unpackgrib1.ref_val (decoded_grid constant_message)
    = fdiv ibm (fpow (of_int 10)
                  (of_int (Unpackgrib1.D (decoded_grid constant_message)))) /\
    forall n : nat,
      Z.of_nat n < Unpackgrib1.num_points_of (decoded_grid constant_message) 0 ->
      (Unpackgrib1.bitmap_len (decoded_grid constant_message) = 0 ->
       Unpackgrib1.gridpoints (decoded_grid constant_message) !! n
       = Some (Unpackgrib1.ref_val (decoded_grid constant_message))) /\
      (Unpackgrib1.bitmap_len (decoded_grid constant_message) <> 0 ->
       exists b,
         Unpackgrib1.bitmap (decoded_grid constant_message) !! n = Some b /\
         Unpackgrib1.gridpoints (decoded_grid constant_message) !! n
         = Some (if b =? 1
                 then Unpackgrib1.ref_val (decoded_grid constant_message)
                 else GRIB_MISSING_VALUE)).
Proof.
  apply (unpack_BDS_constant_grid (fun _ => 0) constant_message
           (decoded_grid constant_message));
    vm_compute; reflexivity.
Defined.

(** C7 (the code departs from the documented behaviour on the branch
    for an unrecognised grid).  A message without Grid Description Section,
    with the bit map 1 0 1 1 and a Binary Data Section of pack width 0
    and reference value 1: with a [data_rep] that the switch of
    [unpack_BDS] does not list, the decode takes the branch [default:],
    whose loop reads [packed[pcnt++]] at the first point, where the bit
    is 1 and [packed] is the null pointer, and is undefined, whatever
    [malloc] leaves in memory.  The same octets on the branch of the
    recognized grids, which tests [packed == NULL], give the reference
    value at the points 0, 2 and 3 and [GRIB_MISSING_VALUE] at point 1;
    and on the branch [default:] a pack width of 8 decodes the same bit
    map. *)
Theorem unpack_BDS_constant_grid_no_GDS :
  Unpackgrib1.gds_included constant_message_no_GDS = 0 /\
  Unpackgrib1.recognized_grid
    (Unpackgrib1.data_rep constant_message_no_GDS) = false /\
  Unpackgrib1.buffer constant_message_no_GDS
  = Unpackgrib1.buffer constant_message /\
  get_bits (Unpackgrib1.buffer constant_message_no_GDS) 0 (56 + 80) 8
  = Ok 0 /\
  (forall junk : nat -> Z,
     Unpackgrib1.unpack_BDS junk constant_message_no_GDS = Err Undefined) /\
  (exists m',
     Unpackgrib1.unpack_BDS (fun _ => 0) constant_message = Ok m' /\
     Unpackgrib1.pack_width m' = 0 /\
     Unpackgrib1.bitmap m' = [1; 0; 1; 1] /\
     Qeq (Unpackgrib1.ref_val m') (inject_Z 1) /\
     Unpackgrib1.gridpoints m'
     = [Unpackgrib1.ref_val m'; GRIB_MISSING_VALUE;
        Unpackgrib1.ref_val m'; Unpackgrib1.ref_val m']) /\
  (exists m',
     Unpackgrib1.unpack_BDS (fun _ => 0) masked_message_no_GDS = Ok m' /\
     Unpackgrib1.pack_width m' = 8 /\
     Unpackgrib1.bitmap m' = [1; 0; 1; 1] /\
     Unpackgrib1.gridpoints m' !! 1%nat = Some GRIB_MISSING_VALUE).
Proof.
  split; [reflexivity |]. split; [reflexivity |]. split; [reflexivity |].
  split; [vm_compute; reflexivity |].
  split; [intros junk; vm_compute; reflexivity |].
  split; eexists; (split; [vm_compute; reflexivity |]);
    vm_compute; repeat split.
Qed.

(** the 2 x 2 grid with the bit map 1 0 1 1 and the packed values 1, 2, 3
    on the reference value 1: gridpoint 1 is missing in both editions *)
Lemma bitmap_law_witness :
  Unpackgrib1.gridpoints (decoded_grid masked_message) !! 1%nat
  = Some GRIB_MISSING_VALUE /\
  (exists gr',
     Unpackgrib2.grids (decoded_grid2 masked_message2) !! 0%nat = Some gr' /\
     Unpackgrib2.gridpoints gr' !! 1%nat = Some GRIB_MISSING_VALUE).
Proof.
  destruct bitmap_law as [Hlaw1 Hlaw2]. split.
  - destruct (Hlaw1 (fun _ => 0) masked_message (decoded_grid masked_message))
      as (packed & N & sN & _ & _ & HN & _ & Hpoints);
      [vm_compute; reflexivity | vm_compute; discriminate |].
    destruct (Hpoints 1%nat) as (b & s & s' & Hb & _ & _ & Hmiss & _).
    { specialize (HN eq_refl).
      match type of HN with
      | _ = ?r => assert (Hr : r = 4) by (vm_compute; reflexivity)
      end.
      lia. }
    vm_compute in Hb. injection Hb as <-.
    apply Hmiss. discriminate.
  - destruct (Hlaw2 (fun _ => 0) masked_message2 (decoded_grid2 masked_message2)
                0 [1; 0; 1; 1])
      as (gr' & N & sN & Hgr & HN & _ & _ & Hpoints);
      [vm_compute; reflexivity | reflexivity | reflexivity |].
    exists gr'. split; [exact Hgr |].
    destruct (Hpoints 1%nat) as (b & s & s' & Hb & _ & _ & Hmiss & _).
    { match type of HN with
      | _ = ?r => assert (Hr : r = 4) by (vm_compute; reflexivity)
      end.
      lia. }
    vm_compute in Hb. injection Hb as <-.
    apply Hmiss. discriminate.
Defined.

End GridpointFacts.


(** ** BitStream: reads and writes as operations on bytes *)
Module BitStreamAlgebra.
Import CInt BitStream BitStreamFacts.

(** two buffers of the same length that agree on every bit are the same
    buffer *)
Lemma buffer_ext (b1 b2 : list Z) :
  bytes_ok b1 -> bytes_ok b2 -> length b1 = length b2 ->
  (forall i, 0 <= i < 8 * Z.of_nat (length b1) -> bit_at b1 i = bit_at b2 i) ->
  b1 = b2.
Proof.
  intros H1 H2 Hlen Hbits. apply list_eq_same_length with (n := length b1);
    [symmetry; exact Hlen | reflexivity |].
  intros j x y Hj Hx Hy.
  assert (Hbx : byte_at b1 (Z.of_nat j) = x).
  { unfold byte_at. rewrite Nat2Z.id. apply list_lookup_total_correct. exact Hx. }
  assert (Hby : byte_at b2 (Z.of_nat j) = y).
  { unfold byte_at. rewrite Nat2Z.id. apply list_lookup_total_correct. exact Hy. }
  pose proof (byte_at_is_byte b1 (Z.of_nat j) H1) as Hix.
  pose proof (byte_at_is_byte b2 (Z.of_nat j) H2) as Hiy.
  rewrite Hbx in Hix. rewrite Hby in Hiy. unfold is_byte in Hix, Hiy.
  apply (small_eq_of_low_bits 8); [lia | exact Hix | exact Hiy |].
  intros k Hk.
  specialize (Hbits (8 * Z.of_nat j + (7 - k)) ltac:(lia)).
  rewrite !bit_at_byte in Hbits by lia.
  rewrite Hbx, Hby in Hbits.
  replace (7 - (7 - k)) with k in Hbits by lia. exact Hbits.
Qed.


(** the bits of a buffer after two writes *)
Lemma set_bits_two (buf : list Z) (o1 n1 s1 o2 n2 s2 : Z) :
  bytes_ok buf ->
  window_ok (length buf) (o1, n1, s1) -> window_ok (length buf) (o2, n2, s2) ->
  exists buf',
    set_bits_all buf [(o1, n1, s1); (o2, n2, s2)] = Ok buf' /\
    length buf' = length buf /\ bytes_ok buf' /\
    forall i, 0 <= i ->
      bit_at buf' i =
        if (o2 <=? i) && (i <? o2 + n2) then Z.testbit s2 (o2 + n2 - 1 - i)
        else if (o1 <=? i) && (i <? o1 + n1) then Z.testbit s1 (o1 + n1 - 1 - i)
             else bit_at buf i.
Proof.
  intros Hb (Hn1 & Ho1 & He1) (Hn2 & Ho2 & He2).
  destruct (set_bits_spec buf s1 o1 n1 Hb Ho1 Hn1 He1)
    as (b1 & Hs1 & Hl1 & Hb1 & Hbits1).
  destruct (set_bits_spec b1 s2 o2 n2 Hb1 Ho2 Hn2 ltac:(rewrite Hl1; exact He2))
    as (b2 & Hs2 & Hl2 & Hb2 & Hbits2).
  exists b2. cbn [set_bits_all]. rewrite Hs1. cbn [bind]. rewrite Hs2. cbn [bind].
  split; [reflexivity |]. split; [congruence |]. split; [exact Hb2 |].
  intros i Hi. rewrite (Hbits2 i Hi), (Hbits1 i Hi). reflexivity.
Qed.

(** X1.  Two [set_bits] calls on windows that do not overlap give the
    same buffer in either order. *)
Theorem set_bits_commute (buf : list Z) (o1 n1 s1 o2 n2 s2 : Z) :
  bytes_ok buf ->
  window_ok (length buf) (o1, n1, s1) -> window_ok (length buf) (o2, n2, s2) ->
  windows_apart (o1, n1, s1) (o2, n2, s2) ->
  exists buf',
    set_bits_all buf [(o1, n1, s1); (o2, n2, s2)] = Ok buf' /\
    set_bits_all buf [(o2, n2, s2); (o1, n1, s1)] = Ok buf'.
Proof.
  intros Hb Hw1 Hw2 Hapart.
  destruct (set_bits_two buf o1 n1 s1 o2 n2 s2 Hb Hw1 Hw2)
    as (b12 & H12 & Hl12 & Hb12 & Hbits12).
  destruct (set_bits_two buf o2 n2 s2 o1 n1 s1 Hb Hw2 Hw1)
    as (b21 & H21 & Hl21 & Hb21 & Hbits21).
  exists b12. split; [exact H12 |]. rewrite H21. f_equal.
  apply buffer_ext; [exact Hb21 | exact Hb12 | congruence |].
  intros i Hi. rewrite Hbits21, Hbits12 by lia.
  unfold windows_apart in Hapart.
  destruct (Z.leb_spec o1 i), (Z.ltb_spec i (o1 + n1)),
           (Z.leb_spec o2 i), (Z.ltb_spec i (o2 + n2));
    cbn [andb]; first [reflexivity | lia].
Qed.

(** X2.  A [set_bits] call on the window of an earlier call replaces what
    that call wrote: the buffer is the one that the later call alone
    gives.  In particular a call made twice changes nothing the second
    time. *)
Theorem set_bits_overwrite (buf : list Z) (off bits s1 s2 : Z) :
  bytes_ok buf -> window_ok (length buf) (off, bits, s1) ->
  exists buf',
    set_bits buf s2 off bits = Ok buf' /\
    set_bits_all buf [(off, bits, s1); (off, bits, s2)] = Ok buf' /\
    set_bits buf' s2 off bits = Ok buf'.
Proof.
  intros Hb Hw. pose proof Hw as (Hn & Ho & He).
  destruct (set_bits_spec buf s2 off bits Hb Ho Hn He)
    as (b2 & Hs2 & Hl2 & Hb2 & Hbits2).
  destruct (set_bits_two buf off bits s1 off bits s2 Hb Hw Hw)
    as (b12 & H12 & Hl12 & Hb12 & Hbits12).
  destruct (set_bits_spec b2 s2 off bits Hb2 Ho Hn ltac:(rewrite Hl2; exact He))
    as (b22 & Hs22 & Hl22 & Hb22 & Hbits22).
  exists b2. split; [exact Hs2 |]. split.
  - rewrite H12. f_equal.
    apply buffer_ext; [exact Hb12 | exact Hb2 | congruence |].
    intros i Hi. rewrite Hbits12, Hbits2 by lia.
    destruct ((off <=? i) && (i <? off + bits)); reflexivity.
  - rewrite Hs22. f_equal.
    apply buffer_ext; [exact Hb22 | exact Hb2 | congruence |].
    intros i Hi. rewrite Hbits22, Hbits2 by lia.
    destruct ((off <=? i) && (i <? off + bits)); reflexivity.
Qed.

(** a field of [a + b] bits from its two parts *)
Lemma get_bits_split (buf : list Z) (loc off a b hi lo : Z) :
  bytes_ok buf -> 0 <= off -> 1 <= a -> 1 <= b -> a + b <= 31 ->
  get_bits buf loc off a = Ok hi ->
  get_bits buf loc (off + a) b = Ok lo ->
  get_bits buf loc off (a + b) = Ok (hi * 2 ^ b + lo).
Proof.
  intros Hb Ho Ha Hb' Hab Hhi0 Hlo0.
  destruct (get_bits_spec buf loc off a Hb Ho ltac:(lia))
    as (hi' & Hhi & Hbhi & Hrhi & _).
  destruct (get_bits_spec buf loc (off + a) b Hb ltac:(lia) ltac:(lia))
    as (lo' & Hlo & Hblo & Hrlo & _).
  rewrite Hhi0 in Hhi. injection Hhi as <-.
  rewrite Hlo0 in Hlo. injection Hlo as <-.
  destruct (get_bits_spec buf loc off (a + b) Hb Ho ltac:(lia))
    as (v & Hv & Hbv & Hrv & _).
  specialize (Hrhi ltac:(lia)). specialize (Hrlo ltac:(lia)).
  specialize (Hrv ltac:(lia)).
  rewrite Hv. f_equal.
  assert (Hhigh : forall k, b <= k -> Z.testbit lo k = false).
  { intros k Hk. destruct (Z.eq_dec lo 0) as [-> | Hne]; [apply Z.bits_0 |].
    apply Z.bits_above_log2; [lia |].
    apply Z.log2_lt_pow2; [lia |].
    assert (2 ^ b <= 2 ^ k) by (apply Z.pow_le_mono_r; lia). lia. }
  assert (Hsum : hi * 2 ^ b + lo = Z.lor (Z.shiftl hi b) lo).
  { rewrite Z.shiftl_mul_pow2 by lia. symmetry. apply Z.or_to_plus.
    apply Z.bits_inj'. intros k Hk. rewrite Z.land_spec, Z.bits_0.
    destruct (Z_lt_le_dec k b) as [Hlt | Hge].
    - rewrite Z.mul_pow2_bits_low by lia. reflexivity.
    - rewrite Hhigh by lia. apply andb_false_r. }
  assert (Hrange : 0 <= hi * 2 ^ b + lo < 2 ^ (a + b)).
  { rewrite Z.pow_add_r by lia. nia. }
  apply (small_eq_of_low_bits (a + b)); [lia | exact Hrv | exact Hrange |].
  intros k Hk. rewrite Hbv by lia. rewrite Hsum, Z.lor_spec.
  destruct (Z_lt_le_dec k b) as [Hlt | Hge].
  - rewrite Z.shiftl_spec_low by lia. cbn [orb].
    rewrite Hblo by lia. f_equal. lia.
  - rewrite Z.shiftl_spec by lia. rewrite Hbhi by lia.
    rewrite Hhigh by lia. rewrite orb_false_r. f_equal. lia.
Qed.

(** X3.  [get_bits] reads big-endian: a field of [a + b] bits is the
    field of its first [a] bits times [2^b] plus the field of its last
    [b] bits. *)
Theorem get_bits_concat (buf : list Z) (loc off a b : Z) :
  bytes_ok buf -> 0 <= off -> 1 <= a -> 1 <= b -> a + b <= 31 ->
  exists hi lo,
    get_bits buf loc off a = Ok hi /\
    get_bits buf loc (off + a) b = Ok lo /\
    0 <= hi < 2 ^ a /\ 0 <= lo < 2 ^ b /\
    get_bits buf loc off (a + b) = Ok (hi * 2 ^ b + lo).
Proof.
  intros Hb Ho Ha Hb' Hab.
  destruct (get_bits_spec buf loc off a Hb Ho ltac:(lia))
    as (hi & Hhi & _ & Hrhi & _).
  destruct (get_bits_spec buf loc (off + a) b Hb ltac:(lia) ltac:(lia))
    as (lo & Hlo & _ & Hrlo & _).
  exists hi, lo. split; [exact Hhi |]. split; [exact Hlo |].
  split; [apply Hrhi; lia |]. split; [apply Hrlo; lia |].
  exact (get_bits_split buf loc off a b hi lo Hb Ho Ha Hb' Hab Hhi Hlo).
Qed.

Lemma bit_at_store (buf : list Z) (c v j : Z) :
  0 <= c < Z.of_nat (length buf) -> 0 <= j ->
  bit_at (store buf c v) j
  = if j / 8 =? c then Z.testbit v (7 - j mod 8) else bit_at buf j.
Proof.
  intros Hc Hj. unfold bit_at.
  pose proof (Z.mod_pos_bound j 8 ltac:(lia)) as Hm.
  assert (0 <= j / 8) by (apply Z.div_pos; lia).
  destruct (Z.eqb_spec (j / 8) c) as [-> | Hne].
  - rewrite byte_at_store_same by exact Hc.
    rewrite uint8_testbit by lia.
    destruct (Z.ltb_spec (7 - j mod 8) 8); [reflexivity | lia].
  - rewrite byte_at_store_other by lia. reflexivity.
Qed.

(** a whole byte *)
Lemma get_bits_byte (buf : list Z) (loc i : Z) :
  bytes_ok buf -> 0 <= i -> get_bits buf loc (8 * i) 8 = Ok (byte_at buf i).
Proof.
  intros Hb Hi.
  destruct (get_bits_spec buf loc (8 * i) 8 Hb ltac:(lia) ltac:(lia))
    as (v & Hv & Hbv & Hrv & _).
  rewrite Hv. f_equal.
  pose proof (byte_at_is_byte buf i Hb) as Hbyte. unfold is_byte in Hbyte.
  apply (small_eq_of_low_bits 8); [lia | apply Hrv; lia | exact Hbyte |].
  intros k Hk. rewrite Hbv by lia.
  replace (8 * i + 8 - 1 - k) with (8 * i + (7 - k)) by lia.
  rewrite bit_at_byte by lia. f_equal. lia.
Qed.

(** two and three whole bytes *)
Lemma get_bits_bytes2 (buf : list Z) (loc i : Z) :
  bytes_ok buf -> 0 <= i ->
  get_bits buf loc (8 * i) 16 = Ok (byte_at buf i * 256 + byte_at buf (i + 1)).
Proof.
  intros Hb Hi.
  apply (get_bits_split buf loc (8 * i) 8 8); try lia; try exact Hb.
  - apply get_bits_byte; [exact Hb | lia].
  - replace (8 * i + 8) with (8 * (i + 1)) by lia.
    apply get_bits_byte; [exact Hb | lia].
Qed.

Lemma get_bits_bytes3 (buf : list Z) (loc i : Z) :
  bytes_ok buf -> 0 <= i ->
  get_bits buf loc (8 * i) 24
  = Ok (byte_at buf i * 65536 + byte_at buf (i + 1) * 256 + byte_at buf (i + 2)).
Proof.
  intros Hb Hi.
  replace (byte_at buf i * 65536 + byte_at buf (i + 1) * 256 + byte_at buf (i + 2))
    with ((byte_at buf i * 256 + byte_at buf (i + 1)) * 2 ^ 8 + byte_at buf (i + 2))
    by lia.
  apply (get_bits_split buf loc (8 * i) 16 8); try lia; try exact Hb.
  - apply get_bits_bytes2; [exact Hb | lia].
  - replace (8 * i + 16) with (8 * (i + 2)) by lia.
    apply get_bits_byte; [exact Hb | lia].
Qed.

(** a write of [8 * k] bits at a byte boundary, as stores of bytes *)
Lemma set_bits_bytes (buf buf' : list Z) (src i bits : Z) :
  bytes_ok buf -> bytes_ok buf' -> length buf' = length buf ->
  0 <= i -> 1 <= bits <= 32 -> 8 * i + bits <= 8 * Z.of_nat (length buf) ->
  (forall j, 0 <= j < 8 * Z.of_nat (length buf) ->
     bit_at buf' j = if (8 * i <=? j) && (j <? 8 * i + bits)
                     then Z.testbit src (8 * i + bits - 1 - j)
                     else bit_at buf j) ->
  set_bits buf src (8 * i) bits = Ok buf'.
Proof.
  intros Hb Hb' Hlen Hi Hbits Hend Hspec.
  destruct (set_bits_spec buf src (8 * i) bits Hb ltac:(lia) Hbits Hend)
    as (b' & Hs & Hl & Hbb & Hbitsb).
  rewrite Hs. f_equal.
  apply buffer_ext; [exact Hbb | exact Hb' | congruence |].
  intros j Hj. rewrite Hbitsb by lia. symmetry. apply Hspec. lia.
Qed.

Lemma set_bits_word (buf : list Z) (src i : Z) :
  bytes_ok buf -> 0 <= i -> i + 4 <= Z.of_nat (length buf) ->
  set_bits buf src (8 * i) 32
  = Ok (store (store (store (store buf i (Z.shiftr src 24))
                        (i + 1) (Z.shiftr src 16))
                 (i + 2) (Z.shiftr src 8))
          (i + 3) src).
Proof.
  intros Hb Hi Hlen.
  apply set_bits_bytes;
    [ exact Hb | repeat apply store_bytes_ok; exact Hb
    | rewrite !store_length; reflexivity | exact Hi | lia | lia |].
  intros j Hj.
  rewrite !bit_at_store by (rewrite ?store_length; lia).
  pose proof (Z.div_mod j 8 ltac:(lia)) as Hdm.
  pose proof (Z.mod_pos_bound j 8 ltac:(lia)) as Hm.
  rewrite !Z.shiftr_spec by lia.
  destruct (Z.eqb_spec (j / 8) (i + 3)), (Z.eqb_spec (j / 8) (i + 2)),
           (Z.eqb_spec (j / 8) (i + 1)), (Z.eqb_spec (j / 8) i),
           (Z.leb_spec (8 * i) j), (Z.ltb_spec j (8 * i + 32));
    cbn [andb]; try lia; try reflexivity; f_equal; lia.
Qed.

Lemma set_bits_3bytes (buf : list Z) (src i : Z) :
  bytes_ok buf -> 0 <= i -> i + 3 <= Z.of_nat (length buf) ->
  set_bits buf src (8 * i) 24
  = Ok (store (store (store buf i (Z.shiftr src 16))
                 (i + 1) (Z.shiftr src 8))
          (i + 2) src).
Proof.
  intros Hb Hi Hlen.
  apply set_bits_bytes;
    [ exact Hb | repeat apply store_bytes_ok; exact Hb
    | rewrite !store_length; reflexivity | exact Hi | lia | lia |].
  intros j Hj.
  rewrite !bit_at_store by (rewrite ?store_length; lia).
  pose proof (Z.div_mod j 8 ltac:(lia)) as Hdm.
  pose proof (Z.mod_pos_bound j 8 ltac:(lia)) as Hm.
  rewrite !Z.shiftr_spec by lia.
  destruct (Z.eqb_spec (j / 8) (i + 2)),
           (Z.eqb_spec (j / 8) (i + 1)), (Z.eqb_spec (j / 8) i),
           (Z.leb_spec (8 * i) j), (Z.ltb_spec j (8 * i + 24));
    cbn [andb]; try lia; try reflexivity; f_equal; lia.
Qed.

Lemma set_bits_1byte (buf : list Z) (src i : Z) :
  bytes_ok buf -> 0 <= i -> i + 1 <= Z.of_nat (length buf) ->
  set_bits buf src (8 * i) 8 = Ok (store buf i src).
Proof.
  intros Hb Hi Hlen.
  apply set_bits_bytes;
    [ exact Hb | apply store_bytes_ok; exact Hb
    | rewrite store_length; reflexivity | exact Hi | lia | lia |].
  intros j Hj.
  rewrite bit_at_store by lia.
  pose proof (Z.div_mod j 8 ltac:(lia)) as Hdm.
  pose proof (Z.mod_pos_bound j 8 ltac:(lia)) as Hm.
  destruct (Z.eqb_spec (j / 8) i),
           (Z.leb_spec (8 * i) j), (Z.ltb_spec j (8 * i + 8));
    cbn [andb]; try lia; try reflexivity; f_equal; lia.
Qed.

(** X4.  At a byte boundary [set_bits] stores the bytes of [src] in
    big-endian order and [get_bits] reads bytes in that order: 32 bits
    written are the four bytes [src >> 24], [src >> 16], [src >> 8],
    [src], each cut to an [unsigned char]; 8 bits written are the byte
    itself; 8 bits read are the byte, and 16 bits read are the first
    byte times 256 plus the second. *)
Theorem set_bits_big_endian (buf : list Z) (src loc i : Z) :
  bytes_ok buf -> 0 <= i -> i + 4 <= Z.of_nat (length buf) ->
  set_bits buf src (8 * i) 32
  = Ok (store (store (store (store buf i (Z.shiftr src 24))
                        (i + 1) (Z.shiftr src 16))
                 (i + 2) (Z.shiftr src 8))
          (i + 3) src) /\
  set_bits buf src (8 * i) 8 = Ok (store buf i src) /\
  get_bits buf loc (8 * i) 8 = Ok (byte_at buf i) /\
  get_bits buf loc (8 * i) 16 = Ok (byte_at buf i * 256 + byte_at buf (i + 1)).
Proof.
  intros Hb Hi Hlen. split; [| split; [| split]].
  - apply set_bits_word; assumption.
  - apply set_bits_1byte; [exact Hb | exact Hi | lia].
  - apply get_bits_byte; assumption.
  - apply get_bits_bytes2; assumption.
Qed.

Lemma set_bits_commute_witness :
  exists buf',
    set_bits_all [1; 2; 3; 4] [(3, 7, 85); (12, 17, 109517)] = Ok buf' /\
    set_bits_all [1; 2; 3; 4] [(12, 17, 109517); (3, 7, 85)] = Ok buf'.
Proof.
  apply set_bits_commute;
    [ repeat constructor; unfold is_byte; lia
    | unfold window_ok; cbn; lia
    | unfold window_ok; cbn; lia
    | unfold windows_apart; lia ].
Defined.

Lemma set_bits_overwrite_witness :
  exists buf',
    set_bits [1; 2; 3; 4] 5 3 7 = Ok buf' /\
    set_bits_all [1; 2; 3; 4] [(3, 7, 85); (3, 7, 5)] = Ok buf' /\
    set_bits buf' 5 3 7 = Ok buf'.
Proof.
  apply set_bits_overwrite;
    [ repeat constructor; unfold is_byte; lia
    | unfold window_ok; cbn; lia ].
Defined.

Lemma get_bits_concat_witness :
  exists hi lo,
    get_bits [1; 2; 3; 4] 0 3 7 = Ok hi /\
    get_bits [1; 2; 3; 4] 0 (3 + 7) 12 = Ok lo /\
    0 <= hi < 2 ^ 7 /\ 0 <= lo < 2 ^ 12 /\
    get_bits [1; 2; 3; 4] 0 3 (7 + 12) = Ok (hi * 2 ^ 12 + lo).
Proof.
  apply get_bits_concat;
    [ repeat constructor; unfold is_byte; lia | lia | lia | lia | lia ].
Defined.

Lemma set_bits_big_endian_witness :
  set_bits [1; 2; 3; 4; 5] 16909060 (8 * 1) 32
  = Ok (store (store (store (store [1; 2; 3; 4; 5] 1 (Z.shiftr 16909060 24))
                        (1 + 1) (Z.shiftr 16909060 16))
                 (1 + 2) (Z.shiftr 16909060 8))
          (1 + 3) 16909060) /\
  set_bits [1; 2; 3; 4; 5] 16909060 (8 * 1) 8 = Ok (store [1; 2; 3; 4; 5] 1 16909060) /\
  get_bits [1; 2; 3; 4; 5] 0 (8 * 1) 8 = Ok (byte_at [1; 2; 3; 4; 5] 1) /\
  get_bits [1; 2; 3; 4; 5] 0 (8 * 1) 16
  = Ok (byte_at [1; 2; 3; 4; 5] 1 * 256 + byte_at [1; 2; 3; 4; 5] (1 + 1)).
Proof.
  apply set_bits_big_endian;
    [ repeat constructor; unfold is_byte; lia | lia | cbn; lia ].
Defined.

End BitStreamAlgebra.

(** ** The calendar addition *)
Module CalendarFacts.
Import CInt BitStream BitStreamFacts Grib1to2 Grib1to2Facts.

(** [mdays] with [mdays[2]] set for year [yr] *)
Local Abbreviation mdays_of yr :=
  (<[2%nat := if is_leap yr then 29 else 28]> mdays).

Lemma month_cases (mo : Z) :
  1 <= mo <= 12 ->
  mo = 1 \/ mo = 2 \/ mo = 3 \/ mo = 4 \/ mo = 5 \/ mo = 6 \/ mo = 7 \/
  mo = 8 \/ mo = 9 \/ mo = 10 \/ mo = 11 \/ mo = 12.
Proof. lia. Qed.

Ltac each_month Hmo :=
  apply month_cases in Hmo;
  repeat match type of Hmo with
         | _ \/ _ => destruct Hmo as [Hmo | Hmo]
         end; subst.

Lemma mdays_at_month (yr mo : Z) :
  1 <= mo <= 12 -> mdays_at (mdays_of yr) mo = Ok (month_length yr mo).
Proof. intros Hmo. each_month Hmo; reflexivity. Qed.

Lemma month_length_bounds (yr mo : Z) :
  1 <= mo <= 12 -> 28 <= month_length yr mo <= 31.
Proof.
  intros Hmo. unfold month_length.
  each_month Hmo; cbn [Z.eqb Pos.eqb];
    first [destruct (is_leap yr); lia | vm_compute; split; discriminate].
Qed.

Lemma days_before_month_succ (yr mo : Z) :
  1 <= mo <= 12 ->
  days_before_month yr (mo + 1) = days_before_month yr mo + month_length yr mo.
Proof.
  intros Hmo. unfold days_before_month, month_length.
  each_month Hmo; cbn; destruct (is_leap yr); reflexivity.
Qed.

Lemma days_in_year (yr : Z) :
  days_before_month yr 13 = if is_leap yr then 366 else 365.
Proof.
  unfold days_before_month, month_length. cbn. destruct (is_leap yr); reflexivity.
Qed.

Lemma days_before_year_succ (yr : Z) :
  1 <= yr ->
  days_before_year (yr + 1) = days_before_year yr + days_before_month yr 13.
Proof.
  intros Hyr. rewrite days_in_year. unfold days_before_year, is_leap.
  rewrite !Z.rem_mod_nonneg by lia.
  replace (yr + 1 - 1) with yr by lia.
  destruct (Z.eqb_spec (yr mod 4) 0), (Z.eqb_spec (yr mod 100) 0),
           (Z.eqb_spec (yr mod 400) 0); cbn [andb orb negb];
    Z.div_mod_to_equations; lia.
Qed.

(** the loop of [add_time] ends on a day of the month, and keeps the
    count of the days *)
Lemma roll_days_exact (fuel : nat) :
  forall yr mo dy,
    1 <= yr -> 1 <= mo <= 12 -> 1 <= dy -> yr + dy < 2 ^ 31 ->
    (Z.to_nat dy < fuel)%nat ->
    exists yr' mo' dy',
      roll_days fuel (mdays_of yr) yr mo dy = Ok (mdays_of yr', yr', mo', dy') /\
      yr <= yr' /\ 1 <= mo' <= 12 /\ 1 <= dy' <= month_length yr' mo' /\
      days_before_year yr' + days_before_month yr' mo' + dy'
      = days_before_year yr + days_before_month yr mo + dy.
Proof.
  induction fuel as [| fuel IH]; intros yr mo dy Hyr Hmo Hdy Hsum Hfuel; [lia |].
  cbn [roll_days]. rewrite (mdays_at_month yr mo Hmo). cbn [bind].
  pose proof (month_length_bounds yr mo Hmo) as Hlen.
  destruct (Z.gtb_spec dy (month_length yr mo)) as [Hgt | Hle].
  - destruct (Z.gtb_spec (mo + 1) 12) as [Hdec | Hnext].
    + assert (mo = 12) by lia. subst mo.
      rewrite sint32_id by (unfold is_int; lia).
      rewrite set_feb_mdays.
      destruct (IH (yr + 1) 1 (dy - month_length yr 12))
        as (yr' & mo' & dy' & Hroll & Hy & Hm & Hd & Hcount);
        [lia | lia | lia | lia | lia |].
      exists yr', mo', dy'. split; [exact Hroll |]. split; [lia |].
      split; [exact Hm |]. split; [exact Hd |].
      rewrite Hcount, days_before_year_succ by lia.
      pose proof (days_before_month_succ yr 12 ltac:(lia)) as H13.
      change (12 + 1) with 13 in H13.
      change (days_before_month (yr + 1) 1) with 0. lia.
    + destruct (IH yr (mo + 1) (dy - month_length yr mo))
        as (yr' & mo' & dy' & Hroll & Hy & Hm & Hd & Hcount);
        [lia | lia | lia | lia | lia |].
      exists yr', mo', dy'. split; [exact Hroll |]. split; [lia |].
      split; [exact Hm |]. split; [exact Hd |].
      rewrite Hcount, days_before_month_succ by lia. lia.
  - exists yr, mo, dy. split; [reflexivity |]. lia.
Qed.

(** the calendar addition: [add_time] on a date of the calendar and an
    amount that fits in an [int] as minutes returns a date of the
    calendar, of the same year or a later one, and the count of the
    minutes from the start of year 1 has grown by exactly the amount *)
Lemma add_time_calendar (feb time_to_add time_units yr mo dy time : Z) :
  0 <= time_units <= 2 ->
  0 <= time_to_add -> time_to_add * unit_minutes time_units <= 2 ^ 31 - 60 ->
  1 <= yr < 2 ^ 30 -> 1 <= mo <= 12 -> 1 <= dy <= month_length yr mo ->
  0 <= time -> Z.quot time 100 <= 23 -> Z.rem time 100 <= 59 ->
  exists feb' yr' mo' dy' time',
    add_time (<[2%nat := feb]> mdays) time_to_add time_units yr mo dy time
    = Ok (<[2%nat := feb']> mdays, yr', mo', dy', time') /\
    yr <= yr' /\
    1 <= mo' <= 12 /\ 1 <= dy' <= month_length yr' mo' /\
    0 <= time' /\ Z.quot time' 100 <= 23 /\ Z.rem time' 100 <= 59 /\
    minutes_of yr' mo' dy' time'
    = minutes_of yr mo dy time + time_to_add * unit_minutes time_units.
Proof.
  intros Hu Ht Hfit Hyr Hmo Hdy Htime Hhr Hmin.
  pose proof (month_length_bounds yr mo Hmo) as Hlen.
  assert (Hmin0 : 0 <= Z.rem time 100) by (apply Z.rem_nonneg; lia).
  assert (Hhr0 : 0 <= Z.quot time 100) by (apply Z.quot_pos; lia).
  set (hr := Z.quot time 100) in *. set (min := Z.rem time 100) in *.
  set (amount := time_to_add * unit_minutes time_units) in *.
  assert (Hhhmm : forall h m, 0 <= h <= 23 -> 0 <= m <= 59 ->
            sint32 (h * 100 + m) = h * 100 + m /\ 0 <= h * 100 + m /\
            Z.quot (h * 100 + m) 100 = h /\ Z.rem (h * 100 + m) 100 = m).
  { intros h m Hh Hm. rewrite sint32_id by (unfold is_int; lia).
    rewrite Z.quot_div_nonneg, Z.rem_mod_nonneg by lia.
    repeat split; try lia; Z.div_mod_to_equations; lia. }
  unfold add_time. cbv zeta. fold hr min.
  assert (Hmin1 :
    match time_units with
    | 0 => Ok (sint32 (min + time_to_add))
    | 1 => Ok (sint32 (min + sint32 (time_to_add * 60)))
    | 2 => Ok (sint32 (min + sint32 (time_to_add * 1440)))
    | _ => Err Exit1
    end = Ok (min + amount)).
  { subst amount.
    assert (Hcases : time_units = 0 \/ time_units = 1 \/ time_units = 2) by lia.
    destruct Hcases as [-> | [-> | ->]]; cbn [unit_minutes] in *;
      rewrite ?(sint32_id (time_to_add * _)) by (unfold is_int; lia);
      rewrite sint32_id by (unfold is_int; lia); f_equal; lia. }
  rewrite Hmin1. cbn [bind].
  unfold minutes_of. fold hr min.
  destruct (Z.geb_spec (min + amount) 60) as [Hge | Hlt].
  - assert (Hq : 0 <= Z.quot (min + amount) 60 <= 2 ^ 31 / 60).
    { rewrite Z.quot_div_nonneg by lia. Z.div_mod_to_equations. lia. }
    rewrite (sint32_id (hr + _))
      by (unfold is_int; change (2 ^ 31 / 60) with 35791394 in Hq; lia).
    rewrite !(Z.quot_div_nonneg (min + amount)), !(Z.rem_mod_nonneg (min + amount))
      by lia.
    rewrite Z.quot_div_nonneg in Hq by lia.
    change (2 ^ 31 / 60) with 35791394 in Hq.
    pose proof (Z.mod_pos_bound (min + amount) 60 ltac:(lia)) as Hm2.
    pose proof (Z.div_mod (min + amount) 60 ltac:(lia)) as Hdm.
    set (q := (min + amount) / 60) in *. set (m2 := (min + amount) mod 60) in *.
    destruct (Z.geb_spec (hr + q) 24) as [Hday | Hsame].
    + rewrite !(Z.quot_div_nonneg (hr + q)), !(Z.rem_mod_nonneg (hr + q)) by lia.
      pose proof (Z.mod_pos_bound (hr + q) 24 ltac:(lia)) as Hh2.
      pose proof (Z.div_mod (hr + q) 24 ltac:(lia)) as Hdh.
      assert (Hd : 0 <= (hr + q) / 24 <= 1491309).
      { Z.div_mod_to_equations. lia. }
      set (d := (hr + q) / 24) in *. set (h2 := (hr + q) mod 24) in *.
      rewrite (sint32_id (dy + d)) by (unfold is_int; lia).
      rewrite set_feb_mdays.
      destruct (roll_days_exact (S (S (Z.to_nat (dy + d)))) yr mo (dy + d))
        as (yr' & mo' & dy' & Hroll & Hy & Hmo' & Hdy' & Hcount);
        [lia | lia | lia | lia | lia |].
      rewrite Hroll. cbn [bind].
      destruct (Hhhmm h2 m2 ltac:(lia) ltac:(lia)) as (-> & H0 & Hq2 & Hr2).
      exists (if is_leap yr' then 29 else 28), yr', mo', dy', (h2 * 100 + m2).
      rewrite Hq2, Hr2.
      split; [reflexivity |]. split; [exact Hy |].
      split; [exact Hmo' |]. split; [exact Hdy' |].
      split; [exact H0 |]. split; [lia |]. split; [lia |].
      rewrite Hcount. lia.
    + destruct (Hhhmm (hr + q) m2 ltac:(lia) ltac:(lia)) as (-> & H0 & Hq2 & Hr2).
      exists feb, yr, mo, dy, ((hr + q) * 100 + m2).
      rewrite Hq2, Hr2.
      split; [reflexivity |]. split; [lia |].
      split; [exact Hmo |]. split; [exact Hdy |].
      split; [exact H0 |]. split; [lia |]. split; [lia |]. lia.
  - assert (Ham : 0 <= amount) by (subst amount; destruct Hu;
      assert (Hc : time_units = 0 \/ time_units = 1 \/ time_units = 2) by lia;
      destruct Hc as [-> | [-> | ->]]; cbn [unit_minutes]; lia).
    destruct (Hhhmm hr (min + amount) ltac:(lia) ltac:(lia)) as (-> & H0 & Hq2 & Hr2).
    exists feb, yr, mo, dy, (hr * 100 + (min + amount)).
    rewrite Hq2, Hr2.
    split; [reflexivity |]. split; [lia |].
    split; [exact Hmo |]. split; [exact Hdy |].
    split; [exact H0 |]. split; [lia |]. split; [lia |]. lia.
Qed.

(** X5.  [add_time] is an exact calendar addition.  From a date of the
    calendar (year from 1 on, day within its month, time [hhmm] with
    [hh <= 23] and [mm <= 59]) and an amount [time_to_add >= 0] of
    minutes, hours or days that fits in an [int] as minutes, the call
    returns, the date it leaves is again a date of the calendar, and the
    count of the minutes from the start of year 1 has grown by exactly
    the amount; [mdays] is again the array of the month lengths. *)
Theorem add_time_exact (feb time_to_add time_units yr mo dy time : Z) :
  0 <= time_units <= 2 ->
  0 <= time_to_add -> time_to_add * unit_minutes time_units <= 2 ^ 31 - 60 ->
  1 <= yr < 2 ^ 30 -> 1 <= mo <= 12 -> 1 <= dy <= month_length yr mo ->
  0 <= time -> Z.quot time 100 <= 23 -> Z.rem time 100 <= 59 ->
  exists feb' yr' mo' dy' time',
    add_time (<[2%nat := feb]> mdays) time_to_add time_units yr mo dy time
    = Ok (<[2%nat := feb']> mdays, yr', mo', dy', time') /\
    1 <= mo' <= 12 /\ 1 <= dy' <= month_length yr' mo' /\
    0 <= time' /\ Z.quot time' 100 <= 23 /\ Z.rem time' 100 <= 59 /\
    minutes_of yr' mo' dy' time'
    = minutes_of yr mo dy time + time_to_add * unit_minutes time_units.
Proof.
  intros Hu Ht Hfit Hyr Hmo Hdy Htime Hhr Hmin.
  destruct (add_time_calendar feb time_to_add time_units yr mo dy time
              Hu Ht Hfit Hyr Hmo Hdy Htime Hhr Hmin)
    as (feb' & yr' & mo' & dy' & time' & Hadd & _ & Hrest).
  exists feb', yr', mo', dy', time'. split; [exact Hadd | exact Hrest].
Qed.

Lemma roll_days_next_year (fuel : nat) (md : list Z) (yr dy lim : Z) :
  mdays_at md 12 = Ok lim -> lim < dy ->
  roll_days (S fuel) md yr 12 dy
  = roll_days fuel (set_feb md (sint32 (yr + 1))) (sint32 (yr + 1)) 1 (dy - lim).
Proof.
  intros Hlim Hgt. cbn [roll_days]. rewrite Hlim. cbn [bind].
  destruct (Z.gtb_spec dy lim); [| lia]. reflexivity.
Qed.

(** One day added to 31 December 12:00 of any year is 1 January of the
    next year, and [mdays[2]] is set for that year. *)
Lemma add_time_dec_31 (feb yr : Z) :
  is_int (yr + 1) ->
  add_time (<[2%nat := feb]> mdays) 24 1 yr 12 31 1200
  = Ok (<[2%nat := if is_leap (yr + 1) then 29 else 28]> mdays,
        yr + 1, 1, 1, 1200).
Proof.
  intros Hy. unfold add_time.
  change (Z.quot 1200 100) with 12. change (Z.rem 1200 100) with 0.
  cbv beta iota zeta.
  change (sint32 (0 + sint32 (24 * 60))) with 1440.
  cbn [bind].
  change (1440 >=? 60) with true. cbv iota.
  change (sint32 (12 + Z.quot 1440 60)) with 36.
  change (36 >=? 24) with true. cbv iota.
  change (sint32 (31 + Z.quot 36 24)) with 32.
  change (Z.rem 36 24) with 12. change (Z.rem 1440 60) with 0.
  change (sint32 (12 * 100 + 0)) with 1200.
  change (Z.to_nat 32) with 32%nat.
  rewrite set_feb_mdays.
  rewrite (roll_days_next_year _ _ yr 32 31);
    [| apply (mdays_at_month yr 12); lia | lia].
  rewrite (sint32_id (yr + 1)) by exact Hy.
  rewrite set_feb_mdays.
  rewrite (roll_days_stop _ _ (yr + 1) 1 (32 - 31) 31);
    [reflexivity | apply (mdays_at_month (yr + 1) 1); lia | lia].
Qed.

Lemma add_time_exact_witness :
  exists feb' yr' mo' dy' time',
    add_time (<[2%nat := 28]> mdays) 48 1 2019 12 31 1830
    = Ok (<[2%nat := feb']> mdays, yr', mo', dy', time') /\
    1 <= mo' <= 12 /\ 1 <= dy' <= month_length yr' mo' /\
    0 <= time' /\ Z.quot time' 100 <= 23 /\ Z.rem time' 100 <= 59 /\
    minutes_of yr' mo' dy' time'
    = minutes_of 2019 12 31 1830 + 48 * unit_minutes 1.
Proof.
  apply add_time_exact; vm_compute; repeat split; discriminate.
Defined.

(** C9.  [add_time] applies the Gregorian leap-year rules when it rolls
    over the end of a month and of a year, whatever value an earlier
    call has left in [mdays[2]].  The two documented dates: 48 hours
    added to 2020-02-28 12:00 give 2020-03-01 12:00 (2020 is a leap
    year), 48 hours added to 2100-02-28 12:00 give 2100-03-02 12:00
    (2100 is not).  The end of February: for every year, one day after
    28 February is 29 February when the test of the code holds and
    1 March otherwise, and the test of the code is the Gregorian rule.
    The end of the year: for every year, one day after 31 December is
    1 January of the next year, with [mdays[2]] set for that year; 48
    hours after 2019-12-31 18:30 it is 2020-01-02 18:30; 60 days after
    2019-12-31 it is 2020-02-29, and 60 days after 2099-12-31 it is
    2100-03-01.  In general: from every date of the calendar and every
    amount of minutes, hours or days that fits in an [int] as minutes,
    [add_time] returns a date of the calendar, with the day within the
    Gregorian length of its month, and the count of the minutes of the
    Gregorian calendar has grown by exactly the amount. *)
Theorem add_time_gregorian_roll :
  (forall feb : Z,
     add_time (<[2%nat := feb]> mdays) 48 1 2020 2 28 1200
     = Ok (<[2%nat := 29]> mdays, 2020, 3, 1, 1200)) /\
  (forall feb : Z,
     add_time (<[2%nat := feb]> mdays) 48 1 2100 2 28 1200
     = Ok (mdays, 2100, 3, 2, 1200)) /\
  (forall feb yr : Z,
     add_time (<[2%nat := feb]> mdays) 24 1 yr 2 28 1200
     = if is_leap yr
       then Ok (<[2%nat := 29]> mdays, yr, 2, 29, 1200)
       else Ok (mdays, yr, 3, 1, 1200)) /\
  (forall yr : Z, is_leap yr = true <-> gregorian_leap yr) /\
  (forall feb yr : Z,
     is_int (yr + 1) ->
     add_time (<[2%nat := feb]> mdays) 24 1 yr 12 31 1200
     = Ok (<[2%nat := if is_leap (yr + 1) then 29 else 28]> mdays,
           yr + 1, 1, 1, 1200)) /\
  (forall feb : Z,
     add_time (<[2%nat := feb]> mdays) 48 1 2019 12 31 1830
     = Ok (<[2%nat := 29]> mdays, 2020, 1, 2, 1830)) /\
  (forall feb : Z,
     add_time (<[2%nat := feb]> mdays) 60 2 2019 12 31 1200
     = Ok (<[2%nat := 29]> mdays, 2020, 2, 29, 1200)) /\
  (forall feb : Z,
     add_time (<[2%nat := feb]> mdays) 60 2 2099 12 31 1200
     = Ok (mdays, 2100, 3, 1, 1200)) /\
  (forall feb time_to_add time_units yr mo dy time : Z,
     0 <= time_units <= 2 ->
     0 <= time_to_add ->
     time_to_add * unit_minutes time_units <= 2 ^ 31 - 60 ->
     1 <= yr < 2 ^ 30 -> 1 <= mo <= 12 -> 1 <= dy <= month_length yr mo ->
     0 <= time -> Z.quot time 100 <= 23 -> Z.rem time 100 <= 59 ->
     exists feb' yr' mo' dy' time',
       add_time (<[2%nat := feb]> mdays) time_to_add time_units yr mo dy time
       = Ok (<[2%nat := feb']> mdays, yr', mo', dy', time') /\
       yr <= yr' /\
       1 <= mo' <= 12 /\
       1 <= dy' <= (if mo' =? 2 then (if is_leap yr' then 29 else 28)
                    else mdays !!! Z.to_nat mo') /\
       0 <= time' /\ Z.quot time' 100 <= 23 /\ Z.rem time' 100 <= 59 /\
       minutes_of yr' mo' dy' time'
       = minutes_of yr mo dy time + time_to_add * unit_minutes time_units).
Proof.
  split; [intros feb; vm_compute; reflexivity |].
  split; [intros feb; vm_compute; reflexivity |].
  split; [exact add_time_feb_28 |].
  split; [exact is_leap_gregorian |].
  split; [exact add_time_dec_31 |].
  split; [intros feb; vm_compute; reflexivity |].
  split; [intros feb; vm_compute; reflexivity |].
  split; [intros feb; vm_compute; reflexivity |].
  exact add_time_calendar.
Qed.

End CalendarFacts.


(** ** The overall end time of template 8 *)
Module EndTimeFacts.
Import CInt BitStream BitStreamFacts Grib1to2 Grib1to2Facts CalendarFacts.

Lemma add_time_units (md : list Z) (time_to_add time_units yr mo dy time : Z)
    (r : list Z * Z * Z * Z * Z) :
  add_time md time_to_add time_units yr mo dy time = Ok r ->
  0 <= time_units <= 2.
Proof.
  unfold add_time. cbv zeta. intros Hadd.
  destruct time_units as [| [p | [p | p |] |] | p];
    first [lia | discriminate Hadd].
Qed.

Lemma days_before_month_bounds (yr mo : Z) :
  1 <= mo <= 12 -> 0 <= days_before_month yr mo <= 335.
Proof.
  intros Hmo. unfold days_before_month, month_length.
  apply month_cases in Hmo.
  repeat match type of Hmo with
         | _ \/ _ => destruct Hmo as [Hmo | Hmo]
         end; subst; cbn; destruct (is_leap yr);
    vm_compute; split; discriminate.
Qed.

(** a year has at least 365 days *)
Lemma days_before_year_grows (k : nat) (yr : Z) :
  1 <= yr ->
  days_before_year yr + 365 * Z.of_nat k <= days_before_year (yr + Z.of_nat k).
Proof.
  intros Hyr. induction k as [| k IH].
  - replace (yr + Z.of_nat 0) with yr by lia. lia.
  - replace (yr + Z.of_nat (S k)) with (yr + Z.of_nat k + 1) by lia.
    rewrite days_before_year_succ by lia. rewrite days_in_year.
    destruct (is_leap (yr + Z.of_nat k)); lia.
Qed.

Section WithFloats.
Context `{FloatOps}.
Import Unpackgrib1.

(** C8.  For every message that [pack_PDS] packs with template 8 (time
    range indicator 2, 3 or 4), whose reference time is a date of the
    calendar (year 1 to 60000) and whose P2 is not negative and fits in
    an [int] as minutes, the overall end time in the section is what
    [add_time] returns on the reference time, P2 and the forecast time
    unit, and that is the reference time plus P2 in the forecast time
    unit: the fields hold a
    year, a month 1 to 12, a day within the Gregorian length of that
    month, an hour 0 to 23, a minute 0 to 59 and the second 0, and the
    count of the minutes of the calendar at that date and time is the
    count at the reference time plus P2 times the minutes of the unit
    (which is 0, 1 or 2: minute, hour or day).  For a message with
    reference time 2017-07-10 06:00, unit 1 (hour) and P2 = 48 the
    fields are 2017, 7, 12, 6, 0 and 0.  [feb] is the value that
    earlier calls have left in [mdays[2]]. *)
Theorem pack_PDS_end_time_sum (feb : Z) (msg : GRIBMessage) (cat num : Z)
    (buf : list Z) (off : Z) (md' buf' : list Z) (off' loc : Z) :
  bytes_ok buf -> 0 <= off -> off' <= 8 * Z.of_nat (length buf) ->
  t_range msg = 2 \/ t_range msg = 3 \/ t_range msg = 4 ->
  1 <= yr msg <= 60000 -> 1 <= mo msg <= 12 ->
  1 <= dy msg <= month_length (yr msg) (mo msg) ->
  0 <= time msg -> Z.quot (time msg) 100 <= 23 -> Z.rem (time msg) 100 <= 59 ->
  0 <= p2 msg -> p2 msg * unit_minutes (fcst_units msg) <= 2 ^ 31 - 60 ->
  pack_PDS (<[2%nat := feb]> mdays) msg cat num buf off = Ok (md', buf', off') ->
  exists yr1 mo1 dy1 hr1 min1,
    add_time (<[2%nat := feb]> mdays) (p2 msg) (fcst_units msg)
      (yr msg) (mo msg) (dy msg) (time msg)
    = Ok (md', yr1, mo1, dy1, hr1 * 100 + min1) /\
    get_bits buf' loc (off + 56) 16 = Ok 8 /\
    get_bits buf' loc (off + 272) 16 = Ok yr1 /\
    get_bits buf' loc (off + 288) 8 = Ok mo1 /\
    get_bits buf' loc (off + 296) 8 = Ok dy1 /\
    get_bits buf' loc (off + 304) 8 = Ok hr1 /\
    get_bits buf' loc (off + 312) 8 = Ok min1 /\
    get_bits buf' loc (off + 320) 8 = Ok 0 /\
    0 <= fcst_units msg <= 2 /\
    yr msg <= yr1 /\ 1 <= mo1 <= 12 /\ 1 <= dy1 <= month_length yr1 mo1 /\
    0 <= hr1 <= 23 /\ 0 <= min1 <= 59 /\
    minutes_of yr1 mo1 dy1 (hr1 * 100 + min1)
    = minutes_of (yr msg) (mo msg) (dy msg) (time msg)
      + p2 msg * unit_minutes (fcst_units msg) /\
    (yr msg = 2017 -> mo msg = 7 -> dy msg = 10 -> time msg = 600 ->
     fcst_units msg = 1 -> p2 msg = 48 ->
     yr1 = 2017 /\ mo1 = 7 /\ dy1 = 12 /\ hr1 = 6 /\ min1 = 0).
Proof.
  intros Hok Hoff Hlen Ht Hyr Hmo Hdy Htime Hhr Hmin Hp2 Hfit Hpack.
  destruct (pack_PDS_end_time_fields feb msg cat num buf off md' buf' off' loc
              Hok Hoff Hlen Ht Hpack)
    as (yr1 & mo1 & dy1 & time1 & Hadd & R56 & Ryr & Rmo & Rdy & Rhr & Rmi & Rse).
  pose proof (add_time_units _ _ _ _ _ _ _ _ Hadd) as Hu.
  destruct (add_time_calendar feb (p2 msg) (fcst_units msg) (yr msg) (mo msg)
              (dy msg) (time msg) Hu Hp2 Hfit ltac:(lia) Hmo Hdy Htime Hhr Hmin)
    as (feb' & yr' & mo' & dy' & time' & Hadd' & Hy & Hmo' & Hdy' & Ht' & Hhr'
        & Hmin' & Hcount).
  rewrite Hadd in Hadd'. injection Hadd' as _ -> -> -> ->.
  pose proof (month_length_bounds yr' mo' Hmo') as Hlen'.
  assert (Hq : 0 <= Z.quot time' 100) by (apply Z.quot_pos; lia).
  assert (Hr : 0 <= Z.rem time' 100) by (apply Z.rem_nonneg; lia).
  assert (Htime' : Z.quot time' 100 * 100 + Z.rem time' 100 = time').
  { pose proof (Z.quot_rem' time' 100). lia. }
  (* the year of the end time fits the field *)
  assert (Hyear : yr' < 65536).
  { pose proof (days_before_year_grows (Z.to_nat (yr' - yr msg)) (yr msg)
                  ltac:(lia)) as Hgrow.
    rewrite Z2Nat.id in Hgrow by lia.
    replace (yr msg + (yr' - yr msg)) with yr' in Hgrow by lia.
    pose proof (days_before_month_bounds (yr msg) (mo msg) Hmo) as Hb.
    pose proof (days_before_month_bounds yr' mo' Hmo') as Hb'.
    pose proof (month_length_bounds (yr msg) (mo msg) Hmo) as Hl.
    assert (Hq0 : 0 <= Z.quot (time msg) 100) by (apply Z.quot_pos; lia).
    assert (Hr0 : 0 <= Z.rem (time msg) 100) by (apply Z.rem_nonneg; lia).
    unfold minutes_of in Hcount. lia. }
  exists yr', mo', dy', (Z.quot time' 100), (Z.rem time' 100).
  unfold low_bits in Ryr, Rmo, Rdy, Rhr, Rmi.
  change (16 =? 32) with false in Ryr. change (8 =? 32) with false in Rmo, Rdy, Rhr, Rmi.
  cbv iota in Ryr, Rmo, Rdy, Rhr, Rmi.
  rewrite Z.mod_small in Ryr by lia.
  rewrite Z.mod_small in Rmo by lia.
  rewrite Z.mod_small in Rdy by lia.
  rewrite Z.mod_small in Rhr by lia.
  rewrite Z.mod_small in Rmi by lia.
  rewrite Htime'.
  repeat (split; [first [assumption | lia] |]).
  intros Ey Em Ed Eti Eu Ep.
  rewrite Ey, Em, Ed, Eti, Eu, Ep in Hadd.
  vm_compute in Hadd. injection Hadd as _ <- <- <- <-.
  repeat split.
Qed.

End WithFloats.

Import Exact Examples.

Lemma pack_PDS_end_time_sum_witness :
  exists md' buf' off',
    pack_PDS (<[2%nat := 28]> mdays) statistic_message 0 4 (replicate 58 0) 0
    = Ok (md', buf', off') /\
    exists yr1 mo1 dy1 hr1 min1,
      add_time (<[2%nat := 28]> mdays) (Unpackgrib1.p2 statistic_message)
        (Unpackgrib1.fcst_units statistic_message)
        (Unpackgrib1.yr statistic_message) (Unpackgrib1.mo statistic_message)
        (Unpackgrib1.dy statistic_message) (Unpackgrib1.time statistic_message)
      = Ok (md', yr1, mo1, dy1, hr1 * 100 + min1) /\
      get_bits buf' 0 (0 + 56) 16 = Ok 8 /\
      get_bits buf' 0 (0 + 272) 16 = Ok yr1 /\
      get_bits buf' 0 (0 + 288) 8 = Ok mo1 /\
      get_bits buf' 0 (0 + 296) 8 = Ok dy1 /\
      get_bits buf' 0 (0 + 304) 8 = Ok hr1 /\
      get_bits buf' 0 (0 + 312) 8 = Ok min1 /\
      get_bits buf' 0 (0 + 320) 8 = Ok 0 /\
      0 <= Unpackgrib1.fcst_units statistic_message <= 2 /\
      Unpackgrib1.yr statistic_message <= yr1 /\
      1 <= mo1 <= 12 /\ 1 <= dy1 <= month_length yr1 mo1 /\
      0 <= hr1 <= 23 /\ 0 <= min1 <= 59 /\
      minutes_of yr1 mo1 dy1 (hr1 * 100 + min1)
      = minutes_of (Unpackgrib1.yr statistic_message)
          (Unpackgrib1.mo statistic_message)
          (Unpackgrib1.dy statistic_message)
          (Unpackgrib1.time statistic_message)
        + Unpackgrib1.p2 statistic_message
          * unit_minutes (Unpackgrib1.fcst_units statistic_message) /\
      (Unpackgrib1.yr statistic_message = 2017 ->
       Unpackgrib1.mo statistic_message = 7 ->
       Unpackgrib1.dy statistic_message = 10 ->
       Unpackgrib1.time statistic_message = 600 ->
       Unpackgrib1.fcst_units statistic_message = 1 ->
       Unpackgrib1.p2 statistic_message = 48 ->
       yr1 = 2017 /\ mo1 = 7 /\ dy1 = 12 /\ hr1 = 6 /\ min1 = 0).
Proof.
  eexists _, _, _. split; [vm_compute; reflexivity |].
  eapply (pack_PDS_end_time_sum 28 statistic_message 0 4 (replicate 58 0) 0).
  13: { vm_compute. reflexivity. }
  - repeat constructor; unfold is_byte; lia.
  - lia.
  - vm_compute. discriminate.
  - right. left. reflexivity.
  - vm_compute. split; discriminate.
  - vm_compute. split; discriminate.
  - vm_compute. split; discriminate.
  - vm_compute. discriminate.
  - vm_compute. discriminate.
  - vm_compute. discriminate.
  - vm_compute. discriminate.
  - vm_compute. discriminate.
Defined.

End EndTimeFacts.


(** ** The Indicator Section: search for the marker and framing *)
Module FramingFacts.
Import CInt BitStream BitStreamFacts BitStreamAlgebra ResultFacts.
Import Unpackgrib2 Unpackgrib2Facts.

Lemma marker_free_tail (a : Z) (pre : list Z) :
  marker_free (a :: pre) -> marker_free pre.
Proof.
  intros Hfree j Hj. apply (Hfree (S j)). cbn [length]. lia.
Qed.

Lemma is_GRIB_spec (t0 t1 t2 t3 : Z) (tail : list Z) :
  is_GRIB (t0 :: t1 :: t2 :: t3 :: tail) = true
  <-> [t0; t1; t2; t3] = GRIB_marker.
Proof.
  unfold is_GRIB, GRIB_marker. cbn.
  destruct (Z.eqb_spec t0 71), (Z.eqb_spec t1 82), (Z.eqb_spec t2 73),
           (Z.eqb_spec t3 66); cbn; split; intros Heq;
    first [reflexivity | discriminate Heq | congruence].
Qed.

(** the octets of a list before its marker *)
Ltac strip_marker L :=
  lazymatch L with
  | 71 :: 82 :: 73 :: 66 :: _ => constr:(@nil Z)
  | ?l ++ 71 :: 82 :: 73 :: 66 :: _ => constr:(l)
  | ?x :: ?L' => let r := strip_marker L' in constr:(x :: r)
  end.

(** the search ends on the first marker of the stream: [take 4 temp ++ fp]
    are the octets from the place the search has reached *)
Lemma resync_finds (rest : list Z) :
  forall (fuel : nat) (pre temp fp : list Z),
    (length pre < fuel)%nat -> marker_free pre -> (4 <= length temp)%nat ->
    take 4 temp ++ fp = pre ++ GRIB_marker ++ rest ->
    exists temp',
      resync fuel temp fp = Ok (Some (temp', rest)) /\
      take 4 temp' = GRIB_marker /\ drop 4 temp' = drop 4 temp.
Proof.
  induction fuel as [| fuel IH]; intros pre temp fp Hfuel Hfree Hlen Heq; [lia |].
  destruct temp as [| t0 [| t1 [| t2 [| t3 tail]]]]; cbn [length] in Hlen; try lia.
  change (take 4 (t0 :: t1 :: t2 :: t3 :: tail)) with [t0; t1; t2; t3] in Heq.
  cbn [app] in Heq.
  destruct pre as [| a pre].
  - (* the marker is reached *)
    cbn [app GRIB_marker] in Heq. injection Heq as -> -> -> -> ->.
    exists (71 :: 82 :: 73 :: 66 :: tail). split; [reflexivity |].
    split; reflexivity.
  - assert (Hno : is_GRIB (t0 :: t1 :: t2 :: t3 :: tail) = false).
    { destruct (is_GRIB _) eqn:HG; [| reflexivity]. exfalso.
      apply is_GRIB_spec in HG.
      apply (Hfree 0%nat ltac:(cbn [length]; lia)).
      change (drop 0 ((a :: pre) ++ GRIB_marker)) with ((a :: pre) ++ GRIB_marker).
      rewrite <- (take_app_le _ rest)
        by (rewrite length_app; cbn [length GRIB_marker]; lia).
      rewrite <- app_assoc, <- Heq. exact HG. }
    cbn [resync]. rewrite Hno.
    (* one step of the search from [a :: pre], over [k] octets *)
    assert (Hstep : forall (pre' temp' fp' : list Z),
              (length pre' < length (a :: pre))%nat ->
              marker_free pre' -> (4 <= length temp')%nat ->
              take 4 temp' ++ fp' = pre' ++ GRIB_marker ++ rest ->
              drop 4 temp' = tail ->
              exists temp'',
                resync fuel temp' fp' = Ok (Some (temp'', rest)) /\
                take 4 temp'' = GRIB_marker /\ drop 4 temp'' = tail).
    { intros pre' temp' fp' Hk Hfree' Hlen' Heq' Htail.
      destruct (IH pre' temp' fp' ltac:(lia) Hfree' Hlen' Heq')
        as (temp'' & Hr & Ht & Hd).
      exists temp''. rewrite Hd, Htail. auto. }
    injection Heq as -> Heq.
    assert (Hshape :
      (pre = [] /\ t1 = 71 /\ t2 = 82 /\ t3 = 73 /\ fp = 66 :: rest) \/
      (pre = [t1] /\ t2 = 71 /\ t3 = 82 /\ fp = 73 :: 66 :: rest) \/
      (pre = [t1; t2] /\ t3 = 71 /\ fp = 82 :: 73 :: 66 :: rest) \/
      (exists pre4, pre = t1 :: t2 :: t3 :: pre4 /\
         (fp = 71 :: 82 :: 73 :: 66 :: rest /\ pre4 = [] \/
          (exists p, fp = p :: 71 :: 82 :: 73 :: 66 :: rest /\ pre4 = [p]) \/
          (exists p q, fp = p :: q :: 71 :: 82 :: 73 :: 66 :: rest /\
                       pre4 = [p; q]) \/
          (exists p q r, fp = p :: q :: r :: 71 :: 82 :: 73 :: 66 :: rest /\
                         pre4 = [p; q; r]) \/
          (exists p q r u pre8, fp = p :: q :: r :: u :: pre8 ++ GRIB_marker ++ rest /\
                                pre4 = p :: q :: r :: u :: pre8)))).
    { destruct pre as [| b [| c [| d pre4]]]; cbn [app] in Heq.
      - injection Heq as -> -> -> ->. left. auto.
      - injection Heq as -> -> -> ->. right. left. auto.
      - injection Heq as -> -> -> ->. right. right. left. auto.
      - injection Heq as -> -> -> ->. right. right. right. exists pre4.
        split; [reflexivity |].
        destruct pre4 as [| p [| q [| r [| u pre8]]]]; cbn [app].
        + left. auto.
        + right. left. eauto.
        + right. right. left. eauto.
        + right. right. right. left. eauto 6.
        + right. right. right. right. eauto 8. }
    assert (Hsuffix : forall l, (exists l0, a :: pre = l0 ++ l) -> marker_free l).
    { intros l [l0 Hl0]. rewrite Hl0 in Hfree. clear - Hfree.
      induction l0 as [| x l0 IHl]; [exact Hfree |].
      apply IHl. exact (marker_free_tail _ _ Hfree). }
    cbn [drop].
    destruct Hshape as
      [(-> & -> & -> & -> & ->)
      | [(-> & -> & -> & ->)
        | [(-> & -> & ->)
          | (pre4 & -> &
             [(-> & ->)
             | [(p & -> & ->)
               | [(p & q & -> & ->)
                 | [(p & q & r & -> & ->)
                   | (p & q & r & u & pre8 & -> & ->)]]]])]]];
      cbn; simpl;
      repeat match goal with
             | |- context [?x =? 71] => destruct (Z.eqb_spec x 71)
             end;
      rewrite ?drop_0;
      match goal with
      | |- exists _, resync _ (?x0 :: ?x1 :: ?x2 :: ?x3 :: _) ?fp' = _ /\ _ /\ _ =>
          let pre' := strip_marker (x0 :: x1 :: x2 :: x3 :: fp') in
          eapply (Hstep pre');
          [ cbn [length]; rewrite ?length_app; cbn [length]; lia
          | apply Hsuffix;
            first [ exists [a]; reflexivity
                  | eexists [_; _]; reflexivity
                  | eexists [_; _; _]; reflexivity
                  | eexists [_; _; _; _]; reflexivity ]
          | cbn [length]; lia
          | cbn [take app]; rewrite <- ?app_assoc; reflexivity
          | reflexivity ]
      end.
Qed.


(** [list_inserts] inside a list that is long enough *)
Lemma inserts_at (n : nat) (l b : list Z) :
  (n + length l <= length b)%nat ->
  list_inserts n l b = take n b ++ l ++ drop (n + length l) b.
Proof.
  intros Hlen.
  rewrite <- (take_drop n b) at 1.
  assert (Hn : length (take n b) = n) by (rewrite length_take; lia).
  rewrite <- Hn at 1. rewrite <- (Nat.add_0_r (length (take n b))).
  rewrite list_inserts_app_r. f_equal.
  rewrite <- (take_drop (length l) (drop n b)) at 1.
  rewrite list_inserts_0_r by (rewrite length_take, length_drop; lia).
  rewrite drop_drop. reflexivity.
Qed.

(** the first read and the search, on a stream whose first marker comes
    after the octets [pre] *)
Lemma first_read_syncs (temp0 pre tl : list Z) :
  (4 <= length temp0)%nat -> marker_free pre ->
  let s := pre ++ GRIB_marker ++ tl in
  length (take 4 s) = 4%nat /\
  exists temp1,
    resync (S (length (drop 4 s))) (list_inserts 0 (take 4 s) temp0) (drop 4 s)
    = Ok (Some (temp1, tl)) /\
    take 4 temp1 = GRIB_marker /\ drop 4 temp1 = drop 4 temp0.
Proof.
  intros Ht Hfree s.
  assert (Hl4 : length (take 4 s) = 4%nat).
  { rewrite length_take. subst s. rewrite !length_app. cbn [length GRIB_marker]. lia. }
  split; [exact Hl4 |].
  assert (Htemp : list_inserts 0 (take 4 s) temp0 = take 4 s ++ drop 4 temp0).
  { rewrite inserts_at by (rewrite Hl4; lia). rewrite Hl4. reflexivity. }
  rewrite Htemp.
  destruct (resync_finds tl (S (length (drop 4 s))) pre
              (take 4 s ++ drop 4 temp0) (drop 4 s))
    as (temp1 & Hsync & Ht1 & Hd1).
  { rewrite length_drop. subst s. rewrite !length_app. cbn [length GRIB_marker]. lia. }
  { exact Hfree. }
  { rewrite length_app, Hl4. lia. }
  { rewrite take_app_length' by (symmetry; exact Hl4). apply take_drop. }
  exists temp1. split; [exact Hsync |]. split; [exact Ht1 |].
  rewrite Hd1. apply drop_app_length'. symmetry. exact Hl4.
Qed.

(** a marker-free stream stays so from any place on *)
Lemma absent_drop (d : nat) (s : list Z) :
  marker_absent s -> marker_absent (drop d s).
Proof.
  intros Habs j. rewrite drop_drop. apply Habs.
Qed.

(** the search on a stream without a marker: it ends at the end of the
    stream.  After a short read [temp] keeps octets of the reads before,
    so that the search can end on a marker that the stream does not
    hold; the stream is at its end then. *)
Lemma resync_absent :
  forall (fuel : nat) (temp fp : list Z),
    (length fp < fuel)%nat -> (4 <= length temp)%nat ->
    fp = [] \/ marker_absent (take 4 temp ++ fp) ->
    resync fuel temp fp = Ok None \/
    exists temp', resync fuel temp fp = Ok (Some (temp', [])).
Proof.
  induction fuel as [| fuel IH]; intros temp fp Hfuel Hlen Hinv; [lia |].
  destruct temp as [| t0 [| t1 [| t2 [| t3 tail]]]]; cbn [length] in Hlen; try lia.
  destruct (is_GRIB (t0 :: t1 :: t2 :: t3 :: tail)) eqn:HG.
  - cbn [resync]. rewrite HG.
    destruct Hinv as [-> | Habs]; [right; eexists; reflexivity |].
    exfalso. apply (Habs 0%nat). apply is_GRIB_spec in HG. exact HG.
  - cbn [resync]. rewrite HG.
    assert (Hgo : forall temp' fp',
              (length fp' < length fp)%nat -> (4 <= length temp')%nat ->
              fp' = [] \/ marker_absent (take 4 temp' ++ fp') ->
              resync fuel temp' fp' = Ok None \/
              exists temp'', resync fuel temp' fp' = Ok (Some (temp'', []))).
    { intros temp' fp' Hl Hl' Hi. apply IH; [lia | exact Hl' | exact Hi]. }
    destruct fp as [| r0 fp].
    { left. cbn.
      repeat match goal with
             | |- context [?x =? 71] => destruct (Z.eqb_spec x 71)
             end; reflexivity. }
    destruct Hinv as [Hd | Habs]; [discriminate Hd |].
    change (take 4 (t0 :: t1 :: t2 :: t3 :: tail) ++ r0 :: fp)
      with (t0 :: t1 :: t2 :: t3 :: r0 :: fp) in Habs.
    destruct fp as [| r1 [| r2 [| r3 fp]]]; cbn; simpl;
      repeat match goal with
             | |- context [?x =? 71] => destruct (Z.eqb_spec x 71)
             end;
      rewrite ?drop_0;
      (apply Hgo;
       [ cbn [length]; lia | cbn [length]; lia
       | first [ left; reflexivity
               | right; exact (absent_drop 1 _ Habs)
               | right; exact (absent_drop 2 _ Habs)
               | right; exact (absent_drop 3 _ Habs)
               | right; exact (absent_drop 4 _ Habs) ] ]).
Qed.

(** the octets of a word *)
Lemma word_bytes (l : Z) :
  0 <= l < 2 ^ 32 ->
  uint8 (Z.shiftr l 24) * 2 ^ 24 + uint8 (Z.shiftr l 16) * 2 ^ 16
  + uint8 (Z.shiftr l 8) * 2 ^ 8 + uint8 l = l.
Proof.
  intros Hl. unfold uint8. rewrite !Z.shiftr_div_pow2 by lia.
  change (2 ^ 32) with 4294967296 in Hl.
  change (2 ^ 24) with 16777216. change (2 ^ 16) with 65536.
  change (2 ^ 8) with 256.
  Z.div_mod_to_equations. lia.
Qed.

Lemma three_bytes (l : Z) :
  0 <= l < 2 ^ 24 ->
  uint8 (Z.shiftr l 16) * 65536 + uint8 (Z.shiftr l 8) * 256 + uint8 l = l.
Proof.
  intros Hl. unfold uint8. rewrite !Z.shiftr_div_pow2 by lia.
  change (2 ^ 24) with 16777216 in Hl. change (2 ^ 16) with 65536.
  change (2 ^ 8) with 256.
  Z.div_mod_to_equations. lia.
Qed.

Lemma set_bits_word_head (a b c d : Z) (tl : list Z) (src : Z) :
  bytes_ok (a :: b :: c :: d :: tl) ->
  set_bits (a :: b :: c :: d :: tl) src 0 32
  = Ok (uint8 (Z.shiftr src 24) :: uint8 (Z.shiftr src 16)
        :: uint8 (Z.shiftr src 8) :: uint8 src :: tl).
Proof.
  intros Hb.
  pose proof (set_bits_word (a :: b :: c :: d :: tl) src 0 Hb ltac:(lia)
                ltac:(cbn [length]; lia)) as Hw.
  exact Hw.
Qed.

Lemma set_bits_3bytes_head (a b c : Z) (tl : list Z) (src : Z) :
  bytes_ok (a :: b :: c :: tl) ->
  set_bits (a :: b :: c :: tl) src 0 24
  = Ok (uint8 (Z.shiftr src 16) :: uint8 (Z.shiftr src 8) :: uint8 src :: tl).
Proof.
  intros Hb.
  pose proof (set_bits_3bytes (a :: b :: c :: tl) src 0 Hb ltac:(lia)
                ltac:(cbn [length]; lia)) as Hw.
  exact Hw.
Qed.

Section WithFloats.
Context `{FloatOps}.

(** [unpack_IS] of unpackgrib2.c from the place where the search has
    ended on the marker of the Indicator Section [IS] *)
Lemma unpack_IS_synced (temp0 : list Z) (junk : nat -> Z)
    (s temp1 IS body rest : list Z) (m : GRIB2Message) :
  length (take 4 s) = 4%nat ->
  resync (S (length (drop 4 s))) (list_inserts 0 (take 4 s) temp0) (drop 4 s)
  = Ok (Some (temp1, drop 4 IS ++ body ++ rest)) ->
  take 4 temp1 = GRIB_marker -> length temp1 = 16%nat ->
  length IS = 16%nat -> take 4 IS = GRIB_marker ->
  length_low_32 IS = 16 + Z.of_nat (length body) ->
  16 + Z.of_nat (length body) <= 2 ^ 31 - 5 ->
  Z.of_nat (length (buffer m)) = buffer_capacity m ->
  exists m',
    unpack_IS temp0 junk s m = Ok (0, m', rest) /\
    total_len m' = 16 + Z.of_nat (length body) /\
    offset m' = 128 /\
    take (16 + length body) (buffer m') = IS ++ body /\
    Z.of_nat (length (buffer m')) = buffer_capacity m' /\
    total_len m' + 4 <= buffer_capacity m'.
Proof.
  intros Hl4 Hsync Ht1 Hlt1 HI Hmark HL Hmax Hcap.
  assert (HIS : IS = GRIB_marker ++ drop 4 IS)
    by (rewrite <- Hmark; symmetry; apply take_drop).
  unfold unpack_IS, fread.
  change (Z.to_nat 4) with 4%nat.
  rewrite Hl4. change (negb (Z.of_nat 4 =? 4)) with false. cbv iota.
  rewrite Hsync. cbn [bind].
  (* the rest of the Indicator Section *)
  change (Z.to_nat 12) with 12%nat.
  assert (Hl12 : length (drop 4 IS) = 12%nat) by (rewrite length_drop, HI; reflexivity).
  rewrite take_app_length', drop_app_length' by (symmetry; exact Hl12).
  rewrite Hl12. change (Z.of_nat 12 =? 0) with false. cbv iota.
  assert (Htemp2 : list_inserts 4 (drop 4 IS) temp1 = IS).
  { rewrite inserts_at by (rewrite Hl12, Hlt1; lia).
    rewrite Ht1, Hl12. rewrite (drop_ge temp1) by (rewrite Hlt1; lia).
    rewrite app_nil_r. symmetry. exact HIS. }
  rewrite Htemp2.
  destruct (get_bits_ok IS (disc m) 48 8 ltac:(lia)) as [disc1 ->].
  destruct (get_bits_ok IS (ed_num m) 56 8 ltac:(lia)) as [ed1 ->].
  change (get_bits IS (total_len m) 96 32)
    with (get_bits IS (total_len m) (8 * 12) 32).
  rewrite (get_bits_word IS (total_len m) 12 ltac:(lia)).
  cbn [bind].
  set (n := length body) in *.
  assert (Hlow : sint32 (byte_at IS 12 * 2 ^ 24 + byte_at IS (12 + 1) * 2 ^ 16
                         + byte_at IS (12 + 2) * 2 ^ 8 + byte_at IS (12 + 3))
                 = 16 + Z.of_nat n) by (rewrite <- HL; reflexivity).
  pose proof (sint32_is_int (byte_at IS 12 * 2 ^ 24 + byte_at IS (12 + 1) * 2 ^ 16
                             + byte_at IS (12 + 2) * 2 ^ 8 + byte_at IS (12 + 3)))
    as Hint.
  rewrite Hlow in Hint. rewrite Hlow. unfold is_int in Hint.
  assert (Hreq : uint64 (sint32 (16 + Z.of_nat n + 4)) = 16 + Z.of_nat n + 4)
    by (rewrite sint32_id by (unfold is_int; lia);
        unfold uint64; apply Z.mod_small; lia).
  assert (Hnum : uint64 (sint32 (16 + Z.of_nat n - 16)) = Z.of_nat n)
    by (rewrite sint32_id by (unfold is_int; lia);
        unfold uint64; rewrite Z.mod_small by lia; lia).
  rewrite Hreq, Hnum, Nat2Z.id.
  rewrite (take_app_length' body rest n eq_refl),
          (drop_app_length' body rest n eq_refl).
  set (buffer0 := if 16 + Z.of_nat n + 4 >? buffer_capacity m
                  then malloc junk (16 + Z.of_nat n + 4)
                  else buffer m).
  set (capacity1 := if 16 + Z.of_nat n + 4 >? buffer_capacity m
                    then 16 + Z.of_nat n + 4 else buffer_capacity m).
  assert (Hb0 : Z.of_nat (length buffer0) = capacity1 /\
                16 + Z.of_nat n + 4 <= capacity1).
  { subst buffer0 capacity1.
    destruct (Z.gtb_spec (16 + Z.of_nat n + 4) (buffer_capacity m)).
    - unfold malloc.
      destruct (Z.ltb_spec (16 + Z.of_nat n + 4) (2 ^ 63)) as [_ | Hge];
        [| lia].
      rewrite length_map, length_seq. lia.
    - lia. }
  destruct Hb0 as [Hb0 Hb0'].
  rewrite (take_ge IS 16) by (rewrite HI; lia).
  rewrite store_bytes_fits by (rewrite HI; lia).
  cbn [bind].
  rewrite store_bytes_fits by (rewrite length_inserts; fold n; lia).
  cbn [bind].
  fold n. rewrite (sint32_id (Z.of_nat n)) by (unfold is_int; lia).
  replace (uint64 (Z.of_nat n) =? Z.of_nat n) with true
    by (symmetry; apply Z.eqb_eq; unfold uint64; apply Z.mod_small; lia).
  cbn [negb]. cbv iota.
  match goal with
  | |- context [if (?a || ?b) then _ else _] =>
      replace (a || b) with false
        by (symmetry; apply orb_false_intro; apply Z.ltb_ge;
            [lia | rewrite !length_inserts; lia])
  end.
  eexists. split; [reflexivity |].
  unfold with_IS. cbn [total_len offset buffer buffer_capacity].
  split; [reflexivity |]. split; [reflexivity |].
  split; [| split; [rewrite !length_inserts; exact Hb0 | lia]].
  rewrite (inserts_at 0 IS buffer0) by (rewrite HI; lia).
  rewrite take_0. change (0 + length IS)%nat with (length IS). rewrite HI.
  change ([] ++ IS ++ drop 16 buffer0) with (IS ++ drop 16 buffer0).
  rewrite (inserts_at 16 body) by (rewrite length_app, length_drop, HI; lia).
  rewrite (take_app_length' IS _ 16) by (symmetry; exact HI).
  rewrite app_assoc. apply take_app_length'.
  rewrite length_app, HI. reflexivity.
Qed.

(** X6.  [unpack_IS] of unpackgrib2.c synchronises on the first ["GRIB"]
    of the stream and frames one message: whatever octets [pre] come
    before the first marker, when the Indicator Section [IS] that starts
    there holds the length of [IS ++ body] in its octets 13-16 (a length
    of at most [2^31 - 5], so that [total_len+4] is an [int]), the call
    returns status 0, stores that length, sets the offset to 128 bits,
    leaves the octets of the message at the start of the buffer, which
    has room for four octets more, and leaves the stream at the first
    octet after the message. *)
Theorem unpack_IS_frames (temp0 : list Z) (junk : nat -> Z)
    (pre IS body rest : list Z) (m : GRIB2Message) :
  length temp0 = 16%nat -> marker_free pre ->
  length IS = 16%nat -> take 4 IS = GRIB_marker ->
  length_low_32 IS = 16 + Z.of_nat (length body) ->
  16 + Z.of_nat (length body) <= 2 ^ 31 - 5 ->
  Z.of_nat (length (buffer m)) = buffer_capacity m ->
  exists m',
    unpack_IS temp0 junk (pre ++ IS ++ body ++ rest) m = Ok (0, m', rest) /\
    total_len m' = 16 + Z.of_nat (length body) /\
    offset m' = 128 /\
    take (16 + length body) (buffer m') = IS ++ body /\
    Z.of_nat (length (buffer m')) = buffer_capacity m' /\
    total_len m' + 4 <= buffer_capacity m'.
Proof.
  intros Ht Hfree HI Hmark HL Hmax Hcap.
  assert (HIS : IS = GRIB_marker ++ drop 4 IS)
    by (rewrite <- Hmark; symmetry; apply take_drop).
  assert (Hs : pre ++ IS ++ body ++ rest
               = pre ++ GRIB_marker ++ (drop 4 IS ++ body ++ rest)).
  { rewrite HIS at 1. rewrite <- !app_assoc. reflexivity. }
  rewrite Hs.
  destruct (first_read_syncs temp0 pre (drop 4 IS ++ body ++ rest)
              ltac:(lia) Hfree) as (Hl4 & temp1 & Hsync & Ht1 & Hd1).
  apply (unpack_IS_synced temp0 junk _ temp1 IS body rest m);
    try assumption.
  rewrite <- (take_drop 4 temp1), length_app, Ht1, Hd1, length_drop, Ht.
  reflexivity.
Qed.

(** X7.  The octets that [main] of grib1to2.c writes for a message of
    [length] octets are framed by [unpack_IS] of unpackgrib2.c as one
    message of [length + 20] octets (with [length + 24] an [int], the
    size of the buffer that the decoder allocates): the sixteen octets of
    [head] with the length in the last eight, the buffer, and ["7777"].  The first
    eight octets of [head] are left as they are, so that the same holds
    for the next message. *)
Theorem write_message_frames (head grib2_buffer temp0 rest : list Z)
    (length1 : Z) (junk : nat -> Z) (m : GRIB2Message) :
  length head = 16%nat -> bytes_ok head -> take 8 head = take 8 Grib1to2.head0 ->
  0 <= length1 <= Z.of_nat (length grib2_buffer) ->
  length1 + 24 < 2 ^ 31 ->
  length temp0 = 16%nat ->
  Z.of_nat (length (buffer m)) = buffer_capacity m ->
  exists head' out m',
    Grib1to2.write_message head length1 grib2_buffer = Ok (head', out) /\
    length head' = 16%nat /\ bytes_ok head' /\ take 8 head' = take 8 Grib1to2.head0 /\
    Z.of_nat (length out) = length1 + 20 /\
    out = head' ++ take (Z.to_nat length1) grib2_buffer ++ Grib1to2.tail0 /\
    unpack_IS temp0 junk (out ++ rest) m = Ok (0, m', rest) /\
    total_len m' = length1 + 20 /\
    take (Z.to_nat (length1 + 20)) (buffer m') = out.
Proof.
  intros Hlen Hb H8 Hl Hmax Ht Hcap.
  do 16 (destruct head as [| ? head]; [discriminate Hlen |]).
  destruct head; [| discriminate Hlen].
  injection H8 as -> -> -> -> -> -> -> ->.
  unfold bytes_ok in Hb.
  repeat match goal with
         | Hb : Forall is_byte (_ :: _) |- _ =>
             let Hx := fresh "Hx" in
             apply Forall_cons in Hb; destruct Hb as [Hx Hb]
         end.
  set (l := length1 + 20).
  assert (Hl64 : uint64 (length1 + 20) = l)
    by (unfold uint64; apply Z.mod_small; subst l; lia).
  assert (Hhi : sint32 (Z.shiftr l 32) = 0).
  { rewrite Z.shiftr_div_pow2 by lia. rewrite Z.div_small by (subst l; lia).
    reflexivity. }
  assert (Hlo : sint32 (Z.land l 4294967295) = l).
  { change 4294967295 with (Z.ones 32). rewrite Z.land_ones by lia.
    rewrite Z.mod_small by (subst l; lia).
    apply sint32_id. unfold is_int. subst l. lia. }
  unfold Grib1to2.write_message. rewrite Hl64, Hhi, Hlo.
  cbn [take drop firstn skipn app].
  rewrite set_bits_word_head by (unfold bytes_ok; repeat first [apply Forall_nil_2 | apply Forall_cons_2]; assumption).
  cbn [bind take drop firstn skipn app].
  rewrite set_bits_word_head by (unfold bytes_ok; repeat first [apply Forall_nil_2 | apply Forall_cons_2]; assumption).
  cbn [bind take drop firstn skipn app].
  change (uint8 (Z.shiftr 0 24)) with 0. change (uint8 (Z.shiftr 0 16)) with 0.
  change (uint8 (Z.shiftr 0 8)) with 0. change (uint8 0) with 0.
  set (IS := [71; 82; 73; 66; 0; 0; 0; 2; 0; 0; 0; 0;
              uint8 (Z.shiftr l 24); uint8 (Z.shiftr l 16);
              uint8 (Z.shiftr l 8); uint8 l]).
  set (body := take (Z.to_nat length1) grib2_buffer ++ Grib1to2.tail0).
  assert (Hbody : Z.of_nat (length body) = length1 + 4).
  { subst body. rewrite length_app, length_take. cbn [length Grib1to2.tail0]. lia. }
  assert (Hbyte : forall x, is_byte (uint8 x)).
  { intros x. unfold is_byte, uint8. apply Z.mod_pos_bound. lia. }
  destruct (first_read_syncs temp0 [] (drop 4 IS ++ body ++ rest)
              ltac:(lia) ltac:(intros j Hj; cbn [length] in Hj; lia))
    as (Hl4 & temp1 & Hsync & Ht1 & Hd1).
  destruct (unpack_IS_synced temp0 junk
              ([] ++ GRIB_marker ++ drop 4 IS ++ body ++ rest)
              temp1 IS body rest m)
    as (m' & Hrun & Htot & _ & Hbuf & _); try assumption; try reflexivity.
  { rewrite <- (take_drop 4 temp1), length_app, Ht1, Hd1, length_drop, Ht.
    reflexivity. }
  { unfold length_low_32, IS.
    change (sint32 (uint8 (Z.shiftr l 24) * 2 ^ 24 + uint8 (Z.shiftr l 16) * 2 ^ 16
                    + uint8 (Z.shiftr l 8) * 2 ^ 8 + uint8 l)
            = 16 + Z.of_nat (length body)).
    rewrite word_bytes by (subst l; lia).
    rewrite sint32_id by (unfold is_int; subst l; lia). subst l. lia. }
  { lia. }
  exists IS, (IS ++ body), m'.
  split; [reflexivity |]. split; [reflexivity |].
  split; [subst IS; unfold bytes_ok; repeat first [apply Forall_nil_2 | apply Forall_cons_2]; first [apply Hbyte | unfold is_byte; lia] |].
  split; [reflexivity |].
  split; [rewrite length_app; change (length IS) with 16%nat; subst l; lia |].
  split; [reflexivity |].
  split; [rewrite <- app_assoc; exact Hrun |].
  split; [rewrite Htot; subst l; lia |].
  replace (Z.to_nat l) with (16 + length body)%nat by (subst l; lia).
  exact Hbuf.
Qed.

End WithFloats.

Import Exact Examples.

Lemma unpack_IS_frames_witness :
  exists m',
    unpack_IS (replicate 16 0) (fun _ => 0)
      ([10; 71; 82] ++ IS_length_32 ++ rest_of_message ++ [71; 82])
      grib2_message0 = Ok (0, m', [71; 82]) /\
    total_len m' = 16 + Z.of_nat (length rest_of_message) /\
    offset m' = 128 /\
    take (16 + length rest_of_message) (buffer m')
    = IS_length_32 ++ rest_of_message /\
    Z.of_nat (length (buffer m')) = buffer_capacity m' /\
    total_len m' + 4 <= buffer_capacity m'.
Proof.
  apply (unpack_IS_frames (replicate 16 0) (fun _ => 0) [10; 71; 82]
           IS_length_32 rest_of_message [71; 82] grib2_message0);
    try reflexivity; [| vm_compute; discriminate].
  intros j Hj Heq.
  destruct j as [| [| [| j]]];
    [discriminate Heq | discriminate Heq | discriminate Heq
    | cbn [length] in Hj; lia].
Defined.

Lemma write_message_frames_witness :
  exists head' out m',
    Grib1to2.write_message Grib1to2.head0 16 rest_of_message = Ok (head', out) /\
    length head' = 16%nat /\ bytes_ok head' /\
    take 8 head' = take 8 Grib1to2.head0 /\
    Z.of_nat (length out) = 16 + 20 /\
    out = head' ++ take (Z.to_nat 16) rest_of_message ++ Grib1to2.tail0 /\
    unpack_IS (replicate 16 0) (fun _ => 0) (out ++ [71]) grib2_message0
    = Ok (0, m', [71]) /\
    total_len m' = 16 + 20 /\
    take (Z.to_nat (16 + 20)) (buffer m') = out.
Proof.
  apply (write_message_frames Grib1to2.head0 rest_of_message (replicate 16 0)
           [71] 16 (fun _ => 0) grib2_message0);
    try reflexivity.
  - unfold bytes_ok, Grib1to2.head0.
    repeat first [apply Forall_nil_2 | apply Forall_cons_2]; unfold is_byte; lia.
  - cbn [length rest_of_message]. lia.
Defined.

End FramingFacts.

(** ** The Indicator Section of GRIB1 *)
Module FramingFacts1.
Import CInt BitStream BitStreamFacts BitStreamAlgebra ResultFacts FramingFacts.
Import Unpackgrib1 Unpackgrib1Stream.

Section WithFloats.
Context `{FloatOps}.

(** [unpack_IS] of unpackgrib1.c from the place where the search has
    ended on the marker of the Indicator Section [IS]; [T] is the length
    that the decoder takes for the message *)
Lemma unpack_IS1_synced (temp0 : list Z) (junk : nat -> Z)
    (s temp1 IS body rest : list Z) (m : GRIBMessage) :
  length (take 4 s) = 4%nat ->
  Unpackgrib2.resync (S (length (drop 4 s))) (list_inserts 0 (take 4 s) temp0)
    (drop 4 s)
  = Ok (Some (temp1, drop 4 IS ++ body ++ rest)) ->
  take 4 temp1 = Unpackgrib2.GRIB_marker -> length temp1 = 8%nat ->
  length IS = 8%nat -> bytes_ok IS -> take 4 IS = Unpackgrib2.GRIB_marker ->
  (if length_24 IS =? 24 then 31 else length_24 IS)
  = 8 + Z.of_nat (length body) ->
  exists m',
    unpack_IS temp0 junk s m = Ok (0, m', rest) /\
    total_len m' = 8 + Z.of_nat (length body) /\
    ed_num m' = (if length_24 IS =? 24 then 0 else 1) /\
    pds_len m' = (if length_24 IS =? 24 then 24 else pds_len m) /\
    nx m' = 0 /\ ny m' = 0 /\
    take (8 + length body) (buffer m') = IS ++ body /\
    total_len m' + 4 <= Z.of_nat (length (buffer m')).
Proof.
  intros Hl4 Hsync Ht1 Hlt1 HI Hb Hmark HT.
  assert (HIS : IS = Unpackgrib2.GRIB_marker ++ drop 4 IS)
    by (rewrite <- Hmark; symmetry; apply take_drop).
  unfold unpack_IS, Unpackgrib2.fread.
  change (Z.to_nat 4) with 4%nat.
  rewrite Hl4. change (negb (Z.of_nat 4 =? 4)) with false. cbv iota.
  rewrite Hsync. cbn [bind].
  assert (Hl12 : length (drop 4 IS) = 4%nat) by (rewrite length_drop, HI; reflexivity).
  rewrite take_app_length', drop_app_length' by (symmetry; exact Hl12).
  rewrite Hl12. change (Z.of_nat 4 =? 0) with false. cbv iota.
  assert (Htemp2 : list_inserts 4 (drop 4 IS) temp1 = IS).
  { rewrite inserts_at by (rewrite Hl12, Hlt1; lia).
    rewrite Ht1, Hl12. rewrite (drop_ge temp1) by (rewrite Hlt1; lia).
    rewrite app_nil_r. symmetry. exact HIS. }
  rewrite Htemp2.
  change (get_bits IS (total_len m) 32 24)
    with (get_bits IS (total_len m) (8 * 4) 24).
  rewrite (get_bits_bytes3 IS (total_len m) 4 Hb ltac:(lia)).
  change (byte_at IS 4 * 65536 + byte_at IS (4 + 1) * 256 + byte_at IS (4 + 2))
    with (length_24 IS).
  cbn [bind].
  assert (HL : 0 <= length_24 IS < 2 ^ 24).
  { unfold length_24.
    pose proof (byte_at_is_byte IS 4 Hb) as H4.
    pose proof (byte_at_is_byte IS 5 Hb) as H5.
    pose proof (byte_at_is_byte IS 6 Hb) as H6.
    unfold is_byte, byte_at in H4, H5, H6.
    change (Z.to_nat 4) with 4%nat in H4. change (Z.to_nat 5) with 5%nat in H5.
    change (Z.to_nat 6) with 6%nat in H6. lia. }
  set (L := length_24 IS) in *. set (n := length body) in *.
  assert (Htriple :
    (if L =? 24 then (sint32 (L + 7), 0, L) else (L, 1, pds_len m))
    = (8 + Z.of_nat n, if L =? 24 then 0 else 1,
       if L =? 24 then 24 else pds_len m)).
  { destruct (Z.eqb_spec L 24) as [-> | Hne].
    - rewrite <- HT. reflexivity.
    - rewrite HT. reflexivity. }
  rewrite Htriple.
  assert (HTb : 8 + Z.of_nat n < 2 ^ 24 + 7).
  { rewrite <- HT. destruct (L =? 24); lia. }
  assert (Hreq : uint64 (sint32 (8 + Z.of_nat n + 4)) = 8 + Z.of_nat n + 4).
  { rewrite sint32_id by (unfold is_int; lia).
    unfold uint64. apply Z.mod_small. lia. }
  assert (Hnum : uint64 (sint32 (8 + Z.of_nat n - 8)) = Z.of_nat n).
  { rewrite sint32_id by (unfold is_int; lia).
    unfold uint64. rewrite Z.mod_small by lia. lia. }
  rewrite Hreq, Hnum, Nat2Z.id.
  rewrite (take_app_length' body rest n eq_refl),
          (drop_app_length' body rest n eq_refl).
  set (buffer0 := if 8 + Z.of_nat n + 4 >? Z.of_nat (length (buffer m))
                  then Unpackgrib2.malloc junk (8 + Z.of_nat n + 4)
                  else buffer m).
  assert (Hb0 : 8 + Z.of_nat n + 4 <= Z.of_nat (length buffer0)).
  { subst buffer0.
    destruct (Z.gtb_spec (8 + Z.of_nat n + 4) (Z.of_nat (length (buffer m)))).
    - rewrite Unpackgrib2Facts.malloc_length by lia. lia.
    - lia. }
  rewrite (take_ge IS) by (rewrite HI; lia).
  rewrite Unpackgrib2Facts.store_bytes_fits by (rewrite HI; lia).
  cbn [bind].
  rewrite Unpackgrib2Facts.store_bytes_fits
    by (rewrite length_inserts; fold n; lia).
  cbn [bind].
  fold n. rewrite (sint32_id (Z.of_nat n)) by (unfold is_int; lia).
  replace (uint64 (Z.of_nat n) =? Z.of_nat n) with true
    by (symmetry; apply Z.eqb_eq; unfold uint64; apply Z.mod_small; lia).
  cbn [negb]. cbv iota.
  match goal with
  | |- context [if (?a || ?b) then _ else _] =>
      replace (a || b) with false
        by (symmetry; apply orb_false_intro; apply Z.ltb_ge;
            [lia | rewrite !length_inserts; lia])
  end.
  eexists. split; [reflexivity |].
  unfold with_IS. cbn [total_len ed_num pds_len nx ny buffer].
  split; [reflexivity |]. split; [reflexivity |]. split; [reflexivity |].
  split; [reflexivity |]. split; [reflexivity |].
  split; [| rewrite !length_inserts; exact Hb0].
  rewrite (inserts_at 0 IS buffer0) by (rewrite HI; lia).
  rewrite take_0. change (0 + length IS)%nat with (length IS). rewrite HI.
  change ([] ++ IS ++ drop 8 buffer0) with (IS ++ drop 8 buffer0).
  rewrite (inserts_at 8 body) by (rewrite length_app, length_drop, HI; lia).
  rewrite (take_app_length' IS _ 8) by (symmetry; exact HI).
  rewrite app_assoc. apply take_app_length'.
  rewrite length_app, HI. reflexivity.
Qed.

(** X8.  [unpack_IS] of unpackgrib1.c synchronises on the first ["GRIB"]
    of the stream and frames one message.  The three octets after the
    marker give the length [L]; the decoder takes [L] as the length of
    the whole message and edition 1, unless [L] is 24: then it takes
    edition 0, a Product Definition Section of 24 octets and a message
    of 31 octets.  When the stream holds that many octets from the
    marker on, the call returns status 0, leaves them at the start of
    the buffer, which has room for four octets more, sets [nx] and [ny]
    to 0 and leaves the stream at the first octet after the message. *)
Theorem unpack_IS_grib1_frames (temp0 : list Z) (junk : nat -> Z)
    (pre IS body rest : list Z) (m : GRIBMessage) :
  length temp0 = 8%nat -> Unpackgrib2.marker_free pre ->
  length IS = 8%nat -> bytes_ok IS -> take 4 IS = Unpackgrib2.GRIB_marker ->
  (if length_24 IS =? 24 then 31 else length_24 IS)
  = 8 + Z.of_nat (length body) ->
  exists m',
    unpack_IS temp0 junk (pre ++ IS ++ body ++ rest) m = Ok (0, m', rest) /\
    total_len m' = 8 + Z.of_nat (length body) /\
    ed_num m' = (if length_24 IS =? 24 then 0 else 1) /\
    pds_len m' = (if length_24 IS =? 24 then 24 else pds_len m) /\
    nx m' = 0 /\ ny m' = 0 /\
    take (8 + length body) (buffer m') = IS ++ body /\
    total_len m' + 4 <= Z.of_nat (length (buffer m')).
Proof.
  intros Ht Hfree HI Hb Hmark HT.
  assert (HIS : IS = Unpackgrib2.GRIB_marker ++ drop 4 IS)
    by (rewrite <- Hmark; symmetry; apply take_drop).
  assert (Hs : pre ++ IS ++ body ++ rest
               = pre ++ Unpackgrib2.GRIB_marker ++ (drop 4 IS ++ body ++ rest)).
  { rewrite HIS at 1. rewrite <- !app_assoc. reflexivity. }
  rewrite Hs.
  destruct (first_read_syncs temp0 pre (drop 4 IS ++ body ++ rest)
              ltac:(lia) Hfree) as (Hl4 & temp1 & Hsync & Ht1 & Hd1).
  apply (unpack_IS1_synced temp0 junk _ temp1 IS body rest m);
    try assumption.
  rewrite <- (take_drop 4 temp1), length_app, Ht1, Hd1, length_drop, Ht.
  reflexivity.
Qed.

(** X9.  The octets that [main] of grib2to1.c writes for a grid of
    [length] octets are framed by [unpack_IS] of unpackgrib1.c as one
    message of edition 1 and [length + 12] octets: ["GRIB"], the length
    in three octets, the octet 1, the buffer, and ["7777"].  A buffer of
    12 octets would give the length 24, which the decoder takes for
    edition 0. *)
Theorem write_grid_frames (dum0 grib1_buffer temp0 rest : list Z)
    (length1 : Z) (junk : nat -> Z) (m : GRIBMessage) :
  length dum0 = 3%nat -> bytes_ok dum0 ->
  0 <= length1 <= Z.of_nat (length grib1_buffer) ->
  length1 + 12 < 2 ^ 24 -> length1 <> 12 ->
  length temp0 = 8%nat ->
  exists out m',
    Grib2to1.write_grid dum0 length1 grib1_buffer = Ok out /\
    Z.of_nat (length out) = length1 + 12 /\
    take 4 out = Unpackgrib2.GRIB_marker /\
    length_24 out = length1 + 12 /\
    drop 7 out = 1 :: take (Z.to_nat length1) grib1_buffer ++ [55; 55; 55; 55] /\
    unpack_IS temp0 junk (out ++ rest) m = Ok (0, m', rest) /\
    total_len m' = length1 + 12 /\ ed_num m' = 1 /\
    take (Z.to_nat (length1 + 12)) (buffer m') = out.
Proof.
  intros Hlen Hb Hl Hmax Hne Ht.
  destruct dum0 as [| d0 [| d1 [| d2 [| ? ?]]]]; try discriminate Hlen.
  set (l := length1 + 12).
  assert (Hl32 : sint32 (length1 + 12) = l)
    by (apply sint32_id; unfold is_int; subst l; lia).
  unfold Grib2to1.write_grid. rewrite Hl32.
  rewrite set_bits_3bytes_head by exact Hb.
  cbn [bind take firstn app].
  change (store [uint8 (Z.shiftr l 16); uint8 (Z.shiftr l 8); uint8 l] 0 1)
    with [1; uint8 (Z.shiftr l 8); uint8 l].
  cbn [take firstn app Unpackgrib2.GRIB_marker].
  set (IS := [71; 82; 73; 66; uint8 (Z.shiftr l 16); uint8 (Z.shiftr l 8);
              uint8 l; 1]).
  set (body := take (Z.to_nat length1) grib1_buffer ++ [55; 55; 55; 55]).
  assert (Hbody : Z.of_nat (length body) = length1 + 4).
  { subst body. rewrite length_app, length_take. cbn [length]. lia. }
  assert (Hbyte : forall x, is_byte (uint8 x)).
  { intros x. unfold is_byte, uint8. apply Z.mod_pos_bound. lia. }
  assert (HL : length_24 IS = l).
  { unfold length_24, IS.
    change (uint8 (Z.shiftr l 16) * 65536 + uint8 (Z.shiftr l 8) * 256 + uint8 l = l).
    apply three_bytes. subst l. lia. }
  destruct (first_read_syncs temp0 [] (drop 4 IS ++ body ++ rest)
              ltac:(lia) ltac:(intros j Hj; cbn [length] in Hj; lia))
    as (Hl4 & temp1 & Hsync & Ht1 & Hd1).
  destruct (unpack_IS1_synced temp0 junk
              ([] ++ Unpackgrib2.GRIB_marker ++ drop 4 IS ++ body ++ rest)
              temp1 IS body rest m)
    as (m' & Hrun & Htot & Hed & _ & _ & _ & Hbuf & _);
    try assumption; try reflexivity.
  { rewrite <- (take_drop 4 temp1), length_app, Ht1, Hd1, length_drop, Ht.
    reflexivity. }
  { subst IS. unfold bytes_ok.
    repeat first [apply Forall_nil_2 | apply Forall_cons_2];
      first [apply Hbyte | unfold is_byte; lia]. }
  { rewrite HL. destruct (Z.eqb_spec l 24); subst l; lia. }
  exists (IS ++ body), m'.
  split; [reflexivity |].
  split; [rewrite length_app; change (length IS) with 8%nat; subst l; lia |].
  split; [reflexivity |].
  split; [exact HL |].
  split; [reflexivity |].
  split; [rewrite <- app_assoc; exact Hrun |].
  split; [rewrite Htot; subst l; lia |].
  split.
  { rewrite Hed, HL. destruct (Z.eqb_spec l 24); [subst l; lia | reflexivity]. }
  replace (Z.to_nat l) with (8 + length body)%nat by (subst l; lia).
  exact Hbuf.
Qed.

(** X10.  On a stream that holds no ["GRIB"] neither decoder reports a
    message: [unpack_IS] of unpackgrib2.c and of unpackgrib1.c return
    the status -1 or 1, with -1 on the empty stream, and the search ends
    whatever octets the stream holds. *)
Theorem unpack_IS_no_marker (temp0 temp0' fp : list Z) (junk : nat -> Z)
    (m2 : Unpackgrib2.GRIB2Message) (m1 : GRIBMessage) :
  Unpackgrib2.marker_absent fp ->
  length temp0 = 16%nat -> length temp0' = 8%nat ->
  (exists st m' fp',
     Unpackgrib2.unpack_IS temp0 junk fp m2 = Ok (st, m', fp') /\
     (st = -1 \/ st = 1) /\ (fp = [] -> st = -1)) /\
  (exists st m' fp',
     unpack_IS temp0' junk fp m1 = Ok (st, m', fp') /\
     (st = -1 \/ st = 1) /\ (fp = [] -> st = -1)).
Proof.
  intros Habs Ht Ht'.
  assert (Hsearch : forall t0 : list Z, (4 <= length t0)%nat ->
            length (take 4 fp) = 4%nat ->
            Unpackgrib2.resync (S (length (drop 4 fp)))
              (list_inserts 0 (take 4 fp) t0) (drop 4 fp) = Ok None \/
            exists temp',
              Unpackgrib2.resync (S (length (drop 4 fp)))
                (list_inserts 0 (take 4 fp) t0) (drop 4 fp)
              = Ok (Some (temp', []))).
  { intros t0 Hl0 Hl4. apply resync_absent.
    - lia.
    - rewrite length_inserts. exact Hl0.
    - right. rewrite inserts_at by (rewrite Hl4; lia).
      rewrite Hl4, take_0. cbn [app].
      rewrite take_app_length' by (symmetry; exact Hl4).
      rewrite take_drop. exact Habs. }
  split.
  - unfold Unpackgrib2.unpack_IS, Unpackgrib2.fread.
    change (Z.to_nat 4) with 4%nat.
    destruct (Z.eqb_spec (Z.of_nat (length (take 4 fp))) 4) as [Hl4 | Hl4];
      cbn [negb]; cbv iota.
    + destruct (Hsearch temp0 ltac:(lia) ltac:(lia)) as [-> | [temp' ->]];
        cbn [bind].
      * do 3 eexists. split; [reflexivity |]. split; [left; reflexivity |].
        intros ->. discriminate Hl4.
      * change (Z.to_nat 12) with 12%nat.
        cbn [take drop firstn skipn length].
        change (Z.of_nat 0 =? 0) with true. cbv iota.
        do 3 eexists. split; [reflexivity |]. split; [right; reflexivity |].
        intros ->. discriminate Hl4.
    + destruct (Z.eqb_spec (Z.of_nat (length (take 4 fp))) 0) as [Hl0 | Hl0].
      * do 3 eexists. split; [reflexivity |]. split; [left; reflexivity |].
        reflexivity.
      * do 3 eexists. split; [reflexivity |]. split; [right; reflexivity |].
        intros ->. exfalso. apply Hl0. reflexivity.
  - unfold unpack_IS, Unpackgrib2.fread.
    change (Z.to_nat 4) with 4%nat.
    destruct (Z.eqb_spec (Z.of_nat (length (take 4 fp))) 4) as [Hl4 | Hl4];
      cbn [negb]; cbv iota.
    + destruct (Hsearch temp0' ltac:(lia) ltac:(lia)) as [-> | [temp' ->]];
        cbn [bind].
      * do 3 eexists. split; [reflexivity |]. split; [left; reflexivity |].
        intros ->. discriminate Hl4.
      * cbn [take drop firstn skipn length].
        change (Z.of_nat 0 =? 0) with true. cbv iota.
        do 3 eexists. split; [reflexivity |]. split; [right; reflexivity |].
        intros ->. discriminate Hl4.
    + destruct (Z.eqb_spec (Z.of_nat (length (take 4 fp))) 0) as [Hl0 | Hl0].
      * do 3 eexists. split; [reflexivity |]. split; [left; reflexivity |].
        reflexivity.
      * do 3 eexists. split; [reflexivity |]. split; [right; reflexivity |].
        intros ->. exfalso. apply Hl0. reflexivity.
Qed.

End WithFloats.

Import Exact Examples.

Lemma unpack_IS_grib1_frames_witness :
  exists m',
    unpack_IS (replicate 8 0) (fun _ => 0)
      ([10; 71; 82] ++ [71; 82; 73; 66; 0; 0; 24; 0] ++ replicate 23 7 ++ [71; 82])
      (grib1_message []) = Ok (0, m', [71; 82]) /\
    total_len m' = 8 + Z.of_nat (length (replicate 23 7)) /\
    ed_num m' = 0 /\ pds_len m' = 24 /\ nx m' = 0 /\ ny m' = 0 /\
    take (8 + length (replicate 23 7)) (buffer m')
    = [71; 82; 73; 66; 0; 0; 24; 0] ++ replicate 23 7 /\
    total_len m' + 4 <= Z.of_nat (length (buffer m')).
Proof.
  apply (unpack_IS_grib1_frames (replicate 8 0) (fun _ => 0) [10; 71; 82]
           [71; 82; 73; 66; 0; 0; 24; 0] (replicate 23 7) [71; 82]
           (grib1_message []));
    try reflexivity.
  - intros j Hj Heq.
    destruct j as [| [| [| j]]];
      [discriminate Heq | discriminate Heq | discriminate Heq
      | cbn [length] in Hj; lia].
  - unfold bytes_ok.
    repeat first [apply Forall_nil_2 | apply Forall_cons_2]; unfold is_byte; lia.
Defined.

Lemma write_grid_frames_witness :
  exists out m',
    Grib2to1.write_grid [0; 0; 0] 16 rest_of_message = Ok out /\
    Z.of_nat (length out) = 16 + 12 /\
    take 4 out = Unpackgrib2.GRIB_marker /\
    length_24 out = 16 + 12 /\
    drop 7 out = 1 :: take (Z.to_nat 16) rest_of_message ++ [55; 55; 55; 55] /\
    unpack_IS (replicate 8 0) (fun _ => 0) (out ++ [71]) (grib1_message [])
    = Ok (0, m', [71]) /\
    total_len m' = 16 + 12 /\ ed_num m' = 1 /\
    take (Z.to_nat (16 + 12)) (buffer m') = out.
Proof.
  apply (write_grid_frames [0; 0; 0] rest_of_message (replicate 8 0) [71] 16
           (fun _ => 0) (grib1_message []));
    try reflexivity; try lia.
  - unfold bytes_ok.
    repeat first [apply Forall_nil_2 | apply Forall_cons_2]; unfold is_byte; lia.
  - cbn [length rest_of_message]. lia.
Defined.

Lemma unpack_IS_no_marker_witness :
  (exists st m' fp',
     Unpackgrib2.unpack_IS (replicate 16 0) (fun _ => 0) [71; 82; 73]
       grib2_message0 = Ok (st, m', fp') /\
     (st = -1 \/ st = 1) /\ ([71; 82; 73] = [] -> st = -1)) /\
  (exists st m' fp',
     unpack_IS (replicate 8 0) (fun _ => 0) [71; 82; 73] (grib1_message [])
     = Ok (st, m', fp') /\
     (st = -1 \/ st = 1) /\ ([71; 82; 73] = [] -> st = -1)).
Proof.
  apply (unpack_IS_no_marker (replicate 16 0) (replicate 8 0) [71; 82; 73]
           (fun _ => 0) grib2_message0 (grib1_message []));
    try reflexivity.
  intros j Heq.
  destruct j as [| [| [| [| j]]]]; discriminate Heq.
Defined.

End FramingFacts1.

(** ** Sections written by grib1to2.c and read by unpackgrib2.c *)
Module SectionFacts.
Import CInt BitStream BitStreamFacts BitStreamAlgebra ResultFacts.
Import Unpackgrib1 Grib1to2 Grib1to2Facts.

(** a small [int] offset as a [size_t] *)
Lemma uint64_sint32_small (x : Z) :
  0 <= x < 2 ^ 31 -> uint64 (sint32 x) = x.
Proof.
  intros Hx. rewrite sint32_id by (unfold is_int; lia).
  unfold uint64. apply Z.mod_small. lia.
Qed.

Lemma uint64_small (x : Z) : 0 <= x < 2 ^ 31 -> uint64 x = x.
Proof. intros Hx. unfold uint64. apply Z.mod_small. lia. Qed.

Lemma low_bits_small (bits v : Z) :
  1 <= bits < 32 -> 0 <= v < 2 ^ bits -> low_bits bits v = v.
Proof.
  intros Hb Hv. unfold low_bits.
  destruct (Z.eqb_spec bits 32); [lia |]. apply Z.mod_small. exact Hv.
Qed.

(** the windows of a list of writes that is written out *)
Ltac apart_tac :=
  repeat match goal with
         | |- Forall _ (_ :: _) => apply Forall_cons_2
         | |- Forall _ [] => apply Forall_nil_2
         | |- _ /\ _ => split
         | |- window_ok _ _ => unfold window_ok
         | |- windows_apart _ _ => unfold windows_apart
         | |- True => exact I
         end; try lia.

(** membership in a list of writes that is written out *)
Ltac in_writes :=
  cbn [In]; repeat (first [left; reflexivity | right]).

(** the reads in the goal that a list of writes answers *)
Ltac read_back Hget :=
  repeat match goal with
         | |- context [get_bits ?b ?loc ?o ?n] =>
             erewrite (Hget o n _ loc) by in_writes; cbn [bind]
         end.

Section WithFloats.
Context `{FloatOps}.

Lemma IDS_windows (n : nat) (off : Z) (msg : GRIBMessage) :
  0 <= off -> off + 168 <= 8 * Z.of_nat n ->
  Forall (window_ok n) (IDS_writes off msg) /\
  pairwise_apart (IDS_writes off msg).
Proof.
  intros Hoff Hlen. unfold IDS_writes. cbn [pairwise_apart].
  split; apart_tac.
Qed.

(** X11.  The Identification Section that [pack_IDS] of grib1to2.c
    writes is read back by [unpack_IDS] of unpackgrib2.c: the centre, the
    sub-centre and the reference date are those of the GRIB1 message, the
    reference time [hhmm] becomes [hhmm00], the table versions are 18 and
    0, the significance of the reference time is 1, production status
    and type of data are 255, and both calls move the offset by the 21
    octets of the section.  No bit outside these 21 octets changes. *)
Theorem pack_IDS_unpack_IDS (msg : GRIBMessage) (buf : list Z) (off : Z) :
  bytes_ok buf -> 0 <= off -> off + 168 <= 8 * Z.of_nat (length buf) ->
  off + 168 < 2 ^ 31 ->
  0 <= center_id msg < 2 ^ 16 -> 0 <= sub_center_id msg < 2 ^ 16 ->
  0 <= yr msg < 2 ^ 16 -> 0 <= mo msg < 2 ^ 8 -> 0 <= dy msg < 2 ^ 8 ->
  0 <= time msg < 25600 ->
  exists buf',
    pack_IDS msg buf off = Ok (buf', off + 168) /\
    length buf' = length buf /\
    (forall i, 0 <= i -> ~ off <= i < off + 168 ->
       bit_at buf' i = bit_at buf i) /\
    forall (m : Unpackgrib2.GRIB2Message) (ids : Unpackgrib2.Identification),
      Unpackgrib2.buffer m = buf' -> Unpackgrib2.offset m = off ->
      exists m',
        Unpackgrib2.unpack_IDS m ids
        = Ok (m', {| Unpackgrib2.sub_center_id := sub_center_id msg;
                     Unpackgrib2.table_ver := 18;
                     Unpackgrib2.local_table_ver := 0;
                     Unpackgrib2.ref_time_type := 1;
                     Unpackgrib2.prod_status := 255;
                     Unpackgrib2.data_type := 255 |}) /\
        Unpackgrib2.center_id m' = center_id msg /\
        Unpackgrib2.yr m' = yr msg /\ Unpackgrib2.mo m' = mo msg /\
        Unpackgrib2.dy m' = dy msg /\
        Unpackgrib2.time m' = 100 * time msg /\
        Unpackgrib2.offset m' = off + 168 /\
        Unpackgrib2.buffer m' = buf'.
Proof.
  intros Hb Hoff Hlen Hmax Hc Hsc Hyr Hmo Hdy Htime.
  destruct (IDS_windows (length buf) off msg Hoff Hlen) as [Hok Hapart].
  destruct (set_bits_all_bits buf (IDS_writes off msg) Hb Hok Hapart)
    as (buf' & Hs & Hl & Hb' & _ & Hother).
  assert (Hget : forall o n v loc,
            In (o, n, v) (IDS_writes off msg) ->
            get_bits buf' loc o n = Ok (low_bits n v)).
  { intros o n v loc Hin.
    exact (set_bits_all_get buf buf' _ o n v loc Hb Hok Hapart Hs Hin). }
  exists buf'. unfold pack_IDS. rewrite Hs. cbn [bind].
  split; [reflexivity |]. split; [exact Hl |]. split.
  { intros i Hi Hout. apply Hother; [exact Hi |].
    intros w Hin. unfold IDS_writes in Hin. cbn [In] in Hin.
    repeat match goal with
           | Hin : _ \/ _ |- _ => destruct Hin as [<- | Hin]
           | Hin : False |- _ => destruct Hin
           end; unfold in_window; lia. }
  intros m ids Hbuf Hm.
  unfold Unpackgrib2.unpack_IDS, Unpackgrib2.bit_offset.
  rewrite Hbuf, Hm.
  rewrite !uint64_sint32_small by lia. rewrite uint64_small by lia.
  unfold IDS_writes in Hget.
  read_back Hget.
  rewrite (low_bits_small 16 (center_id msg)), (low_bits_small 16 (sub_center_id msg)),
    (low_bits_small 16 (yr msg)), (low_bits_small 8 (mo msg)),
    (low_bits_small 8 (dy msg)) by lia.
  assert (Hq : 0 <= Z.quot (time msg) 100 < 2 ^ 8).
  { rewrite Z.quot_div_nonneg by lia. change (2 ^ 8) with 256.
    Z.div_mod_to_equations. lia. }
  assert (Hr : 0 <= Z.rem (time msg) 100 < 2 ^ 8).
  { rewrite Z.rem_mod_nonneg by lia. change (2 ^ 8) with 256.
    Z.div_mod_to_equations. lia. }
  rewrite (low_bits_small 8 (Z.quot (time msg) 100)) by (try exact Hq; lia).
  rewrite (low_bits_small 8 (Z.rem (time msg) 100)) by (try exact Hr; lia).
  change (low_bits 32 21) with 21.
  eexists. split; [reflexivity |].
  cbn [Unpackgrib2.with_IDS Unpackgrib2.center_id Unpackgrib2.yr
       Unpackgrib2.mo Unpackgrib2.dy Unpackgrib2.time Unpackgrib2.offset
       Unpackgrib2.buffer].
  repeat split; try reflexivity; try assumption.
  - pose proof (Z.quot_rem' (time msg) 100) as Hqr.
    change (low_bits 8 0) with 0.
    rewrite sint32_id by (unfold is_int; change (2 ^ 8) with 256 in *; lia).
    lia.
  - change (sint32 (21 * 8)) with 168.
    apply sint32_id. unfold is_int. lia.
Qed.

(** the loop of [pack_BMS] writes bit 0 of each entry of the bit map,
    one bit after the other *)
Lemma pack_bitmap_spec (bm : list Z) :
  forall (count n : nat) (buf : list Z) (off : Z),
    bytes_ok buf -> 0 <= off ->
    off + Z.of_nat count <= 8 * Z.of_nat (length buf) ->
    (n + count <= length bm)%nat ->
    exists buf',
      pack_bitmap count bm n buf off = Ok buf' /\
      length buf' = length buf /\ bytes_ok buf' /\
      forall i, 0 <= i ->
        bit_at buf' i =
          if (off <=? i) && (i <? off + Z.of_nat count)
          then Z.testbit (bm !!! (n + Z.to_nat (i - off))%nat) 0
          else bit_at buf i.
Proof.
  induction count as [| c IH]; intros n buf off Hb Hoff Hlen Hn.
  - exists buf. split; [reflexivity |]. split; [reflexivity |].
    split; [exact Hb |]. intros i Hi.
    destruct (Z.leb_spec off i), (Z.ltb_spec i (off + Z.of_nat 0));
      cbn [andb]; try reflexivity; lia.
  - cbn [pack_bitmap].
    destruct (lookup_lt_is_Some_2 bm n ltac:(lia)) as [bval Hbval].
    rewrite Hbval.
    destruct (set_bits_spec buf bval off 1 Hb Hoff ltac:(lia) ltac:(lia))
      as (b1 & Hs1 & Hl1 & Hb1 & Hbits1).
    rewrite Hs1. cbn [bind].
    destruct (IH (S n) b1 (off + 1) Hb1 ltac:(lia) ltac:(lia) ltac:(lia))
      as (b2 & Hs2 & Hl2 & Hb2 & Hbits2).
    exists b2. split; [exact Hs2 |]. split; [congruence |].
    split; [exact Hb2 |]. intros i Hi.
    rewrite Hbits2 by exact Hi. rewrite Hbits1 by exact Hi.
    destruct (Z.leb_spec (off + 1) i), (Z.ltb_spec i (off + 1 + Z.of_nat c)),
             (Z.leb_spec off i), (Z.ltb_spec i (off + 1)),
             (Z.ltb_spec i (off + Z.of_nat (S c)));
      cbn [andb]; try lia; try reflexivity.
    + f_equal. f_equal. lia.
    + assert (i = off) as -> by lia.
      replace (off + 1 - 1 - off) with 0 by lia.
      replace (n + Z.to_nat (off - off))%nat with n by lia.
      rewrite (list_lookup_total_correct bm n bval Hbval). reflexivity.
Qed.

(** the loop that reads a bit map gives the bits of the buffer *)
Lemma unpack_bitmap_spec (buf : list Z) :
  bytes_ok buf ->
  forall (count : nat) (boff : Z),
    0 <= boff ->
    exists bm,
      unpack_bitmap count buf boff = Ok bm /\
      length bm = count /\
      forall k : nat, (k < count)%nat ->
        bm !! k = Some (Z.b2z (bit_at buf (boff + Z.of_nat k))).
Proof.
  intros Hb. induction count as [| c IH]; intros boff Hoff.
  - exists []. split; [reflexivity |]. split; [reflexivity |].
    intros k Hk. lia.
  - cbn [unpack_bitmap].
    destruct (get_bits_spec buf 0 boff 1 Hb Hoff ltac:(lia))
      as (v & Hv & Hbit & Hrange & _).
    rewrite Hv. cbn [bind].
    destruct (IH (boff + 1) ltac:(lia)) as (bm & Hbm & Hlen & Hbits).
    rewrite Hbm. cbn [bind].
    exists (uint8 v :: bm). split; [reflexivity |].
    split; [cbn [length]; congruence |].
    intros k Hk. destruct k as [| k].
    + change ((uint8 v :: bm) !! 0%nat) with (Some (uint8 v)). f_equal.
      specialize (Hbit 0 ltac:(lia)). specialize (Hrange ltac:(lia)).
      replace (boff + 1 - 1 - 0) with boff in Hbit by lia.
      replace (boff + Z.of_nat 0) with boff by lia.
      rewrite <- Hbit. change (2 ^ 1) with 2 in Hrange.
      assert (v = 0 \/ v = 1) as [-> | ->] by lia; reflexivity.
    + change ((uint8 v :: bm) !! S k) with (bm !! k).
      rewrite (Hbits k ltac:(lia)).
      do 3 f_equal. lia.
Qed.

(** X12.  The Bit Map Section that [pack_BMS] of grib1to2.c writes is
    read back by [unpack_BMS] of unpackgrib2.c.  With a bit map of
    [bitmap_len > 0] entries the section has [6 + (bitmap_len + 7) / 8]
    octets and the decoded bit map has a whole number of octets: its
    first [bitmap_len] entries are bit 0 of the entries of the GRIB1 bit
    map, and the entries after them, up to the end of the last octet,
    are the bits that the buffer held before the call, which [pack_BMS]
    does not write.  Without a bit map the section has 6 octets and the
    decoded bit map is the null pointer. *)
Theorem pack_BMS_unpack_BMS (msg : GRIBMessage) (buf : list Z) (off : Z) :
  bytes_ok buf -> 0 <= off ->
  0 <= bitmap_len msg -> bitmap_len msg <= Z.of_nat (length (bitmap msg)) ->
  off + 48 + 8 * ((bitmap_len msg + 7) / 8) <= 8 * Z.of_nat (length buf) ->
  off + 48 + 8 * ((bitmap_len msg + 7) / 8) < 2 ^ 31 ->
  let included := negb (bms_included msg =? 0) && (0 <? bitmap_len msg) in
  let octets := if included then 6 + (bitmap_len msg + 7) / 8 else 6 in
  exists buf',
    pack_BMS msg buf off = Ok (buf', off + octets * 8) /\
    length buf' = length buf /\
    forall m : Unpackgrib2.GRIB2Message,
      Unpackgrib2.buffer m = buf' -> Unpackgrib2.offset m = off ->
      exists bm',
        Unpackgrib2.unpack_BMS m
        = Ok (Unpackgrib2.with_md m
                (Unpackgrib2.with_bitmap (Unpackgrib2.msg_md m) bm')) /\
        if included then
          exists bm, bm' = Some bm /\
            Z.of_nat (length bm) = 8 * ((bitmap_len msg + 7) / 8) /\
            (forall n : nat, Z.of_nat n < bitmap_len msg ->
               bm !! n = Some (bitmap msg !!! n mod 2)) /\
            (forall n : nat,
               bitmap_len msg <= Z.of_nat n < Z.of_nat (length bm) ->
               bm !! n = Some (Z.b2z (bit_at buf (off + 48 + Z.of_nat n))))
        else bm' = None.
Proof.
  intros Hb Hoff Hlen0 Hbm Hlen Hmax included octets.
  set (q := (bitmap_len msg + 7) / 8) in *.
  assert (Hq : 0 <= q /\ bitmap_len msg <= 8 * q /\ (0 < bitmap_len msg -> 0 < q)).
  { subst q. Z.div_mod_to_equations. lia. }
  assert (Hlength :
    (if negb (bms_included msg =? 0)
     then uint64 (6 + uint64 (bitmap_len msg + 7) / 8) else 6) = octets).
  { subst octets included.
    destruct (bms_included msg =? 0); cbn [negb andb]; [reflexivity |].
    unfold uint64. rewrite (Z.mod_small (bitmap_len msg + 7)) by lia.
    fold q. rewrite Z.mod_small by lia.
    destruct (Z.ltb_spec 0 (bitmap_len msg)); [reflexivity |].
    assert (bitmap_len msg = 0) as Hz by lia. subst q. rewrite Hz. reflexivity. }
  assert (Hoct : 6 <= octets <= 6 + q /\ (included = true -> octets = 6 + q)
                 /\ (included = false -> octets = 6)).
  { subst octets. destruct included; lia. }
  unfold pack_BMS. rewrite Hlength.
  destruct (set_bits_spec buf (sint32 octets) off 32 Hb Hoff ltac:(lia) ltac:(lia))
    as (b1 & Hs1 & Hl1 & Hb1 & Hbits1).
  rewrite Hs1. cbn [bind].
  destruct (set_bits_spec b1 6 (off + 32) 8 Hb1 ltac:(lia) ltac:(lia) ltac:(lia))
    as (b2 & Hs2 & Hl2 & Hb2 & Hbits2).
  rewrite Hs2. cbn [bind].
  assert (Hread : forall (b3 : list Z) (ind : Z),
            bytes_ok b3 ->
            (forall i, off <= i < off + 48 ->
               bit_at b3 i =
                 if i <? off + 32 then Z.testbit (sint32 octets) (off + 32 - 1 - i)
                 else if i <? off + 40 then Z.testbit 6 (off + 40 - 1 - i)
                 else Z.testbit ind (off + 48 - 1 - i)) ->
            forall loc loc',
              get_bits b3 loc (off + 40) 8 = Ok (low_bits 8 ind) /\
              get_bits b3 loc' off 32 = Ok octets).
  { intros b3 ind Hb3 Hbits loc loc'. split.
    - apply get_bits_of_bits; [exact Hb3 | lia | lia |].
      intros i Hi. rewrite Hbits by lia.
      destruct (Z.ltb_spec i (off + 32)), (Z.ltb_spec i (off + 40)); try lia.
      f_equal. lia.
    - replace (Ok octets) with (Ok (A := Z) (low_bits 32 (sint32 octets))).
      + apply get_bits_of_bits; [exact Hb3 | lia | lia |].
        intros i Hi. rewrite Hbits by lia.
        destruct (Z.ltb_spec i (off + 32)); [reflexivity | lia].
      + f_equal. unfold low_bits. cbn [Z.eqb Pos.eqb].
        rewrite !(sint32_id octets) by (unfold is_int; lia). reflexivity. }
  destruct included eqn:Hinc.
  - (* a bit map *)
    destruct Hoct as (_ & Hoct & _). specialize (Hoct eq_refl).
    assert (Hpos : 0 < bitmap_len msg).
    { subst included. apply andb_true_iff in Hinc. destruct Hinc as [_ Hinc].
      apply Z.ltb_lt in Hinc. exact Hinc. }
    replace (octets >? 6) with true by (symmetry; apply Z.gtb_lt; lia).
    destruct (set_bits_spec b2 0 (off + 40) 8 Hb2 ltac:(lia) ltac:(lia) ltac:(lia))
      as (b3 & Hs3 & Hl3 & Hb3 & Hbits3).
    rewrite Hs3. cbn [bind].
    destruct (pack_bitmap_spec (bitmap msg) (Z.to_nat (bitmap_len msg)) 0 b3
                (off + 48) Hb3 ltac:(lia) ltac:(lia) ltac:(lia))
      as (b4 & Hs4 & Hl4 & Hb4 & Hbits4).
    rewrite Hs4. cbn [bind].
    exists b4. split; [reflexivity |]. split; [congruence |].
    intros m Hbuf Hm.
    unfold Unpackgrib2.unpack_BMS, Unpackgrib2.bit_offset.
    rewrite Hbuf, Hm. rewrite !uint64_sint32_small by lia.
    rewrite uint64_small by lia.
    destruct (Hread b4 0 Hb4) with (loc := 0) (loc' := 0) as [Hind Hlen4].
    { intros i Hi. rewrite Hbits4, Hbits3, Hbits2, Hbits1 by lia.
      destruct (Z.leb_spec (off + 48) i), (Z.leb_spec (off + 40) i),
               (Z.ltb_spec i (off + 40 + 8)), (Z.leb_spec (off + 32) i),
               (Z.ltb_spec i (off + 32 + 8)), (Z.leb_spec off i),
               (Z.ltb_spec i (off + 32)), (Z.ltb_spec i (off + 40));
        cbn [andb]; try lia; try reflexivity; f_equal; lia. }
    rewrite Hind. change (low_bits 8 0) with 0. cbn [bind].
    rewrite Hlen4. cbn [bind].
    assert (Hcount : uint64 (sint32 ((octets - 6) * 8)) = 8 * q).
    { rewrite uint64_sint32_small by lia. lia. }
    rewrite Hcount.
    destruct (unpack_bitmap_spec b4 Hb4 (Z.to_nat (8 * q)) (off + 48) ltac:(lia))
      as (bm & Hu & Hlbm & Hbm4).
    rewrite Hu. cbn [bind].
    exists (Some bm). split; [reflexivity |].
    exists bm. split; [reflexivity |]. split; [lia |]. split.
    + intros n Hn. rewrite Hbm4 by lia. f_equal.
      rewrite Hbits4 by lia.
      destruct (Z.leb_spec (off + 48) (off + 48 + Z.of_nat n)),
               (Z.ltb_spec (off + 48 + Z.of_nat n)
                  (off + 48 + Z.of_nat (Z.to_nat (bitmap_len msg))));
        cbn [andb]; try lia.
      replace (0 + Z.to_nat (off + 48 + Z.of_nat n - (off + 48)))%nat
        with n by lia.
      rewrite Z.bit0_mod. reflexivity.
    + intros n Hn. rewrite Hbm4 by lia. do 2 f_equal.
      rewrite Hbits4, Hbits3, Hbits2, Hbits1 by lia.
      destruct (Z.leb_spec (off + 48) (off + 48 + Z.of_nat n)),
               (Z.ltb_spec (off + 48 + Z.of_nat n)
                  (off + 48 + Z.of_nat (Z.to_nat (bitmap_len msg)))),
               (Z.leb_spec (off + 40) (off + 48 + Z.of_nat n)),
               (Z.ltb_spec (off + 48 + Z.of_nat n) (off + 40 + 8)),
               (Z.leb_spec (off + 32) (off + 48 + Z.of_nat n)),
               (Z.ltb_spec (off + 48 + Z.of_nat n) (off + 32 + 8)),
               (Z.leb_spec off (off + 48 + Z.of_nat n)),
               (Z.ltb_spec (off + 48 + Z.of_nat n) (off + 32));
        cbn [andb]; try lia; reflexivity.
  - (* no bit map *)
    destruct Hoct as (_ & _ & Hoct). specialize (Hoct eq_refl).
    assert (Hgt : (octets >? 6) = false) by (rewrite Z.gtb_ltb; apply Z.ltb_ge; lia).
    rewrite Hgt.
    destruct (set_bits_spec b2 255 (off + 40) 8 Hb2 ltac:(lia) ltac:(lia) ltac:(lia))
      as (b3 & Hs3 & Hl3 & Hb3 & Hbits3).
    rewrite Hs3. cbn [bind].
    exists b3. split; [reflexivity |]. split; [congruence |].
    intros m Hbuf Hm.
    unfold Unpackgrib2.unpack_BMS, Unpackgrib2.bit_offset.
    rewrite Hbuf, Hm. rewrite !uint64_sint32_small by lia.
    destruct (Hread b3 255 Hb3) with (loc := 0) (loc' := 0) as [Hind _].
    { intros i Hi. rewrite Hbits3, Hbits2, Hbits1 by lia.
      destruct (Z.leb_spec (off + 40) i),
               (Z.ltb_spec i (off + 40 + 8)), (Z.leb_spec (off + 32) i),
               (Z.ltb_spec i (off + 32 + 8)), (Z.leb_spec off i),
               (Z.ltb_spec i (off + 32)), (Z.ltb_spec i (off + 40));
        cbn [andb]; try lia; try reflexivity; f_equal; lia. }
    rewrite Hind. change (low_bits 8 255) with 255. cbn [bind].
    exists None. split; reflexivity.
Qed.

End WithFloats.

Import Exact Examples.

(** hypotheses on concrete messages and buffers *)
Ltac by_compute :=
  vm_compute; repeat split; first [discriminate | reflexivity].

Ltac bytes_ok_tac :=
  unfold bytes_ok; cbn [replicate];
  repeat first [apply Forall_nil_2 | apply Forall_cons_2]; unfold is_byte; lia.

Lemma pack_IDS_unpack_IDS_witness :
  exists buf',
    pack_IDS statistic_message (replicate 21 255) 0 = Ok (buf', 0 + 168) /\
    length buf' = length (replicate 21 255) /\
    (forall i, 0 <= i -> ~ 0 <= i < 0 + 168 ->
       bit_at buf' i = bit_at (replicate 21 255) i) /\
    forall (m : Unpackgrib2.GRIB2Message) (ids : Unpackgrib2.Identification),
      Unpackgrib2.buffer m = buf' -> Unpackgrib2.offset m = 0 ->
      exists m',
        Unpackgrib2.unpack_IDS m ids
        = Ok (m', {| Unpackgrib2.sub_center_id := sub_center_id statistic_message;
                     Unpackgrib2.table_ver := 18;
                     Unpackgrib2.local_table_ver := 0;
                     Unpackgrib2.ref_time_type := 1;
                     Unpackgrib2.prod_status := 255;
                     Unpackgrib2.data_type := 255 |}) /\
        Unpackgrib2.center_id m' = center_id statistic_message /\
        Unpackgrib2.yr m' = yr statistic_message /\
        Unpackgrib2.mo m' = mo statistic_message /\
        Unpackgrib2.dy m' = dy statistic_message /\
        Unpackgrib2.time m' = 100 * time statistic_message /\
        Unpackgrib2.offset m' = 0 + 168 /\
        Unpackgrib2.buffer m' = buf'.
Proof.
  apply (pack_IDS_unpack_IDS statistic_message (replicate 21 255) 0);
    first [bytes_ok_tac | by_compute].
Defined.

Lemma pack_BMS_unpack_BMS_witness :
  let msg := decoded_grid masked_message in
  let buf := replicate 7 255 in
  let included := negb (bms_included msg =? 0) && (0 <? bitmap_len msg) in
  let octets := if included then 6 + (bitmap_len msg + 7) / 8 else 6 in
  exists buf',
    pack_BMS msg buf 0 = Ok (buf', 0 + octets * 8) /\
    length buf' = length buf /\
    forall m : Unpackgrib2.GRIB2Message,
      Unpackgrib2.buffer m = buf' -> Unpackgrib2.offset m = 0 ->
      exists bm',
        Unpackgrib2.unpack_BMS m
        = Ok (Unpackgrib2.with_md m
                (Unpackgrib2.with_bitmap (Unpackgrib2.msg_md m) bm')) /\
        if included then
          exists bm, bm' = Some bm /\
            Z.of_nat (length bm) = 8 * ((bitmap_len msg + 7) / 8) /\
            (forall n : nat, Z.of_nat n < bitmap_len msg ->
               bm !! n = Some (bitmap msg !!! n mod 2)) /\
            (forall n : nat,
               bitmap_len msg <= Z.of_nat n < Z.of_nat (length bm) ->
               bm !! n = Some (Z.b2z (bit_at buf (0 + 48 + Z.of_nat n))))
        else bm' = None.
Proof.
  apply (pack_BMS_unpack_BMS (decoded_grid masked_message) (replicate 7 255) 0);
    first [bytes_ok_tac | by_compute].
Defined.

End SectionFacts.

(** ** The Data Section and the Data Representation Section written by
    grib1to2.c and read by unpackgrib2.c *)
Module DataFacts.
Import CInt BitStream BitStreamFacts BitStreamAlgebra ResultFacts SectionFacts.
Import Unpackgrib1 Grib1to2.

(** the gridpoint that [unpack_DS] computes for the gridpoint [gp] of the
    GRIB1 message, packed by [pack_DS] *)
Local Abbreviation repacked msg g gp :=
  (if feqb gp GRIB_MISSING_VALUE then GRIB_MISSING_VALUE
   else Unpackgrib2.point_value g
          (low_bits (pack_width msg)
             (packed_int msg
                (to_float (fpow (of_int 10) (of_int (D msg))))
                (to_float (fpow (of_int 2) (of_int (E msg)))) gp))).

Section WithFloats.
Context `{FloatOps}.

(** the loop of [pack_DS] from gridpoint [n] and bit [o] on, and the loop
    of [unpack_DS] from there on over any buffer that holds, from bit [o]
    on, what the first loop leaves *)
Lemma pack_unpack_values (junk : nat -> Z) (msg : GRIBMessage)
    (g : Unpackgrib2.GRIB2Metadata) (N : nat) :
  1 <= pack_width msg <= 32 ->
  Unpackgrib2.pack_width g = pack_width msg ->
  Unpackgrib2.bitmap_marks (Unpackgrib2.bitmap g) (gridpoints msg) N ->
  forall (count n : nat) (buf : list Z) (o : Z),
    bytes_ok buf -> 0 <= o ->
    o + Z.of_nat count * pack_width msg <= 8 * Z.of_nat (length buf) ->
    8 * Z.of_nat (length buf) < 2 ^ 31 ->
    (n + count <= N)%nat -> (N <= length (gridpoints msg))%nat ->
    exists buf',
      pack_values count msg
        (to_float (fpow (of_int 10) (of_int (D msg))))
        (to_float (fpow (of_int 2) (of_int (E msg)))) n buf o = Ok buf' /\
      length buf' = length buf /\ bytes_ok buf' /\
      (forall i, 0 <= i < o -> bit_at buf' i = bit_at buf i) /\
      forall (bfin : list Z) (s : Unpackgrib2.dscan),
        bytes_ok bfin ->
        (forall i, o <= i -> bit_at bfin i = bit_at buf' i) ->
        Unpackgrib2.idx s = Z.of_nat n -> Unpackgrib2.off s = o ->
        exists s',
          for_loop count
            (Unpackgrib2.unpack_point junk bfin g
               (to_float (fpow (of_int 10) (of_int (Unpackgrib2.D g))))
               (to_float (fpow (of_int 2) (of_int (Unpackgrib2.E g))))) s
          = Ok s' /\
          Unpackgrib2.points s'
          = Unpackgrib2.points s
            ++ map (fun gp => repacked msg g gp)
                 (take count (drop n (gridpoints msg))).
Proof.
  intros Hw Hgw Hmarks.
  set (w := pack_width msg) in *.
  induction count as [| c IH]; intros n buf o Hb Ho Hlen Hmax Hn HN.
  - exists buf. split; [reflexivity |]. split; [reflexivity |].
    split; [exact Hb |]. split; [reflexivity |].
    intros bfin s _ _ _ _. exists s. split; [reflexivity |].
    rewrite take_0. cbn [map]. rewrite app_nil_r. reflexivity.
  - destruct (lookup_lt_is_Some_2 (gridpoints msg) n ltac:(lia)) as [gp Hgp].
    cbn [pack_values]. fold w. rewrite Hgp.
    assert (Hdrop : take (S c) (drop n (gridpoints msg))
                    = gp :: take c (drop (S n) (gridpoints msg))).
    { rewrite (drop_S _ gp n Hgp). reflexivity. }
    rewrite Hdrop. cbn [map].
    pose proof (Hmarks n gp ltac:(lia) Hgp) as Hmark.
    destruct (feqb gp GRIB_MISSING_VALUE) eqn:Hmiss; cbn [negb].
    + (* a missing gridpoint: nothing is written *)
      destruct (IH (S n) buf o Hb Ho ltac:(lia) Hmax ltac:(lia) HN)
        as (buf' & Hp & Hl & Hb' & Hlow & Hdec).
      exists buf'. split; [exact Hp |]. split; [exact Hl |].
      split; [exact Hb' |]. split; [exact Hlow |].
      intros bfin s Hbf Hagree Hidx Hoff.
      cbn [for_loop]. unfold Unpackgrib2.unpack_point at 1.
      rewrite Hidx, Nat2Z.id.
      destruct (Unpackgrib2.bitmap g) as [bm |]; [| discriminate Hmark].
      destruct Hmark as (x & Hx & Hx1). rewrite Hx, Hx1. cbn [bind].
      destruct (Hdec bfin
                  {| Unpackgrib2.idx := Z.of_nat n + 1;
                     Unpackgrib2.off := Unpackgrib2.off s;
                     Unpackgrib2.points :=
                       Unpackgrib2.points s ++ [GRIB_MISSING_VALUE] |}
                  Hbf Hagree ltac:(cbn; lia) Hoff)
        as (s' & Hloop & Hpts).
      exists s'. split; [exact Hloop |].
      rewrite Hpts. cbn [Unpackgrib2.points]. rewrite <- app_assoc. reflexivity.
    + (* a gridpoint: [w] bits are written *)
      set (pval := packed_int msg _ _ gp).
      assert (Hw64 : uint64 w = w) by (apply uint64_small; lia).
      rewrite Hw64.
      destruct (set_bits_spec buf pval o w Hb Ho Hw ltac:(lia))
        as (b1 & Hs1 & Hl1 & Hb1 & Hbits1).
      rewrite Hs1. cbn [bind].
      assert (Ho64 : uint64 (o + w) = o + w) by (apply uint64_small; lia).
      rewrite Ho64.
      destruct (IH (S n) b1 (o + w) Hb1 ltac:(lia) ltac:(lia) ltac:(lia)
                  ltac:(lia) HN)
        as (buf' & Hp & Hl & Hb' & Hlow & Hdec).
      exists buf'. split; [exact Hp |]. split; [congruence |].
      split; [exact Hb' |]. split.
      { intros i Hi. rewrite Hlow by lia. rewrite Hbits1 by lia.
        destruct (Z.leb_spec o i); [lia | reflexivity]. }
      intros bfin s Hbf Hagree Hidx Hoff.
      cbn [for_loop]. unfold Unpackgrib2.unpack_point at 1.
      rewrite Hidx, Nat2Z.id.
      assert (Hpresent :
        match Unpackgrib2.bitmap g with
        | Some bm => match bm !! n with
                     | Some b => Ok (b =? 1)
                     | None => Err Undefined
                     end
        | None => Ok true
        end = Ok true).
      { destruct (Unpackgrib2.bitmap g) as [bm |]; [| reflexivity].
        destruct Hmark as (x & Hx & Hx1). rewrite Hx, Hx1. reflexivity. }
      rewrite Hpresent. cbn [bind].
      rewrite Hgw, Hoff.
      assert (Hread : forall loc, get_bits bfin loc o w = Ok (low_bits w pval)).
      { intros loc. apply get_bits_of_bits; [exact Hbf | exact Ho | exact Hw |].
        intros i Hi. rewrite Hagree by lia. rewrite Hlow by lia.
        rewrite Hbits1 by lia.
        destruct (Z.leb_spec o i), (Z.ltb_spec i (o + w)); cbn [andb];
          try lia; reflexivity. }
      rewrite Hread. cbn [bind].
      match goal with
      | |- exists s', for_loop c _ ?s1 = _ /\ _ =>
          destruct (Hdec bfin s1 Hbf) as (s' & Hloop & Hpts)
      end.
      { intros i Hi. apply Hagree. lia. }
      { cbn [Unpackgrib2.idx]. lia. }
      { reflexivity. }
      exists s'. split; [exact Hloop |].
      rewrite Hpts. cbn [Unpackgrib2.points]. rewrite <- app_assoc. reflexivity.
Qed.

(** the loop of [pack_DS] comes to an end inside the buffer *)
Lemma pack_values_ok (msg : GRIBMessage) (d e : double) :
  1 <= pack_width msg <= 32 ->
  forall (count n : nat) (buf : list Z) (o : Z),
    bytes_ok buf -> 0 <= o ->
    o + Z.of_nat count * pack_width msg <= 8 * Z.of_nat (length buf) ->
    8 * Z.of_nat (length buf) < 2 ^ 31 ->
    (n + count <= length (gridpoints msg))%nat ->
    exists buf',
      pack_values count msg d e n buf o = Ok buf' /\
      length buf' = length buf /\ bytes_ok buf'.
Proof.
  intros Hw. set (w := pack_width msg) in *.
  induction count as [| c IH]; intros n buf o Hb Ho Hlen Hmax Hn.
  - exists buf. split; [reflexivity |]. split; [reflexivity | exact Hb].
  - destruct (lookup_lt_is_Some_2 (gridpoints msg) n ltac:(lia)) as [gp Hgp].
    cbn [pack_values]. fold w. rewrite Hgp.
    destruct (feqb gp GRIB_MISSING_VALUE); cbn [negb].
    + apply IH; [exact Hb | exact Ho | lia | exact Hmax | lia].
    + rewrite (uint64_small w) by lia.
      destruct (set_bits_spec buf (packed_int msg d e gp) o w Hb Ho Hw
                  ltac:(lia)) as (b1 & Hs1 & Hl1 & Hb1 & _).
      rewrite Hs1. cbn [bind]. rewrite (uint64_small (o + w)) by lia.
      destruct (IH (S n) b1 (o + w) Hb1 ltac:(lia) ltac:(lia) ltac:(lia)
                  ltac:(lia)) as (buf' & Hp & Hl & Hb').
      exists buf'. split; [exact Hp |]. split; [congruence | exact Hb'].
Qed.

(** X13.  The Data Section that [pack_DS] of grib1to2.c writes is read
    back by [unpack_DS] of unpackgrib2.c, data representation template 0.
    For a pack width of 1 to 32 bits and a bit map that marks the
    gridpoints that are not missing, the decoded grid holds
    [GRIB_MISSING_VALUE] where the GRIB1 grid does, and elsewhere the
    value that the decoder computes, with its own [R], [E] and [D], from
    the low [pack_width] bits of the integer that [pack_DS] has rounded
    the gridpoint to.  The section has [5 + (nx*ny*pack_width + 7) / 8]
    octets whatever the number of missing gridpoints. *)
Theorem pack_DS_unpack_DS (junk : nat -> Z) (msg : GRIBMessage)
    (buf : list Z) (off : Z) :
  let N := nx msg * ny msg in
  let octets := 5 + (N * pack_width msg + 7) / 8 in
  bytes_ok buf -> 0 <= off -> 0 <= N ->
  1 <= pack_width msg <= 32 ->
  N <= Z.of_nat (length (gridpoints msg)) ->
  off + octets * 8 <= 8 * Z.of_nat (length buf) ->
  8 * Z.of_nat (length buf) < 2 ^ 31 ->
  exists buf',
    pack_DS msg buf off = Ok (buf', off + octets * 8) /\
    length buf' = length buf /\
    forall (m : Unpackgrib2.GRIB2Message) (grid_num : nat)
           (gr : Unpackgrib2.GRIB2Grid),
      Unpackgrib2.buffer m = buf' -> Unpackgrib2.offset m = off ->
      Unpackgrib2.drs_templ_num (Unpackgrib2.msg_md m) = 0 ->
      Unpackgrib2.nx (Unpackgrib2.msg_md m) = nx msg ->
      Unpackgrib2.ny (Unpackgrib2.msg_md m) = ny msg ->
      Unpackgrib2.pack_width (Unpackgrib2.msg_md m) = pack_width msg ->
      Unpackgrib2.bitmap_marks (Unpackgrib2.bitmap (Unpackgrib2.msg_md m))
        (gridpoints msg) (Z.to_nat N) ->
      Unpackgrib2.grids m !! grid_num = Some gr ->
      exists m' gr',
        Unpackgrib2.unpack_DS junk m (Z.of_nat grid_num) = Ok m' /\
        Unpackgrib2.grids m' !! grid_num = Some gr' /\
        take (Z.to_nat N) (Unpackgrib2.gridpoints gr')
        = map (fun gp => repacked msg (Unpackgrib2.msg_md m) gp)
            (take (Z.to_nat N) (gridpoints msg)).
Proof.
  intros N octets Hb Hoff HN Hw Hgps Hlen Hmax.
  set (w := pack_width msg) in *.
  assert (Hq : 0 <= (N * w + 7) / 8 /\ N * w <= 8 * ((N * w + 7) / 8)).
  { assert (0 <= N * w) by nia. Z.div_mod_to_equations. lia. }
  assert (HNw : 0 <= N * w) by nia.
  assert (Hlength :
    uint64 (sint32 (5 + Z.quot (sint32 (nx msg * ny msg * w + 7)) 8)) = octets).
  { fold N. rewrite (sint32_id (N * w + 7)) by (unfold is_int; lia).
    rewrite Z.quot_div_nonneg by lia. apply uint64_sint32_small.
    subst octets. lia. }
  unfold pack_DS. fold w. rewrite Hlength.
  destruct (set_bits_spec buf (sint32 octets) off 32 Hb Hoff ltac:(lia)
              ltac:(subst octets; lia))
    as (b1 & Hs1 & Hl1 & Hb1 & _).
  rewrite Hs1. cbn [bind].
  destruct (set_bits_spec b1 7 (off + 32) 8 Hb1 ltac:(lia) ltac:(lia)
              ltac:(subst octets; lia))
    as (b2 & Hs2 & Hl2 & Hb2 & _).
  rewrite Hs2. cbn [bind].
  fold N. rewrite (uint64_sint32_small N) by lia.
  assert (Hdec :
    forall (g : Unpackgrib2.GRIB2Metadata),
      Unpackgrib2.pack_width g = w ->
      Unpackgrib2.bitmap_marks (Unpackgrib2.bitmap g) (gridpoints msg)
        (Z.to_nat N) ->
      exists buf',
        pack_values (Z.to_nat N) msg
          (to_float (fpow (of_int 10) (of_int (D msg))))
          (to_float (fpow (of_int 2) (of_int (E msg)))) 0 b2 (off + 40)
        = Ok buf' /\
        length buf' = length b2 /\ bytes_ok buf' /\
        forall (s : Unpackgrib2.dscan),
          Unpackgrib2.idx s = 0 -> Unpackgrib2.off s = off + 40 ->
          exists s',
            for_loop (Z.to_nat N)
              (Unpackgrib2.unpack_point junk buf' g
                 (to_float (fpow (of_int 10) (of_int (Unpackgrib2.D g))))
                 (to_float (fpow (of_int 2) (of_int (Unpackgrib2.E g))))) s
            = Ok s' /\
            Unpackgrib2.points s'
            = Unpackgrib2.points s
              ++ map (fun gp => repacked msg g gp)
                   (take (Z.to_nat N) (gridpoints msg))).
  { intros g Hgw Hmarks.
    destruct (pack_unpack_values junk msg g (Z.to_nat N) Hw Hgw Hmarks
                (Z.to_nat N) 0%nat b2 (off + 40) Hb2 ltac:(lia)
                ltac:(subst octets; fold w; lia) ltac:(lia) ltac:(lia) ltac:(lia))
      as (buf' & Hp & Hl & Hb' & _ & Hloop).
    exists buf'. split; [exact Hp |]. split; [exact Hl |].
    split; [exact Hb' |]. intros s Hidx Hoff'.
    apply (Hloop buf' s Hb'); [reflexivity | exact Hidx | exact Hoff']. }
  destruct (pack_values_ok msg
              (to_float (fpow (of_int 10) (of_int (D msg))))
              (to_float (fpow (of_int 2) (of_int (E msg)))) Hw
              (Z.to_nat N) 0%nat b2 (off + 40) Hb2 ltac:(lia)
              ltac:(subst octets; fold w; lia) ltac:(lia) ltac:(lia))
    as (b3 & Hp & Hl3 & _).
  rewrite Hp. cbn [bind].
  exists b3. split; [reflexivity |]. split; [congruence |].
  intros m grid_num gr Hbuf Hm Ht Hnx Hny Hgw Hmarks Hgr.
  destruct (Hdec (Unpackgrib2.msg_md m) Hgw Hmarks)
    as (b3' & Hp' & _ & _ & Hloop).
  rewrite Hp in Hp'. injection Hp' as <-.
  unfold Unpackgrib2.unpack_DS. cbv zeta. rewrite Ht, Hnx, Hny, Hbuf, Hm.
  rewrite Nat2Z.id, Hgr.
  replace (ny msg * nx msg) with N by (subst N; lia).
  rewrite (uint64_sint32_small N) by lia.
  rewrite (uint64_small (off + 40)) by (subst octets; lia).
  destruct (Hloop {| Unpackgrib2.idx := 0; Unpackgrib2.off := off + 40;
                     Unpackgrib2.points := [] |} eq_refl eq_refl)
    as (s' & Hs' & Hpts).
  rewrite Hs'. cbn [bind]. cbn [Unpackgrib2.points app] in Hpts.
  eexists _, _. split; [reflexivity |].
  unfold Unpackgrib2.with_grids. cbn [Unpackgrib2.grids].
  split; [apply list_lookup_insert_eq; exact (lookup_lt_Some _ _ _ Hgr) |].
  unfold Unpackgrib2.with_gridpoints. cbn [Unpackgrib2.gridpoints].
  rewrite Hpts.
  apply take_app_length'.
  rewrite length_map, length_take. lia.
Qed.

(** the code of a scale factor, read as a sign bit and 15 bits *)
Lemma scale_code_read (x : Z) :
  - 2 ^ 15 < x < 2 ^ 15 ->
  exists code,
    scale_code x = Ok code /\
    (if low_bits 1 (Z.shiftr code 15) =? 1
     then sint32 (- low_bits 15 code) else low_bits 15 code) = x.
Proof.
  intros Hx. unfold scale_code.
  assert (Habs : (Z.abs x <? 2 ^ 23) = true) by (apply Z.ltb_lt; lia).
  rewrite Habs. eexists. split; [reflexivity |].
  unfold low_bits. change (1 =? 32) with false. change (15 =? 32) with false.
  cbv iota. rewrite Z.shiftr_div_pow2 by lia.
  change (2 ^ 15) with 32768 in *. change (2 ^ 1) with 2.
  destruct (Z.ltb_spec x 0).
  - assert (H1 : (32768 - x) / 32768 mod 2 = 1)
      by (Z.div_mod_to_equations; lia).
    assert (H2 : (32768 - x) mod 32768 = - x)
      by (Z.div_mod_to_equations; lia).
    rewrite H1, H2. change (1 =? 1) with true. cbv iota.
    rewrite Z.opp_involutive. apply sint32_id. unfold is_int. lia.
  - assert (H1 : x / 32768 mod 2 = 0) by (Z.div_mod_to_equations; lia).
    assert (H2 : x mod 32768 = x) by (Z.div_mod_to_equations; lia).
    rewrite H1, H2. reflexivity.
Qed.

Lemma DRS_windows (bits_of_float : double -> Z) (n : nat)
    (off Ecode Dcode : Z) (msg : GRIBMessage) :
  0 <= off -> off + 168 <= 8 * Z.of_nat n ->
  Forall (window_ok n) (DRS_writes bits_of_float off Ecode Dcode msg) /\
  pairwise_apart (DRS_writes bits_of_float off Ecode Dcode msg).
Proof.
  intros Hoff Hlen. unfold DRS_writes. cbn [pairwise_apart].
  split; apart_tac.
Qed.

(** X14.  The Data Representation Section that [pack_DRS] of grib1to2.c
    writes is read back by [unpack_DRS] of unpackgrib2.c as template 0:
    the number of packed values is [nx * ny], the binary and the decimal
    scale factor, of magnitude below [2^15] and coded as a sign bit and
    15 bits, and the pack width are those of the GRIB1 message, and the
    reference value is the [float] whose storage [pack_DRS] has written,
    divided by [10^D].  [bits_of_float] and [float_of_bits] are the two
    readings of the storage that an [int] and a [float] share. *)
Theorem pack_DRS_unpack_DRS (bits_of_float : double -> Z)
    (float_of_bits : Z -> double) (msg : GRIBMessage) (buf : list Z)
    (off : Z) :
  let ref := to_float (fmul (ref_val msg) (fpow (of_int 10) (of_int (D msg)))) in
  bytes_ok buf -> 0 <= off -> off + 168 <= 8 * Z.of_nat (length buf) ->
  off + 168 < 2 ^ 31 ->
  0 <= nx msg * ny msg < 2 ^ 31 ->
  - 2 ^ 15 < E msg < 2 ^ 15 -> - 2 ^ 15 < D msg < 2 ^ 15 ->
  0 <= pack_width msg < 2 ^ 8 ->
  is_int (bits_of_float ref) ->
  exists buf',
    pack_DRS bits_of_float msg buf off = Ok (buf', off + 168) /\
    length buf' = length buf /\
    forall m : Unpackgrib2.GRIB2Message,
      Unpackgrib2.buffer m = buf' -> Unpackgrib2.offset m = off ->
      Unpackgrib2.unpack_DRS float_of_bits m
      = Ok (Unpackgrib2.with_md m
              (Unpackgrib2.with_DRS (Unpackgrib2.msg_md m)
                 (nx msg * ny msg) 0
                 (to_float
                    (fdiv (float_of_bits (bits_of_float ref))
                       (fpow (of_int 10) (of_int (D msg)))))
                 (E msg) (D msg) (pack_width msg)),
            0).
Proof.
  intros ref Hb Hoff Hlen Hmax HN HE HD Hw Hbits.
  destruct (scale_code_read (E msg) HE) as (Ecode & HEc & HEr).
  destruct (scale_code_read (D msg) HD) as (Dcode & HDc & HDr).
  unfold pack_DRS. rewrite HEc, HDc. cbn [bind].
  destruct (DRS_windows bits_of_float (length buf) off Ecode Dcode msg Hoff Hlen)
    as [Hok Hapart].
  destruct (set_bits_all_bits buf _ Hb Hok Hapart)
    as (buf' & Hs & Hl & Hb' & Hwritten & _).
  assert (Hget : forall o n v loc,
            In (o, n, v) (DRS_writes bits_of_float off Ecode Dcode msg) ->
            get_bits buf' loc o n = Ok (low_bits n v)).
  { intros o n v loc Hin.
    exact (set_bits_all_get buf buf' _ o n v loc Hb Hok Hapart Hs Hin). }
  rewrite Hs. cbn [bind].
  exists buf'. split; [reflexivity |]. split; [exact Hl |].
  intros m Hbuf Hm.
  (* a scale factor, read as a sign bit and 15 bits *)
  assert (Hscale : forall o code loc loc',
            In (o, 16, code) (DRS_writes bits_of_float off Ecode Dcode msg) ->
            0 <= o ->
            get_bits buf' loc o 1 = Ok (low_bits 1 (Z.shiftr code 15)) /\
            get_bits buf' loc' (o + 1) 15 = Ok (low_bits 15 code)).
  { intros o code loc loc' Hin Ho. split.
    - apply get_bits_of_bits; [exact Hb' | exact Ho | lia |].
      intros i Hi. rewrite (Hwritten o 16 code i Hin) by lia.
      rewrite Z.shiftr_spec by lia. f_equal. lia.
    - apply get_bits_of_bits; [exact Hb' | lia | lia |].
      intros i Hi. rewrite (Hwritten o 16 code i Hin) by lia.
      f_equal. lia. }
  unfold Unpackgrib2.unpack_DRS, Unpackgrib2.bit_offset.
  rewrite Hbuf, Hm. rewrite !uint64_sint32_small by lia.
  unfold DRS_writes in Hget, Hscale.
  erewrite (Hget (off + 40) 32 _ _) by in_writes. cbn [bind].
  erewrite (Hget (off + 72) 16 _ _) by in_writes. cbn [bind].
  change (low_bits 16 0) with 0. cbv iota.
  erewrite (Hget (off + 88) 32 _ _) by in_writes. cbn [bind].
  destruct (Hscale (off + 120) Ecode 0 0 ltac:(in_writes) ltac:(lia))
    as [HsE HvE].
  replace (off + 121) with (off + 120 + 1) by lia.
  rewrite HsE, HvE. cbn [bind].
  destruct (Hscale (off + 136) Dcode 0 0 ltac:(in_writes) ltac:(lia))
    as [HsD HvD].
  replace (off + 137) with (off + 136 + 1) by lia.
  rewrite HsD, HvD. cbn [bind].
  erewrite (Hget (off + 152) 8 _ _) by in_writes. cbn [bind].
  erewrite (Hget (off + 160) 8 _ _) by in_writes. cbn [bind].
  rewrite HEr, HDr.
  rewrite (low_bits_small 8 (pack_width msg)) by lia.
  change (low_bits 8 0) with 0.
  assert (HlowN : low_bits 32 (sint32 (nx msg * ny msg)) = nx msg * ny msg).
  { unfold low_bits. change (32 =? 32) with true. cbv iota.
    rewrite !(sint32_id (nx msg * ny msg)) by (unfold is_int; lia).
    reflexivity. }
  assert (HlowR : low_bits 32 (bits_of_float ref) = bits_of_float ref).
  { unfold low_bits. change (32 =? 32) with true. cbv iota.
    apply sint32_id. exact Hbits. }
  rewrite HlowN. fold ref. rewrite HlowR. reflexivity.
Qed.

End WithFloats.

Import Exact Examples.

Lemma pack_DS_unpack_DS_witness :
  let msg := decoded_grid masked_message in
  let buf := replicate 9 255 in
  let N := nx msg * ny msg in
  let octets := 5 + (N * pack_width msg + 7) / 8 in
  exists buf',
    pack_DS msg buf 0 = Ok (buf', 0 + octets * 8) /\
    length buf' = length buf /\
    forall (m : Unpackgrib2.GRIB2Message) (grid_num : nat)
           (gr : Unpackgrib2.GRIB2Grid),
      Unpackgrib2.buffer m = buf' -> Unpackgrib2.offset m = 0 ->
      Unpackgrib2.drs_templ_num (Unpackgrib2.msg_md m) = 0 ->
      Unpackgrib2.nx (Unpackgrib2.msg_md m) = nx msg ->
      Unpackgrib2.ny (Unpackgrib2.msg_md m) = ny msg ->
      Unpackgrib2.pack_width (Unpackgrib2.msg_md m) = pack_width msg ->
      Unpackgrib2.bitmap_marks (Unpackgrib2.bitmap (Unpackgrib2.msg_md m))
        (gridpoints msg) (Z.to_nat N) ->
      Unpackgrib2.grids m !! grid_num = Some gr ->
      exists m' gr',
        Unpackgrib2.unpack_DS (fun _ => 0) m (Z.of_nat grid_num) = Ok m' /\
        Unpackgrib2.grids m' !! grid_num = Some gr' /\
        take (Z.to_nat N) (Unpackgrib2.gridpoints gr')
        = map (fun gp => repacked msg (Unpackgrib2.msg_md m) gp)
            (take (Z.to_nat N) (gridpoints msg)).
Proof.
  apply (pack_DS_unpack_DS (fun _ => 0) (decoded_grid masked_message)
           (replicate 9 255) 0);
    first [bytes_ok_tac | by_compute].
Defined.

Lemma pack_DRS_unpack_DRS_witness :
  let bits_of_float := fun _ : double => 1065353216 in
  let float_of_bits := fun _ : Z => of_int 1 in
  let msg := decoded_grid masked_message in
  let buf := replicate 21 255 in
  let ref := to_float (fmul (ref_val msg) (fpow (of_int 10) (of_int (D msg)))) in
  exists buf',
    pack_DRS bits_of_float msg buf 0 = Ok (buf', 0 + 168) /\
    length buf' = length buf /\
    forall m : Unpackgrib2.GRIB2Message,
      Unpackgrib2.buffer m = buf' -> Unpackgrib2.offset m = 0 ->
      Unpackgrib2.unpack_DRS float_of_bits m
      = Ok (Unpackgrib2.with_md m
              (Unpackgrib2.with_DRS (Unpackgrib2.msg_md m)
                 (nx msg * ny msg) 0
                 (to_float
                    (fdiv (float_of_bits (bits_of_float ref))
                       (fpow (of_int 10) (of_int (D msg)))))
                 (E msg) (D msg) (pack_width msg)),
            0).
Proof.
  intros bits_of_float float_of_bits.
  apply (pack_DRS_unpack_DRS bits_of_float float_of_bits
           (decoded_grid masked_message) (replicate 21 255) 0);
    first [bytes_ok_tac | by_compute].
Defined.

End DataFacts.

(** ** The Bit Map and Binary Data Sections written by grib2to1.c and
    read by unpackgrib1.c *)
Module BinaryDataFacts.
Import CInt BitStream BitStreamFacts BitStreamAlgebra ResultFacts.
Import SectionFacts DataFacts.
Import Unpackgrib1 Grib2to1.

Lemma window_in (a b i : Z) : a <= i < b -> (a <=? i) && (i <? b) = true.
Proof.
  intros Hi. apply andb_true_iff. split; [apply Z.leb_le | apply Z.ltb_lt]; lia.
Qed.

Lemma window_out (a b i : Z) :
  i < a \/ b <= i -> (a <=? i) && (i <? b) = false.
Proof.
  intros Hi. apply andb_false_iff.
  destruct Hi; [left; apply Z.leb_gt | right; apply Z.ltb_ge]; lia.
Qed.

(** the window tests of the goal, decided by their bounds *)
Ltac window_tac :=
  repeat match goal with
         | |- context [(?a <=? ?i) && (?i <? ?b)] =>
             first [ rewrite (window_in a b i) by lia
                   | rewrite (window_out a b i) by lia ]
         end.

(** a field read from two buffers, at two places that hold the same bits *)
Lemma get_bits_window (b1 b2 : list Z) (loc1 loc2 o1 o2 bits : Z) :
  bytes_ok b1 -> bytes_ok b2 -> 0 <= o1 -> 0 <= o2 -> 1 <= bits <= 32 ->
  (forall j, 0 <= j < bits -> bit_at b1 (o1 + j) = bit_at b2 (o2 + j)) ->
  get_bits b1 loc1 o1 bits = get_bits b2 loc2 o2 bits.
Proof.
  intros Hb1 Hb2 Ho1 Ho2 Hbits Hsame.
  destruct (get_bits_spec b1 loc1 o1 bits Hb1 Ho1 Hbits)
    as (v1 & Hv1 & Hbit1 & Hr1 & Hi1).
  destruct (get_bits_spec b2 loc2 o2 bits Hb2 Ho2 Hbits)
    as (v2 & Hv2 & Hbit2 & Hr2 & Hi2).
  rewrite Hv1, Hv2. f_equal.
  apply (get_bits_value_unique bits); try assumption.
  intros k Hk. rewrite Hbit1, Hbit2 by exact Hk.
  replace (o1 + bits - 1 - k) with (o1 + (bits - 1 - k)) by lia.
  replace (o2 + bits - 1 - k) with (o2 + (bits - 1 - k)) by lia.
  apply Hsame. lia.
Qed.

(** a field whose bits are those of a value that fits it *)
Lemma read_field (b : list Z) (o n v loc : Z) :
  bytes_ok b -> 0 <= o -> 1 <= n < 32 -> 0 <= v < 2 ^ n ->
  (forall i, o <= i < o + n -> bit_at b i = Z.testbit v (o + n - 1 - i)) ->
  get_bits b loc o n = Ok v.
Proof.
  intros Hb Ho Hn Hv Hbits.
  rewrite (get_bits_of_bits b loc o n v Hb Ho ltac:(lia) Hbits).
  rewrite low_bits_small by lia. reflexivity.
Qed.

(** the bits of the final buffer, through the writes that follow *)
Ltac chase H7 H6 H5 H4 H3 H2 H1 G4 G3 G2 G1 :=
  rewrite ?H7 by lia; rewrite ?H6 by lia; rewrite ?H5 by lia;
  rewrite ?H4 by lia; rewrite ?H3 by lia; rewrite ?H2 by lia;
  rewrite ?H1 by lia; rewrite ?G4 by lia; rewrite ?G3 by lia;
  rewrite ?G2 by lia; rewrite ?G1 by lia; window_tac.

(** the bits of a buffer into which [memcpy] has copied bytes *)
Lemma bit_at_inserts (k : nat) (bytes b : list Z) (i : Z) :
  (k + length bytes <= length b)%nat -> 0 <= i ->
  bit_at (list_inserts k bytes b) i =
    if (8 * Z.of_nat k <=? i) && (i <? 8 * Z.of_nat (k + length bytes))
    then bit_at bytes (i - 8 * Z.of_nat k) else bit_at b i.
Proof.
  intros Hlen Hi. unfold bit_at, byte_at.
  pose proof (Z.div_mod i 8 ltac:(lia)) as Hdm.
  pose proof (Z.mod_pos_bound i 8 ltac:(lia)) as Hm.
  destruct (Z.leb_spec (8 * Z.of_nat k) i);
    destruct (Z.ltb_spec i (8 * Z.of_nat (k + length bytes))); cbn [andb].
  - rewrite list_lookup_total_inserts by lia.
    replace (Z.to_nat ((i - 8 * Z.of_nat k) / 8))
      with (Z.to_nat (i / 8) - k)%nat.
    + replace ((i - 8 * Z.of_nat k) mod 8) with (i mod 8); [reflexivity |].
      replace (i - 8 * Z.of_nat k) with (i + (- Z.of_nat k) * 8) by lia.
      rewrite Z.mod_add by lia. reflexivity.
    + replace (i - 8 * Z.of_nat k) with (i + (- Z.of_nat k) * 8) by lia.
      rewrite Z.div_add by lia. lia.
  - rewrite list_lookup_total_inserts_ge by lia. reflexivity.
  - rewrite list_lookup_total_inserts_lt by lia. reflexivity.
  - lia.
Qed.

(** the loop of [packBDS] writes the low [w] bits of each value, one
    after the other, and the loop of [unpack_BDS] that fills [packed]
    reads them back from any buffer that holds these bits *)
Lemma pack_ints_unpack_packed (pvals1 : list Z) (w : Z) :
  1 <= w <= 32 ->
  forall (count m : nat) (buf : list Z) (o : Z),
    bytes_ok buf -> 0 <= o ->
    o + Z.of_nat count * w <= 8 * Z.of_nat (length buf) ->
    8 * Z.of_nat (length buf) < 2 ^ 31 ->
    (m + count <= length pvals1)%nat ->
    exists buf',
      pack_ints count pvals1 m buf o w = Ok buf' /\
      length buf' = length buf /\ bytes_ok buf' /\
      (forall i, 0 <= i < o -> bit_at buf' i = bit_at buf i) /\
      forall bfin : list Z,
        bytes_ok bfin ->
        (forall i, o <= i < o + Z.of_nat count * w ->
           bit_at bfin i = bit_at buf' i) ->
        unpack_packed count bfin o w
        = Ok (map (low_bits w) (take count (drop m pvals1)),
              o + Z.of_nat count * w).
Proof.
  intros Hw. induction count as [| c IH]; intros m buf o Hb Ho Hlen Hmax Hm.
  - exists buf. split; [reflexivity |]. split; [reflexivity |].
    split; [exact Hb |]. split; [reflexivity |].
    intros bfin _ _. cbn [unpack_packed]. rewrite take_0. cbn [map].
    do 2 f_equal. lia.
  - destruct (lookup_lt_is_Some_2 pvals1 m ltac:(lia)) as [v Hv].
    cbn [pack_ints]. rewrite Hv.
    destruct (set_bits_spec buf v o w Hb Ho Hw ltac:(lia))
      as (b1 & Hs1 & Hl1 & Hb1 & Hbits1).
    rewrite Hs1. cbn [bind]. rewrite (uint64_small (o + w)) by lia.
    destruct (IH (S m) b1 (o + w) Hb1 ltac:(lia) ltac:(lia) ltac:(lia)
                ltac:(lia)) as (buf' & Hp & Hl & Hb' & Hlow & Hdec).
    exists buf'. split; [exact Hp |]. split; [congruence |].
    split; [exact Hb' |]. split.
    { intros i Hi. rewrite Hlow by lia. rewrite Hbits1 by lia.
      window_tac. reflexivity. }
    intros bfin Hbf Hagree.
    cbn [unpack_packed].
    assert (Hread : get_bits bfin 0 o w = Ok (low_bits w v)).
    { apply get_bits_of_bits; [exact Hbf | exact Ho | exact Hw |].
      intros i Hi. rewrite Hagree by lia. rewrite Hlow by lia.
      rewrite Hbits1 by lia. window_tac. reflexivity. }
    rewrite Hread. cbn [bind].
    rewrite (Hdec bfin Hbf) by (intros i Hi; apply Hagree; lia).
    cbn [bind fst snd].
    rewrite (drop_S _ v m Hv). cbn [take firstn map].
    do 2 f_equal. lia.
Qed.

Section WithFloats.
Context `{FloatOps}.

(** [count_ones] from place [m] on looks at no entry beyond
    [m + count] *)
Lemma count_ones_take (l : list Z) :
  forall (count m : nat),
    count_ones count (take (m + count) l) m = count_ones count l m.
Proof.
  induction count as [| c IH]; intros m; [reflexivity |].
  cbn [count_ones]. unfold array_at.
  rewrite lookup_take_lt by lia.
  destruct (l !! m) as [b |]; cbn [bind]; [| reflexivity].
  replace (m + S c)%nat with (S m + c)%nat by lia.
  rewrite IH. reflexivity.
Qed.

Lemma ibm2real_ok (buf : list Z) (off : Z) :
  exists x, ibm2real buf off = Ok x.
Proof.
  unfold ibm2real.
  destruct (Unpackgrib2Facts.get_bits_ok buf 0 off 1 ltac:(lia)) as [s ->].
  destruct (Unpackgrib2Facts.get_bits_ok buf 0 (off + 1) 7 ltac:(lia)) as [x ->].
  destruct (Unpackgrib2Facts.get_bits_ok buf 0 (off + 8) 24 ltac:(lia)) as [f ->].
  cbn [bind]. eexists. reflexivity.
Qed.

Lemma count_ones_bounds (l : list Z) :
  forall (count m : nat) (c : Z),
    count_ones count l m = Ok c -> 0 <= c <= Z.of_nat count.
Proof.
  induction count as [| cnt IH]; intros m c Hc.
  - injection Hc as <-. lia.
  - cbn [count_ones] in Hc. unfold array_at in Hc.
    destruct (l !! m) as [b |]; cbn [bind] in Hc; [| discriminate Hc].
    destruct (count_ones cnt l (S m)) as [rest | err] eqn:Hrest;
      cbn [bind] in Hc; [| discriminate Hc].
    injection Hc as <-. specialize (IH (S m) rest Hrest).
    destruct (b =? 1); lia.
Qed.

(** the loop of [unpack_BDS] over the gridpoints, with a bit map and the
    array [packed] *)
Lemma unpack_points_spread (bl : Z) (bitmap1 packed : list Z)
    (ref e d : double) :
  bl <> 0 ->
  forall (count n k : nat) (c : Z) (s : scan),
    bcnt s = Z.of_nat n -> pcnt s = Z.of_nat k ->
    (n + count <= length bitmap1)%nat ->
    count_ones count bitmap1 n = Ok c ->
    Z.of_nat k + c <= Z.of_nat (length packed) ->
    0 <= c /\
    exists s',
      for_loop count
        (unpack_point true bl bitmap1 (Some packed) ref e d) s = Ok s' /\
      points s'
      = points s
        ++ spread (take count (drop n bitmap1))
             (map (fun v => fadd ref (fdiv (fmul (of_int v) e) d))
                (take (Z.to_nat c) (drop k packed))).
Proof.
  intros Hbl. induction count as [| cnt IH];
    intros n k c s Hn Hk Hlen Hc Hpk.
  - cbn [count_ones] in Hc. injection Hc as <-. split; [lia |].
    exists s. split; [reflexivity |].
    rewrite take_0. cbn [spread]. rewrite app_nil_r. reflexivity.
  - destruct (lookup_lt_is_Some_2 bitmap1 n ltac:(lia)) as [b Hb].
    cbn [count_ones] in Hc. unfold array_at in Hc. rewrite Hb in Hc.
    cbn [bind] in Hc.
    destruct (count_ones cnt bitmap1 (S n)) as [rest | err] eqn:Hrest;
      cbn [bind] in Hc; [| discriminate Hc].
    injection Hc as <-.
    rewrite (drop_S _ b n Hb). cbn [take firstn spread].
    cbn [for_loop]. unfold unpack_point at 1.
    assert (Hz : (bl =? 0) = false) by (apply Z.eqb_neq; exact Hbl).
    rewrite Hz, Hn, Nat2Z.id, Hb. cbn [bind fst snd].
    destruct (b =? 1) eqn:Hb1.
    + (* a marked point takes the next packed value *)
      destruct (IH (S n) (S k) rest
                  {| bcnt := Z.of_nat n + 1; pcnt := pcnt s + 1;
                     points := points s ++ [GRIB_MISSING_VALUE] |}
                  ltac:(cbn; lia) ltac:(cbn; lia) ltac:(lia) Hrest)
        as [Hrest0 _]; [lia |].
      destruct (lookup_lt_is_Some_2 packed k ltac:(lia)) as [v Hv].
      rewrite Hk, Nat2Z.id, Hv.
      destruct (IH (S n) (S k) rest
                  {| bcnt := Z.of_nat n + 1; pcnt := Z.of_nat k + 1;
                     points := points s
                               ++ [fadd ref (fdiv (fmul (of_int v) e) d)] |}
                  ltac:(cbn; lia) ltac:(cbn; lia) ltac:(lia) Hrest
                  ltac:(lia))
        as (_ & s' & Hloop & Hpts).
      split; [lia |]. exists s'. split; [exact Hloop |].
      rewrite Hpts. cbn [points]. rewrite <- app_assoc. cbn [app].
      replace (Z.to_nat (rest + 1)) with (S (Z.to_nat rest)) by lia.
      rewrite (drop_S _ v k Hv). cbn [take firstn map]. reflexivity.
    + destruct (IH (S n) k rest
                  {| bcnt := Z.of_nat n + 1; pcnt := pcnt s;
                     points := points s ++ [GRIB_MISSING_VALUE] |}
                  ltac:(cbn; lia) Hk ltac:(lia) Hrest Hpk)
        as (Hrest0 & s' & Hloop & Hpts).
      split; [lia |]. exists s'. split; [exact Hloop |].
      rewrite Hpts. cbn [points]. rewrite <- app_assoc. reflexivity.
Qed.

(** what [packBDS] leaves at bit [off1] of the buffer, as [unpack_BDS]
    reads it; [code] is the scale factor as written *)
Lemma packBDS_fields (pvals1 ibm_rep c4 : list Z) (E1 pw ntp off1 : Z) :
  let bds_octets := 11 + (ntp * pw + 7) / 8 in
  bytes_ok c4 -> bytes_ok ibm_rep -> length ibm_rep = 4%nat ->
  0 <= off1 -> off1 mod 8 = 0 ->
  0 <= ntp <= Z.of_nat (length pvals1) ->
  1 <= pw <= 32 -> - 2 ^ 15 < E1 < 2 ^ 15 ->
  off1 + 8 * bds_octets <= 8 * Z.of_nat (length c4) ->
  Z.of_nat (length c4) < 2 ^ 24 ->
  exists d7 code,
    packBDS E1 ibm_rep c4 off1 pvals1 ntp pw = Ok d7 /\
    length d7 = length c4 /\ bytes_ok d7 /\
    (forall i, 0 <= i < off1 -> bit_at d7 i = bit_at c4 i) /\
    (if low_bits 1 (Z.shiftr code 15) =? 1
     then - low_bits 15 code else low_bits 15 code) = E1 /\
    (forall loc, get_bits d7 loc off1 24 = Ok bds_octets) /\
    (forall loc, get_bits d7 loc (off1 + 24) 4 = Ok 0) /\
    (forall loc, get_bits d7 loc (off1 + 28) 4
                 = Ok (8 * ((ntp * pw + 7) / 8) - ntp * pw)) /\
    (forall loc, get_bits d7 loc (off1 + 80) 8 = Ok pw) /\
    (forall loc, get_bits d7 loc (off1 + 32) 1
                 = Ok (low_bits 1 (Z.shiftr code 15))) /\
    (forall loc, get_bits d7 loc (off1 + 33) 15 = Ok (low_bits 15 code)) /\
    ibm2real d7 (off1 + 48) = ibm2real ibm_rep 0 /\
    unpack_packed (Z.to_nat ntp) d7 (off1 + 88) pw
    = Ok (map (low_bits pw) (take (Z.to_nat ntp) pvals1),
          off1 + 88 + ntp * pw).
Proof.
  intros bds_octets Hbc4 Hibm Hibm4 Hoff1p Hal1 Hntp Hpw HE Hfit Hmax.
  set (bits := ntp * pw) in *.
  set (q2 := (bits + 7) / 8) in *.
  assert (Hbits : 0 <= bits) by (subst bits; nia).
  assert (Hq2 : 0 <= q2 /\ bits <= 8 * q2 < bits + 8).
  { subst q2. Z.div_mod_to_equations. lia. }
  unfold packBDS.
  assert (Hbits64 : uint64 (ntp * pw) = bits)
    by (apply uint64_small; subst bds_octets; fold bits; lia).
  rewrite Hbits64.
  assert (Hlen2 : sint32 (uint64 (11 + uint64 (bits + 7) / 8)) = bds_octets).
  { rewrite (uint64_small (bits + 7)) by (subst bds_octets; lia). fold q2.
    rewrite uint64_small by (subst bds_octets; lia).
    apply sint32_id. unfold is_int. subst bds_octets. lia. }
  rewrite Hlen2.
  assert (Hub2 : sint32 (uint64 (sint32 ((bds_octets - 11) * 8) - bits))
                 = 8 * q2 - bits).
  { rewrite (sint32_id ((bds_octets - 11) * 8))
      by (unfold is_int; subst bds_octets; lia).
    replace ((bds_octets - 11) * 8 - bits) with (8 * q2 - bits)
      by (subst bds_octets; lia).
    rewrite uint64_small by lia. apply sint32_id. unfold is_int. lia. }
  rewrite Hub2.
  destruct (scale_code_read E1 HE) as (code & Hcode & HEread).
  assert (HE2 : (if E1 <? 0 then sint32 (- E1 + 32768) else E1) = code).
  { unfold Grib1to2.scale_code in Hcode.
    assert (Habs : (Z.abs E1 <? 2 ^ 23) = true) by (apply Z.ltb_lt; lia).
    rewrite Habs in Hcode. injection Hcode as <-.
    destruct (E1 <? 0); [| reflexivity].
    rewrite sint32_id by (unfold is_int; lia). lia. }
  rewrite HE2.
  rewrite (uint64_small (off1 + 24)), (uint64_small (off1 + 28)),
    (uint64_small (off1 + 32)), (uint64_small (off1 + 48)),
    (uint64_small (off1 + 80)), (uint64_small (off1 + 88))
    by (subst bds_octets; lia).
  rewrite (sint32_id pw) by (unfold is_int; lia).
  destruct (set_bits_spec c4 bds_octets off1 24 Hbc4 Hoff1p ltac:(lia)
              ltac:(subst bds_octets; lia))
    as (d1 & Hd1 & Hld1 & Hbd1 & Hbd1bits).
  rewrite Hd1. cbn [bind].
  destruct (set_bits_spec d1 0 (off1 + 24) 4 Hbd1 ltac:(lia) ltac:(lia)
              ltac:(subst bds_octets; lia))
    as (d2 & Hd2 & Hld2 & Hbd2 & Hbd2bits).
  rewrite Hd2. cbn [bind].
  destruct (set_bits_spec d2 (8 * q2 - bits) (off1 + 28) 4 Hbd2 ltac:(lia)
              ltac:(lia) ltac:(subst bds_octets; lia))
    as (d3 & Hd3 & Hld3 & Hbd3 & Hbd3bits).
  rewrite Hd3. cbn [bind].
  destruct (set_bits_spec d3 code (off1 + 32) 16 Hbd3 ltac:(lia)
              ltac:(lia) ltac:(subst bds_octets; lia))
    as (d4 & Hd4 & Hld4 & Hbd4 & Hbd4bits).
  rewrite Hd4. cbn [bind].
  set (at_byte := Z.to_nat ((off1 + 48) / 8)).
  assert (Hat : 8 * Z.of_nat at_byte = off1 + 48).
  { subst at_byte. rewrite Z2Nat.id by (apply Z.div_pos; lia).
    assert ((off1 + 48) mod 8 = 0).
    { rewrite <- Zplus_mod_idemp_l, Hal1. reflexivity. }
    pose proof (Z.div_mod (off1 + 48) 8 ltac:(lia)). lia. }
  assert (Hl_d4 : length d4 = length c4) by congruence.
  assert (Hroom : (length d4 <? at_byte + 4)%nat = false).
  { apply Nat.ltb_ge. subst bds_octets. lia. }
  rewrite Hroom.
  rewrite (take_ge ibm_rep) by lia.
  set (d5 := list_inserts at_byte ibm_rep d4).
  assert (Hbd5 : bytes_ok d5) by (apply Forall_inserts; assumption).
  assert (Hld5 : length d5 = length c4)
    by (subst d5; rewrite length_inserts; exact Hl_d4).
  assert (Hbd5bits : forall i, 0 <= i ->
            bit_at d5 i =
              if (off1 + 48 <=? i) && (i <? off1 + 48 + 32)
              then bit_at ibm_rep (i - (off1 + 48)) else bit_at d4 i).
  { intros i Hi. subst d5.
    rewrite bit_at_inserts by (try exact Hi; subst bds_octets; lia).
    rewrite Hat, Nat2Z.inj_add, Z.mul_add_distr_l, Hat, Hibm4.
    reflexivity. }
  destruct (set_bits_spec d5 pw (off1 + 80) 8 Hbd5 ltac:(lia)
              ltac:(lia) ltac:(subst bds_octets; lia))
    as (d6 & Hd6 & Hld6 & Hbd6 & Hbd6bits).
  rewrite Hd6. cbn [bind].
  destruct (pack_ints_unpack_packed pvals1 pw Hpw (Z.to_nat ntp) 0%nat d6
              (off1 + 88) Hbd6 ltac:(lia)
              ltac:(rewrite Z2Nat.id by lia; fold bits;
                    subst bds_octets; lia)
              ltac:(lia) ltac:(lia))
    as (d7 & Hd7 & Hld7 & Hbd7 & Hlow7 & Hdec7).
  rewrite Hd7.
  exists d7, code. split; [reflexivity |]. split; [congruence |].
  split; [exact Hbd7 |].
  pose proof (eq_refl : bds_octets = 11 + q2) as Hbdsdef.
  assert (Hframe : forall i, 0 <= i < off1 -> bit_at d7 i = bit_at c4 i).
  { intros i Hi.
    chase Hlow7 Hbd6bits Hbd5bits Hbd4bits Hbd3bits Hbd2bits Hbd1bits
      Hlow7 Hlow7 Hlow7 Hlow7.
    reflexivity. }
  split; [exact Hframe |].
  assert (HE' : (if low_bits 1 (Z.shiftr code 15) =? 1
                 then - low_bits 15 code else low_bits 15 code) = E1).
  { destruct (low_bits_spec 15 code ltac:(lia)) as (_ & Hr & _).
    specialize (Hr ltac:(lia)).
    rewrite (sint32_id (- low_bits 15 code)) in HEread
      by (unfold is_int; lia).
    exact HEread. }
  split; [exact HE' |].
  assert (RD : forall loc, get_bits d7 loc off1 24 = Ok bds_octets).
  { intros loc. apply read_field; [exact Hbd7 | lia | lia | lia |].
    intros i Hi.
    chase Hlow7 Hbd6bits Hbd5bits Hbd4bits Hbd3bits Hbd2bits Hbd1bits
      Hlow7 Hlow7 Hlow7 Hlow7.
    reflexivity. }
  assert (RE : forall loc, get_bits d7 loc (off1 + 24) 4 = Ok 0).
  { intros loc. apply read_field; [exact Hbd7 | lia | lia | lia |].
    intros i Hi.
    chase Hlow7 Hbd6bits Hbd5bits Hbd4bits Hbd3bits Hbd2bits Hbd1bits
      Hlow7 Hlow7 Hlow7 Hlow7.
    reflexivity. }
  assert (RF : forall loc, get_bits d7 loc (off1 + 28) 4 = Ok (8 * q2 - bits)).
  { intros loc. apply read_field; [exact Hbd7 | lia | lia | lia |].
    intros i Hi.
    chase Hlow7 Hbd6bits Hbd5bits Hbd4bits Hbd3bits Hbd2bits Hbd1bits
      Hlow7 Hlow7 Hlow7 Hlow7.
    reflexivity. }
  assert (RG : forall loc, get_bits d7 loc (off1 + 80) 8 = Ok pw).
  { intros loc. apply read_field; [exact Hbd7 | lia | lia | lia |].
    intros i Hi.
    chase Hlow7 Hbd6bits Hbd5bits Hbd4bits Hbd3bits Hbd2bits Hbd1bits
      Hlow7 Hlow7 Hlow7 Hlow7.
    reflexivity. }
  assert (RH1 : forall loc,
            get_bits d7 loc (off1 + 32) 1 = Ok (low_bits 1 (Z.shiftr code 15))).
  { intros loc. apply get_bits_of_bits; [exact Hbd7 | lia | lia |].
    intros i Hi.
    chase Hlow7 Hbd6bits Hbd5bits Hbd4bits Hbd3bits Hbd2bits Hbd1bits
      Hlow7 Hlow7 Hlow7 Hlow7.
    rewrite Z.shiftr_spec by lia. f_equal. lia. }
  assert (RH2 : forall loc,
            get_bits d7 loc (off1 + 33) 15 = Ok (low_bits 15 code)).
  { intros loc. apply get_bits_of_bits; [exact Hbd7 | lia | lia |].
    intros i Hi.
    chase Hlow7 Hbd6bits Hbd5bits Hbd4bits Hbd3bits Hbd2bits Hbd1bits
      Hlow7 Hlow7 Hlow7 Hlow7.
    f_equal. lia. }
  assert (RI : ibm2real d7 (off1 + 48) = ibm2real ibm_rep 0).
  { unfold ibm2real.
    rewrite (get_bits_window d7 ibm_rep 0 0 (off1 + 48) 0 1 Hbd7 Hibm
               ltac:(lia) ltac:(lia) ltac:(lia)).
    2:{ intros j Hj.
        chase Hlow7 Hbd6bits Hbd5bits Hbd4bits Hbd3bits Hbd2bits Hbd1bits
          Hlow7 Hlow7 Hlow7 Hlow7.
        f_equal. lia. }
    rewrite (get_bits_window d7 ibm_rep 0 0 (off1 + 48 + 1) (0 + 1) 7 Hbd7 Hibm
               ltac:(lia) ltac:(lia) ltac:(lia)).
    2:{ intros j Hj.
        chase Hlow7 Hbd6bits Hbd5bits Hbd4bits Hbd3bits Hbd2bits Hbd1bits
          Hlow7 Hlow7 Hlow7 Hlow7.
        f_equal. lia. }
    rewrite (get_bits_window d7 ibm_rep 0 0 (off1 + 48 + 8) (0 + 8) 24 Hbd7 Hibm
               ltac:(lia) ltac:(lia) ltac:(lia)).
    2:{ intros j Hj.
        chase Hlow7 Hbd6bits Hbd5bits Hbd4bits Hbd3bits Hbd2bits Hbd1bits
          Hlow7 Hlow7 Hlow7 Hlow7.
        f_equal. lia. }
    reflexivity. }
  pose proof (Hdec7 d7 Hbd7 (fun i _ => eq_refl)) as RJ.
  rewrite Z2Nat.id, drop_0 in RJ by lia.
  repeat split; assumption.
Qed.

(** the loop of [unpack_BDS] over the gridpoints, without a bit map *)
Lemma unpack_points_all (bitmap1 packed : list Z) (ref e d : double) :
  forall (count k : nat) (s : scan),
    pcnt s = Z.of_nat k -> (k + count <= length packed)%nat ->
    exists s',
      for_loop count
        (unpack_point true 0 bitmap1 (Some packed) ref e d) s = Ok s' /\
      points s'
      = points s
        ++ map (fun v => fadd ref (fdiv (fmul (of_int v) e) d))
             (take count (drop k packed)).
Proof.
  induction count as [| cnt IH]; intros k s Hk Hlen.
  - exists s. split; [reflexivity |]. rewrite take_0. cbn [map].
    rewrite app_nil_r. reflexivity.
  - destruct (lookup_lt_is_Some_2 packed k ltac:(lia)) as [v Hv].
    cbn [for_loop]. unfold unpack_point at 1.
    change (0 =? 0) with true. cbv iota. cbn [bind fst snd].
    rewrite Hk, Nat2Z.id, Hv.
    destruct (IH (S k)
                {| bcnt := bcnt s; pcnt := Z.of_nat k + 1;
                   points := points s
                             ++ [fadd ref (fdiv (fmul (of_int v) e) d)] |}
                ltac:(cbn; lia) ltac:(lia))
      as (s' & Hloop & Hpts).
    exists s'. split; [exact Hloop |].
    rewrite Hpts. cbn [points]. rewrite <- app_assoc. cbn [app].
    rewrite (drop_S _ v k Hv). reflexivity.
Qed.

(** X15.  The Binary Data Section that [packBDS] of grib2to1.c writes
    for a grid without a bit map is read back by [unpack_BDS] of
    unpackgrib1.c: the length of the section is [11 + (num_to_pack *
    pack_width + 7) / 8], the pack width and the binary scale factor, of
    magnitude below [2^15], are those written, the reference value is
    the IBM real of the four bytes copied, divided by [10^D], and
    gridpoint [n] is the reference value plus packed integer [n], cut to
    the pack width, times [2^E / 10^D].  [packBDS] changes no bit before
    the section. *)
Theorem packBDS_unpack_BDS_no_bitmap (junk : nat -> Z)
    (pvals1 ibm_rep buf : list Z) (E1 pw np off : Z) :
  let bds_octets := 11 + (np * pw + 7) / 8 in
  bytes_ok buf -> bytes_ok ibm_rep -> length ibm_rep = 4%nat ->
  0 <= off -> off mod 8 = 0 ->
  0 <= np <= Z.of_nat (length pvals1) ->
  1 <= pw <= 32 -> - 2 ^ 15 < E1 < 2 ^ 15 ->
  off + 8 * bds_octets <= 8 * Z.of_nat (length buf) ->
  Z.of_nat (length buf) < 2 ^ 24 ->
  exists b2,
    packBDS E1 ibm_rep buf off pvals1 np pw = Ok b2 /\
    length b2 = length buf /\
    (forall i, 0 <= i < off -> bit_at b2 i = bit_at buf i) /\
    forall m : GRIBMessage,
      buffer m = b2 -> offset m = off -> bms_included m <> 1 ->
      recognized_grid (data_rep m) = true ->
      skips_first_value (data_rep m) (grid_type m) = false ->
      ny m * nx m = np ->
      exists m' ibm,
        unpack_BDS junk m = Ok m' /\
        ibm2real ibm_rep 0 = Ok ibm /\
        bitmap_len m' = 0 /\ bds_len m' = bds_octets /\
        pack_width m' = pw /\ E m' = E1 /\
        ref_val m' = fdiv ibm (fpow (of_int 10) (of_int (D m))) /\
        take (Z.to_nat np) (gridpoints m')
        = map (fun v =>
                 fadd (ref_val m')
                   (fdiv (fmul (of_int (low_bits pw v))
                            (fpow (of_int 2) (of_int E1)))
                      (fpow (of_int 10) (of_int (D m)))))
            (take (Z.to_nat np) pvals1).
Proof.
  intros bds_octets Hb Hibm Hibm4 Hoff Hal Hnp Hpw HE Hlen Hmax.
  destruct (packBDS_fields pvals1 ibm_rep buf E1 pw np off Hb Hibm Hibm4
              Hoff Hal Hnp Hpw HE Hlen Hmax)
    as (d7 & code & Hd7 & Hld7 & Hbd7 & Hframe & HE' & RD & RE & RF & RG
        & RH1 & RH2 & RI & RJ).
  set (bits := np * pw) in *.
  set (q2 := (bits + 7) / 8) in *.
  assert (Hbits : 0 <= bits) by (subst bits; nia).
  assert (Hq2 : 0 <= q2 /\ bits <= 8 * q2 < bits + 8).
  { subst q2. Z.div_mod_to_equations. lia. }
  pose proof (eq_refl : bds_octets = 11 + q2) as Hbdsdef.
  fold bds_octets in RD.
  exists d7. split; [exact Hd7 |]. split; [exact Hld7 |].
  split; [exact Hframe |].
  intros m Hbuf Hm Hbms Hrec Hskip Hnxny.
  destruct (ibm2real_ok ibm_rep 0) as [ibm Hibmr].
  unfold unpack_BDS. rewrite Hbuf, Hm.
  assert (Hno : (bms_included m =? 1) = false) by (apply Z.eqb_neq; exact Hbms).
  rewrite Hno. cbn [bind].
  rewrite RD. cbn [bind]. rewrite RE. cbn [bind]. rewrite RF. cbn [bind].
  rewrite RG. cbn [bind]. rewrite RH1. cbn [bind]. rewrite RH2. cbn [bind].
  rewrite RI, Hibmr. cbn [bind].
  change (Z.land 0 64 =? 0) with true. cbv iota.
  assert (Hpos : (pw >? 0) = true) by (apply Z.gtb_lt; lia).
  rewrite Hpos.
  assert (Hnum : uint64 (Z.quot (bds_octets * 8 - 88 - (8 * q2 - bits)) pw) = np).
  { replace (bds_octets * 8 - 88 - (8 * q2 - bits)) with (np * pw)
      by (subst bits; lia).
    rewrite Z.quot_mul by lia. apply uint64_small. lia. }
  rewrite Hnum, Hrec, Hskip, RJ. cbn [bind fst snd].
  rewrite Hnxny. rewrite (uint64_sint32_small np) by lia.
  rewrite HE'.
  match goal with
  | |- context [for_loop _ (unpack_point true 0 ?bm1 (Some ?pk) ?r ?e ?d)
                  scan0] =>
      destruct (unpack_points_all bm1 pk r e d (Z.to_nat np) 0%nat scan0
                  eq_refl)
        as (s' & Hloop & Hpts)
  end.
  { rewrite length_map, length_take. lia. }
  rewrite Hloop. cbn [bind].
  destruct (GridpointFacts1.unpack_point_loop _ _ _ _ _ _ _ _ _ _ Hloop)
    as (l & Hl & Hll & _).
  unfold scan0 in Hpts, Hl. cbn [points app] in Hpts, Hl.
  eexists _, ibm. split; [reflexivity |].
  cbn [bitmap_len bds_len pack_width E ref_val gridpoints].
  split; [reflexivity |]. split; [reflexivity |]. split; [reflexivity |].
  split; [reflexivity |]. split; [reflexivity |]. split; [reflexivity |].
  rewrite take_app_length' by (rewrite Hl; lia).
  rewrite Hpts, drop_0.
  rewrite (take_ge (map (low_bits pw) (take (Z.to_nat np) pvals1)))
    by (rewrite length_map, length_take; lia).
  rewrite map_map. reflexivity.
Qed.

(** X16.  The Bit Map Section and the Binary Data Section that [packBMS]
    and [packBDS] of grib2to1.c write are read back by [unpack_BDS] of
    unpackgrib1.c: the pack width, the binary scale factor and the
    length of the Binary Data Section are those written, the reference
    value is the IBM real of the four bytes copied, divided by [10^D],
    and the grid holds [GRIB_MISSING_VALUE] where the bit map is 0 and
    elsewhere the value of the next packed integer, cut to the pack
    width.  [packBMS] writes [8 - num_points % 8] for the number of
    unused bits, which is 8 and not 0 when the number of points is a
    multiple of 8; the decoder then takes a bit map of [num_points - 8]
    bits, and reads the whole bit map only when its array [bitmap] has
    room for [num_points] entries from an earlier message.  The decoder
    reads one bit for every entry of the array [bitmap], [max bitmap_len
    bcapacity] bits from bit [off + 48] on: these lie inside the buffer. *)
Theorem packBDS_unpack_BDS (junk : nat -> Z) (bm pvals1 ibm_rep buf : list Z)
    (E1 pw np ntp off : Z) :
  let bms_octets := 6 + (np + 7) / 8 in
  let bds_octets := 11 + (ntp * pw + 7) / 8 in
  let bl := if np mod 8 =? 0 then np - 8 else np in
  bytes_ok buf -> bytes_ok ibm_rep -> length ibm_rep = 4%nat ->
  0 <= off -> off mod 8 = 0 ->
  0 < np <= Z.of_nat (length bm) ->
  Forall (fun b => b = 0 \/ b = 1) bm ->
  count_ones (Z.to_nat np) bm 0 = Ok ntp ->
  ntp <= Z.of_nat (length pvals1) ->
  1 <= pw <= 32 -> - 2 ^ 15 < E1 < 2 ^ 15 ->
  off + 8 * (bms_octets + bds_octets) <= 8 * Z.of_nat (length buf) ->
  Z.of_nat (length buf) < 2 ^ 24 ->
  exists b1 b2,
    packBMS bm buf off np = Ok (b1, off + 8 * bms_octets) /\
    packBDS E1 ibm_rep b1 (off + 8 * bms_octets) pvals1 ntp pw = Ok b2 /\
    length b2 = length buf /\
    forall m : GRIBMessage,
      buffer m = b2 -> offset m = off -> bms_included m = 1 ->
      recognized_grid (data_rep m) = true ->
      skips_first_value (data_rep m) (grid_type m) = false ->
      ny m * nx m = np ->
      0 < bl -> np <= Z.max bl (bcapacity m) -> bcapacity m < 2 ^ 31 ->
      off + 48 + Z.max bl (bcapacity m) <= 8 * Z.of_nat (length buf) ->
      exists m' ibm,
        unpack_BDS junk m = Ok m' /\
        ibm2real ibm_rep 0 = Ok ibm /\
        bitmap_len m' = bl /\ bds_len m' = bds_octets /\
        pack_width m' = pw /\ E m' = E1 /\
        ref_val m' = fdiv ibm (fpow (of_int 10) (of_int (D m))) /\
        take (Z.to_nat np) (gridpoints m')
        = spread (take (Z.to_nat np) bm)
            (map (fun v =>
                    fadd (ref_val m')
                      (fdiv (fmul (of_int (low_bits pw v))
                               (fpow (of_int 2) (of_int E1)))
                         (fpow (of_int 10) (of_int (D m)))))
               (take (Z.to_nat ntp) pvals1)).
Proof.
  intros bms_octets bds_octets bl Hb Hibm Hibm4 Hoff Hal Hnp Hbm01 Hones Hntp
    Hpw HE Hlen Hmax.
  set (q1 := (np + 7) / 8) in *.
  set (bits := ntp * pw) in *.
  set (q2 := (bits + 7) / 8) in *.
  pose proof (count_ones_bounds bm _ _ _ Hones) as Hntp0.
  rewrite Z2Nat.id in Hntp0 by lia.
  assert (Hq1 : 0 <= q1 /\ np <= 8 * q1 < np + 8).
  { subst q1. Z.div_mod_to_equations. lia. }
  assert (Hbits : 0 <= bits) by (subst bits; nia).
  assert (Hq2 : 0 <= q2 /\ bits <= 8 * q2 < bits + 8).
  { subst q2. Z.div_mod_to_equations. lia. }
  assert (Hub1 : 1 <= 8 - np mod 8 <= 8 /\
                 (q1 * 8 - (8 - np mod 8) = bl)).
  { subst bl q1. destruct (Z.eqb_spec (np mod 8) 0);
      Z.div_mod_to_equations; lia. }
  (* [packBMS] *)
  unfold packBMS.
  assert (Hlen1 : sint32 (uint64 (6 + uint64 (np + 7) / 8)) = bms_octets).
  { rewrite (uint64_small (np + 7)) by lia. fold q1.
    rewrite uint64_small by lia. apply sint32_id. unfold is_int.
    subst bms_octets. lia. }
  assert (Hubw : sint32 (uint64 (8 - np mod 8)) = 8 - np mod 8).
  { rewrite uint64_small by lia. apply sint32_id. unfold is_int. lia. }
  rewrite Hlen1, Hubw.
  rewrite (uint64_small (off + 24)), (uint64_small (off + 32)),
    (uint64_small (off + 48)) by (subst bms_octets; lia).
  destruct (set_bits_spec buf bms_octets off 24 Hb Hoff ltac:(lia)
              ltac:(subst bms_octets; lia))
    as (c1 & Hc1 & Hlc1 & Hbc1 & Hbits1).
  rewrite Hc1. cbn [bind].
  destruct (set_bits_spec c1 (8 - np mod 8) (off + 24) 8 Hbc1 ltac:(lia)
              ltac:(lia) ltac:(subst bms_octets; lia))
    as (c2 & Hc2 & Hlc2 & Hbc2 & Hbits2).
  rewrite Hc2. cbn [bind].
  destruct (set_bits_spec c2 0 (off + 32) 16 Hbc2 ltac:(lia)
              ltac:(lia) ltac:(subst bms_octets; lia))
    as (c3 & Hc3 & Hlc3 & Hbc3 & Hbits3).
  rewrite Hc3. cbn [bind].
  destruct (pack_bitmap_spec bm (Z.to_nat np) 0 c3 (off + 48) Hbc3 ltac:(lia)
              ltac:(subst bms_octets; lia) ltac:(lia))
    as (c4 & Hc4 & Hlc4 & Hbc4 & Hbits4).
  rewrite Hc4. cbn [bind].
  assert (Hoff1 : uint64 (off + sint32 (bms_octets * 8)) = off + 8 * bms_octets).
  { rewrite sint32_id by (unfold is_int; subst bms_octets; lia).
    rewrite uint64_small by (subst bms_octets; lia). lia. }
  rewrite Hoff1.
  set (off1 := off + 8 * bms_octets) in *.
  exists c4.
  assert (Hoff1a : off1 mod 8 = 0 /\ 0 <= off1).
  { subst off1. split; [| subst bms_octets; lia].
    clear - Hal. Z.div_mod_to_equations. lia. }
  destruct Hoff1a as [Hal1 Hoff1p].
  assert (Hl4 : length c4 = length buf) by congruence.
  destruct (packBDS_fields pvals1 ibm_rep c4 E1 pw ntp off1 Hbc4 Hibm Hibm4
              Hoff1p Hal1 ltac:(lia) Hpw HE
              ltac:(rewrite Hl4; subst off1; fold bits q2 bds_octets; lia)
              ltac:(rewrite Hl4; exact Hmax))
    as (d7 & code & Hd7 & Hld7 & Hbd7 & Hframe & HE' & RD & RE & RF & RG
        & RH1 & RH2 & RI & RJ).
  fold bits q2 bds_octets in RD, RF, RJ.
  exists d7. split; [reflexivity |]. split; [exact Hd7 |].
  split; [congruence |].
  intros m Hbuf Hm Hbms Hrec Hskip Hnxny Hbl Hcap Hcapmax Hinside.
  pose proof (eq_refl : off1 = off + 8 * bms_octets) as Hoff1def.
  pose proof (eq_refl : bms_octets = 6 + q1) as Hbmsdef.
  pose proof (eq_refl : bds_octets = 11 + q2) as Hbdsdef.
  rewrite Z2Nat.id in Hbits4 by lia.
  (* the fields of the Bit Map Section *)
  assert (RA : forall loc, get_bits d7 loc off 24 = Ok bms_octets).
  { intros loc. apply read_field; [exact Hbd7 | lia | lia | lia |].
    intros i Hi.
    chase Hframe Hbits4 Hbits3 Hbits2 Hbits1 Hframe Hframe Hframe Hframe
      Hframe Hframe.
    reflexivity. }
  assert (RB : forall loc, get_bits d7 loc (off + 24) 8 = Ok (8 - np mod 8)).
  { intros loc. apply read_field; [exact Hbd7 | lia | lia | lia |].
    intros i Hi.
    chase Hframe Hbits4 Hbits3 Hbits2 Hbits1 Hframe Hframe Hframe Hframe
      Hframe Hframe.
    reflexivity. }
  assert (RC : forall loc, get_bits d7 loc (off + 32) 16 = Ok 0).
  { intros loc. apply read_field; [exact Hbd7 | lia | lia | lia |].
    intros i Hi.
    chase Hframe Hbits4 Hbits3 Hbits2 Hbits1 Hframe Hframe Hframe Hframe
      Hframe Hframe.
    reflexivity. }
  (* the bit map *)
  set (bcap1 := Z.max bl (bcapacity m)) in *.
  destruct (unpack_bitmap_spec d7 Hbd7 (Z.to_nat bcap1) (off + 48) ltac:(lia))
    as (bitmap1 & Hub & Hlbm & Hbm1).
  assert (Htake : take (Z.to_nat np) bitmap1 = take (Z.to_nat np) bm).
  { apply list_eq. intros k. destruct (decide (k < Z.to_nat np)%nat) as [Hk | Hk].
    - rewrite !lookup_take_lt by lia. rewrite Hbm1 by lia.
      chase Hframe Hbits4 Hbits3 Hbits2 Hbits1 Hframe Hframe Hframe Hframe
        Hframe Hframe.
      destruct (lookup_lt_is_Some_2 bm k ltac:(lia)) as [b Hbk].
      rewrite Hbk. f_equal.
      replace (0 + Z.to_nat (off + 48 + Z.of_nat k - (off + 48)))%nat
        with k by lia.
      rewrite (list_lookup_total_correct _ _ _ Hbk).
      destruct (Forall_lookup_1 _ _ _ _ Hbm01 Hbk) as [-> | ->]; reflexivity.
    - rewrite !lookup_take_ge by lia. reflexivity. }
  assert (Hones1 : count_ones (Z.to_nat np) bitmap1 0 = Ok ntp).
  { pose proof (count_ones_take bitmap1 (Z.to_nat np) 0) as Hc1'.
    pose proof (count_ones_take bm (Z.to_nat np) 0) as Hc2'.
    cbn [Nat.add] in Hc1', Hc2'.
    rewrite <- Hc1', Htake, Hc2'. exact Hones. }
  destruct (ibm2real_ok ibm_rep 0) as [ibm Hibmr].
  (* the decoder *)
  unfold unpack_BDS. rewrite Hbuf, Hm, Hbms.
  change (1 =? 1) with true. cbv iota.
  rewrite RA. cbn [bind]. rewrite RB. cbn [bind]. rewrite RC. cbn [bind].
  change (negb (0 =? 0)) with false. cbv iota.
  assert (Hbl1 : uint64 ((bms_octets - 6) * 8 - (8 - np mod 8)) = bl).
  { replace ((bms_octets - 6) * 8 - (8 - np mod 8)) with bl by lia.
    apply uint64_small. lia. }
  rewrite Hbl1.
  assert (Hbcap : (if bl >? bcapacity m then bl else bcapacity m) = bcap1).
  { subst bcap1. destruct (Z.gtb_spec bl (bcapacity m)); lia. }
  rewrite Hbcap, Hub. cbn [bind].
  replace (off + bms_octets * 8) with off1 by lia.
  rewrite RD. cbn [bind]. rewrite RE. cbn [bind]. rewrite RF. cbn [bind].
  rewrite RG. cbn [bind]. rewrite RH1. cbn [bind]. rewrite RH2. cbn [bind].
  rewrite RI, Hibmr. cbn [bind].
  change (Z.land 0 64 =? 0) with true. cbv iota.
  assert (Hpos : (pw >? 0) = true) by (apply Z.gtb_lt; lia).
  rewrite Hpos.
  assert (Hnum : uint64 (Z.quot (bds_octets * 8 - 88 - (8 * q2 - bits)) pw) = ntp).
  { replace (bds_octets * 8 - 88 - (8 * q2 - bits)) with (ntp * pw)
      by (subst bits; lia).
    rewrite Z.quot_mul by lia. apply uint64_small. lia. }
  rewrite Hnum, Hrec, Hskip, RJ. cbn [bind fst snd].
  rewrite Hnxny. rewrite (uint64_sint32_small np) by lia.
  rewrite HE'.
  match goal with
  | |- context [for_loop _ (unpack_point true bl bitmap1 (Some ?pk) ?r ?e ?d)
                  scan0] =>
      destruct (unpack_points_spread bl bitmap1 pk r e d ltac:(lia)
                  (Z.to_nat np) 0%nat 0%nat ntp scan0 eq_refl eq_refl
                  ltac:(lia) Hones1)
        as (_ & s' & Hloop & Hpts)
  end.
  { rewrite length_map, length_take. lia. }
  rewrite Hloop. cbn [bind].
  destruct (GridpointFacts1.unpack_point_loop _ _ _ _ _ _ _ _ _ _ Hloop)
    as (l & Hl & Hll & _).
  unfold scan0 in Hpts, Hl. cbn [points app] in Hpts, Hl.
  eexists _, ibm. split; [reflexivity |].
  cbn [bitmap_len bds_len pack_width E ref_val gridpoints].
  split; [reflexivity |]. split; [reflexivity |]. split; [reflexivity |].
  split; [reflexivity |]. split; [reflexivity |]. split; [reflexivity |].
  rewrite take_app_length' by (rewrite Hl; lia).
  rewrite Hpts, !drop_0, Htake.
  rewrite (take_ge (map (low_bits pw) (take (Z.to_nat ntp) pvals1)))
    by (rewrite length_map, length_take; lia).
  rewrite map_map. reflexivity.
Qed.

End WithFloats.

Import Exact Examples.

Lemma packBDS_unpack_BDS_no_bitmap_witness :
  let pvals1 := [1; 2; 3; 4] in
  let ibm_rep := [65; 16; 0; 0] in
  let buf := replicate 15 255 in
  let bds_octets := 11 + (4 * 8 + 7) / 8 in
  exists b2,
    packBDS 0 ibm_rep buf 0 pvals1 4 8 = Ok b2 /\
    length b2 = length buf /\
    (forall i, 0 <= i < 0 -> bit_at b2 i = bit_at buf i) /\
    forall m : GRIBMessage,
      buffer m = b2 -> offset m = 0 -> bms_included m <> 1 ->
      recognized_grid (data_rep m) = true ->
      skips_first_value (data_rep m) (grid_type m) = false ->
      ny m * nx m = 4 ->
      exists m' ibm,
        unpack_BDS (fun _ => 0) m = Ok m' /\
        ibm2real ibm_rep 0 = Ok ibm /\
        bitmap_len m' = 0 /\ bds_len m' = bds_octets /\
        pack_width m' = 8 /\ E m' = 0 /\
        ref_val m' = fdiv ibm (fpow (of_int 10) (of_int (D m))) /\
        take (Z.to_nat 4) (gridpoints m')
        = map (fun v =>
                 fadd (ref_val m')
                   (fdiv (fmul (of_int (low_bits 8 v))
                            (fpow (of_int 2) (of_int 0)))
                      (fpow (of_int 10) (of_int (D m)))))
            (take (Z.to_nat 4) pvals1).
Proof.
  apply (packBDS_unpack_BDS_no_bitmap (fun _ => 0) [1; 2; 3; 4] [65; 16; 0; 0]
           (replicate 15 255) 0 8 4 0);
    first [bytes_ok_tac | by_compute].
Defined.

Lemma packBDS_unpack_BDS_witness :
  let bm := [1; 0; 1; 1] in
  let pvals1 := [1; 2; 3] in
  let ibm_rep := [65; 16; 0; 0] in
  let buf := replicate 21 255 in
  let bms_octets := 6 + (4 + 7) / 8 in
  let bds_octets := 11 + (3 * 8 + 7) / 8 in
  let bl := if 4 mod 8 =? 0 then 4 - 8 else 4 in
  exists b1 b2,
    packBMS bm buf 0 4 = Ok (b1, 0 + 8 * bms_octets) /\
    packBDS 0 ibm_rep b1 (0 + 8 * bms_octets) pvals1 3 8 = Ok b2 /\
    length b2 = length buf /\
    forall m : GRIBMessage,
      buffer m = b2 -> offset m = 0 -> bms_included m = 1 ->
      recognized_grid (data_rep m) = true ->
      skips_first_value (data_rep m) (grid_type m) = false ->
      ny m * nx m = 4 ->
      0 < bl -> 4 <= Z.max bl (bcapacity m) -> bcapacity m < 2 ^ 31 ->
      0 + 48 + Z.max bl (bcapacity m) <= 8 * Z.of_nat (length buf) ->
      exists m' ibm,
        unpack_BDS (fun _ => 0) m = Ok m' /\
        ibm2real ibm_rep 0 = Ok ibm /\
        bitmap_len m' = bl /\ bds_len m' = bds_octets /\
        pack_width m' = 8 /\ E m' = 0 /\
        ref_val m' = fdiv ibm (fpow (of_int 10) (of_int (D m))) /\
        take (Z.to_nat 4) (gridpoints m')
        = spread (take (Z.to_nat 4) bm)
            (map (fun v =>
                    fadd (ref_val m')
                      (fdiv (fmul (of_int (low_bits 8 v))
                               (fpow (of_int 2) (of_int 0)))
                         (fpow (of_int 10) (of_int (D m)))))
               (take (Z.to_nat 3) pvals1)).
Proof.
  apply (packBDS_unpack_BDS (fun _ => 0) [1; 0; 1; 1] [1; 2; 3] [65; 16; 0; 0]
           (replicate 21 255) 0 8 4 3 0);
    first [ bytes_ok_tac | by_compute
          | repeat first [apply Forall_nil_2 | apply Forall_cons_2]; lia ].
Defined.

End BinaryDataFacts.


(** ** The Product Definition Section written by grib2to1.c and read by
    unpackgrib1.c *)
Module ProductFacts.
Import CInt BitStream BitStreamFacts BitStreamAlgebra ResultFacts.
Import SectionFacts BinaryDataFacts.

(** a list of writes inside the buffer is carried out, and changes no
    bit outside its windows *)
Lemma set_bits_all_total (ws : list (Z * Z * Z)) :
  forall buf : list Z,
    bytes_ok buf -> Forall (window_ok (length buf)) ws ->
    exists buf',
      set_bits_all buf ws = Ok buf' /\
      length buf' = length buf /\ bytes_ok buf' /\
      forall i, 0 <= i ->
        (forall w, In w ws -> ~ in_window w i) ->
        bit_at buf' i = bit_at buf i.
Proof.
  induction ws as [| [[o n] v] ws IH]; intros buf Hb Hok.
  - exists buf. split; [reflexivity |]. split; [reflexivity |].
    split; [exact Hb |]. reflexivity.
  - apply Forall_cons in Hok. destruct Hok as [(Hn & Ho & Hend) Hok].
    destruct (set_bits_spec buf v o n Hb Ho Hn Hend)
      as (b1 & Hs1 & Hl1 & Hb1 & Hbits1).
    cbn [set_bits_all]. rewrite Hs1. cbn [bind].
    rewrite <- Hl1 in Hok.
    destruct (IH b1 Hb1 Hok) as (buf' & Hs & Hl & Hb' & Hframe).
    exists buf'. split; [exact Hs |]. split; [congruence |].
    split; [exact Hb' |]. intros i Hi Hout.
    rewrite Hframe; [| exact Hi | intros w Hw; apply Hout; right; exact Hw].
    rewrite Hbits1 by exact Hi.
    specialize (Hout (o, n, v) (or_introl eq_refl)). unfold in_window in Hout.
    rewrite window_out by lia. reflexivity.
Qed.

(** the bits of a window are those of the last write to it, when the
    writes that follow leave the window alone *)
Lemma set_bits_all_last_write (ws1 ws2 : list (Z * Z * Z)) (o n v : Z)
    (buf buf' : list Z) :
  bytes_ok buf ->
  Forall (window_ok (length buf)) (ws1 ++ (o, n, v) :: ws2) ->
  Forall (windows_apart (o, n, v)) ws2 ->
  set_bits_all buf (ws1 ++ (o, n, v) :: ws2) = Ok buf' ->
  forall i, o <= i < o + n ->
    bit_at buf' i = Z.testbit v (o + n - 1 - i).
Proof.
  intros Hb Hok Hapart Hs i Hi.
  apply Forall_app in Hok. destruct Hok as [Hok1 Hok2].
  apply Forall_cons in Hok2. destruct Hok2 as [(Hn & Ho & Hend) Hok2].
  rewrite Grib1to2Facts.set_bits_all_app in Hs.
  destruct (set_bits_all_total ws1 buf Hb Hok1) as (ba & Hsa & Hla & Hba & _).
  rewrite Hsa in Hs. cbn [bind set_bits_all] in Hs.
  rewrite <- Hla in Hend, Hok2.
  destruct (set_bits_spec ba v o n Hba Ho Hn Hend)
    as (bb & Hsb & Hlb & Hbb & Hbitsb).
  rewrite Hsb in Hs. cbn [bind] in Hs.
  rewrite <- Hlb in Hok2.
  destruct (set_bits_all_total ws2 bb Hbb Hok2) as (bc & Hsc & _ & _ & Hframe).
  rewrite Hsc in Hs. injection Hs as <-.
  rewrite Hframe.
  - rewrite Hbitsb by lia. rewrite window_in by lia. reflexivity.
  - lia.
  - intros [[o2 n2] v2] Hw Hin.
    pose proof (proj1 (List.Forall_forall _ _) Hapart _ Hw) as Ha.
    unfold windows_apart in Ha. unfold in_window in Hin. lia.
Qed.

(** the bits of a buffer behind the octets [pre] *)
Lemma bit_at_app_skip (pre b : list Z) (i : Z) :
  0 <= i ->
  bit_at (pre ++ b) (8 * Z.of_nat (length pre) + i) = bit_at b i.
Proof.
  intros Hi. unfold bit_at, byte_at.
  replace (8 * Z.of_nat (length pre) + i)
    with (i + Z.of_nat (length pre) * 8) by lia.
  rewrite Z.div_add, Z.mod_add by lia.
  pose proof (Z.div_pos i 8 Hi ltac:(lia)) as Hq.
  rewrite lookup_total_app_r by lia.
  do 2 f_equal. lia.
Qed.

(** a field behind the octets [pre], from the bits of the buffer *)
Lemma read_shifted (pre b : list Z) (o n v loc : Z) :
  bytes_ok pre -> bytes_ok b -> 0 <= o -> 1 <= n <= 32 ->
  (forall i, o <= i < o + n -> bit_at b i = Z.testbit v (o + n - 1 - i)) ->
  get_bits (pre ++ b) loc (8 * Z.of_nat (length pre) + o) n
  = Ok (low_bits n v).
Proof.
  intros Hpre Hb Ho Hn Hbits.
  apply get_bits_of_bits; [apply Forall_app; split; assumption | lia | exact Hn |].
  intros i Hi.
  replace i with (8 * Z.of_nat (length pre) + (i - 8 * Z.of_nat (length pre)))
    at 1 by lia.
  rewrite bit_at_app_skip by lia. rewrite Hbits by lia. f_equal. lia.
Qed.

(** one [let*] whose first part is known *)
Lemma bind_Ok_eq {A B : Type} (c : result A) (a : A) (k : A -> result B)
    (r : result B) :
  c = Ok a -> k a = r -> bind c k = r.
Proof. intros -> <-. reflexivity. Qed.

(** one read of a decoder, answered by [tac] *)
Ltac read_with tac := eapply bind_Ok_eq; [tac | cbv beta].

(** a field behind the eight octets of the Indicator Section *)
Lemma read_at_64 (IS b : list Z) (o n v loc : Z) :
  bytes_ok IS -> length IS = 8%nat -> bytes_ok b -> 0 <= o -> 1 <= n <= 32 ->
  (forall i, o <= i < o + n -> bit_at b i = Z.testbit v (o + n - 1 - i)) ->
  get_bits (IS ++ b) loc (64 + o) n = Ok (low_bits n v).
Proof.
  intros HIS Hlen Hb Ho Hn Hbits.
  pose proof (read_shifted IS b o n v loc HIS Hb Ho Hn Hbits) as Hr.
  rewrite Hlen in Hr. exact Hr.
Qed.

(** the offsets of the writes of a section that starts the buffer: sums
    of literals, without the reduction modulo 2^64 *)
Ltac plain_offsets :=
  repeat match goal with
         | |- context [uint64 (?a + ?b)] =>
             change (uint64 (a + b)) with (a + b)
         | |- context [uint64 (?a - ?b)] =>
             change (uint64 (a - b)) with (a - b)
         end.

Section WithFloats.
Context `{FloatOps}.

(** the writes of [packPDS] before the extension of the section *)
Local Abbreviation PDS_main msg grid ids pd tr :=
  ((Grib2to1.PDS_head_writes 0 msg grid pd ++ Grib2to1.PDS_level_writes 0 pd
    ++ Grib2to1.PDS_date_writes 0 msg ++ Grib2to1.PDS_unit_writes 0 msg)
   ++ (Grib2to1.PDS_range_writes 0 tr ++ Grib2to1.PDS_tail_writes 0 msg ids)).

Lemma PDS_main_windows (n : nat) (msg : Unpackgrib2.GRIB2Message)
    (grid : Unpackgrib2.GRIB2Grid) (ids : Unpackgrib2.Identification)
    (pd : Grib2to1.ProductData) (tr : Grib2to1.TimeRange) :
  224 <= 8 * Z.of_nat n ->
  Forall (window_ok n) (PDS_main msg grid ids pd tr) /\
  pairwise_apart (PDS_main msg grid ids pd tr).
Proof.
  intros Hlen.
  unfold Grib2to1.PDS_head_writes, Grib2to1.PDS_level_writes,
    Grib2to1.PDS_date_writes, Grib2to1.PDS_unit_writes,
    Grib2to1.PDS_range_writes, Grib2to1.PDS_tail_writes.
  plain_offsets.
  destruct (Grib2to1.lvl2_type pd =? 255),
           (Unpackgrib2.time_unit (Unpackgrib2.msg_md msg) =? 13),
           (Grib2to1.t_range tr =? 10);
    cbn [app pairwise_apart]; split; apart_tac.
Qed.

(** the extension leaves the octets 4 to 40 of the section alone *)
Lemma PDS_ext_windows (n : nat) (pd : Grib2to1.ProductData) :
  344 <= 8 * Z.of_nat n ->
  Forall (window_ok n) (fst (Grib2to1.PDS_ext_writes 224 pd)) /\
  (forall w i, In w (fst (Grib2to1.PDS_ext_writes 224 pd)) ->
     24 <= i < 320 \/ 344 <= i -> ~ in_window w i) /\
  (snd (Grib2to1.PDS_ext_writes 224 pd) = 0 \/
   snd (Grib2to1.PDS_ext_writes 224 pd) = 112 \/
   snd (Grib2to1.PDS_ext_writes 224 pd) = 120).
Proof.
  intros Hlen. unfold Grib2to1.PDS_ext_writes. plain_offsets.
  destruct (Grib2to1.ens_type pd >=? 0);
    [| destruct (Grib2to1.derived_fcst_code pd >=? 0);
       [| destruct (Grib2to1.spatial_type pd >=? 0)]];
    cbn [fst snd]; (split; [apart_tac |]); (split; [| lia]);
    intros w i Hin Hi; cbn [In] in Hin;
    repeat match goal with
           | Hin : _ \/ _ |- _ => destruct Hin as [<- | Hin]
           | Hin : False |- _ => destruct Hin
           end; unfold in_window; lia.
Qed.

(** no call of [setBits] reaches the octets 22 to 24, nor the octet 18
    when the time unit is 13 *)
Lemma PDS_main_frame (msg : Unpackgrib2.GRIB2Message)
    (grid : Unpackgrib2.GRIB2Grid) (ids : Unpackgrib2.Identification)
    (pd : Grib2to1.ProductData) (tr : Grib2to1.TimeRange) (w : Z * Z * Z)
    (i : Z) :
  In w (PDS_main msg grid ids pd tr) ->
  168 <= i < 192 \/ 224 <= i \/
  (Unpackgrib2.time_unit (Unpackgrib2.msg_md msg) =? 13) = true
  /\ 136 <= i < 144 ->
  ~ in_window w i.
Proof.
  unfold Grib2to1.PDS_head_writes, Grib2to1.PDS_level_writes,
    Grib2to1.PDS_date_writes, Grib2to1.PDS_unit_writes,
    Grib2to1.PDS_range_writes, Grib2to1.PDS_tail_writes.
  plain_offsets.
  destruct (Grib2to1.lvl2_type pd =? 255),
           (Unpackgrib2.time_unit (Unpackgrib2.msg_md msg) =? 13),
           (Grib2to1.t_range tr =? 10);
    cbn [app In]; intros Hin Hi;
    repeat match goal with
           | Hin : _ \/ _ |- _ => destruct Hin as [<- | Hin]
           | Hin : False |- _ => destruct Hin
           end; unfold in_window; first [lia | intuition (discriminate || lia)].
Qed.

(** the length that the section starts with, after the extension *)
Lemma PDS_len_bits (pd : Grib2to1.ProductData) (b2 buf' : list Z) :
  bytes_ok b2 -> 344 <= 8 * Z.of_nat (length b2) ->
  set_bits_all b2 (fst (Grib2to1.PDS_ext_writes 224 pd)) = Ok buf' ->
  (forall i, 0 <= i < 24 -> bit_at b2 i = Z.testbit 28 (23 - i)) ->
  forall i, 0 <= i < 24 ->
    bit_at buf' i
    = Z.testbit (28 + snd (Grib2to1.PDS_ext_writes 224 pd) / 8) (23 - i).
Proof.
  intros Hb Hlen Hset H28 i Hi.
  destruct (PDS_ext_windows (length b2) pd Hlen) as (Hwin & _ & _).
  revert Hset Hwin. unfold Grib2to1.PDS_ext_writes. plain_offsets.
  destruct (Grib2to1.ens_type pd >=? 0);
    [| destruct (Grib2to1.derived_fcst_code pd >=? 0);
       [| destruct (Grib2to1.spatial_type pd >=? 0)]];
    cbn [fst snd]; intros Hset Hwin;
    try (rewrite (set_bits_all_last_write [] _ _ _ _ b2 buf' Hb Hwin
                    ltac:(apart_tac) Hset i ltac:(lia));
         f_equal; lia).
  cbn [set_bits_all] in Hset. injection Hset as <-.
  rewrite H28 by lia. reflexivity.
Qed.

(** a field that no write has reached, behind the Indicator Section *)
Lemma read_stale (IS b b0 : list Z) (k n loc : Z) :
  bytes_ok IS -> length IS = 8%nat -> bytes_ok b -> bytes_ok b0 ->
  0 <= k -> 1 <= n <= 32 ->
  (forall i, k <= i < k + n -> bit_at b i = bit_at b0 i) ->
  get_bits (IS ++ b) loc (64 + k) n = get_bits b0 loc k n.
Proof.
  intros HIS Hlen Hb Hb0 Hk Hn Hsame.
  apply get_bits_window; try assumption; try lia.
  - unfold bytes_ok in *. apply Forall_app. split; assumption.
  - intros j Hj.
    pose proof (bit_at_app_skip IS b (k + j) ltac:(lia)) as Hs.
    rewrite Hlen in Hs.
    replace (64 + k + j) with (8 * Z.of_nat 8 + (k + j)) by lia.
    rewrite Hs. apply Hsame. lia.
Qed.

(** the sign and the 15 bits that [unpack_PDS] reads give the decimal
    scale factor back *)
Lemma decimal_code_read (D1 : Z) :
  - 2 ^ 15 < D1 < 2 ^ 15 ->
  (if low_bits 1 (Z.shiftr (Grib2to1.decimal_code D1) 15) =? 1
   then - low_bits 15 (Grib2to1.decimal_code D1)
   else low_bits 15 (Grib2to1.decimal_code D1)) = D1.
Proof.
  intros HD. unfold Grib2to1.decimal_code.
  destruct (Z.ltb_spec D1 0) as [Hneg | Hpos].
  - rewrite sint32_id by (unfold is_int; lia).
    rewrite Z.shiftr_div_pow2 by lia.
    replace ((- D1 + 32768) / 2 ^ 15) with 1
      by (apply Z.div_unique with (r := - D1); lia).
    change (low_bits 1 1 =? 1) with true. cbv iota.
    unfold low_bits. change (15 =? 32) with false. cbv iota.
    replace ((- D1 + 32768) mod 2 ^ 15) with (- D1)
      by (apply Z.mod_unique with (q := 1); lia).
    lia.
  - rewrite Z.shiftr_div_pow2 by lia.
    rewrite Z.div_small by lia.
    change (low_bits 1 0 =? 1) with false. cbv iota.
    apply low_bits_small; lia.
Qed.

(** membership in the writes of [packPDS], under the conditions at hand *)
Ltac in_main :=
  unfold Grib2to1.PDS_head_writes, Grib2to1.PDS_level_writes,
    Grib2to1.PDS_date_writes, Grib2to1.PDS_unit_writes,
    Grib2to1.PDS_range_writes, Grib2to1.PDS_tail_writes;
  plain_offsets;
  repeat match goal with
         | Hc : (?a =? ?b) = _ |- context [?a =? ?b] => rewrite Hc
         end;
  try destruct (Grib2to1.lvl2_type _ =? 255);
  try destruct (Unpackgrib2.time_unit _ =? 13);
  try destruct (Grib2to1.t_range _ =? 10); cbn [app In];
  repeat (first [left; reflexivity | right]).

Ltac main_read Hread := read_with ltac:(eapply Hread; first [lia | in_main]).

(** X17. The Product Definition Section that [packPDS] of grib2to1.c
    writes at the start of a buffer of at least 43 octets, read by
    [unpack_PDS] of unpackgrib1.c behind the 8 octets of an Indicator
    Section of edition 1.  The writes succeed and the offset moves by the
    28, 42 or 43 octets that the section says it has.  For a year from 0
    to 25499, a month and a day below 256, a time [hhmmss] with [hh]
    below 256 and a decimal scale factor between -32768 and 32768, the
    decoder returns the reference date, the time in [hhmm] and the scale
    factor of the GRIB2 message; the codes are returned modulo 256; the
    grid type is 255 and the flag says that a Grid Description Section
    follows, and a Bit Map Section where the grid has a bitmap.  A period
    of the time range 10 comes back split in P1 and P2.  The octets 22 to
    24 are never written: the number in average and the number missing
    that the decoder reports are what the buffer held before, and so is
    the forecast time unit when the unit of the GRIB2 message is 13. *)
Theorem packPDS_unpack_PDS
    (msg : Unpackgrib2.GRIB2Message) (grid : Unpackgrib2.GRIB2Grid)
    (ids : Unpackgrib2.Identification) (pd : Grib2to1.ProductData)
    (out tr : Grib2to1.TimeRange) (buf IS : list Z) :
  bytes_ok buf -> (43 <= length buf)%nat ->
  bytes_ok IS -> length IS = 8%nat ->
  Grib2to1.mapTimeRange msg grid out (Unpackgrib2.center_id msg) = Ok tr ->
  0 <= Unpackgrib2.yr msg < 25500 ->
  0 <= Unpackgrib2.mo msg < 256 ->
  0 <= Unpackgrib2.dy msg < 256 ->
  0 <= Unpackgrib2.time msg < 2560000 ->
  - 2 ^ 15 < Unpackgrib2.D (Unpackgrib2.msg_md msg) < 2 ^ 15 ->
  exists buf',
    Grib2to1.packPDS msg grid ids pd out buf 0
    = Ok (buf', 8 * (28 + snd (Grib2to1.PDS_ext_writes 224 pd) / 8)) /\
    length buf' = length buf /\
    forall m : Unpackgrib1.GRIBMessage,
      Unpackgrib1.buffer m = IS ++ buf' -> Unpackgrib1.ed_num m <> 0 ->
      exists m',
        Unpackgrib1.unpack_PDS m = Ok m' /\
        Unpackgrib1.pds_len m'
        = 28 + snd (Grib2to1.PDS_ext_writes 224 pd) / 8 /\
        Unpackgrib1.offset m'
        = 64 + 8 * (28 + snd (Grib2to1.PDS_ext_writes 224 pd) / 8) /\
        Unpackgrib1.yr m' = Unpackgrib2.yr msg /\
        Unpackgrib1.mo m' = Unpackgrib2.mo msg /\
        Unpackgrib1.dy m' = Unpackgrib2.dy msg /\
        Unpackgrib1.time m' = Z.quot (Unpackgrib2.time msg) 100 /\
        Unpackgrib1.D m' = Unpackgrib2.D (Unpackgrib2.msg_md msg) /\
        Unpackgrib1.table_ver m' = Grib2to1.table_version pd mod 2 ^ 8 /\
        Unpackgrib1.center_id m' = Unpackgrib2.center_id msg mod 2 ^ 8 /\
        Unpackgrib1.sub_center_id m'
        = Unpackgrib2.sub_center_id ids mod 2 ^ 8 /\
        Unpackgrib1.gen_proc m' = Grib2to1.gen_proc pd mod 2 ^ 8 /\
        Unpackgrib1.param m' = Grib2to1.parameter_code pd mod 2 ^ 8 /\
        Unpackgrib1.level_type m' = Grib2to1.level_type pd mod 2 ^ 8 /\
        Unpackgrib1.grid_type m' = 255 /\
        Unpackgrib1.gds_included m' = 1 /\
        Unpackgrib1.bms_included m'
        = match Unpackgrib2.bitmap (Unpackgrib2.md grid) with
          | None => 0
          | Some _ => 1
          end /\
        Unpackgrib1.t_range m' = Grib2to1.t_range tr mod 2 ^ 8 /\
        Unpackgrib1.p1 m'
        = (if Grib2to1.t_range tr =? 10 then Z.shiftr (Grib2to1.p1 tr) 8
           else Grib2to1.p1 tr) mod 2 ^ 8 /\
        Unpackgrib1.p2 m'
        = (if Grib2to1.t_range tr =? 10 then Grib2to1.p1 tr
           else Grib2to1.p2 tr) mod 2 ^ 8 /\
        Unpackgrib1.fcst_units m'
        = (if Unpackgrib2.time_unit (Unpackgrib2.msg_md msg) =? 13
           then byte_at buf 17
           else Unpackgrib2.time_unit (Unpackgrib2.msg_md msg) mod 2 ^ 8) /\
        Unpackgrib1.navg m'
        = (if Unpackgrib1.has_navg (Unpackgrib1.p2 m')
           then byte_at buf 21 * 256 + byte_at buf 22 else 0) /\
        Unpackgrib1.nmiss m' = byte_at buf 23.
Proof.
  intros Hb Hlen HIS HlenIS Htr Hyr Hmo Hdy Htime HD.
  destruct (PDS_main_windows (length buf) msg grid ids pd tr ltac:(lia))
    as [Hwin Hap].
  destruct (set_bits_all_bits buf _ Hb Hwin Hap)
    as (b2 & Hset2 & Hlen2 & Hb2 & Hwr & Hfr).
  destruct (PDS_ext_windows (length b2) pd ltac:(lia)) as (Hwe & Hfe & Hsnd).
  destruct (set_bits_all_total _ b2 Hb2 Hwe)
    as (buf' & Hset3 & Hlen3 & Hb3 & Hfr3).
  pose proof (PDS_len_bits pd b2 buf' Hb2 ltac:(lia) Hset3) as Hlenbits.
  exists buf'. split; [| split; [congruence |]].
  { unfold Grib2to1.packPDS.
    rewrite Grib1to2Facts.set_bits_all_app in Hset2.
    destruct (set_bits_all buf _) as [b1 | e] eqn:Hset1; [| discriminate].
    cbn [bind] in Hset2 |- *. rewrite Htr. cbn [bind].
    rewrite Hset2. cbn [bind]. cbv zeta.
    change (uint64 (0 + 224)) with 224. rewrite Hset3. cbn [bind].
    do 2 f_equal. destruct Hsnd as [-> | [-> | ->]]; reflexivity. }
  (* the bits of the section *)
  assert (Hmain : forall o n v i,
            In (0 + o, n, v) (PDS_main msg grid ids pd tr) ->
            24 <= o -> o + n <= 224 -> o <= i < o + n ->
            bit_at buf' i = Z.testbit v (o + n - 1 - i)).
  { intros o n v i Hin Ho Hn Hi.
    rewrite Hfr3; [| lia | intros w Hw; apply (Hfe w i Hw); lia].
    rewrite (Hwr (0 + o) n v i Hin) by lia. f_equal; lia. }
  assert (Hstale : forall i,
            168 <= i < 192 \/
            (Unpackgrib2.time_unit (Unpackgrib2.msg_md msg) =? 13) = true
            /\ 136 <= i < 144 ->
            bit_at buf' i = bit_at buf i).
  { intros i Hi.
    rewrite Hfr3; [| lia | intros w Hw; apply (Hfe w i Hw); lia].
    apply Hfr; [lia |].
    intros w Hw. apply (PDS_main_frame msg grid ids pd tr w i Hw). tauto. }
  assert (Hread : forall o n v loc,
            In (0 + o, n, v) (PDS_main msg grid ids pd tr) ->
            24 <= o -> o + n <= 224 -> 1 <= n <= 32 ->
            get_bits (IS ++ buf') loc (64 + o) n = Ok (low_bits n v)).
  { intros o n v loc Hin Ho Hn Hn1.
    apply read_at_64; try assumption; try lia.
    intros i Hi. apply (Hmain o n v i Hin); lia. }
  assert (Hany : forall loc o n, 0 <= o -> 1 <= n <= 32 ->
            exists v, get_bits (IS ++ buf') loc o n = Ok v).
  { intros loc o n Ho Hn.
    destruct (get_bits_spec (IS ++ buf') loc o n) as (v & Hv & _);
      [unfold bytes_ok in *; apply Forall_app; split; assumption
      | lia | lia |].
    exists v. exact Hv. }
  assert (Hlenread : forall loc,
            get_bits (IS ++ buf') loc 64 24
            = Ok (28 + snd (Grib2to1.PDS_ext_writes 224 pd) / 8)).
  { intros loc.
    pose proof (read_at_64 IS buf' 0 24
                  (28 + snd (Grib2to1.PDS_ext_writes 224 pd) / 8) loc
                  HIS HlenIS Hb3 ltac:(lia) ltac:(lia)) as Hr.
    change (64 + 0) with 64 in Hr. rewrite Hr.
    - f_equal. apply low_bits_small; [lia |].
      destruct Hsnd as [-> | [-> | ->]]; vm_compute; split; congruence.
    - intros i Hi. rewrite Hlenbits; [f_equal; lia | | lia].
      intros j Hj.
      rewrite (Hwr 0 24 28 j) by (first [lia | in_main]).
      f_equal; lia. }
  set (L := 28 + snd (Grib2to1.PDS_ext_writes 224 pd) / 8) in *.
  assert (HL : L = 28 \/ L = 42 \/ L = 43).
  { unfold L. destruct Hsnd as [-> | [-> | ->]]; vm_compute; tauto. }
  clearbody L.
  (* the period: one field of 16 bits for the time range 10 *)
  assert (Hp : forall loc,
            get_bits (IS ++ buf') loc (64 + 144) 8
            = Ok (low_bits 8 (if Grib2to1.t_range tr =? 10
                              then Z.shiftr (Grib2to1.p1 tr) 8
                              else Grib2to1.p1 tr)) /\
            get_bits (IS ++ buf') loc (64 + 152) 8
            = Ok (low_bits 8 (if Grib2to1.t_range tr =? 10
                              then Grib2to1.p1 tr else Grib2to1.p2 tr))).
  { intros loc.
    destruct (Grib2to1.t_range tr =? 10) eqn:Ht10.
    - assert (Hbits : forall i, 144 <= i < 160 ->
                bit_at buf' i = Z.testbit (Grib2to1.p1 tr) (159 - i)).
      { intros i Hi.
        rewrite (Hmain 144 16 (Grib2to1.p1 tr) i)
          by (first [lia | in_main]).
        f_equal; lia. }
      split; apply read_at_64; try assumption; try lia; intros i Hi;
        rewrite Hbits by lia; rewrite ?Z.shiftr_spec by lia; f_equal; lia.
    - split; [apply (Hread 144 8) | apply (Hread 152 8)];
        first [lia | in_main]. }
  (* the time unit: no write for the unit 13 *)
  assert (Hunit : forall loc,
            get_bits (IS ++ buf') loc (64 + 136) 8
            = Ok (if Unpackgrib2.time_unit (Unpackgrib2.msg_md msg) =? 13
                  then byte_at buf 17
                  else low_bits 8
                         (Unpackgrib2.time_unit (Unpackgrib2.msg_md msg)))).
  { intros loc.
    destruct (Unpackgrib2.time_unit (Unpackgrib2.msg_md msg) =? 13) eqn:Hu.
    - rewrite (read_stale IS buf' buf 136 8 loc) by
        first [assumption | lia | intros i Hi; apply Hstale; right; split;
                                    [reflexivity | lia]].
      exact (get_bits_byte buf loc 17 Hb ltac:(lia)).
    - apply (Hread 136 8); first [lia | in_main]. }
  assert (Hnavg : forall loc,
            get_bits (IS ++ buf') loc (64 + 168) 16
            = Ok (byte_at buf 21 * 256 + byte_at buf 22)).
  { intros loc.
    rewrite (read_stale IS buf' buf 168 16 loc) by
      first [assumption | lia | intros i Hi; apply Hstale; left; lia].
    exact (get_bits_bytes2 buf loc 21 Hb ltac:(lia)). }
  assert (Hnmiss : forall loc,
            get_bits (IS ++ buf') loc (64 + 184) 8 = Ok (byte_at buf 23)).
  { intros loc.
    rewrite (read_stale IS buf' buf 184 8 loc) by
      first [assumption | lia | intros i Hi; apply Hstale; left; lia].
    exact (get_bits_byte buf loc 23 Hb ltac:(lia)). }
  (* the sign and the value of the decimal scale factor *)
  assert (Hsign : forall loc,
            get_bits (IS ++ buf') loc (64 + 208) 1
            = Ok (low_bits 1
                    (Z.shiftr (Grib2to1.decimal_code
                                 (Unpackgrib2.D (Unpackgrib2.msg_md msg)))
                       15)) /\
            get_bits (IS ++ buf') loc (64 + 209) 15
            = Ok (low_bits 15
                    (Grib2to1.decimal_code
                       (Unpackgrib2.D (Unpackgrib2.msg_md msg))))).
  { intros loc.
    assert (Hbits : forall i, 208 <= i < 224 ->
              bit_at buf' i
              = Z.testbit (Grib2to1.decimal_code
                             (Unpackgrib2.D (Unpackgrib2.msg_md msg)))
                  (223 - i)).
    { intros i Hi.
      rewrite (Hmain 208 16 _ i) by (first [lia | in_main]).
      f_equal; lia. }
    split; apply read_at_64; try assumption; try lia; intros i Hi;
      rewrite Hbits by lia; rewrite ?Z.shiftr_spec by lia; f_equal; lia. }
  (* the decoder *)
  intros m Hbuf Hed.
  apply Z.eqb_neq in Hed.
  assert (Hlvls : forall t, exists lvls,
            (if Unpackgrib1.one_level_value t
             then
               let* l1 := get_bits (IS ++ buf') (Unpackgrib1.lvl1 m)
                            (64 + 80) 16 in
               Ok (l1, 0)
             else
               let* l1 := get_bits (IS ++ buf') (Unpackgrib1.lvl1 m)
                            (64 + 80) 8 in
               let* l2 := get_bits (IS ++ buf') (Unpackgrib1.lvl2 m)
                            (64 + 88) 8 in
               Ok (l1, l2)) = Ok lvls).
  { intros t. destruct (Unpackgrib1.one_level_value t).
    - destruct (Hany (Unpackgrib1.lvl1 m) (64 + 80) 16) as [l1 ->];
        [lia | lia |].
      eexists. reflexivity.
    - destruct (Hany (Unpackgrib1.lvl1 m) (64 + 80) 8) as [l1 ->];
        [lia | lia |].
      destruct (Hany (Unpackgrib1.lvl2 m) (64 + 88) 8) as [l2 ->];
        [lia | lia |].
      eexists. reflexivity. }
  destruct (Hlvls (low_bits 8 (Grib2to1.level_type pd))) as [lvls Hlv].
  assert (Hnavg' : forall loc p,
            (if Unpackgrib1.has_navg p
             then get_bits (IS ++ buf') loc (64 + 168) 16 else Ok 0)
            = Ok (if Unpackgrib1.has_navg p
                  then byte_at buf 21 * 256 + byte_at buf 22 else 0)).
  { intros loc p. destruct (Unpackgrib1.has_navg p);
      [apply Hnavg | reflexivity]. }
  pose proof (Z.quot_rem' (Unpackgrib2.yr msg) 100) as Hqr.
  pose proof (Z.rem_bound_pos (Unpackgrib2.yr msg) 100
                ltac:(lia) ltac:(lia)) as Hrem.
  pose proof (Z.quot_pos (Unpackgrib2.yr msg) 100
                ltac:(lia) ltac:(lia)) as Hquot.
  assert (Hq255 : Z.quot (Unpackgrib2.yr msg) 100 < 255)
    by (apply Z.quot_lt_upper_bound; lia).
  assert (Htm : low_bits 8 (Z.quot (Unpackgrib2.time msg) 10000) * 100
                + low_bits 8 (Z.rem (Z.quot (Unpackgrib2.time msg) 100) 100)
                = Z.quot (Unpackgrib2.time msg) 100).
  { rewrite !Z.quot_div_nonneg, !Z.rem_mod_nonneg
      by (try apply Z.div_pos; lia).
    rewrite (low_bits_small 8 (Unpackgrib2.time msg / 10000))
      by first [lia | split; [apply Z.div_pos; lia
                             | apply Z.div_lt_upper_bound; lia]].
    rewrite (low_bits_small 8 ((Unpackgrib2.time msg / 100) mod 100))
      by (pose proof (Z.mod_pos_bound (Unpackgrib2.time msg / 100) 100
                        ltac:(lia)); lia).
    clear. Z.div_mod_to_equations. lia. }
  assert (Hy : low_bits 8 (Z.rem (Unpackgrib2.yr msg) 100)
               + (low_bits 8 (sint32 (Z.quot (Unpackgrib2.yr msg) 100 + 1))
                  - 1) * 100
               = Unpackgrib2.yr msg).
  { rewrite (sint32_id (Z.quot (Unpackgrib2.yr msg) 100 + 1))
      by (unfold is_int; lia).
    rewrite !low_bits_small by lia. lia. }
  unfold Unpackgrib1.unpack_PDS. rewrite Hed, Hbuf. cbv beta iota zeta.
  destruct HL as [-> | [-> | ->]];
    (eexists; split;
     [ read_with ltac:(apply Hlenread);
       do 7 main_read Hread;
       read_with ltac:(exact Hlv);
       do 5 main_read Hread;
       read_with ltac:(apply Hunit);
       read_with ltac:(apply (proj1 (Hp _)));
       read_with ltac:(apply (proj2 (Hp _)));
       main_read Hread;
       read_with ltac:(apply Hnavg');
       read_with ltac:(apply Hnmiss);
       do 2 main_read Hread;
       read_with ltac:(apply (proj1 (Hsign _)));
       read_with ltac:(apply (proj2 (Hsign _)));
       reflexivity
     | cbn [Unpackgrib1.pds_len Unpackgrib1.offset Unpackgrib1.yr
            Unpackgrib1.mo Unpackgrib1.dy Unpackgrib1.time Unpackgrib1.D
            Unpackgrib1.table_ver Unpackgrib1.center_id
            Unpackgrib1.sub_center_id Unpackgrib1.gen_proc Unpackgrib1.param
            Unpackgrib1.level_type Unpackgrib1.grid_type
            Unpackgrib1.gds_included Unpackgrib1.bms_included
            Unpackgrib1.t_range Unpackgrib1.p1 Unpackgrib1.p2
            Unpackgrib1.fcst_units Unpackgrib1.navg Unpackgrib1.nmiss];
       rewrite decimal_code_read by exact HD;
       rewrite Hy, Htm;
       rewrite (low_bits_small 8 (Unpackgrib2.mo msg)) by lia;
       rewrite (low_bits_small 8 (Unpackgrib2.dy msg)) by lia;
       repeat split; try reflexivity;
       try (destruct (Unpackgrib2.bitmap (Unpackgrib2.md grid));
            reflexivity);
       try (destruct (Unpackgrib2.time_unit (Unpackgrib2.msg_md msg) =? 13);
            reflexivity) ]).
Qed.

End WithFloats.

Import Exact Examples.

Lemma packPDS_unpack_PDS_witness :
  let ids := {| Unpackgrib2.sub_center_id := 2; Unpackgrib2.table_ver := 2;
                Unpackgrib2.local_table_ver := 1;
                Unpackgrib2.ref_time_type := 1;
                Unpackgrib2.prod_status := 0; Unpackgrib2.data_type := 1 |} in
  let pd := {| Grib2to1.table_version := 3; Grib2to1.parameter_code := 11;
               Grib2to1.level_type := 105; Grib2to1.level1 := 2;
               Grib2to1.level2 := 0; Grib2to1.gen_proc := 81;
               Grib2to1.lvl2_type := 255; Grib2to1.ens_type := -1;
               Grib2to1.perturb_num := 0; Grib2to1.nfcst_in_ensemble := 0;
               Grib2to1.derived_fcst_code := -1;
               Grib2to1.spatial_stat_proc := 0; Grib2to1.spatial_type := -1;
               Grib2to1.spatial_num_points := 0 |} in
  let out := {| Grib2to1.p1 := 0; Grib2to1.p2 := 0; Grib2to1.t_range := 0;
                Grib2to1.n_avg := 0; Grib2to1.n_missing := 0 |} in
  let tr := {| Grib2to1.p1 := 0; Grib2to1.p2 := 0; Grib2to1.t_range := 3;
               Grib2to1.n_avg := 0; Grib2to1.n_missing := 0 |} in
  let buf := replicate 43 255 in
  let IS := [71; 82; 73; 66; 0; 0; 40; 1] in
  Grib2to1.mapTimeRange ncep_message daily_average_grid out 7 = Ok tr /\
  exists buf',
    Grib2to1.packPDS ncep_message daily_average_grid ids pd out buf 0
    = Ok (buf', 8 * (28 + snd (Grib2to1.PDS_ext_writes 224 pd) / 8)) /\
    length buf' = length buf /\
    forall m : Unpackgrib1.GRIBMessage,
      Unpackgrib1.buffer m = IS ++ buf' -> Unpackgrib1.ed_num m <> 0 ->
      exists m',
        Unpackgrib1.unpack_PDS m = Ok m' /\
        Unpackgrib1.pds_len m'
        = 28 + snd (Grib2to1.PDS_ext_writes 224 pd) / 8 /\
        Unpackgrib1.offset m'
        = 64 + 8 * (28 + snd (Grib2to1.PDS_ext_writes 224 pd) / 8) /\
        Unpackgrib1.yr m' = 2017 /\
        Unpackgrib1.mo m' = 7 /\
        Unpackgrib1.dy m' = 10 /\
        Unpackgrib1.time m' = Z.quot 60000 100 /\
        Unpackgrib1.D m' = 0 /\
        Unpackgrib1.table_ver m' = 3 mod 2 ^ 8 /\
        Unpackgrib1.center_id m' = 7 mod 2 ^ 8 /\
        Unpackgrib1.sub_center_id m' = 2 mod 2 ^ 8 /\
        Unpackgrib1.gen_proc m' = 81 mod 2 ^ 8 /\
        Unpackgrib1.param m' = 11 mod 2 ^ 8 /\
        Unpackgrib1.level_type m' = 105 mod 2 ^ 8 /\
        Unpackgrib1.grid_type m' = 255 /\
        Unpackgrib1.gds_included m' = 1 /\
        Unpackgrib1.bms_included m' = 0 /\
        Unpackgrib1.t_range m' = 3 mod 2 ^ 8 /\
        Unpackgrib1.p1 m' = 0 mod 2 ^ 8 /\
        Unpackgrib1.p2 m' = 0 mod 2 ^ 8 /\
        Unpackgrib1.fcst_units m' = 0 mod 2 ^ 8 /\
        Unpackgrib1.navg m'
        = (if Unpackgrib1.has_navg (Unpackgrib1.p2 m')
           then byte_at buf 21 * 256 + byte_at buf 22 else 0) /\
        Unpackgrib1.nmiss m' = byte_at buf 23.
Proof.
  split; [reflexivity |].
  apply (packPDS_unpack_PDS ncep_message daily_average_grid
           {| Unpackgrib2.sub_center_id := 2; Unpackgrib2.table_ver := 2;
              Unpackgrib2.local_table_ver := 1;
              Unpackgrib2.ref_time_type := 1;
              Unpackgrib2.prod_status := 0; Unpackgrib2.data_type := 1 |}
           {| Grib2to1.table_version := 3; Grib2to1.parameter_code := 11;
              Grib2to1.level_type := 105; Grib2to1.level1 := 2;
              Grib2to1.level2 := 0; Grib2to1.gen_proc := 81;
              Grib2to1.lvl2_type := 255; Grib2to1.ens_type := -1;
              Grib2to1.perturb_num := 0; Grib2to1.nfcst_in_ensemble := 0;
              Grib2to1.derived_fcst_code := -1;
              Grib2to1.spatial_stat_proc := 0; Grib2to1.spatial_type := -1;
              Grib2to1.spatial_num_points := 0 |}
           {| Grib2to1.p1 := 0; Grib2to1.p2 := 0; Grib2to1.t_range := 0;
              Grib2to1.n_avg := 0; Grib2to1.n_missing := 0 |}
           {| Grib2to1.p1 := 0; Grib2to1.p2 := 0; Grib2to1.t_range := 3;
              Grib2to1.n_avg := 0; Grib2to1.n_missing := 0 |}
           (replicate 43 255) [71; 82; 73; 66; 0; 0; 40; 1]);
    first [bytes_ok_tac | by_compute].
Defined.

End ProductFacts.

(** ** The Product Definition Section written by grib1to2.c and read by
    unpackgrib2.c *)
Module ProductFacts2.
Import CInt BitStream BitStreamFacts BitStreamAlgebra ResultFacts.
Import SectionFacts BinaryDataFacts ProductFacts.

(** the sign bit and the 31 bits after it, in a field of 32 bits that
    holds a value that is not negative *)
Lemma read_sign_value (buf : list Z) (loc1 loc2 o o1 v : Z) :
  bytes_ok buf -> 0 <= o -> o1 = o + 1 -> 0 <= v < 2 ^ 31 ->
  (forall i, o <= i < o + 32 -> bit_at buf i = Z.testbit v (o + 32 - 1 - i)) ->
  get_bits buf loc1 o 1 = Ok 0 /\ get_bits buf loc2 o1 31 = Ok v.
Proof.
  intros Hb Ho -> Hv Hbits. split.
  - rewrite (get_bits_of_bits buf loc1 o 1 0 Hb Ho ltac:(lia)).
    + reflexivity.
    + intros i Hi. rewrite Hbits by lia. rewrite Z.testbit_0_l.
      replace (o + 32 - 1 - i) with 31 by lia.
      apply Z.bits_above_log2; [lia |].
      destruct (Z.eq_dec v 0) as [-> | Hne]; [cbn; lia |].
      apply Z.log2_lt_pow2; lia.
  - rewrite (get_bits_of_bits buf loc2 (o + 1) 31 v Hb ltac:(lia) ltac:(lia)).
    + f_equal. apply low_bits_small; lia.
    + intros i Hi. rewrite Hbits by lia. f_equal. lia.
Qed.

(** the octet made of a sign bit and a magnitude of 7 bits *)
Lemma read_sign_magnitude (buf : list Z) (loc o o1 s a : Z) :
  bytes_ok buf -> 0 <= o -> o1 = o + 1 ->
  get_bits buf loc o 1 = Ok (low_bits 1 s) ->
  get_bits buf loc o1 7 = Ok (low_bits 7 a) ->
  get_bits buf loc o 8 = Ok (s mod 2 * 2 ^ 7 + a mod 2 ^ 7).
Proof.
  intros Hb Ho -> Hs Ha.
  exact (get_bits_split buf loc o 1 7 _ _ Hb Ho ltac:(lia) ltac:(lia)
           ltac:(lia) Hs Ha).
Qed.

(** a [let*] that succeeds *)
Lemma bind_Ok_inv {A B : Type} (c : result A) (k : A -> result B) (r : B) :
  bind c k = Ok r -> exists a, c = Ok a /\ k a = Ok r.
Proof.
  destruct c as [a | e]; cbn [bind]; intros Hk; [| discriminate Hk].
  exists a. split; [reflexivity | exact Hk].
Qed.

(** the first writes of a list of writes that succeeds *)
Ltac split_writes Hset b Hb :=
  rewrite Grib1to2Facts.set_bits_all_app in Hset;
  apply bind_Ok_inv in Hset; destruct Hset as (b & Hb & Hset);
  cbv beta in Hset.

Section WithFloats.
Context `{FloatOps}.

(** membership in the writes of [pack_PDS], for a time range that is
    known *)
Ltac in_template :=
  unfold Grib1to2.template0_writes, Grib1to2.template8_writes,
    Grib1to2.section_writes, Grib1to2.product_writes,
    Grib1to2.forecast_time_writes, Grib1to2.level_writes,
    Grib1to2.end_time_writes, Grib1to2.process_writes;
  repeat match goal with
         | Ht : Unpackgrib1.t_range _ = _ |- _ => rewrite Ht
         end;
  cbn [app In];
  repeat (first [ left; reflexivity | right
                | apply in_or_app; right; cbn [app In] ]).

Ltac template_read Hread :=
  read_with ltac:(eapply Hread; in_template).

(** [pack_PDS] on a message of the time range 0, 1 or 10 *)
Lemma pack_PDS_template0 (md : list Z) (msg : Unpackgrib1.GRIBMessage)
    (cat num : Z) (buf buf' : list Z) (off : Z) :
  Grib1to2.pds_template (Unpackgrib1.t_range msg) = Ok (34, 0) ->
  set_bits_all buf (Grib1to2.template0_writes off cat num msg) = Ok buf' ->
  Grib1to2.pack_PDS md msg cat num buf off = Ok (md, buf', off + 34 * 8).
Proof.
  intros Ht Hset. unfold Grib1to2.pack_PDS. rewrite Ht.
  unfold Grib1to2.template0_writes in Hset.
  split_writes Hset b1 H1. split_writes Hset b2 H2.
  split_writes Hset b3 H3.
  eapply bind_Ok_eq; [reflexivity | cbv beta iota].
  eapply bind_Ok_eq; [exact H1 | cbv beta].
  eapply bind_Ok_eq; [exact H2 | cbv beta].
  eapply bind_Ok_eq; [exact H3 | cbv beta].
  eapply bind_Ok_eq; [exact Hset | cbv beta].
  reflexivity.
Qed.

(** the octet of a scale factor as [unpack_PDS] reads it: the sign bit
    counts 128 *)
Local Abbreviation scale_octet s :=
  ((if s <? 0 then 1 else 0) mod 2 * 2 ^ 7 + Z.abs s mod 2 ^ 7).

(** X18.  The Product Definition Section that [pack_PDS] of grib1to2.c
    writes for a message of the time range 0, 1 or 10 (template 0), read
    by [unpack_PDS] of unpackgrib2.c.  The decoder returns template 0
    with no time range, the parameter category and number and the
    forecast time unit modulo 256, and as forecast time P1 (0 for the
    time range 1).  The generating process it returns is 255 whatever
    the process of the message is: [pack_PDS] writes the process into
    the octet 13, [unpack_PDS] reads the octet 12.  The types of the two
    surfaces are those of [pds_levels]; the scale factor is read as one
    octet of 8 bits, so that the sign bit that [pack_PDS] writes for a
    negative factor counts 128 in the exponent of the decoded level. *)
Theorem pack_PDS_unpack_PDS_forecast (md : list Z)
    (msg : Unpackgrib1.GRIBMessage) (cat num : Z) (buf : list Z) (off : Z) :
  bytes_ok buf -> 0 <= off -> off + 34 * 8 <= 8 * Z.of_nat (length buf) ->
  off + 34 * 8 < 2 ^ 31 ->
  Unpackgrib1.t_range msg = 0 \/ Unpackgrib1.t_range msg = 1
  \/ Unpackgrib1.t_range msg = 10 ->
  0 <= Grib1to2.lvl1_value (Grib1to2.pds_levels msg) < 2 ^ 31 ->
  0 <= Grib1to2.lvl2_value (Grib1to2.pds_levels msg) < 2 ^ 31 ->
  exists buf',
    Grib1to2.pack_PDS md msg cat num buf off = Ok (md, buf', off + 34 * 8) /\
    length buf' = length buf /\
    forall (m : Unpackgrib2.GRIB2Message) (pm : Unpackgrib2Product.Product),
      Unpackgrib2.buffer m = buf' -> Unpackgrib2.offset m = off ->
      exists m' pm',
        Unpackgrib2Product.unpack_PDS m pm = Ok (m', pm') /\
        Unpackgrib2.pds_templ_num (Unpackgrib2.msg_md m') = 0 /\
        Unpackgrib2.num_ranges
          (Unpackgrib2.stat_proc (Unpackgrib2.msg_md m')) = 0 /\
        Unpackgrib2.param_cat (Unpackgrib2.msg_md m') = cat mod 2 ^ 8 /\
        Unpackgrib2.param_num (Unpackgrib2.msg_md m') = num mod 2 ^ 8 /\
        Unpackgrib2.time_unit (Unpackgrib2.msg_md m')
        = Unpackgrib1.fcst_units msg mod 2 ^ 8 /\
        Unpackgrib2.fcst_time (Unpackgrib2.msg_md m')
        = (if Unpackgrib1.t_range msg =? 1 then 0
           else sint32 (Unpackgrib1.p1 msg)) /\
        Unpackgrib2Product.gen_proc pm' = 255 /\
        Unpackgrib2Product.lvl1_type pm'
        = Grib1to2.lvl1_type (Grib1to2.pds_levels msg) mod 2 ^ 8 /\
        Unpackgrib2Product.lvl2_type pm'
        = Grib1to2.lvl2_type (Grib1to2.pds_levels msg) mod 2 ^ 8 /\
        Unpackgrib2Product.lvl1 pm'
        = fdiv (of_int (Grib1to2.lvl1_value (Grib1to2.pds_levels msg)))
            (fpow (of_int 10)
               (of_int (scale_octet
                          (Grib1to2.lvl1_scale (Grib1to2.pds_levels msg))))) /\
        Unpackgrib2Product.lvl2 pm'
        = fdiv (of_int (Grib1to2.lvl2_value (Grib1to2.pds_levels msg)))
            (fpow (of_int 10)
               (of_int (scale_octet
                          (Grib1to2.lvl2_scale (Grib1to2.pds_levels msg))))) /\
        Unpackgrib2Product.ens_type pm' = -1 /\
        Unpackgrib2Product.derived_fcst_code pm' = -1 /\
        Unpackgrib2Product.spatial_type pm' = -1 /\
        Unpackgrib2.offset m' = off.
Proof.
  intros Hb Hoff Hlen Hmax Ht Hv1 Hv2.
  assert (Ht0 : Grib1to2.pds_template (Unpackgrib1.t_range msg) = Ok (34, 0))
    by (destruct Ht as [-> | [-> | ->]]; reflexivity).
  destruct (Grib1to2Facts.template0_windows (length buf) off cat num msg
              Hoff Hlen) as [Hwin Hap].
  destruct (set_bits_all_bits buf _ Hb Hwin Hap)
    as (buf' & Hset & Hlen' & Hb' & Hwr & _).
  exists buf'.
  split; [exact (pack_PDS_template0 md msg cat num buf buf' off Ht0 Hset) |].
  split; [exact Hlen' |].
  assert (Hread : forall o n v loc,
            In (o, n, v) (Grib1to2.template0_writes off cat num msg) ->
            get_bits buf' loc o n = Ok (low_bits n v)).
  { intros o n v loc Hin.
    exact (set_bits_all_get buf buf' _ o n v loc Hb Hwin Hap Hset Hin). }
  set (L := Grib1to2.pds_levels msg) in *.
  assert (Hf1 : forall loc,
            get_bits buf' loc (off + 184) 8
            = Ok (scale_octet (Grib1to2.lvl1_scale L))).
  { intros loc. apply (read_sign_magnitude buf' loc (off + 184) (off + 185));
      [exact Hb' | lia | lia | |]; eapply Hread; in_template. }
  assert (Hf2 : forall loc,
            get_bits buf' loc (off + 232) 8
            = Ok (scale_octet (Grib1to2.lvl2_scale L))).
  { intros loc. apply (read_sign_magnitude buf' loc (off + 232) (off + 233));
      [exact Hb' | lia | lia | |]; eapply Hread; in_template. }
  assert (Hl1 : forall loc1 loc2,
            get_bits buf' loc1 (off + 192) 1 = Ok 0 /\
            get_bits buf' loc2 (off + 193) 31
            = Ok (Grib1to2.lvl1_value L)).
  { intros loc1 loc2.
    apply read_sign_value; [exact Hb' | lia | lia | exact Hv1 |].
    intros i Hi. apply (Hwr (off + 192) 32 _ i); [in_template | lia]. }
  assert (Hl2 : forall loc1 loc2,
            get_bits buf' loc1 (off + 240) 1 = Ok 0 /\
            get_bits buf' loc2 (off + 241) 31
            = Ok (Grib1to2.lvl2_value L)).
  { intros loc1 loc2.
    apply read_sign_value; [exact Hb' | lia | lia | exact Hv2 |].
    intros i Hi. apply (Hwr (off + 240) 32 _ i); [in_template | lia]. }
  assert (Hft : forall loc,
            get_bits buf' loc (off + 144) 32
            = Ok (if Unpackgrib1.t_range msg =? 1 then 0
                  else sint32 (Unpackgrib1.p1 msg))).
  { intros loc.
    destruct Ht as [Ht | [Ht | Ht]]; rewrite Ht at 1;
      [apply (Hread (off + 144) 32 (Unpackgrib1.p1 msg))
      | apply (Hread (off + 144) 32 0)
      | apply (Hread (off + 144) 32 (Unpackgrib1.p1 msg))]; in_template. }
  intros m pm Hbuf Hm.
  unfold Unpackgrib2Product.unpack_PDS, Unpackgrib2.bit_offset.
  rewrite Hbuf, Hm. rewrite !uint64_sint32_small by lia.
  cbv beta iota zeta.
  do 2 eexists. split.
  - template_read Hread.
    change (low_bits 16 0 >? 0) with false. cbv iota.
    template_read Hread.
    change (low_bits 16 0) with 0. cbv iota.
    do 4 template_read Hread.
    read_with ltac:(apply Hft).
    template_read Hread.
    read_with ltac:(apply Hf1).
    read_with ltac:(apply (proj1 (Hl1 _ 0))).
    read_with ltac:(apply (proj2 (Hl1 0 _))).
    template_read Hread.
    read_with ltac:(apply Hf2).
    read_with ltac:(apply (proj1 (Hl2 _ 0))).
    read_with ltac:(apply (proj2 (Hl2 0 _))).
    cbn [bind]. reflexivity.
  - cbn [Unpackgrib2.msg_md Unpackgrib2.with_md
         Unpackgrib2Product.with_product Unpackgrib2.pds_templ_num
         Unpackgrib2.stat_proc Unpackgrib2.num_ranges
         Unpackgrib2Product.no_ranges Unpackgrib2.param_cat
         Unpackgrib2.param_num Unpackgrib2.time_unit Unpackgrib2.fcst_time
         Unpackgrib2.offset
         Unpackgrib2Product.gen_proc Unpackgrib2Product.lvl1_type
         Unpackgrib2Product.lvl2_type Unpackgrib2Product.lvl1
         Unpackgrib2Product.lvl2 Unpackgrib2Product.ens_type
         Unpackgrib2Product.derived_fcst_code
         Unpackgrib2Product.spatial_type].
    unfold Unpackgrib2Product.level_value.
    change (0 =? 1) with false. cbv iota.
    repeat split; first [reflexivity | exact Hm].
Qed.

(** [pack_PDS] on a message of the time range 2, 3 or 4 *)
Lemma pack_PDS_template8 (md md' : list Z) (msg : Unpackgrib1.GRIBMessage)
    (cat num : Z) (buf buf' : list Z) (off yr1 mo1 dy1 time1 : Z) :
  Grib1to2.pds_template (Unpackgrib1.t_range msg) = Ok (58, 8) ->
  Grib1to2.add_time md (Unpackgrib1.p2 msg) (Unpackgrib1.fcst_units msg)
    (Unpackgrib1.yr msg) (Unpackgrib1.mo msg) (Unpackgrib1.dy msg)
    (Unpackgrib1.time msg) = Ok (md', yr1, mo1, dy1, time1) ->
  fst (Grib1to2.statistic msg) <> 255 ->
  set_bits_all buf
    (Grib1to2.template8_writes off cat num msg yr1 mo1 dy1 time1) = Ok buf' ->
  Grib1to2.pack_PDS md msg cat num buf off = Ok (md', buf', off + 58 * 8).
Proof.
  intros Ht Hadd Hst Hset. unfold Grib1to2.pack_PDS. rewrite Ht.
  unfold Grib1to2.template8_writes in Hset.
  split_writes Hset b1 H1. split_writes Hset b2 H2.
  split_writes Hset b3 H3. split_writes Hset b4 H4.
  split_writes Hset b5 H5.
  eapply bind_Ok_eq; [reflexivity | cbv beta iota].
  eapply bind_Ok_eq; [exact H1 | cbv beta].
  eapply bind_Ok_eq; [exact H2 | cbv beta].
  eapply bind_Ok_eq; [exact H3 | cbv beta].
  eapply bind_Ok_eq; [exact H4 | cbv beta].
  change (8 =? 8) with true. cbv iota.
  eapply bind_Ok_eq; [exact Hadd | cbv beta iota].
  eapply bind_Ok_eq; [exact H5 | cbv beta].
  destruct (Grib1to2.statistic msg) as [process time_incr].
  cbn [fst snd] in Hst, Hset.
  destruct (Z.eqb_spec process 255) as [-> | _]; [contradiction |].
  eapply bind_Ok_eq; [exact Hset | cbv beta].
  reflexivity.
Qed.

(** the statistical process that [pack_PDS] writes, when it writes one:
    1 for the time range 4, else 2 or 3 by the parameter *)
Lemma statistic_cases (msg : Unpackgrib1.GRIBMessage) :
  fst (Grib1to2.statistic msg) <> 255 ->
  (Unpackgrib1.t_range msg = 4 /\ Grib1to2.statistic msg = (1, 2)) \/
  (Unpackgrib1.t_range msg <> 4 /\
   (Grib1to2.statistic msg = (2, 2) \/ Grib1to2.statistic msg = (3, 2))).
Proof.
  unfold Grib1to2.statistic. intros Hne.
  assert (H4 : Unpackgrib1.t_range msg = 4 \/
               (Unpackgrib1.t_range msg <> 4 /\
                match Unpackgrib1.t_range msg with
                | 4 => (1, 2)
                | _ => (255, 0)
                end = (255, 0))).
  { destruct (Unpackgrib1.t_range msg) as [| p | p];
      [right; split; [discriminate | reflexivity] | |
       right; split; [discriminate | reflexivity]].
    do 3 (destruct p as [p | p |];
          try (right; split; [discriminate | reflexivity])).
    left. reflexivity. }
  destruct H4 as [H4 | [Hn4 H4]]; rewrite H4 in Hne |- *;
    [left; split; reflexivity |].
  right. split; [exact Hn4 |].
  cbn [Z.eqb Pos.eqb] in Hne |- *. cbv iota in Hne |- *.
  assert (Hp : Unpackgrib1.param msg = 15 \/ Unpackgrib1.param msg = 16 \/
               match Unpackgrib1.param msg with
               | 15 => (2, 2)
               | 16 => (3, 2)
               | _ => (255, 0)
               end = (255, 0)).
  { destruct (Unpackgrib1.param msg) as [| p | p]; auto.
    do 5 (destruct p as [p | p |]; auto). }
  destruct Hp as [Hp | [Hp | Hp]]; rewrite Hp in Hne |- *; auto.
  cbn [fst] in Hne. congruence.
Qed.

(** the message that [unpack_PDS] returns on the section that [pack_PDS]
    has written for a message of the time range 2, 3 or 4; [ft] stands
    for the 32 bits of the forecast time, which [pack_PDS] leaves as they
    were *)
Lemma pack_PDS_template8_decoded (md md' : list Z)
    (msg : Unpackgrib1.GRIBMessage) (cat num : Z) (buf : list Z)
    (off yr1 mo1 dy1 time1 : Z) :
  bytes_ok buf -> 0 <= off -> off + 58 * 8 <= 8 * Z.of_nat (length buf) ->
  off + 58 * 8 < 2 ^ 31 ->
  Unpackgrib1.t_range msg = 2 \/ Unpackgrib1.t_range msg = 3
  \/ Unpackgrib1.t_range msg = 4 ->
  fst (Grib1to2.statistic msg) <> 255 ->
  Grib1to2.add_time md (Unpackgrib1.p2 msg) (Unpackgrib1.fcst_units msg)
    (Unpackgrib1.yr msg) (Unpackgrib1.mo msg) (Unpackgrib1.dy msg)
    (Unpackgrib1.time msg) = Ok (md', yr1, mo1, dy1, time1) ->
  exists buf' ft,
    Grib1to2.pack_PDS md msg cat num buf off = Ok (md', buf', off + 58 * 8) /\
    length buf' = length buf /\
    get_bits buf 0 (off + 144) 32 = Ok ft /\
    forall (m : Unpackgrib2.GRIB2Message) (pm : Unpackgrib2Product.Product),
      Unpackgrib2.buffer m = buf' -> Unpackgrib2.offset m = off ->
      exists m' pm',
        Unpackgrib2Product.unpack_PDS m pm = Ok (m', pm') /\
        Unpackgrib2.msg_md m'
        = Unpackgrib2Product.with_product (Unpackgrib2.msg_md m) 8
            (cat mod 2 ^ 8) (num mod 2 ^ 8)
            (Unpackgrib1.fcst_units msg mod 2 ^ 8) ft
            {| Unpackgrib2.eyr := yr1 mod 2 ^ 16;
                Unpackgrib2.emo := mo1 mod 2 ^ 8;
                Unpackgrib2.edy := dy1 mod 2 ^ 8;
                Unpackgrib2.etime :=
                  sint32 (Z.quot time1 100 mod 2 ^ 8 * 10000
                          + Z.rem time1 100 mod 2 ^ 8 * 100 + 0);
                Unpackgrib2.num_ranges := 1;
                Unpackgrib2.nmiss := 0;
                Unpackgrib2.proc_code := [fst (Grib1to2.statistic msg)];
                Unpackgrib2.incr_type := [2];
                Unpackgrib2.range_time_unit :=
                  [Unpackgrib1.fcst_units msg mod 2 ^ 8];
                Unpackgrib2.time_length :=
                  [sint32 (Unpackgrib1.p2 msg - Unpackgrib1.p1 msg)];
                Unpackgrib2.incr_unit :=
                  [Unpackgrib1.fcst_units msg mod 2 ^ 8];
                Unpackgrib2.incr_length := [0] |} /\
        Unpackgrib2Product.gen_proc pm' = 255 /\
        Unpackgrib2Product.lvl1_type pm'
        = Grib1to2.lvl1_type (Grib1to2.pds_levels msg) mod 2 ^ 8 /\
        Unpackgrib2Product.lvl2_type pm'
        = Grib1to2.lvl2_type (Grib1to2.pds_levels msg) mod 2 ^ 8.
Proof.
  intros Hb Hoff Hlen Hmax Ht Hst Hadd.
  assert (Ht8 : Grib1to2.pds_template (Unpackgrib1.t_range msg) = Ok (58, 8))
    by (destruct Ht as [-> | [-> | ->]]; reflexivity).
  destruct (Grib1to2Facts.template8_windows (length buf) off cat num msg
              yr1 mo1 dy1 time1 Hoff Hlen Ht8) as [Hwin Hap].
  destruct (set_bits_all_bits buf _ Hb Hwin Hap)
    as (buf' & Hset & Hlen' & Hb' & Hwr & Hfr).
  destruct (get_bits_spec buf 0 (off + 144) 32 Hb ltac:(lia) ltac:(lia))
    as (ft & Hft0 & _).
  exists buf', ft.
  split; [exact (pack_PDS_template8 md md' msg cat num buf buf' off
                   yr1 mo1 dy1 time1 Ht8 Hadd Hst Hset) |].
  split; [exact Hlen' |]. split; [exact Hft0 |].
  assert (Hread : forall o n v loc,
            In (o, n, v)
              (Grib1to2.template8_writes off cat num msg yr1 mo1 dy1 time1) ->
            get_bits buf' loc o n = Ok (low_bits n v)).
  { intros o n v loc Hin.
    exact (set_bits_all_get buf buf' _ o n v loc Hb Hwin Hap Hset Hin). }
  assert (Hnone : Grib1to2.forecast_time_writes off msg = [])
    by (unfold Grib1to2.forecast_time_writes;
        destruct Ht as [-> | [-> | ->]]; reflexivity).
  assert (Hin8 : forall w,
            In w (Grib1to2.section_writes off 58 8
                  ++ Grib1to2.product_writes off cat num msg
                  ++ Grib1to2.level_writes off (Grib1to2.pds_levels msg)
                  ++ Grib1to2.end_time_writes off yr1 mo1 dy1 time1
                  ++ Grib1to2.process_writes off
                       (fst (Grib1to2.statistic msg))
                       (snd (Grib1to2.statistic msg)) msg) ->
            In w (Grib1to2.template8_writes off cat num msg
                    yr1 mo1 dy1 time1)).
  { intros w Hw. unfold Grib1to2.template8_writes. rewrite Hnone.
    exact Hw. }
  assert (Hstat : snd (Grib1to2.statistic msg) = 2
                  /\ 0 <= fst (Grib1to2.statistic msg) < 2 ^ 8).
  { destruct (statistic_cases msg Hst) as [[_ ->] | [_ [-> | ->]]];
      cbn [fst snd]; lia. }
  destruct Hstat as [Hincr Hproc].
  assert (Hany : forall loc o n, 0 <= o -> 1 <= n <= 32 ->
            exists v, get_bits buf' loc o n = Ok v).
  { intros loc o n Ho Hn.
    destruct (get_bits_spec buf' loc o n Hb' Ho Hn) as (v & Hv & _).
    exists v. exact Hv. }
  (* the forecast time: no write *)
  assert (Hft : forall loc, get_bits buf' loc (off + 144) 32 = Ok ft).
  { intros loc. rewrite <- Hft0.
    apply get_bits_window; try assumption; try lia.
    intros j Hj. apply Hfr; [lia |].
    intros w Hw. revert Hw.
    unfold Grib1to2.template8_writes. rewrite Hnone.
    unfold Grib1to2.section_writes, Grib1to2.product_writes,
      Grib1to2.level_writes, Grib1to2.end_time_writes,
      Grib1to2.process_writes.
    cbn [app In]. intros Hw.
    repeat match goal with
           | Hw : _ \/ _ |- _ => destruct Hw as [<- | Hw]
           | Hw : False |- _ => destruct Hw
           end; unfold in_window; lia. }
  (* the time range *)
  assert (Hrs : Unpackgrib2Product.unpack_ranges 1 buf' off 368
                = Ok [(low_bits 8 (fst (Grib1to2.statistic msg)),
                       low_bits 8 (snd (Grib1to2.statistic msg)),
                       low_bits 8 (Unpackgrib1.fcst_units msg),
                       low_bits 32 (Unpackgrib1.p2 msg - Unpackgrib1.p1 msg),
                       low_bits 8 (Unpackgrib1.fcst_units msg),
                       low_bits 32 0)]).
  { cbn [Unpackgrib2Product.unpack_ranges]. cbv zeta.
    rewrite (uint64_small (off + 368)) by lia.
    rewrite !uint64_small by lia.
    replace (off + 368 + 8) with (off + 376) by lia.
    replace (off + 368 + 16) with (off + 384) by lia.
    replace (off + 368 + 24) with (off + 392) by lia.
    replace (off + 368 + 56) with (off + 424) by lia.
    replace (off + 368 + 64) with (off + 432) by lia.
    do 6 read_with ltac:(eapply Hread; apply Hin8; in_template).
    reflexivity. }
  intros m pm Hbuf Hm.
  assert (Hend : Unpackgrib2Product.unpack_end_time m
                   272 288 296 304 312 320 328 336 368
                 = Ok {| Unpackgrib2.eyr := low_bits 16 yr1;
                         Unpackgrib2.emo := low_bits 8 mo1;
                         Unpackgrib2.edy := low_bits 8 dy1;
                         Unpackgrib2.etime :=
                           sint32 (low_bits 8 (Z.quot time1 100) * 10000
                                   + low_bits 8 (Z.rem time1 100) * 100
                                   + low_bits 8 0);
                         Unpackgrib2.num_ranges := low_bits 8 1;
                         Unpackgrib2.nmiss := low_bits 32 0;
                         Unpackgrib2.proc_code :=
                           [low_bits 8 (fst (Grib1to2.statistic msg))];
                         Unpackgrib2.incr_type :=
                           [low_bits 8 (snd (Grib1to2.statistic msg))];
                         Unpackgrib2.range_time_unit :=
                           [low_bits 8 (Unpackgrib1.fcst_units msg)];
                         Unpackgrib2.time_length :=
                           [low_bits 32
                              (Unpackgrib1.p2 msg - Unpackgrib1.p1 msg)];
                         Unpackgrib2.incr_unit :=
                           [low_bits 8 (Unpackgrib1.fcst_units msg)];
                         Unpackgrib2.incr_length := [low_bits 32 0] |}).
  { unfold Unpackgrib2Product.unpack_end_time, Unpackgrib2.bit_offset.
    rewrite Hbuf, Hm. rewrite !uint64_sint32_small by lia.
    cbv beta zeta.
    do 8 read_with ltac:(eapply Hread; apply Hin8; in_template).
    change (Z.to_nat (low_bits 8 1)) with 1%nat.
    read_with ltac:(exact Hrs).
    reflexivity. }
  unfold Unpackgrib2Product.unpack_PDS, Unpackgrib2.bit_offset.
  rewrite Hbuf, Hm. rewrite !uint64_sint32_small by lia.
  cbv beta iota zeta.
  destruct (Hany 0 (off + 184) 8) as [f1 Hf1]; [lia | lia |].
  destruct (Hany 0 (off + 192) 1) as [s1 Hs1]; [lia | lia |].
  destruct (Hany 0 (off + 193) 31) as [v1 Hv1]; [lia | lia |].
  destruct (Hany f1 (off + 232) 8) as [f2 Hf2]; [lia | lia |].
  destruct (Hany s1 (off + 240) 1) as [s2 Hs2]; [lia | lia |].
  destruct (Hany (if s1 =? 1 then sint32 (- v1) else v1) (off + 241) 31)
    as [v2 Hv2]; [lia | lia |].
  do 2 eexists. split.
  - read_with ltac:(eapply Hread; apply Hin8; in_template).
    change (low_bits 16 0 >? 0) with false. cbv iota.
    read_with ltac:(eapply Hread; apply Hin8; in_template).
    change (low_bits 16 8) with 8. cbv iota.
    do 4 read_with ltac:(eapply Hread; apply Hin8; in_template).
    read_with ltac:(apply Hft).
    read_with ltac:(eapply Hread; apply Hin8; in_template).
    read_with ltac:(exact Hf1).
    read_with ltac:(exact Hs1).
    read_with ltac:(exact Hv1).
    read_with ltac:(eapply Hread; apply Hin8; in_template).
    read_with ltac:(exact Hf2).
    read_with ltac:(exact Hs2).
    read_with ltac:(exact Hv2).
    eapply bind_Ok_eq;
      [eapply bind_Ok_eq; [exact Hend | reflexivity] | cbv beta iota].
    reflexivity.
  - cbn [Unpackgrib2.msg_md Unpackgrib2.with_md
         Unpackgrib2Product.gen_proc Unpackgrib2Product.lvl1_type
         Unpackgrib2Product.lvl2_type].
    rewrite (low_bits_small 8 (fst (Grib1to2.statistic msg))) by lia.
    rewrite Hincr.
    repeat split; reflexivity.
Qed.

(** X19.  The Product Definition Section that [pack_PDS] of grib1to2.c
    writes for a message of the time range 2, 3 or 4 (template 8), read
    by [unpack_PDS] of unpackgrib2.c, when [add_time] returns the end
    time [yr1], [mo1], [dy1], [time1] and the message has a statistical
    process.  The decoder returns template 8, one time range with the
    process of [statistic], the increment type 2, the forecast time unit
    as unit of the range and of the increment, the length P2 - P1, no
    increment, nothing missing, and the end time of [add_time] with its
    [hhmm] turned into [hhmm00].  [pack_PDS] writes no forecast time for
    these time ranges: the forecast time that the decoder returns is what
    the buffer held before the call.  The generating process is 255. *)
Theorem pack_PDS_unpack_PDS_statistic (md md' : list Z)
    (msg : Unpackgrib1.GRIBMessage) (cat num : Z) (buf : list Z)
    (off yr1 mo1 dy1 time1 : Z) :
  bytes_ok buf -> 0 <= off -> off + 58 * 8 <= 8 * Z.of_nat (length buf) ->
  off + 58 * 8 < 2 ^ 31 ->
  Unpackgrib1.t_range msg = 2 \/ Unpackgrib1.t_range msg = 3
  \/ Unpackgrib1.t_range msg = 4 ->
  fst (Grib1to2.statistic msg) <> 255 ->
  Grib1to2.add_time md (Unpackgrib1.p2 msg) (Unpackgrib1.fcst_units msg)
    (Unpackgrib1.yr msg) (Unpackgrib1.mo msg) (Unpackgrib1.dy msg)
    (Unpackgrib1.time msg) = Ok (md', yr1, mo1, dy1, time1) ->
  exists buf',
    Grib1to2.pack_PDS md msg cat num buf off = Ok (md', buf', off + 58 * 8) /\
    length buf' = length buf /\
    forall (m : Unpackgrib2.GRIB2Message) (pm : Unpackgrib2Product.Product),
      Unpackgrib2.buffer m = buf' -> Unpackgrib2.offset m = off ->
      exists m' pm',
        Unpackgrib2Product.unpack_PDS m pm = Ok (m', pm') /\
        Unpackgrib2.pds_templ_num (Unpackgrib2.msg_md m') = 8 /\
        Unpackgrib2.param_cat (Unpackgrib2.msg_md m') = cat mod 2 ^ 8 /\
        Unpackgrib2.param_num (Unpackgrib2.msg_md m') = num mod 2 ^ 8 /\
        Unpackgrib2.time_unit (Unpackgrib2.msg_md m')
        = Unpackgrib1.fcst_units msg mod 2 ^ 8 /\
        get_bits buf 0 (off + 144) 32
        = Ok (Unpackgrib2.fcst_time (Unpackgrib2.msg_md m')) /\
        Unpackgrib2Product.gen_proc pm' = 255 /\
        Unpackgrib2Product.lvl1_type pm'
        = Grib1to2.lvl1_type (Grib1to2.pds_levels msg) mod 2 ^ 8 /\
        Unpackgrib2Product.lvl2_type pm'
        = Grib1to2.lvl2_type (Grib1to2.pds_levels msg) mod 2 ^ 8 /\
        Unpackgrib2.stat_proc (Unpackgrib2.msg_md m')
        = {| Unpackgrib2.eyr := yr1 mod 2 ^ 16;
             Unpackgrib2.emo := mo1 mod 2 ^ 8;
             Unpackgrib2.edy := dy1 mod 2 ^ 8;
             Unpackgrib2.etime :=
               sint32 (Z.quot time1 100 mod 2 ^ 8 * 10000
                       + Z.rem time1 100 mod 2 ^ 8 * 100 + 0);
             Unpackgrib2.num_ranges := 1;
             Unpackgrib2.nmiss := 0;
             Unpackgrib2.proc_code := [fst (Grib1to2.statistic msg)];
             Unpackgrib2.incr_type := [2];
             Unpackgrib2.range_time_unit :=
               [Unpackgrib1.fcst_units msg mod 2 ^ 8];
             Unpackgrib2.time_length :=
               [sint32 (Unpackgrib1.p2 msg - Unpackgrib1.p1 msg)];
             Unpackgrib2.incr_unit := [Unpackgrib1.fcst_units msg mod 2 ^ 8];
             Unpackgrib2.incr_length := [0] |}.
Proof.
  intros Hb Hoff Hlen Hmax Ht Hst Hadd.
  destruct (pack_PDS_template8_decoded md md' msg cat num buf off
              yr1 mo1 dy1 time1 Hb Hoff Hlen Hmax Ht Hst Hadd)
    as (buf' & ft & Hpack & Hlen' & Hft & Hdec).
  exists buf'. split; [exact Hpack |]. split; [exact Hlen' |].
  intros m pm Hbuf Hm.
  destruct (Hdec m pm Hbuf Hm) as (m' & pm' & Hun & Hmd & Hgen & Hl1 & Hl2).
  exists m', pm'. split; [exact Hun |].
  rewrite Hmd.
  cbn [Unpackgrib2Product.with_product Unpackgrib2.pds_templ_num
       Unpackgrib2.stat_proc Unpackgrib2.param_cat Unpackgrib2.param_num
       Unpackgrib2.time_unit Unpackgrib2.fcst_time].
  repeat split; first [reflexivity | assumption].
Qed.





End WithFloats.

Import Exact Examples.

Lemma pack_PDS_unpack_PDS_forecast_witness :
  let md := Grib1to2.mdays in
  let msg := layer_message in
  let cat := 0 in
  let num := 1 in
  let buf := replicate 34 255 in
  let off := 0 in
  exists buf',
    Grib1to2.pack_PDS md msg cat num buf off = Ok (md, buf', off + 34 * 8) /\
    length buf' = length buf /\
    forall (m : Unpackgrib2.GRIB2Message) (pm : Unpackgrib2Product.Product),
      Unpackgrib2.buffer m = buf' -> Unpackgrib2.offset m = off ->
      exists m' pm',
        Unpackgrib2Product.unpack_PDS m pm = Ok (m', pm') /\
        Unpackgrib2.pds_templ_num (Unpackgrib2.msg_md m') = 0 /\
        Unpackgrib2.num_ranges
          (Unpackgrib2.stat_proc (Unpackgrib2.msg_md m')) = 0 /\
        Unpackgrib2.param_cat (Unpackgrib2.msg_md m') = cat mod 2 ^ 8 /\
        Unpackgrib2.param_num (Unpackgrib2.msg_md m') = num mod 2 ^ 8 /\
        Unpackgrib2.time_unit (Unpackgrib2.msg_md m')
        = Unpackgrib1.fcst_units msg mod 2 ^ 8 /\
        Unpackgrib2.fcst_time (Unpackgrib2.msg_md m')
        = (if Unpackgrib1.t_range msg =? 1 then 0
           else sint32 (Unpackgrib1.p1 msg)) /\
        Unpackgrib2Product.gen_proc pm' = 255 /\
        Unpackgrib2Product.lvl1_type pm'
        = Grib1to2.lvl1_type (Grib1to2.pds_levels msg) mod 2 ^ 8 /\
        Unpackgrib2Product.lvl2_type pm'
        = Grib1to2.lvl2_type (Grib1to2.pds_levels msg) mod 2 ^ 8 /\
        Unpackgrib2Product.lvl1 pm'
        = fdiv (of_int (Grib1to2.lvl1_value (Grib1to2.pds_levels msg)))
            (fpow (of_int 10)
               (of_int
                  ((if Grib1to2.lvl1_scale (Grib1to2.pds_levels msg) <? 0
                    then 1 else 0) mod 2 * 2 ^ 7
                   + Z.abs (Grib1to2.lvl1_scale (Grib1to2.pds_levels msg))
                     mod 2 ^ 7))) /\
        Unpackgrib2Product.lvl2 pm'
        = fdiv (of_int (Grib1to2.lvl2_value (Grib1to2.pds_levels msg)))
            (fpow (of_int 10)
               (of_int
                  ((if Grib1to2.lvl2_scale (Grib1to2.pds_levels msg) <? 0
                    then 1 else 0) mod 2 * 2 ^ 7
                   + Z.abs (Grib1to2.lvl2_scale (Grib1to2.pds_levels msg))
                     mod 2 ^ 7))) /\
        Unpackgrib2Product.ens_type pm' = -1 /\
        Unpackgrib2Product.derived_fcst_code pm' = -1 /\
        Unpackgrib2Product.spatial_type pm' = -1 /\
        Unpackgrib2.offset m' = off.
Proof.
  intros md msg cat num buf off.
  apply (pack_PDS_unpack_PDS_forecast Grib1to2.mdays layer_message 0 1
           (replicate 34 255) 0);
    first [bytes_ok_tac | left; reflexivity | by_compute].
Defined.

Lemma pack_PDS_unpack_PDS_statistic_witness :
  let md := Grib1to2.mdays in
  let md' := Grib1to2.mdays in
  let msg := statistic_message in
  let cat := 0 in
  let num := 4 in
  let buf := replicate 58 255 in
  let off := 0 in
  let yr1 := 2017 in
  let mo1 := 7 in
  let dy1 := 12 in
  let time1 := 600 in
  exists buf',
    Grib1to2.pack_PDS md msg cat num buf off = Ok (md', buf', off + 58 * 8) /\
    length buf' = length buf /\
    forall (m : Unpackgrib2.GRIB2Message) (pm : Unpackgrib2Product.Product),
      Unpackgrib2.buffer m = buf' -> Unpackgrib2.offset m = off ->
      exists m' pm',
        Unpackgrib2Product.unpack_PDS m pm = Ok (m', pm') /\
        Unpackgrib2.pds_templ_num (Unpackgrib2.msg_md m') = 8 /\
        Unpackgrib2.param_cat (Unpackgrib2.msg_md m') = cat mod 2 ^ 8 /\
        Unpackgrib2.param_num (Unpackgrib2.msg_md m') = num mod 2 ^ 8 /\
        Unpackgrib2.time_unit (Unpackgrib2.msg_md m')
        = Unpackgrib1.fcst_units msg mod 2 ^ 8 /\
        get_bits buf 0 (off + 144) 32
        = Ok (Unpackgrib2.fcst_time (Unpackgrib2.msg_md m')) /\
        Unpackgrib2Product.gen_proc pm' = 255 /\
        Unpackgrib2Product.lvl1_type pm'
        = Grib1to2.lvl1_type (Grib1to2.pds_levels msg) mod 2 ^ 8 /\
        Unpackgrib2Product.lvl2_type pm'
        = Grib1to2.lvl2_type (Grib1to2.pds_levels msg) mod 2 ^ 8 /\
        Unpackgrib2.stat_proc (Unpackgrib2.msg_md m')
        = {| Unpackgrib2.eyr := yr1 mod 2 ^ 16;
             Unpackgrib2.emo := mo1 mod 2 ^ 8;
             Unpackgrib2.edy := dy1 mod 2 ^ 8;
             Unpackgrib2.etime :=
               sint32 (Z.quot time1 100 mod 2 ^ 8 * 10000
                       + Z.rem time1 100 mod 2 ^ 8 * 100 + 0);
             Unpackgrib2.num_ranges := 1;
             Unpackgrib2.nmiss := 0;
             Unpackgrib2.proc_code := [fst (Grib1to2.statistic msg)];
             Unpackgrib2.incr_type := [2];
             Unpackgrib2.range_time_unit :=
               [Unpackgrib1.fcst_units msg mod 2 ^ 8];
             Unpackgrib2.time_length :=
               [sint32 (Unpackgrib1.p2 msg - Unpackgrib1.p1 msg)];
             Unpackgrib2.incr_unit := [Unpackgrib1.fcst_units msg mod 2 ^ 8];
             Unpackgrib2.incr_length := [0] |}.
Proof.
  intros md md' msg cat num buf off yr1 mo1 dy1 time1.
  apply (pack_PDS_unpack_PDS_statistic Grib1to2.mdays Grib1to2.mdays
           statistic_message 0 4 (replicate 58 255) 0 2017 7 12 600);
    first [bytes_ok_tac | right; left; reflexivity | by_compute].
Defined.


End ProductFacts2.

(** ** The extension of the Product Definition Section of edition 1 *)
Module ExtensionFacts.
Import CInt BitStream BitStreamFacts BitStreamAlgebra ResultFacts.
Import SectionFacts BinaryDataFacts ProductFacts.

Lemma is_ok_bind {A B : Type} (c : result A) (k : A -> result B) :
  is_ok c = true -> (forall a, c = Ok a -> is_ok (k a) = true) ->
  is_ok (bind c k) = true.
Proof.
  destruct c as [a | e]; cbn [is_ok bind]; intros Hc Hk;
    [apply Hk; reflexivity | discriminate Hc].
Qed.

Lemma is_ok_elim {A : Type} (c : result A) :
  is_ok c = true -> exists a, c = Ok a.
Proof.
  destruct c as [a | e]; cbn [is_ok]; intros Hc;
    [exists a; reflexivity | discriminate Hc].
Qed.

(** [get_bits] returns, whatever the field *)
Lemma get_bits_is_ok (buf : list Z) (loc off bits : Z) :
  bytes_ok buf -> 0 <= off -> 1 <= bits <= 32 ->
  is_ok (get_bits buf loc off bits) = true.
Proof.
  intros Hb Ho Hn.
  destruct (get_bits_spec buf loc off bits Hb Ho Hn) as (v & -> & _).
  reflexivity.
Qed.

Ltac is_ok_step Hb :=
  lazymatch goal with
  | |- is_ok (bind (get_bits _ _ _ _) _) = true =>
      apply is_ok_bind; [apply get_bits_is_ok; [exact Hb | lia | lia] | intros ? _]
  end.

Section WithFloats.
Context `{FloatOps}.

(** [unpack_PDS] returns on every message of edition 1 *)
Lemma unpack_PDS_total (m : Unpackgrib1.GRIBMessage) :
  bytes_ok (Unpackgrib1.buffer m) -> Unpackgrib1.ed_num m <> 0 ->
  exists m', Unpackgrib1.unpack_PDS m = Ok m'.
Proof.
  intros Hb Hed. apply is_ok_elim. apply Z.eqb_neq in Hed.
  unfold Unpackgrib1.unpack_PDS. rewrite Hed. cbv beta iota zeta.
  do 8 is_ok_step Hb.
  apply is_ok_bind.
  { destruct (Unpackgrib1.one_level_value _); repeat is_ok_step Hb;
      reflexivity. }
  intros lvls _.
  do 9 is_ok_step Hb.
  apply is_ok_bind.
  { destruct (Unpackgrib1.has_navg _);
      [apply get_bits_is_ok; [exact Hb | lia | lia] | reflexivity]. }
  intros navg1 _.
  do 5 is_ok_step Hb.
  match goal with
  | |- context [if ?c then _ else _] => destruct c
  end;
    [match goal with
     | |- context [if ?c then _ else _] => destruct c
     end |]; reflexivity.
Qed.

(** the extension that [unpack_PDS] returns: the octets behind the 40th
    of the section for a section of 40 octets or more, those behind the
    28th for a shorter one *)
Lemma unpack_PDS_ext (m : Unpackgrib1.GRIBMessage) :
  Unpackgrib1.ed_num m <> 0 ->
  on_ok (Unpackgrib1.unpack_PDS m)
    (fun m' =>
       get_bits (Unpackgrib1.buffer m) (Unpackgrib1.pds_len m) 64 24
       = Ok (Unpackgrib1.pds_len m') /\
       (Unpackgrib1.pds_ext_len m', Unpackgrib1.pds_ext m')
       = (if Unpackgrib1.pds_len m' >? 28 then
            if Unpackgrib1.pds_len m' <? 40 then
              (Unpackgrib1.pds_len m' - 28,
               Unpackgrib1.copy_bytes (Unpackgrib1.buffer m) 36
                 (Unpackgrib1.pds_len m' - 28))
            else
              (Unpackgrib1.pds_len m' - 40,
               Unpackgrib1.copy_bytes (Unpackgrib1.buffer m) 48
                 (Unpackgrib1.pds_len m' - 40))
          else (0, Unpackgrib1.pds_ext m))).
Proof.
  intros Hed. apply Z.eqb_neq in Hed.
  unfold Unpackgrib1.unpack_PDS. rewrite Hed. cbv beta iota zeta.
  apply on_ok_bind. intros len Hlen.
  repeat on_ok_step.
  destruct (len >? 28) eqn:H28; [destruct (len <? 40) eqn:H40 |];
    cbn [on_ok Unpackgrib1.pds_len Unpackgrib1.pds_ext_len
         Unpackgrib1.pds_ext]; rewrite ?H28, ?H40;
    split; first [exact Hlen | reflexivity].
Qed.

(** an octet behind the Indicator Section whose bits are those of [v] *)
Lemma byte_written (IS b : list Z) (j k v : Z) :
  bytes_ok IS -> length IS = 8%nat -> bytes_ok b -> 0 <= k -> j = 8 + k ->
  (forall i, 8 * k <= i < 8 * k + 8 ->
     bit_at b i = Z.testbit v (8 * k + 8 - 1 - i)) ->
  byte_at (IS ++ b) j = v mod 2 ^ 8.
Proof.
  intros HIS Hlen Hb Hk -> Hbits.
  pose proof (read_at_64 IS b (8 * k) 8 v 0 HIS Hlen Hb ltac:(lia) ltac:(lia)
                Hbits) as Hr.
  assert (Hall : bytes_ok (IS ++ b))
    by (unfold bytes_ok in *; apply Forall_app; split; assumption).
  pose proof (get_bits_byte (IS ++ b) 0 (8 + k) Hall ltac:(lia)) as Hy.
  replace (8 * (8 + k)) with (64 + 8 * k) in Hy by lia.
  rewrite Hr in Hy. injection Hy as Hy. symmetry. exact Hy.
Qed.

(** the two lists of writes of [packPDS] on a buffer of 43 octets or
    more *)
Lemma packPDS_writes (msg : Unpackgrib2.GRIB2Message)
    (grid : Unpackgrib2.GRIB2Grid) (ids : Unpackgrib2.Identification)
    (pd : Grib2to1.ProductData) (out tr : Grib2to1.TimeRange)
    (buf : list Z) :
  bytes_ok buf -> (43 <= length buf)%nat ->
  Grib2to1.mapTimeRange msg grid out (Unpackgrib2.center_id msg) = Ok tr ->
  exists b2 buf',
    set_bits_all b2 (fst (Grib2to1.PDS_ext_writes 224 pd)) = Ok buf' /\
    Grib2to1.packPDS msg grid ids pd out buf 0
    = Ok (buf', uint64 (224 + snd (Grib2to1.PDS_ext_writes 224 pd))) /\
    bytes_ok b2 /\ length b2 = length buf /\
    bytes_ok buf' /\ length buf' = length buf /\
    forall i, 0 <= i < 24 -> bit_at b2 i = Z.testbit 28 (23 - i).
Proof.
  intros Hb Hlen Htr.
  destruct (PDS_main_windows (length buf) msg grid ids pd tr ltac:(lia))
    as [Hwin Hap].
  destruct (set_bits_all_bits buf _ Hb Hwin Hap)
    as (b2 & Hset2 & Hlen2 & Hb2 & Hwr & _).
  destruct (PDS_ext_windows (length b2) pd ltac:(lia)) as (Hwe & _ & _).
  destruct (set_bits_all_total _ b2 Hb2 Hwe)
    as (buf' & Hset3 & Hlen3 & Hb3 & _).
  exists b2, buf'. split; [exact Hset3 |]. split.
  { unfold Grib2to1.packPDS.
    rewrite Grib1to2Facts.set_bits_all_app in Hset2.
    apply ProductFacts2.bind_Ok_inv in Hset2.
    destruct Hset2 as (b1 & Hset1 & Hset2). cbv beta in Hset2.
    eapply bind_Ok_eq; [exact Hset1 | cbv beta].
    eapply bind_Ok_eq; [exact Htr | cbv beta].
    eapply bind_Ok_eq; [exact Hset2 | cbv beta zeta].
    change (uint64 (0 + 224)) with 224.
    eapply bind_Ok_eq; [exact Hset3 | cbv beta].
    reflexivity. }
  split; [exact Hb2 |]. split; [exact Hlen2 |]. split; [exact Hb3 |].
  split; [congruence |].
  intros i Hi. rewrite (Hwr 0 24 28 i); [f_equal; lia | | lia].
  unfold Grib2to1.PDS_head_writes. cbn [app In]. left. reflexivity.
Qed.

(** X21.  The extension of the Product Definition Section from GRIB2 to
    GRIB1: [packPDS] of grib2to1.c appends the ensemble type, the
    perturbation number and the number of forecasts of an ensemble
    product, or the derived forecast code and the number of forecasts,
    or the three codes of the spatial processing, in the octets 41 to 43
    of a section of 43 or 42 octets; [unpack_PDS] of unpackgrib1.c returns
    them, modulo 256 and in this order, as [pds_ext].  With none of the
    three the section has 28 octets and the decoder leaves [pds_ext] as
    it was. *)
Theorem packPDS_unpack_PDS_extension
    (msg : Unpackgrib2.GRIB2Message) (grid : Unpackgrib2.GRIB2Grid)
    (ids : Unpackgrib2.Identification) (pd : Grib2to1.ProductData)
    (out tr : Grib2to1.TimeRange) (buf IS : list Z) :
  bytes_ok buf -> (43 <= length buf)%nat ->
  bytes_ok IS -> length IS = 8%nat ->
  Grib2to1.mapTimeRange msg grid out (Unpackgrib2.center_id msg) = Ok tr ->
  exists buf' off',
    Grib2to1.packPDS msg grid ids pd out buf 0 = Ok (buf', off') /\
    forall m : Unpackgrib1.GRIBMessage,
      Unpackgrib1.buffer m = IS ++ buf' -> Unpackgrib1.ed_num m <> 0 ->
      exists m',
        Unpackgrib1.unpack_PDS m = Ok m' /\
        (Unpackgrib1.pds_ext_len m', Unpackgrib1.pds_ext m')
        = (if Grib2to1.ens_type pd >=? 0 then
             (3, [Grib2to1.ens_type pd mod 2 ^ 8;
                  Grib2to1.perturb_num pd mod 2 ^ 8;
                  Grib2to1.nfcst_in_ensemble pd mod 2 ^ 8])
           else if Grib2to1.derived_fcst_code pd >=? 0 then
             (2, [Grib2to1.derived_fcst_code pd mod 2 ^ 8;
                  Grib2to1.nfcst_in_ensemble pd mod 2 ^ 8])
           else if Grib2to1.spatial_type pd >=? 0 then
             (3, [Grib2to1.spatial_stat_proc pd mod 2 ^ 8;
                  Grib2to1.spatial_type pd mod 2 ^ 8;
                  Grib2to1.spatial_num_points pd mod 2 ^ 8])
           else (0, Unpackgrib1.pds_ext m)).
Proof.
  intros Hb Hlen HIS HlenIS Htr.
  destruct (packPDS_writes msg grid ids pd out tr buf Hb Hlen Htr)
    as (b2 & buf' & Hset & Hpack & Hb2 & Hlen2 & Hb' & Hlen' & H28).
  exists buf', (uint64 (224 + snd (Grib2to1.PDS_ext_writes 224 pd))).
  split; [exact Hpack |].
  intros m Hbuf Hed.
  assert (Hall : bytes_ok (IS ++ buf'))
    by (unfold bytes_ok in *; apply Forall_app; split; assumption).
  destruct (unpack_PDS_total m ltac:(rewrite Hbuf; exact Hall) Hed)
    as [m' Hun].
  exists m'. split; [exact Hun |].
  pose proof (on_ok_elim _ _ _ (unpack_PDS_ext m Hed) Hun) as [Hl Hext].
  cbv beta in Hl, Hext. rewrite Hbuf in Hl, Hext.
  pose proof (PDS_len_bits pd b2 buf' Hb2 ltac:(lia) Hset H28) as Hlenbits.
  pose proof (read_at_64 IS buf' 0 24 _ (Unpackgrib1.pds_len m)
                HIS HlenIS Hb' ltac:(lia) ltac:(lia) Hlenbits) as Hr.
  change (64 + 0) with 64 in Hr. rewrite Hr in Hl. injection Hl as Hl.
  rewrite Hext, <- Hl. clear Hext Hl Hr Hlenbits Hun.
  destruct (PDS_ext_windows (length b2) pd ltac:(lia)) as (Hwe & _ & _).
  revert Hset Hwe. unfold Grib2to1.PDS_ext_writes. plain_offsets.
  destruct (Grib2to1.ens_type pd >=? 0);
    [| destruct (Grib2to1.derived_fcst_code pd >=? 0);
       [| destruct (Grib2to1.spatial_type pd >=? 0)]];
    cbn [fst snd]; intros Hset Hwe; [| | | reflexivity].
  all: assert (Hap : pairwise_apart
                       ltac:(match type of Hset with
                             | set_bits_all _ ?ws = _ => exact ws
                             end))
         by (cbn [pairwise_apart]; apart_tac).
  all: destruct (set_bits_all_bits b2 _ Hb2 Hwe Hap)
         as (b3 & Hset' & _ & _ & Hwr & _).
  all: rewrite Hset in Hset'; injection Hset' as <-.
  all: change (low_bits 24 (28 + 120 / 8)) with 43;
       change (low_bits 24 (28 + 112 / 8)) with 42.
  all: change (43 >? 28) with true; change (42 >? 28) with true;
       change (43 <? 40) with false; change (42 <? 40) with false;
       cbv iota.
  all: change (43 - 40) with 3; change (42 - 40) with 2.
  all: unfold Unpackgrib1.copy_bytes.
  all: change (Z.to_nat 3) with 3%nat; change (Z.to_nat 2) with 2%nat.
  all: cbn [seq map].
  all: change (48 + Z.of_nat 0) with 48; change (48 + Z.of_nat 1) with 49;
       change (48 + Z.of_nat 2) with 50.
  all: repeat f_equal.
  all: first
         [ apply (byte_written IS buf' 48 40); try assumption; try lia;
           intros i Hi;
           apply (Hwr (224 + 96) 8 _ i); [cbn [In]; auto | lia]
         | apply (byte_written IS buf' 49 41); try assumption; try lia;
           intros i Hi;
           apply (Hwr (224 + 104) 8 _ i); [cbn [In]; auto | lia]
         | apply (byte_written IS buf' 50 42); try assumption; try lia;
           intros i Hi;
           apply (Hwr (224 + 112) 8 _ i); [cbn [In]; auto | lia] ].
Qed.

End WithFloats.

Import Exact Examples.

Lemma packPDS_unpack_PDS_extension_witness :
  let msg := ncep_message in
  let grid := daily_average_grid in
  let ids := {| Unpackgrib2.sub_center_id := 2; Unpackgrib2.table_ver := 2;
                Unpackgrib2.local_table_ver := 1;
                Unpackgrib2.ref_time_type := 1;
                Unpackgrib2.prod_status := 0; Unpackgrib2.data_type := 1 |} in
  let pd := {| Grib2to1.table_version := 3; Grib2to1.parameter_code := 11;
               Grib2to1.level_type := 105; Grib2to1.level1 := 2;
               Grib2to1.level2 := 0; Grib2to1.gen_proc := 81;
               Grib2to1.lvl2_type := 255; Grib2to1.ens_type := 3;
               Grib2to1.perturb_num := 5; Grib2to1.nfcst_in_ensemble := 20;
               Grib2to1.derived_fcst_code := -1;
               Grib2to1.spatial_stat_proc := 0; Grib2to1.spatial_type := -1;
               Grib2to1.spatial_num_points := 0 |} in
  let out := {| Grib2to1.p1 := 0; Grib2to1.p2 := 0; Grib2to1.t_range := 0;
                Grib2to1.n_avg := 0; Grib2to1.n_missing := 0 |} in
  let buf := replicate 43 255 in
  let IS := [71; 82; 73; 66; 0; 0; 40; 1] in
  exists buf' off',
    Grib2to1.packPDS msg grid ids pd out buf 0 = Ok (buf', off') /\
    forall m : Unpackgrib1.GRIBMessage,
      Unpackgrib1.buffer m = IS ++ buf' -> Unpackgrib1.ed_num m <> 0 ->
      exists m',
        Unpackgrib1.unpack_PDS m = Ok m' /\
        (Unpackgrib1.pds_ext_len m', Unpackgrib1.pds_ext m')
        = (if Grib2to1.ens_type pd >=? 0 then
             (3, [Grib2to1.ens_type pd mod 2 ^ 8;
                  Grib2to1.perturb_num pd mod 2 ^ 8;
                  Grib2to1.nfcst_in_ensemble pd mod 2 ^ 8])
           else if Grib2to1.derived_fcst_code pd >=? 0 then
             (2, [Grib2to1.derived_fcst_code pd mod 2 ^ 8;
                  Grib2to1.nfcst_in_ensemble pd mod 2 ^ 8])
           else if Grib2to1.spatial_type pd >=? 0 then
             (3, [Grib2to1.spatial_stat_proc pd mod 2 ^ 8;
                  Grib2to1.spatial_type pd mod 2 ^ 8;
                  Grib2to1.spatial_num_points pd mod 2 ^ 8])
           else (0, Unpackgrib1.pds_ext m)).
Proof.
  intros msg grid ids pd out buf IS.
  apply (packPDS_unpack_PDS_extension ncep_message daily_average_grid
           ids pd out
           {| Grib2to1.p1 := 0; Grib2to1.p2 := 0; Grib2to1.t_range := 3;
              Grib2to1.n_avg := 0; Grib2to1.n_missing := 0 |}
           (replicate 43 255) [71; 82; 73; 66; 0; 0; 40; 1]);
    first [bytes_ok_tac | by_compute].
Defined.

End ExtensionFacts.
